(** * VulkanoApp: frame lifecycle and GPU resource orchestration

    A shallow embedding of the device, swapchain, pipeline, command and
    frame-scheduling code of the engine (src/app/*.cpp, src/application.cpp,
    src/utils/timer.h), with the properties of the specification stated
    over it.

    Conventions.
    - Fixed-width C++ integers are [Z] with the wrap-around written out
      ([to_u32], [to_i32], [to_u64]).
    - Vulkan handles are [Z]; [VK_NULL_HANDLE] and [nullptr] are [0].
    - Calls into the Vulkan driver or the memory allocator whose answer the
      program branches on are extra arguments (the answer of the driver);
      calls made for their effect are appended to a log of native calls.
    - [utils::VResult] and [utils::Result<T>] are the inductive types
      [VResult] and [Result]. *)

From Stdlib Require Import ZArith List Bool Ascii String Lia NArith SpecFloat.
Import ListNotations.
Local Open Scope Z_scope.

(** ** Machine integers *)

Definition to_u32 (x : Z) : Z := x mod 2 ^ 32.
Definition to_u64 (x : Z) : Z := x mod 2 ^ 64.
Definition to_i32 (x : Z) : Z := (x + 2 ^ 31) mod 2 ^ 32 - 2 ^ 31.

(** ** utils/result.h *)

Inductive VResult : Type :=
| VOk : VResult
| VError (msg : string) : VResult.

Inductive Result (T : Type) : Type :=
| Ok (value : T) : Result T
| Error (msg : string) : Result T.
Arguments Ok {T} value.
Arguments Error {T} msg.

Definition VIsError (r : VResult) : bool :=
  match r with VOk => false | VError _ => true end.

Definition IsError {T} (r : Result T) : bool :=
  match r with Ok _ => false | Error _ => true end.

(** Handles. *)
Definition Handle := Z.
Definition VK_NULL_HANDLE : Handle := 0.

(** [VkResult], as far as the code distinguishes its values. *)
Inductive VkResult : Type :=
| VK_SUCCESS
| VK_FAILURE (code : Z).

(** Replaces the element at position [n] of a vector (in range at every
    use below; out of range the vector is left as it is). *)
Fixpoint set_nth {A} (n : nat) (x : A) (l : list A) : list A :=
  match l, n with
  | [], _ => []
  | _ :: t, O => x :: t
  | h :: t, S k => h :: set_nth k x t
  end.

(** The log of native calls made for their effect: the destroy calls of
    the Vulkan API and of the memory allocator. *)
Inductive NativeCall : Type :=
| vkDestroyDevice (device : Handle)
| vkDestroySwapchainKHR (device swapchain : Handle)
| vkDestroyShaderModule (device shader_module : Handle)
| vkDestroyRenderPass (device render_pass : Handle)
| vkDestroyPipelineLayout (device layout : Handle)
| vkDestroyPipeline (device pipeline : Handle)
| vkDestroySemaphore (device semaphore : Handle)
| vkDestroyFence (device fence : Handle)
| vkDestroyCommandPool (device pool : Handle)
| vmaDestroyBuffer (allocator buffer allocation : Handle).

(** ** app/device.cpp *)

Module Device.

Inductive QueueState := UNSUPPORTED | READY | USED.

Inductive SupportFeatures := NOONE | GRAPHICS | PRESENTS | TRANSFERT.

(** The enumerators' values. *)
Definition bits (f : SupportFeatures) : Z :=
  match f with
  | NOONE => 0
  | GRAPHICS => 1
  | PRESENTS => 2
  | TRANSFERT => 4
  end.

Inductive VkPhysicalDeviceType :=
| VK_PHYSICAL_DEVICE_TYPE_OTHER
| VK_PHYSICAL_DEVICE_TYPE_INTEGRATED_GPU
| VK_PHYSICAL_DEVICE_TYPE_DISCRETE_GPU
| VK_PHYSICAL_DEVICE_TYPE_VIRTUAL_GPU
| VK_PHYSICAL_DEVICE_TYPE_CPU.

Definition is_discrete (t : VkPhysicalDeviceType) : bool :=
  match t with VK_PHYSICAL_DEVICE_TYPE_DISCRETE_GPU => true | _ => false end.

(** What [vkGetPhysicalDeviceProperties] reports, as far as the code
    reads it. *)
Record VkPhysicalDeviceProperties := {
  deviceName : string;
  deviceID : Z;
  deviceType : VkPhysicalDeviceType
}.

(** A physical device as the enumeration returns it: its handle and the
    properties the driver reports for it. *)
Record VkPhysicalDevice := {
  pd_handle : Handle;
  pd_properties : VkPhysicalDeviceProperties
}.

Record t := {
  m_physical_device : Handle;
  m_queue_support : list Z;
  m_queue_states : list QueueState;
  m_logical_device : Handle;
  m_graphics_queue_family_index : Z;
  m_presents_queue_family_index : Z;
  m_transfert_queue_family_index : Z;
  m_graphics_queue : Handle;
  m_presents_queue : Handle;
  m_transfert_queue : Handle
}.

(** The member initialisers of the class. *)
Definition fresh : t := {|
  m_physical_device := VK_NULL_HANDLE;
  m_queue_support := [];
  m_queue_states := [];
  m_logical_device := VK_NULL_HANDLE;
  m_graphics_queue_family_index := 0;
  m_presents_queue_family_index := 0;
  m_transfert_queue_family_index := 0;
  m_graphics_queue := VK_NULL_HANDLE;
  m_presents_queue := VK_NULL_HANDLE;
  m_transfert_queue := VK_NULL_HANDLE
|}.

Definition APPLE_M1_NAME : string := "Apple M1".
Definition APPLE_M2_NAME : string := "Apple M2".

(** [isDeviceSuitable].  [apple] is the [__APPLE__] build;
    [NEEDS_GEOMETRY_SHADER] is defined to 0, so that block is not
    compiled. *)
Definition isDeviceSuitable (apple : bool) (device : VkPhysicalDevice) : bool :=
  if pd_handle device =? 0 then false
  else
    let properties := pd_properties device in
    let is_apple_silicon :=
      String.eqb (deviceName properties) APPLE_M1_NAME
      || String.eqb (deviceName properties) APPLE_M2_NAME in
    let is_discrete_gpu := is_discrete (deviceType properties) in
    if apple then is_apple_silicon || is_discrete_gpu else is_discrete_gpu.

Definition set_physical_device (d : t) (h : Handle) : t := {|
  m_physical_device := h;
  m_queue_support := m_queue_support d;
  m_queue_states := m_queue_states d;
  m_logical_device := m_logical_device d;
  m_graphics_queue_family_index := m_graphics_queue_family_index d;
  m_presents_queue_family_index := m_presents_queue_family_index d;
  m_transfert_queue_family_index := m_transfert_queue_family_index d;
  m_graphics_queue := m_graphics_queue d;
  m_presents_queue := m_presents_queue d;
  m_transfert_queue := m_transfert_queue d
|}.

(** The [for (const auto& device : devices)] loop of [listDevices]. *)
Fixpoint listDevices_loop (apple : bool) (devices : list VkPhysicalDevice)
    (d : t) : VResult * t :=
  match devices with
  | [] => (VError "no suitable physical device", d)
  | device :: rest =>
      if isDeviceSuitable apple device
      then (VOk, set_physical_device d (pd_handle device))
      else listDevices_loop apple rest d
  end.

(** [Device::listDevices]; [devices] is what [vkEnumeratePhysicalDevices]
    enumerates, in its order. *)
Definition listDevices (apple : bool) (devices : list VkPhysicalDevice)
    (d : t) : VResult * t :=
  let device_count := Z.of_nat (List.length devices) in
  if device_count =? 0
  then (VError "no supported physical device", d)
  else listDevices_loop apple devices d.

Definition isInitialized (d : t) : bool :=
  negb (m_physical_device d =? VK_NULL_HANDLE).

(** What the driver reports for one queue family: its [queueFlags] and
    the answer of [vkGetPhysicalDeviceSurfaceSupportKHR]. *)
Record VkQueueFamily := {
  queueFlags : Z;
  present_supported : bool
}.

Definition VK_QUEUE_GRAPHICS_BIT : Z := 1.
Definition VK_QUEUE_TRANSFER_BIT : Z := 4.

(** The support mask the first loop of [getQueueFamilies] stores for one
    family. *)
Definition family_support (f : VkQueueFamily) : Z :=
  let graphics_supported := negb (Z.land (queueFlags f) VK_QUEUE_GRAPHICS_BIT =? 0) in
  let transfert_supported := negb (Z.land (queueFlags f) VK_QUEUE_TRANSFER_BIT =? 0) in
  Z.lor
    (Z.lor (if graphics_supported then bits GRAPHICS else bits NOONE)
           (if present_supported f then bits PRESENTS else bits NOONE))
    (if transfert_supported then bits TRANSFERT else bits NOONE).

Definition family_state (support : Z) : QueueState :=
  if support =? bits NOONE then UNSUPPORTED else READY.

(** The second loop of [getQueueFamilies], with its [break]. *)
Fixpoint supports_loop (support : list Z) (g p t : bool) : bool * bool * bool :=
  match support with
  | [] => (g, p, t)
  | s :: rest =>
      let g := negb (Z.land s (bits GRAPHICS) =? 0) || g in
      let p := negb (Z.land s (bits PRESENTS) =? 0) || p in
      let t := negb (Z.land s (bits TRANSFERT) =? 0) || t in
      if g && p && t then (g, p, t) else supports_loop rest g p t
  end.

Definition set_queue_tables (d : t) (support : list Z) (states : list QueueState) : t := {|
  m_physical_device := m_physical_device d;
  m_queue_support := support;
  m_queue_states := states;
  m_logical_device := m_logical_device d;
  m_graphics_queue_family_index := m_graphics_queue_family_index d;
  m_presents_queue_family_index := m_presents_queue_family_index d;
  m_transfert_queue_family_index := m_transfert_queue_family_index d;
  m_graphics_queue := m_graphics_queue d;
  m_presents_queue := m_presents_queue d;
  m_transfert_queue := m_transfert_queue d
|}.

(** [Device::getQueueFamilies] from the statement after its leading
    [assert(isInitialized())] on; [found_queue_families] is what
    [vkGetPhysicalDeviceQueueFamilyProperties] reports.  This is the whole
    function on a device whose physical device is selected, and in a build
    with [NDEBUG]; the assertion, which stops a build with assertions on a
    device without physical device, is at the call of the function
    ([EngineInit.getQueueFamilies]). *)
Definition getQueueFamilies (found_queue_families : list VkQueueFamily) (d : t)
    : Result Z * t :=
  if negb (isInitialized d)
  then (Error "The physical device has not been setup", d)
  else
    let total_queue_families := Z.of_nat (List.length found_queue_families) in
    if total_queue_families =? 0 then (Ok total_queue_families, d)
    else
      let support := map family_support found_queue_families in
      let d := set_queue_tables d support (map family_state support) in
      let '(supports_graphics, supports_present, supports_transfert) :=
        supports_loop support false false false in
      if negb supports_graphics || negb supports_present || negb supports_transfert
      then (Error "did not found any queue that support our requirements", d)
      else (Ok total_queue_families, d).

Definition supported_flags : list SupportFeatures :=
  [GRAPHICS; PRESENTS; TRANSFERT].

(** [std::find(begin(took_indices), end(took_indices), first_index) != end]:
    the array holds [int], the value is a [uint32_t], so each element is
    converted to unsigned for the comparison. *)
Definition is_taken (took_indices : list Z) (first_index : Z) : bool :=
  existsb (fun taken => to_u32 taken =? first_index) took_indices.

(** The inner [for (int i = 0; i < m_queue_support.size(); i++)] loop of
    [createLogicalDevice], at position [i] with the families from [i] on
    still to visit; it yields the value [first_index] has when the loop
    is left, by [break] or by running off the end. *)
Fixpoint find_first_index (took_indices : list Z) (supported_flag : SupportFeatures)
    (families : list Z) (i : Z) (first_index : Z) : Z :=
  match families with
  | [] => first_index
  | support_i :: rest =>
      let first_index := to_u32 i in
      if is_taken took_indices first_index
      then find_first_index took_indices supported_flag rest (i + 1) first_index
      else
        if negb (Z.land support_i (bits supported_flag) =? 0)
        then first_index
        else find_first_index took_indices supported_flag rest (i + 1) first_index
  end.

Record VkDeviceQueueCreateInfo := {
  queueFamilyIndex : Z;
  queueCount : Z
}.

Definition set_queue_state (d : t) (first_index : Z) (s : QueueState) : t := {|
  m_physical_device := m_physical_device d;
  m_queue_support := m_queue_support d;
  m_queue_states := set_nth (Z.to_nat first_index) s (m_queue_states d);
  m_logical_device := m_logical_device d;
  m_graphics_queue_family_index := m_graphics_queue_family_index d;
  m_presents_queue_family_index := m_presents_queue_family_index d;
  m_transfert_queue_family_index := m_transfert_queue_family_index d;
  m_graphics_queue := m_graphics_queue d;
  m_presents_queue := m_presents_queue d;
  m_transfert_queue := m_transfert_queue d
|}.

Definition set_family_index (d : t) (flag : SupportFeatures) (first_index : Z) : t := {|
  m_physical_device := m_physical_device d;
  m_queue_support := m_queue_support d;
  m_queue_states := m_queue_states d;
  m_logical_device := m_logical_device d;
  m_graphics_queue_family_index :=
    match flag with GRAPHICS => first_index | _ => m_graphics_queue_family_index d end;
  m_presents_queue_family_index :=
    match flag with PRESENTS => first_index | _ => m_presents_queue_family_index d end;
  m_transfert_queue_family_index :=
    match flag with TRANSFERT => first_index | _ => m_transfert_queue_family_index d end;
  m_graphics_queue := m_graphics_queue d;
  m_presents_queue := m_presents_queue d;
  m_transfert_queue := m_transfert_queue d
|}.

(** The locals of [createLogicalDevice] that live across the iterations
    of its outer loop, and the device. *)
Record roles_state := {
  took_indices : list Z;
  queue_index : nat;
  queues : list VkDeviceQueueCreateInfo;
  dev : t
}.

Definition roles_init (d : t) : roles_state := {|
  took_indices := [-1; -1; -1];
  queue_index := 0;
  queues := repeat {| queueFamilyIndex := 0; queueCount := 0 |} 3;
  dev := d
|}.

(** The outer [for (const SupportFeatures supported_flag : supported_flags)]
    loop of [createLogicalDevice]. *)
Fixpoint assign_roles (flags : list SupportFeatures) (st : roles_state)
    : VResult * roles_state :=
  match flags with
  | [] => (VOk, st)
  | supported_flag :: rest =>
      let d := dev st in
      let first_index :=
        find_first_index (took_indices st) supported_flag (m_queue_support d) 0 0 in
      let took := set_nth (queue_index st) (to_i32 first_index) (took_indices st) in
      if Z.of_nat (List.length (m_queue_support d)) <=? first_index
      then (VError "No any READY queue for the physical device",
            {| took_indices := took; queue_index := queue_index st;
               queues := queues st; dev := d |})
      else
        let d := set_queue_state d first_index USED in
        let queue_create_info :=
          {| queueFamilyIndex := first_index; queueCount := 1 |} in
        let st' := {|
          took_indices := took;
          queue_index := S (queue_index st);
          queues := set_nth (queue_index st) queue_create_info (queues st);
          dev := d |} in
        match supported_flag with
        | NOONE => (VError "found unknown flag for SupportFeatures", st')
        | _ =>
            assign_roles rest {|
              took_indices := took_indices st';
              queue_index := queue_index st';
              queues := queues st';
              dev := set_family_index d supported_flag first_index |}
        end
  end.

Definition set_logical_device (d : t) (h : Handle) : t := {|
  m_physical_device := m_physical_device d;
  m_queue_support := m_queue_support d;
  m_queue_states := m_queue_states d;
  m_logical_device := h;
  m_graphics_queue_family_index := m_graphics_queue_family_index d;
  m_presents_queue_family_index := m_presents_queue_family_index d;
  m_transfert_queue_family_index := m_transfert_queue_family_index d;
  m_graphics_queue := m_graphics_queue d;
  m_presents_queue := m_presents_queue d;
  m_transfert_queue := m_transfert_queue d
|}.

Definition set_queues (d : t) (g p tr : Handle) : t := {|
  m_physical_device := m_physical_device d;
  m_queue_support := m_queue_support d;
  m_queue_states := m_queue_states d;
  m_logical_device := m_logical_device d;
  m_graphics_queue_family_index := m_graphics_queue_family_index d;
  m_presents_queue_family_index := m_presents_queue_family_index d;
  m_transfert_queue_family_index := m_transfert_queue_family_index d;
  m_graphics_queue := g;
  m_presents_queue := p;
  m_transfert_queue := tr
|}.

(** [Device::createLogicalDevice] from the statement after its leading
    [assert(m_physical_device)] on.  [vk_create_device] is the answer of
    [vkCreateDevice] to the queue-create entries (the result code and the
    new device handle), [vk_get_queue] the handle [vkGetDeviceQueue]
    gives for a family index.  This is the whole function on a device whose
    physical device is selected, and in a build with [NDEBUG]; the
    assertion, which stops a build with assertions on a device without
    physical device, is at the call of the function
    ([EngineInit.createLogicalDevice]). *)
Definition createLogicalDevice
    (vk_create_device : list VkDeviceQueueCreateInfo -> VkResult * Handle)
    (vk_get_queue : Z -> Handle) (d : t) : VResult * t :=
  if m_physical_device d =? VK_NULL_HANDLE
  then (VError "The physical device has not been setup", d)
  else
    match assign_roles supported_flags (roles_init d) with
    | (VError msg, st) => (VError msg, dev st)
    | (VOk, st) =>
        let d := dev st in
        match vk_create_device (queues st) with
        | (VK_FAILURE _, _) => (VError "Cannot create the logical device", d)
        | (VK_SUCCESS, logical_device) =>
            let d := set_logical_device d logical_device in
            (VOk, set_queues d
                    (vk_get_queue (m_graphics_queue_family_index d))
                    (vk_get_queue (m_presents_queue_family_index d))
                    (vk_get_queue (m_transfert_queue_family_index d)))
        end
    end.

(** [Device::Destroy], with the native calls it makes. *)
Definition Destroy (d : t) : list NativeCall * t :=
  if negb (m_logical_device d =? VK_NULL_HANDLE)
  then ([vkDestroyDevice (m_logical_device d)], set_logical_device d VK_NULL_HANDLE)
  else ([], d).

(** [Device::~Device]: the calls of its body and the members when the
    body has run. *)
Definition destructor (d : t) : list NativeCall * t :=
  let '(calls, d) := Destroy d in
  (calls, {|
    m_physical_device := VK_NULL_HANDLE;
    m_queue_support := [];
    m_queue_states := m_queue_states d;
    m_logical_device := m_logical_device d;
    m_graphics_queue_family_index := m_graphics_queue_family_index d;
    m_presents_queue_family_index := m_presents_queue_family_index d;
    m_transfert_queue_family_index := m_transfert_queue_family_index d;
    m_graphics_queue := VK_NULL_HANDLE;
    m_presents_queue := VK_NULL_HANDLE;
    m_transfert_queue := m_transfert_queue d
  |}).

End Device.

(** ** project.hpp *)

Module Project.

Definition FPS_LIMIT_60 : Z := 60.

(** [APPLICATION_FPS_LIMIT]: no limit in a build with [UNSET_FPS_LIMIT],
    60 otherwise. *)
Definition APPLICATION_FPS_LIMIT (unset_fps_limit : bool) : option Z :=
  if unset_fps_limit then None else Some FPS_LIMIT_60.

End Project.

(** ** C++ assertions

    [assert(c)] stops the program in a build without [NDEBUG]; a function
    with assertions has one of these outcomes.  [Undefined] is an operation
    the language leaves undefined (a read outside a vector, a division by
    zero, a conversion out of range); [Pending] is a function that polls
    the clock and has not returned on the clock readings it was given. *)
Inductive Outcome (A : Type) : Type :=
| AssertionFailed : Outcome A
| Undefined : Outcome A
| Pending : Outcome A
| Returned (a : A) : Outcome A.
Arguments AssertionFailed {A}.
Arguments Undefined {A}.
Arguments Pending {A}.
Arguments Returned {A} a.

Definition bind {A B} (o : Outcome A) (k : A -> Outcome B) : Outcome B :=
  match o with
  | AssertionFailed => AssertionFailed
  | Undefined => Undefined
  | Pending => Pending
  | Returned a => k a
  end.

Notation "x <- e ;; k" := (bind e (fun x => k))
  (at level 61, e at next level, right associativity).
Notation "' p <- e ;; k" := (bind e (fun p => k))
  (at level 61, p pattern, e at next level, right associativity).

(** ** app/swapchain.cpp *)

Module SwapChain.

Definition MAX_BUFFERS : Z := 3.

Record VkSurfaceFormatKHR := {
  format : Z;
  colorSpace : Z
}.

(** The values of the Vulkan enumerators the file names. *)
Definition VK_FORMAT_B8G8R8A8_SRGB : Z := 50.
Definition VK_COLORSPACE_SRGB_NONLINEAR_KHR : Z := 0.

Definition PREFERED_SURFACE_FORMAT : Z := VK_FORMAT_B8G8R8A8_SRGB.
Definition PREFERED_COLOR_SPACE_FORMAT : Z := VK_COLORSPACE_SRGB_NONLINEAR_KHR.

Inductive VkPresentModeKHR :=
| VK_PRESENT_MODE_IMMEDIATE_KHR
| VK_PRESENT_MODE_MAILBOX_KHR
| VK_PRESENT_MODE_FIFO_KHR
| VK_PRESENT_MODE_FIFO_RELAXED_KHR
| VK_PRESENT_MODE_SHARED_DEMAND_REFRESH_KHR
| VK_PRESENT_MODE_SHARED_CONTINUOUS_REFRESH_KHR.

Definition present_mode_eqb (a b : VkPresentModeKHR) : bool :=
  match a, b with
  | VK_PRESENT_MODE_IMMEDIATE_KHR, VK_PRESENT_MODE_IMMEDIATE_KHR
  | VK_PRESENT_MODE_MAILBOX_KHR, VK_PRESENT_MODE_MAILBOX_KHR
  | VK_PRESENT_MODE_FIFO_KHR, VK_PRESENT_MODE_FIFO_KHR
  | VK_PRESENT_MODE_FIFO_RELAXED_KHR, VK_PRESENT_MODE_FIFO_RELAXED_KHR
  | VK_PRESENT_MODE_SHARED_DEMAND_REFRESH_KHR, VK_PRESENT_MODE_SHARED_DEMAND_REFRESH_KHR
  | VK_PRESENT_MODE_SHARED_CONTINUOUS_REFRESH_KHR, VK_PRESENT_MODE_SHARED_CONTINUOUS_REFRESH_KHR =>
      true
  | _, _ => false
  end.

(** [PREFERED_PRESENTATION_MODE], from the value of
    [Project::APPLICATION_FPS_LIMIT]. *)
Definition PREFERED_PRESENTATION_MODE (fps_limit : option Z) : VkPresentModeKHR :=
  match fps_limit with
  | Some _ => VK_PRESENT_MODE_FIFO_KHR
  | None => VK_PRESENT_MODE_IMMEDIATE_KHR
  end.

Record VkExtent2D := {
  width : Z;
  height : Z
}.

Record VkSurfaceCapabilitiesKHR := {
  minImageCount : Z;
  maxImageCount : Z;
  minImageExtent : VkExtent2D;
  maxImageExtent : VkExtent2D;
  currentTransform : Z
}.

Record SwapChainSupportDetails := {
  capabilities : VkSurfaceCapabilitiesKHR;
  formats : list VkSurfaceFormatKHR;
  present_modes : list VkPresentModeKHR
}.

Record t := {
  m_swapchain : Handle;
  m_details : SwapChainSupportDetails;
  m_images : list Handle;
  m_format : VkSurfaceFormatKHR;
  m_extent : VkExtent2D;
  m_present_mode : VkPresentModeKHR
}.

(** The loop of [chooseFormat]: the first entry with the preferred format
    and colour space, if any. *)
Fixpoint chooseFormat_loop (formats : list VkSurfaceFormatKHR)
    : option VkSurfaceFormatKHR :=
  match formats with
  | [] => None
  | f :: rest =>
      if (format f =? PREFERED_SURFACE_FORMAT)
         && (colorSpace f =? PREFERED_COLOR_SPACE_FORMAT)
      then Some f
      else chooseFormat_loop rest
  end.

(** [chooseFormat].  After the loop the source returns [formats[0]]
    without a bounds check; on an empty vector that read is undefined,
    which is the [None] here. *)
Definition chooseFormat (formats : list VkSurfaceFormatKHR)
    : option (Result VkSurfaceFormatKHR) :=
  match chooseFormat_loop formats with
  | Some f => Some (Ok f)
  | None =>
      match formats with
      | [] => None
      | first :: _ => Some (Ok first)
      end
  end.

(** [choosePresentMode]. *)
Fixpoint choosePresentMode (fps_limit : option Z)
    (present_modes : list VkPresentModeKHR) : Result VkPresentModeKHR :=
  match present_modes with
  | [] => Error "Our prefered presentation mode is not found"
  | mode :: rest =>
      if present_mode_eqb mode (PREFERED_PRESENTATION_MODE fps_limit)
      then Ok mode
      else choosePresentMode fps_limit rest
  end.

(** [std::clamp(v, lo, hi)]: its behaviour is undefined when [hi] is
    less than [lo]. *)
Definition clamp (v lo hi : Z) : Outcome Z :=
  if hi <? lo then Undefined
  else Returned (if v <? lo then lo else if hi <? v then hi else v).

(** [chooseSwapExtent]; [window_width] and [window_height] are what
    [glfwGetFramebufferSize] stores.  The width is clamped first, then the
    height. *)
Definition chooseSwapExtent (window_width window_height : Z)
    (capabilities : VkSurfaceCapabilitiesKHR) : Outcome (Result VkExtent2D) :=
  let final_extent :=
    {| width := to_u32 window_width; height := to_u32 window_height |} in
  final_width <-
    clamp (width final_extent) (width (minImageExtent capabilities))
      (width (maxImageExtent capabilities)) ;;
  final_height <-
    clamp (height final_extent) (height (minImageExtent capabilities))
      (height (maxImageExtent capabilities)) ;;
  Returned (Ok {| width := final_width; height := final_height |}).

(** What the surface answers to the three queries of [queryDetails]. *)
Record Surface := {
  surface_capabilities : VkSurfaceCapabilitiesKHR;
  surface_formats : list VkSurfaceFormatKHR;
  surface_present_modes : list VkPresentModeKHR
}.

Definition set_details (sc : t) (details : SwapChainSupportDetails) : t := {|
  m_swapchain := m_swapchain sc;
  m_details := details;
  m_images := m_images sc;
  m_format := m_format sc;
  m_extent := m_extent sc;
  m_present_mode := m_present_mode sc
|}.

(** [SwapChain::queryDetails].  [getSurface()] is the address of a member
    and is never null, so the early [return] is not taken.  The format and
    present-mode vectors are resized and filled only when the reported
    count is positive, and stay empty otherwise. *)
Definition queryDetails (surface : Surface) (sc : t) : t :=
  let format_count := Z.of_nat (List.length (surface_formats surface)) in
  let present_modes_count := Z.of_nat (List.length (surface_present_modes surface)) in
  let support_details := {|
    capabilities := surface_capabilities surface;
    formats := if 0 <? format_count then surface_formats surface else [];
    present_modes :=
      if 0 <? present_modes_count then surface_present_modes surface else []
  |} in
  set_details sc support_details.

Definition is_empty {A} (l : list A) : bool :=
  match l with [] => true | _ => false end.

(** [SwapChain::checkDetails]. *)
Definition checkDetails (sc : t) : VResult :=
  let details := m_details sc in
  if ((minImageCount (capabilities details) <=? MAX_BUFFERS)
      && (MAX_BUFFERS <=? maxImageCount (capabilities details)))
     && (negb (is_empty (formats details)) && negb (is_empty (present_modes details)))
     && (0 <? minImageCount (capabilities details))
  then VOk
  else VError "The supported images count is incorrect".

Inductive VkSharingMode :=
| VK_SHARING_MODE_EXCLUSIVE
| VK_SHARING_MODE_CONCURRENT.

Record VkSwapchainCreateInfoKHR := {
  ci_minImageCount : Z;
  ci_imageFormat : Z;
  ci_imageColorSpace : Z;
  ci_imageExtent : VkExtent2D;
  ci_imageSharingMode : VkSharingMode;
  ci_pQueueFamilyIndices : option (list Z);
  ci_queueFamilyIndexCount : Z;
  ci_preTransform : Z;
  ci_presentMode : VkPresentModeKHR
}.

(** [indices[0] == indices[1] == indices[2]]: [==] associates to the
    left, so the truth value of the first comparison (0 or 1) is what is
    compared with the third index. *)
Definition is_exclusive (indices : Z * Z * Z) : bool :=
  let '(i0, i1, i2) := indices in
  (if i0 =? i1 then 1 else 0) =? i2.

Definition sharing_mode_eqb (a b : VkSharingMode) : bool :=
  match a, b with
  | VK_SHARING_MODE_EXCLUSIVE, VK_SHARING_MODE_EXCLUSIVE
  | VK_SHARING_MODE_CONCURRENT, VK_SHARING_MODE_CONCURRENT => true
  | _, _ => false
  end.

(** The part of [SwapChain::create] that fills the create-info from the
    chosen format, present mode and extent and from the three queue-family
    indices of the device, with its two assertions ([assertions] is a
    build without [NDEBUG]). *)
Definition create_info (assertions : bool) (sc : t) (indices : Z * Z * Z)
    : Outcome VkSwapchainCreateInfoKHR :=
  let '(i0, i1, i2) := indices in
  let exclusive := is_exclusive indices in
  if assertions && exclusive then AssertionFailed
  else
    let imageSharingMode :=
      if exclusive then VK_SHARING_MODE_EXCLUSIVE else VK_SHARING_MODE_CONCURRENT in
    if assertions && negb (sharing_mode_eqb imageSharingMode VK_SHARING_MODE_CONCURRENT)
    then AssertionFailed
    else
      Returned {|
        ci_minImageCount := MAX_BUFFERS;
        ci_imageFormat := format (m_format sc);
        ci_imageColorSpace := colorSpace (m_format sc);
        ci_imageExtent := m_extent sc;
        ci_imageSharingMode := imageSharingMode;
        ci_pQueueFamilyIndices := if exclusive then None else Some [i0; i1; i2];
        ci_queueFamilyIndexCount := if exclusive then 0 else 3;
        ci_preTransform := currentTransform (capabilities (m_details sc));
        ci_presentMode := m_present_mode sc
      |}.

(** What the rest of the engine and the driver give to one call of
    [SwapChain::create]. *)
Record CreateEnv := {
  fps_limit : option Z;
  window_width : Z;
  window_height : Z;
  family_indices : Z * Z * Z;
  vk_create_swapchain : VkSwapchainCreateInfoKHR -> VkResult * Handle;
  vk_swapchain_images : Handle -> list Handle
}.

(** The message [SwapChain::create] returns for a result code of
    [vkCreateSwapchainKHR] other than [VK_SUCCESS]. *)
Definition create_error_msg (code : Z) : string :=
  if code =? -1 then "out of host memory"
  else if code =? -2 then "out of device memory"
  else if code =? -4 then "device lost"
  else if code =? -1000000000 then "surface lost"
  else if code =? -1000000001 then "native window in use"
  else if code =? -3 then "initialization failed"
  else "undocumented error".

(** [SwapChain::create].  The [None] of [chooseFormat] cannot occur here:
    [checkDetails] has refused an empty format vector before. *)
Definition create (assertions : bool) (env : CreateEnv) (sc : t)
    : Outcome (VResult * t) :=
  match checkDetails sc with
  | VError msg => Returned (VError msg, sc)
  | VOk =>
      match chooseFormat (formats (m_details sc)) with
      | None => Undefined
      | Some (Error _) =>
          Returned (VError "Did not found any good format for the swapchain", sc)
      | Some (Ok format_value) =>
          match choosePresentMode (fps_limit env) (present_modes (m_details sc)) with
          | Error _ =>
              Returned
                (VError "Did not found any good presentation mode for the swapchain", sc)
          | Ok present_mode_value =>
              swap_extent_result <-
                chooseSwapExtent (window_width env) (window_height env)
                  (capabilities (m_details sc)) ;;
              match swap_extent_result with
              | Error _ =>
                  Returned
                    (VError "Did not found any good extent for the swapchain", sc)
              | Ok extent_value =>
                  let sc := {|
                    m_swapchain := m_swapchain sc;
                    m_details := m_details sc;
                    m_images := m_images sc;
                    m_format := format_value;
                    m_extent := extent_value;
                    m_present_mode := present_mode_value |} in
                  match create_info assertions sc (family_indices env) with
                  | AssertionFailed => AssertionFailed
                  | Undefined => Undefined
                  | Pending => Pending
                  | Returned info =>
                      match vk_create_swapchain env info with
                      | (VK_SUCCESS, swapchain) =>
                          Returned (VOk, {|
                            m_swapchain := swapchain;
                            m_details := m_details sc;
                            m_images := vk_swapchain_images env swapchain;
                            m_format := m_format sc;
                            m_extent := m_extent sc;
                            m_present_mode := m_present_mode sc |})
                      | (VK_FAILURE code, _) =>
                          Returned (VError (create_error_msg code), sc)
                      end
                  end
              end
          end
      end
  end.

(** [SwapChain::~SwapChain]; [device] is the logical device of the
    engine.  The result is the calls of the body and the members when the
    body has run; the members are destroyed right after and the object is
    gone, so a destructor runs once on an object. *)
Definition destructor (device : Handle) (sc : t) : list NativeCall * t :=
  if negb (m_swapchain sc =? VK_NULL_HANDLE)
  then ([vkDestroySwapchainKHR device (m_swapchain sc)], {|
          m_swapchain := VK_NULL_HANDLE;
          m_details := m_details sc;
          m_images := m_images sc;
          m_format := m_format sc;
          m_extent := m_extent sc;
          m_present_mode := m_present_mode sc |})
  else ([], sc).

End SwapChain.

(** ** app/pipeline.cpp: the resources of the pipeline *)

Module Pipeline.

(** The three synchronisation members are pointers to heap cells holding
    the handle: [None] is [nullptr]. *)
Record t := {
  m_shader_modules : list Handle;
  m_layout : Handle;
  m_render_pass : Handle;
  m_pipeline : Handle;
  m_vertex_buffer : Handle;
  m_vertex_buffer_allocation : Handle;
  m_index_buffer : Handle;
  m_index_buffer_allocation : Handle;
  m_sync_image_ready : option Handle;
  m_sync_present_done : option Handle;
  m_sync_cpu_gpu : option Handle
}.

(** The member initialisers of the class. *)
Definition fresh : t := {|
  m_shader_modules := [];
  m_layout := VK_NULL_HANDLE;
  m_render_pass := VK_NULL_HANDLE;
  m_pipeline := VK_NULL_HANDLE;
  m_vertex_buffer := VK_NULL_HANDLE;
  m_vertex_buffer_allocation := VK_NULL_HANDLE;
  m_index_buffer := VK_NULL_HANDLE;
  m_index_buffer_allocation := VK_NULL_HANDLE;
  m_sync_image_ready := None;
  m_sync_present_done := None;
  m_sync_cpu_gpu := None
|}.

Definition set_vertex_buffer (p : t) (buffer allocation : Handle) : t := {|
  m_shader_modules := m_shader_modules p;
  m_layout := m_layout p;
  m_render_pass := m_render_pass p;
  m_pipeline := m_pipeline p;
  m_vertex_buffer := buffer;
  m_vertex_buffer_allocation := allocation;
  m_index_buffer := m_index_buffer p;
  m_index_buffer_allocation := m_index_buffer_allocation p;
  m_sync_image_ready := m_sync_image_ready p;
  m_sync_present_done := m_sync_present_done p;
  m_sync_cpu_gpu := m_sync_cpu_gpu p
|}.

Definition set_index_buffer (p : t) (buffer allocation : Handle) : t := {|
  m_shader_modules := m_shader_modules p;
  m_layout := m_layout p;
  m_render_pass := m_render_pass p;
  m_pipeline := m_pipeline p;
  m_vertex_buffer := m_vertex_buffer p;
  m_vertex_buffer_allocation := m_vertex_buffer_allocation p;
  m_index_buffer := buffer;
  m_index_buffer_allocation := allocation;
  m_sync_image_ready := m_sync_image_ready p;
  m_sync_present_done := m_sync_present_done p;
  m_sync_cpu_gpu := m_sync_cpu_gpu p
|}.

(** [Pipeline::createVertexBuffer].  After the destruction of a buffer
    already there, the source declares [buffer_size = 0] and an empty
    staging buffer and returns [Ok]: the staging allocation, the mapped
    copy, the device-local allocation and the transfer copy are all
    commented out.  ([getPool()] is the address of a member, so the
    assertion on it holds.) *)
Definition createVertexBuffer (resource_allocator : Handle) (p : t)
    : list NativeCall * (VResult * t) :=
  let '(calls, p) :=
    if negb (m_vertex_buffer p =? VK_NULL_HANDLE)
    then ([vmaDestroyBuffer resource_allocator (m_vertex_buffer p)
             (m_vertex_buffer_allocation p)],
          set_vertex_buffer p VK_NULL_HANDLE VK_NULL_HANDLE)
    else ([], p) in
  (calls, (VOk, p)).

(** [Pipeline::createIndexBuffer], written as [createVertexBuffer] is. *)
Definition createIndexBuffer (resource_allocator : Handle) (p : t)
    : list NativeCall * (VResult * t) :=
  let '(calls, p) :=
    if negb (m_index_buffer p =? VK_NULL_HANDLE)
    then ([vmaDestroyBuffer resource_allocator (m_index_buffer p)
             (m_index_buffer_allocation p)],
          set_index_buffer p VK_NULL_HANDLE VK_NULL_HANDLE)
    else ([], p) in
  (calls, (VOk, p)).

(** [Pipeline::~Pipeline], step by step in the order of the source.  The
    shader modules are destroyed when the vector is not empty, and the
    vector is left as it is.  The result is the calls of the body and the
    members when the body has run; the members (the vector with them) are
    destroyed right after and the object is gone, so a destructor runs once
    on an object. *)
Definition destructor (graphics_device resource_allocator : Handle) (p : t)
    : list NativeCall * t :=
  let c_modules :=
    if 0 <? Z.of_nat (List.length (m_shader_modules p))
    then map (vkDestroyShaderModule graphics_device) (m_shader_modules p)
    else [] in
  let c_render_pass :=
    if negb (m_render_pass p =? VK_NULL_HANDLE)
    then [vkDestroyRenderPass graphics_device (m_render_pass p)] else [] in
  let c_layout :=
    if negb (m_layout p =? VK_NULL_HANDLE)
    then [vkDestroyPipelineLayout graphics_device (m_layout p)] else [] in
  let c_vertex :=
    if negb (m_vertex_buffer p =? VK_NULL_HANDLE)
    then [vmaDestroyBuffer resource_allocator (m_vertex_buffer p)
            (m_vertex_buffer_allocation p)] else [] in
  let c_index :=
    if negb (m_index_buffer p =? VK_NULL_HANDLE)
    then [vmaDestroyBuffer resource_allocator (m_index_buffer p)
            (m_index_buffer_allocation p)] else [] in
  let c_pipeline :=
    if negb (m_pipeline p =? VK_NULL_HANDLE)
    then [vkDestroyPipeline graphics_device (m_pipeline p)] else [] in
  let c_image_ready :=
    match m_sync_image_ready p with
    | Some semaphore => [vkDestroySemaphore graphics_device semaphore]
    | None => []
    end in
  let c_present_done :=
    match m_sync_present_done p with
    | Some semaphore => [vkDestroySemaphore graphics_device semaphore]
    | None => []
    end in
  let c_fence :=
    match m_sync_cpu_gpu p with
    | Some fence => [vkDestroyFence graphics_device fence]
    | None => []
    end in
  (c_modules ++ c_render_pass ++ c_layout ++ c_vertex ++ c_index ++ c_pipeline
     ++ c_image_ready ++ c_present_done ++ c_fence,
   {| m_shader_modules := m_shader_modules p;
      m_layout :=
        if negb (m_layout p =? VK_NULL_HANDLE) then VK_NULL_HANDLE else m_layout p;
      m_render_pass :=
        if negb (m_render_pass p =? VK_NULL_HANDLE)
        then VK_NULL_HANDLE else m_render_pass p;
      m_pipeline :=
        if negb (m_pipeline p =? VK_NULL_HANDLE)
        then VK_NULL_HANDLE else m_pipeline p;
      m_vertex_buffer :=
        if negb (m_vertex_buffer p =? VK_NULL_HANDLE)
        then VK_NULL_HANDLE else m_vertex_buffer p;
      m_vertex_buffer_allocation :=
        if negb (m_vertex_buffer p =? VK_NULL_HANDLE)
        then VK_NULL_HANDLE else m_vertex_buffer_allocation p;
      m_index_buffer :=
        if negb (m_index_buffer p =? VK_NULL_HANDLE)
        then VK_NULL_HANDLE else m_index_buffer p;
      m_index_buffer_allocation :=
        if negb (m_index_buffer p =? VK_NULL_HANDLE)
        then VK_NULL_HANDLE else m_index_buffer_allocation p;
      m_sync_image_ready := None;
      m_sync_present_done := None;
      m_sync_cpu_gpu := None |}).

End Pipeline.

(** ** app/command.cpp *)

Module Command.

(** The commands recorded into a command buffer.  The viewport carries
    the extent whose fields the source converts to [float].
    [ImGui_ImplVulkan_RenderDrawData draw_data] is the command buffer
    handed to the overlay backend, which is not part of this repository:
    [draw_data] lists the element counts of the draw commands of the
    overlay's draw data, and the backend records one indexed draw of that
    many indices for each of them (the pipeline and the buffers of its own
    that it binds for them are not listed). *)
Inductive Cmd : Type :=
| vkCmdBeginRenderPass (render_pass framebuffer : Handle)
    (extent : SwapChain.VkExtent2D)
| vkCmdBindPipeline (pipeline : Handle)
| vkCmdSetViewport (extent : SwapChain.VkExtent2D)
| vkCmdSetScissor (extent : SwapChain.VkExtent2D)
| vkCmdBindVertexBuffers (firstBinding : Z) (buffers : list Handle)
    (offsets : list Z)
| vkCmdBindIndexBuffer (buffer : Handle) (offset : Z)
| vkCmdDrawIndexed
    (indexCount instanceCount firstIndex vertexOffset firstInstance : Z)
| ImGui_ImplVulkan_RenderDrawData (draw_data : list Z)
| vkCmdEndRenderPass.

(** [commands] is the content of the command buffer [m_buffer]. *)
Record t := {
  m_pool : Handle;
  m_buffer : Handle;
  commands : list Cmd
}.

Definition set_commands (c : t) (l : list Cmd) : t :=
  {| m_pool := m_pool c; m_buffer := m_buffer c; commands := l |}.

(** What [Command::record] reads from the engine, from the driver and,
    in a build with [IMGUI], from the overlay: [imgui_draw_data] is what
    [ImGui::GetDrawData()] returns after [ImGui::Render()]. *)
Record RecordEnv := {
  imgui : bool;
  imgui_draw_data : list Z;
  vk_begin_command_buffer : VkResult;
  vk_end_command_buffer : VkResult;
  frame_index : Z;
  framebuffers : list Handle;
  render_pass : Handle;
  pipeline : Handle;
  extent : SwapChain.VkExtent2D;
  vertex_buffer : Handle;
  index_buffer : Handle
}.

(** [Command::record]; [imgui] is a build with [IMGUI]. *)
Definition record (env : RecordEnv) (c : t) : VResult * t :=
  let swapchain_index := frame_index env in
  let c := set_commands c [] in
  match vk_begin_command_buffer env with
  | VK_FAILURE _ => (VError "< Error creating the command buffer", c)
  | VK_SUCCESS =>
      if Z.of_nat (List.length (framebuffers env)) <=? swapchain_index
      then (VError "< The swapchain_index parameter is incorrect: not enough framebuffers", c)
      else
        let framebuffer := nth (Z.to_nat swapchain_index) (framebuffers env) 0 in
        let vertex_buffers := [vertex_buffer env] in
        let memory_offsets :=
          map Z.of_nat (seq 0 (List.length vertex_buffers)) in
        let indices_size := 0 in
        let recorded :=
          [vkCmdBeginRenderPass (render_pass env) framebuffer (extent env);
           vkCmdBindPipeline (pipeline env);
           vkCmdSetViewport (extent env);
           vkCmdSetScissor (extent env);
           vkCmdBindVertexBuffers 0 vertex_buffers memory_offsets;
           vkCmdBindIndexBuffer (index_buffer env) 0;
           vkCmdDrawIndexed indices_size 1 0 0 0]
          ++ (if imgui env
              then [ImGui_ImplVulkan_RenderDrawData (imgui_draw_data env)] else [])
          ++ [vkCmdEndRenderPass] in
        let c := set_commands c recorded in
        match vk_end_command_buffer env with
        | VK_FAILURE _ => (VError "< Error recording the command buffer", c)
        | VK_SUCCESS => (VOk, c)
        end
  end.

(** [Command::~Command]; [device] is the logical device of the engine.
    The result is the calls of the body and the members when the body has
    run; the object is gone after it. *)
Definition destructor (device : Handle) (c : t) : list NativeCall * t :=
  if negb (m_pool c =? 0)
  then (if negb (device =? 0) then [vkDestroyCommandPool device (m_pool c)] else [],
        {| m_pool := 0; m_buffer := 0; commands := commands c |})
  else ([], {| m_pool := m_pool c; m_buffer := 0; commands := commands c |}).

End Command.

(** ** app/render.cpp *)

Module Render.

(** The command objects are shared pointers, [None] when null. *)
Record t := {
  m_surface : Handle;
  m_image_views : list Handle;
  m_framebuffers : list Handle;
  m_graphics_pipeline : Pipeline.t;
  m_graphics_command : option Command.t;
  m_transfert_command : option Command.t;
  m_frame_index : Z
}.

Definition set_frame_index (r : t) (i : Z) : t := {|
  m_surface := m_surface r;
  m_image_views := m_image_views r;
  m_framebuffers := m_framebuffers r;
  m_graphics_pipeline := m_graphics_pipeline r;
  m_graphics_command := m_graphics_command r;
  m_transfert_command := m_transfert_command r;
  m_frame_index := i
|}.

Definition set_graphics_command (r : t) (c : option Command.t) : t := {|
  m_surface := m_surface r;
  m_image_views := m_image_views r;
  m_framebuffers := m_framebuffers r;
  m_graphics_pipeline := m_graphics_pipeline r;
  m_graphics_command := c;
  m_transfert_command := m_transfert_command r;
  m_frame_index := m_frame_index r
|}.

(** [Render::updateFrameIndex]:
    [m_frame_index = (uint32_t)current_frame % (m_framebuffers.size())].
    The cast applies to [current_frame]; the remainder is taken in
    [size_t] and stored into the 32-bit member.  With no framebuffer the
    division is by zero. *)
Definition updateFrameIndex (current_frame : Z) (r : t) : Outcome t :=
  let size := Z.of_nat (List.length (m_framebuffers r)) in
  if size =? 0 then Undefined
  else Returned (set_frame_index r (to_u32 (to_u32 current_frame mod size))).

End Render.

(** ** app/engine.hpp, and the per-frame operations of app/pipeline.cpp

    [Pipeline::acquireImage], [Pipeline::draw] and [Pipeline::present] work
    on the engine singleton, so they are functions of the engine here. *)

Module Engine.

Record t := {
  m_graphics_device : Device.t;
  m_allocator : Handle;
  m_render : Render.t;
  m_swapchain : SwapChain.t
}.

Definition set_render (e : t) (r : Render.t) : t := {|
  m_graphics_device := m_graphics_device e;
  m_allocator := m_allocator e;
  m_render := r;
  m_swapchain := m_swapchain e
|}.

(** What the driver answers during one frame.  [acquired_image] is the
    index [vkAcquireNextImageKHR] writes through the pointer it is given,
    [None] when it fails and writes nothing. *)
Record FrameEnv := {
  imgui : bool;
  imgui_draw_data : list Z;
  acquired_image : option Z;
  vk_begin_command_buffer : VkResult;
  vk_end_command_buffer : VkResult;
  vk_queue_submit : VkResult
}.

(** What [vkAcquireNextImageKHR] does to the engine: it stores the index
    of the acquired image through the pointer to the frame index of the
    renderer. *)
Definition store_acquired_image (env : FrameEnv) (e : t) : t :=
  match acquired_image env with
  | Some image_index =>
      set_render e (Render.set_frame_index (m_render e) (to_u32 image_index))
  | None => e
  end.

(** [Pipeline::acquireImage]: waits for and resets the fence (the driver
    is told to read one fence through the pointer [m_sync_cpu_gpu]), then
    acquires the next image, with the semaphore [*m_sync_image_ready]: it
    is undefined when one of the two pointers is null. *)
Definition acquireImage (env : FrameEnv) (e : t) : Outcome t :=
  let p := Render.m_graphics_pipeline (m_render e) in
  match Pipeline.m_sync_cpu_gpu p, Pipeline.m_sync_image_ready p with
  | Some _, Some _ => Returned (store_acquired_image env e)
  | _, _ => Undefined
  end.

Definition record_env (env : FrameEnv) (e : t) : Command.RecordEnv := {|
  Command.imgui := imgui env;
  Command.imgui_draw_data := imgui_draw_data env;
  Command.vk_begin_command_buffer := vk_begin_command_buffer env;
  Command.vk_end_command_buffer := vk_end_command_buffer env;
  Command.frame_index := Render.m_frame_index (m_render e);
  Command.framebuffers := Render.m_framebuffers (m_render e);
  Command.render_pass := Pipeline.m_render_pass (Render.m_graphics_pipeline (m_render e));
  Command.pipeline := Pipeline.m_pipeline (Render.m_graphics_pipeline (m_render e));
  Command.extent := SwapChain.m_extent (m_swapchain e);
  Command.vertex_buffer := Pipeline.m_vertex_buffer (Render.m_graphics_pipeline (m_render e));
  Command.index_buffer := Pipeline.m_index_buffer (Render.m_graphics_pipeline (m_render e))
|}.

(** [Pipeline::draw]: resets the graphics command buffer, records the
    frame into it (the result of [record] is dropped) and submits it.  The
    submission reads [*m_sync_image_ready], [*m_sync_present_done] and
    [*m_sync_cpu_gpu]: it is undefined when one of the three pointers is
    null. *)
Definition draw (env : FrameEnv) (e : t) : Outcome (Result Z * t) :=
  match Render.m_graphics_command (m_render e) with
  | None => Returned (Error "Cannot get the command buffer in the draw call", e)
  | Some command_buffer =>
      let command_buffer := Command.set_commands command_buffer [] in
      let '(_, command_buffer) := Command.record (record_env env e) command_buffer in
      let p := Render.m_graphics_pipeline (m_render e) in
      let e := set_render e (Render.set_graphics_command (m_render e) (Some command_buffer)) in
      match Pipeline.m_sync_image_ready p, Pipeline.m_sync_present_done p,
            Pipeline.m_sync_cpu_gpu p with
      | Some _, Some _, Some _ =>
          match vk_queue_submit env with
          | VK_SUCCESS => Returned (Ok 0, e)
          | VK_FAILURE _ => Returned (Error "Error submitting the queue in Draw call", e)
          end
      | _, _, _ => Undefined
      end
  end.

(** [Pipeline::present]: hands the frame index to the presentation queue,
    to wait on [*m_sync_present_done]: it is undefined when that pointer is
    null.  Nothing of the engine is written. *)
Definition present (e : t) : Outcome t :=
  match Pipeline.m_sync_present_done (Render.m_graphics_pipeline (m_render e)) with
  | None => Undefined
  | Some _ => Returned e
  end.

End Engine.

(** ** Floating point

    [float] and [double] are the IEEE 754 binary32 and binary64 formats of
    the library's [SpecFloat], with round-to-nearest-even. *)

Module Fp.

Definition float_of_int (x : Z) : spec_float := binary_normalize 24 128 x 0 false.

Definition double_of_int (x : Z) : spec_float := binary_normalize 53 1024 x 0 false.

Definition float_div (x y : spec_float) : spec_float := SFdiv 24 128 x y.

Definition double_add (x y : spec_float) : spec_float := SFadd 53 1024 x y.

(** The conversion of a [float] to [double], which is exact. *)
Definition double_of_float (x : spec_float) : spec_float :=
  match x with
  | S754_finite s m e => binary_round 53 1024 s m e
  | _ => x
  end.

(** [static_cast<uint64_t>] of a [double]: the fraction is dropped; the
    conversion is undefined ([None]) when the truncated value does not
    fit, and for infinities and NaN. *)
Definition uint64_of_double (x : spec_float) : option Z :=
  match x with
  | S754_zero _ => Some 0
  | S754_finite s m e =>
      let magnitude :=
        if 0 <=? e then Z.shiftl (Zpos m) e else Z.shiftr (Zpos m) (- e) in
      if s then (if magnitude =? 0 then Some 0 else None)
      else if magnitude <? 2 ^ 64 then Some magnitude else None
  | _ => None
  end.

End Fp.

(** ** utils/timer.h

    The clock is the list of the values the successive evaluations of
    [NOW_MS] give, oldest first: each evaluation takes the head. *)

Module Timer.

Record t := {
  m_begin : option Z;
  m_is_running : bool
}.

(** One evaluation of [NOW_MS]. *)
Definition NOW_MS (clock : list Z) : Outcome (Z * list Z) :=
  match clock with
  | [] => Pending
  | now :: rest => Returned (now, rest)
  end.

(** [Timer::Timer()]. *)
Definition Timer (clock : list Z) : Outcome (t * list Z) :=
  '(now, clock) <- NOW_MS clock ;;
  Returned ({| m_begin := Some (to_u64 now); m_is_running := false |}, clock).

(** The [while (m_is_running)] loop of [block_until]: [NOW_MS] is
    converted to [uint64_t] for the comparison with [time_limit]. *)
Fixpoint block_until_loop (time_limit : Z) (clock : list Z) : Outcome (list Z) :=
  match clock with
  | [] => Pending
  | now :: rest =>
      if time_limit <=? to_u64 now then Returned rest
      else block_until_loop time_limit rest
  end.

(** [Timer::block_until]. *)
Definition block_until (time_limit : Z) (clock : list Z) (tm : t)
    : Outcome (t * list Z) :=
  clock <- block_until_loop time_limit clock ;;
  Returned ({| m_begin := m_begin tm; m_is_running := false |}, clock).

(** [Timer::get_time_limit]. *)
Definition get_time_limit (ms_to_add : spec_float) (clock : list Z)
    : Outcome (spec_float * list Z) :=
  '(now, clock) <- NOW_MS clock ;;
  Returned (Fp.double_add (Fp.double_of_int now) ms_to_add, clock).

(** [Timer::diff]; [value()] of an empty optional throws. *)
Definition diff (clock : list Z) (tm : t) : Outcome (Z * list Z) :=
  '(now, clock) <- NOW_MS clock ;;
  match m_begin tm with
  | Some begin => Returned (to_u64 (to_u64 now - begin), clock)
  | None => Undefined
  end.

End Timer.

(** ** application.cpp *)

Module Application.

Definition FPS_RECORDS : Z := 10.

Record t := {
  m_current_frame : Z;
  m_FPS_limit : option Z;
  m_engine : Engine.t;
  recorded_frames : list Z;
  recorded_frames_index : Z;
  m_app_timer : Timer.t
}.

(** [Application::forceRendererFPSLimit]; [new_limit] is a [uint8_t]. *)
Definition forceRendererFPSLimit (new_limit : Z) (a : t) : t := {|
  m_current_frame := m_current_frame a;
  m_FPS_limit := if 0 <? new_limit then Some new_limit else None;
  m_engine := m_engine a;
  recorded_frames := recorded_frames a;
  recorded_frames_index := recorded_frames_index a;
  m_app_timer := m_app_timer a
|}.

(** [1000.0f / m_FPS_limit.value()], widened to the [double] [wait_ms]. *)
Definition wait_ms (limit : Z) : spec_float :=
  Fp.double_of_float (Fp.float_div (Fp.float_of_int 1000) (Fp.float_of_int limit)).

(** The three calls in the middle of [drawFrame]; the result of [draw] is
    dropped. *)
Definition render_frame (env : Engine.FrameEnv) (e : Engine.t) : Outcome Engine.t :=
  e <- Engine.acquireImage env e ;;
  '(_, e) <- Engine.draw env e ;;
  Engine.present e.

(** The two statements that store the rendering time of the frame. *)
Definition record_frame_time (rendering_time_diff : Z) (a : t) : t := {|
  m_current_frame := m_current_frame a;
  m_FPS_limit := m_FPS_limit a;
  m_engine := m_engine a;
  recorded_frames :=
    set_nth (Z.to_nat (recorded_frames_index a))
      (if 0 <? rendering_time_diff then rendering_time_diff else 1)
      (recorded_frames a);
  recorded_frames_index := (recorded_frames_index a + 1) mod FPS_RECORDS;
  m_app_timer := m_app_timer a
|}.

Definition set_engine (a : t) (e : Engine.t) : t := {|
  m_current_frame := m_current_frame a;
  m_FPS_limit := m_FPS_limit a;
  m_engine := e;
  recorded_frames := recorded_frames a;
  recorded_frames_index := recorded_frames_index a;
  m_app_timer := m_app_timer a
|}.

Definition set_app_timer (a : t) (tm : Timer.t) : t := {|
  m_current_frame := m_current_frame a;
  m_FPS_limit := m_FPS_limit a;
  m_engine := m_engine a;
  recorded_frames := recorded_frames a;
  recorded_frames_index := recorded_frames_index a;
  m_app_timer := tm
|}.

(** The last two statements of both branches of [drawFrame]:
    [updateFrameIndex(m_current_frame); ++m_current_frame;]. *)
Definition advance_frame (a : t) : Outcome t :=
  r <- Render.updateFrameIndex (m_current_frame a) (Engine.m_render (m_engine a)) ;;
  Returned {|
    m_current_frame := to_u64 (m_current_frame a + 1);
    m_FPS_limit := m_FPS_limit a;
    m_engine := Engine.set_render (m_engine a) r;
    recorded_frames := recorded_frames a;
    recorded_frames_index := recorded_frames_index a;
    m_app_timer := m_app_timer a
  |}.

(** [Application::drawFrame]. *)
Definition drawFrame (env : Engine.FrameEnv) (clock : list Z) (a : t)
    : Outcome (t * list Z) :=
  match m_FPS_limit a with
  | Some limit =>
      '(wait_until_ms, clock) <- Timer.get_time_limit (wait_ms limit) clock ;;
      '(begin_real_rendering_timer, clock) <- Timer.Timer clock ;;
      e <- render_frame env (m_engine a) ;;
      let a := set_engine a e in
      '(rendering_time_diff, clock) <- Timer.diff clock begin_real_rendering_timer ;;
      let a := record_frame_time rendering_time_diff a in
      match Fp.uint64_of_double wait_until_ms with
      | None => Undefined
      | Some time_limit =>
          '(tm, clock) <- Timer.block_until time_limit clock (m_app_timer a) ;;
          let a := set_app_timer a tm in
          a <- advance_frame a ;;
          Returned (a, clock)
      end
  | None =>
      '(begin_real_rendering_timer, clock) <- Timer.Timer clock ;;
      e <- render_frame env (m_engine a) ;;
      let a := set_engine a e in
      '(rendering_time_diff, clock) <- Timer.diff clock begin_real_rendering_timer ;;
      let a := record_frame_time rendering_time_diff a in
      a <- advance_frame a ;;
      Returned (a, clock)
  end.

(** One turn of the loop of [Application::run]: frame number [k] is
    drawn with what the driver answers and what the clock reads during
    that frame, [world k]. *)
Definition frame (world : N -> Engine.FrameEnv * list Z) (s : N * Outcome t)
    : N * Outcome t :=
  let '(k, o) := s in
  (N.succ k,
   a <- o ;;
   '(a, _) <- drawFrame (fst (world k)) (snd (world k)) a ;;
   Returned a).

(** The application after the first [n] frames of the loop. *)
Definition drawFrames (world : N -> Engine.FrameEnv * list Z) (n : N) (a : t)
    : Outcome t :=
  snd (N.iter n (frame world) (0%N, Returned a)).

(** The frame index and the framebuffers of the renderer. *)
Definition frame_index (a : t) : Z :=
  Render.m_frame_index (Engine.m_render (m_engine a)).

Definition framebuffer_count (a : t) : Z :=
  Z.of_nat (List.length (Render.m_framebuffers (Engine.m_render (m_engine a)))).

End Application.

(** * Definitions used by the statements

    Predicates and reference functions the properties are stated with. *)

(** A candidate that [isDeviceSuitable] refuses. *)
Definition unsuitable (apple : bool) (device : Device.VkPhysicalDevice) : Prop :=
  Device.isDeviceSuitable apple device = false.

(** The first position, from [i] on, that is not yet taken and whose
    family supports the flag. *)
Fixpoint first_fit (took : list Z) (flag : Device.SupportFeatures)
    (families : list Z) (i : Z) : option Z :=
  match families with
  | [] => None
  | support_i :: rest =>
      if negb (Device.is_taken took i) && negb (Z.land support_i (Device.bits flag) =? 0)
      then Some i
      else first_fit took flag rest (i + 1)
  end.

(** The [vkCmdDrawIndexed] commands [record] itself issues, among the
    recorded commands. *)
Definition is_draw_indexed (c : Command.Cmd) : bool :=
  match c with
  | Command.vkCmdDrawIndexed _ _ _ _ _ => true
  | _ => false
  end.

(** The index counts of all the indexed draws a command buffer holds, in
    the order they were recorded: the ones [record] issues and the ones the
    overlay backend records when it is handed the buffer. *)
Definition indexed_draws (commands : list Command.Cmd) : list Z :=
  flat_map (fun c =>
              match c with
              | Command.vkCmdDrawIndexed indexCount _ _ _ _ => [indexCount]
              | Command.ImGui_ImplVulkan_RenderDrawData draw_data => draw_data
              | _ => []
              end) commands.

(** The three synchronisation objects of a pipeline exist: none of the
    three pointers is null. *)
Definition sync_objects_exist (p : Pipeline.t) : Prop :=
  Pipeline.m_sync_image_ready p <> None
  /\ Pipeline.m_sync_present_done p <> None
  /\ Pipeline.m_sync_cpu_gpu p <> None.

(** A shift record whose mantissa is raised by [A]; the round and sticky
    bits are kept. *)
Definition lift (A : Z) (rec : shr_record) : shr_record :=
  {| shr_m := A + shr_m rec; shr_r := shr_r rec; shr_s := shr_s rec |}.

(** The checks of [deadline_generic] for the [double] that [wait_ms] gives
    for one limit, and the whole milliseconds of that wait. *)
Definition wait_ms_check (limit : Z) : bool :=
  match Application.wait_ms limit with
  | S754_finite false mw ew =>
      match -12 - ew with
      | Zpos k =>
          let rec := iter_pos shr_1 k
                       {| shr_m := Zpos mw; shr_r := false; shr_s := false |} in
          (Zpos mw <? 2 ^ (22 + Zpos k))
          && (round_nearest_even (shr_m rec) (loc_of_shr_record rec) / 2 ^ 12
              =? 1000 / limit)
      | _ => false
      end
  | _ => false
  end.

(** ** Sample devices, surfaces and frames *)

(** An integrated GPU, which no platform accepts. *)
Definition integrated_gpu : Device.VkPhysicalDevice := {|
  Device.pd_handle := 11;
  Device.pd_properties := {|
    Device.deviceName := "Intel(R) UHD Graphics";
    Device.deviceID := 1;
    Device.deviceType := Device.VK_PHYSICAL_DEVICE_TYPE_INTEGRATED_GPU |}
|}.

(** A discrete GPU with the given handle. *)
Definition discrete_gpu (handle : Handle) : Device.VkPhysicalDevice := {|
  Device.pd_handle := handle;
  Device.pd_properties := {|
    Device.deviceName := "Discrete";
    Device.deviceID := handle;
    Device.deviceType := Device.VK_PHYSICAL_DEVICE_TYPE_DISCRETE_GPU |}
|}.

(** A device whose physical device is selected and whose queue tables
    hold the given support masks. *)
Definition device_with_support (support : list Z) : Device.t :=
  Device.set_queue_tables (Device.set_physical_device Device.fresh 1) support
    (map Device.family_state support).

(** One queue family with the graphics, compute and transfer bits that can
    also present, as an integrated GPU reports it. *)
Definition universal_family : Device.VkQueueFamily :=
  {| Device.queueFlags := 7; Device.present_supported := true |}.

(** A family that can only present. *)
Definition present_only_family : Device.VkQueueFamily :=
  {| Device.queueFlags := 0; Device.present_supported := true |}.

(** A surface that reports a minimum image count of zero, a maximum of
    three, one format and one present mode. *)
Definition surface_min_zero : SwapChain.Surface := {|
  SwapChain.surface_capabilities := {|
    SwapChain.minImageCount := 0;
    SwapChain.maxImageCount := 3;
    SwapChain.minImageExtent := {| SwapChain.width := 1; SwapChain.height := 1 |};
    SwapChain.maxImageExtent := {| SwapChain.width := 4096; SwapChain.height := 4096 |};
    SwapChain.currentTransform := 1 |};
  SwapChain.surface_formats :=
    [{| SwapChain.format := 50; SwapChain.colorSpace := 0 |}];
  SwapChain.surface_present_modes := [SwapChain.VK_PRESENT_MODE_FIFO_KHR]
|}.

(** A swapchain object before any query. *)
Definition swapchain_fresh : SwapChain.t := {|
  SwapChain.m_swapchain := VK_NULL_HANDLE;
  SwapChain.m_details := {|
    SwapChain.capabilities := {|
      SwapChain.minImageCount := 0;
      SwapChain.maxImageCount := 0;
      SwapChain.minImageExtent := {| SwapChain.width := 0; SwapChain.height := 0 |};
      SwapChain.maxImageExtent := {| SwapChain.width := 0; SwapChain.height := 0 |};
      SwapChain.currentTransform := 0 |};
    SwapChain.formats := [];
    SwapChain.present_modes := [] |};
  SwapChain.m_images := [];
  SwapChain.m_format := {| SwapChain.format := 0; SwapChain.colorSpace := 0 |};
  SwapChain.m_extent := {| SwapChain.width := 0; SwapChain.height := 0 |};
  SwapChain.m_present_mode := SwapChain.VK_PRESENT_MODE_IMMEDIATE_KHR
|}.

(** A surface that reports between two and eight images. *)
Definition surface_two_to_eight : SwapChain.Surface := {|
  SwapChain.surface_capabilities := {|
    SwapChain.minImageCount := 2;
    SwapChain.maxImageCount := 8;
    SwapChain.minImageExtent := {| SwapChain.width := 1; SwapChain.height := 1 |};
    SwapChain.maxImageExtent := {| SwapChain.width := 4096; SwapChain.height := 4096 |};
    SwapChain.currentTransform := 1 |};
  SwapChain.surface_formats :=
    [{| SwapChain.format := 44; SwapChain.colorSpace := 0 |};
     {| SwapChain.format := 50; SwapChain.colorSpace := 0 |}];
  SwapChain.surface_present_modes :=
    [SwapChain.VK_PRESENT_MODE_IMMEDIATE_KHR; SwapChain.VK_PRESENT_MODE_FIFO_KHR]
|}.

(** A pipeline after [createShaderModule] stored the vertex and the
    fragment shader modules. *)
Definition pipeline_with_shaders : Pipeline.t := {|
  Pipeline.m_shader_modules := [101; 102];
  Pipeline.m_layout := 103;
  Pipeline.m_render_pass := 104;
  Pipeline.m_pipeline := 105;
  Pipeline.m_vertex_buffer := VK_NULL_HANDLE;
  Pipeline.m_vertex_buffer_allocation := VK_NULL_HANDLE;
  Pipeline.m_index_buffer := VK_NULL_HANDLE;
  Pipeline.m_index_buffer_allocation := VK_NULL_HANDLE;
  Pipeline.m_sync_image_ready := Some 106;
  Pipeline.m_sync_present_done := Some 107;
  Pipeline.m_sync_cpu_gpu := Some 108
|}.

(** A frame on the second of three framebuffers, everything succeeding. *)
Definition record_env_ok : Command.RecordEnv := {|
  Command.imgui := false;
  Command.imgui_draw_data := [];
  Command.vk_begin_command_buffer := VK_SUCCESS;
  Command.vk_end_command_buffer := VK_SUCCESS;
  Command.frame_index := 1;
  Command.framebuffers := [201; 202; 203];
  Command.render_pass := 104;
  Command.pipeline := 105;
  Command.extent := {| SwapChain.width := 1280; SwapChain.height := 720 |};
  Command.vertex_buffer := VK_NULL_HANDLE;
  Command.index_buffer := VK_NULL_HANDLE
|}.

(** The same frame in a build with [IMGUI], when the overlay has one draw
    command of 6 indices (the two triangles of a rectangle). *)
Definition record_env_imgui : Command.RecordEnv := {|
  Command.imgui := true;
  Command.imgui_draw_data := [6];
  Command.vk_begin_command_buffer := VK_SUCCESS;
  Command.vk_end_command_buffer := VK_SUCCESS;
  Command.frame_index := 1;
  Command.framebuffers := [201; 202; 203];
  Command.render_pass := 104;
  Command.pipeline := 105;
  Command.extent := {| SwapChain.width := 1280; SwapChain.height := 720 |};
  Command.vertex_buffer := VK_NULL_HANDLE;
  Command.index_buffer := VK_NULL_HANDLE
|}.

(** A command object with its pool and an empty command buffer. *)
Definition command_empty : Command.t :=
  {| Command.m_pool := 301; Command.m_buffer := 302; Command.commands := [] |}.

(** An engine with three framebuffers, its pipeline and its graphics
    command object. *)
Definition engine_three_framebuffers : Engine.t := {|
  Engine.m_graphics_device := Device.set_logical_device (device_with_support [7; 2; 4]) 9;
  Engine.m_allocator := 2;
  Engine.m_render := {|
    Render.m_surface := 3;
    Render.m_image_views := [211; 212; 213];
    Render.m_framebuffers := [201; 202; 203];
    Render.m_graphics_pipeline := pipeline_with_shaders;
    Render.m_graphics_command := Some command_empty;
    Render.m_transfert_command := Some command_empty;
    Render.m_frame_index := 0 |};
  Engine.m_swapchain := swapchain_fresh
|}.

(** The application when its loop starts: frame counter 1, frame index 0. *)
Definition application_start (limit : option Z) : Application.t := {|
  Application.m_current_frame := 1;
  Application.m_FPS_limit := limit;
  Application.m_engine := engine_three_framebuffers;
  Application.recorded_frames := repeat 0 10;
  Application.recorded_frames_index := 0;
  Application.m_app_timer := {| Timer.m_begin := Some 0; Timer.m_is_running := false |}
|}.

(** A driver that hands out the images in turn and never fails. *)
Definition frame_env_ok (k : N) : Engine.FrameEnv := {|
  Engine.imgui := false;
  Engine.imgui_draw_data := [];
  Engine.acquired_image := Some (Z.of_N k mod 3);
  Engine.vk_begin_command_buffer := VK_SUCCESS;
  Engine.vk_end_command_buffer := VK_SUCCESS;
  Engine.vk_queue_submit := VK_SUCCESS
|}.

(** Frames that take 5 ms to render, 17 ms apart: the readings of the
    clock during frame [k]. *)
Definition clock_of_frame (k : N) : list Z :=
  let start := 1700000000000 + 17 * Z.of_N k in
  [start; start; start + 5; start + 5; start + 11; start + 16; start + 17].

(** The driver and the clock during frame [k]. *)
Definition world_ok (k : N) : Engine.FrameEnv * list Z :=
  (frame_env_ok k, clock_of_frame k).

(** The application after seven frames at 60 frames per second. *)
Definition application_after_7 : Application.t :=
  Eval vm_compute in
    match Application.drawFrames world_ok 7 (application_start (Some 60)) with
    | Returned a => a
    | _ => application_start (Some 60)
    end.

(** The application after the first frame at 60 frames per second. *)
Definition application_after_1 : Application.t :=
  Eval vm_compute in
    match Application.drawFrames world_ok 1 (application_start (Some 60)) with
    | Returned a => a
    | _ => application_start (Some 60)
    end.

(** What the engine and a driver that creates the swapchain with three
    images give to [SwapChain::create]: a 1280x720 window, the families 0, 1
    and 2, a 60 frames-per-second build. *)
Definition create_env_ok : SwapChain.CreateEnv := {|
  SwapChain.fps_limit := Some 60;
  SwapChain.window_width := 1280;
  SwapChain.window_height := 720;
  SwapChain.family_indices := (0, 1, 2);
  SwapChain.vk_create_swapchain := fun _ => (VK_SUCCESS, 77);
  SwapChain.vk_swapchain_images := fun _ => [221; 222; 223]
|}.

(** * The initialisation and the shutdown of the engine

    The functions [Engine::initialize] runs, in the order it runs them.
    A creation call of the driver is an argument: its result code and the
    handle it writes; a failing call writes nothing. *)

(** ** app/command.cpp: the pool and the buffer of a command object *)

Module CommandInit.

(** [Command::Command()] initialises neither member: [pool] and [buffer]
    are the indeterminate values the new object starts with. *)
Definition Command (pool buffer : Handle) : Command.t :=
  {| Command.m_pool := pool; Command.m_buffer := buffer; Command.commands := [] |}.

(** [Command::createPool]. *)
Definition createPool (vk_create_command_pool : Z -> VkResult * Handle)
    (family_index : Z) (c : Command.t) : VResult * Command.t :=
  match vk_create_command_pool family_index with
  | (VK_SUCCESS, pool) =>
      (VOk, {| Command.m_pool := pool;
               Command.m_buffer := Command.m_buffer c;
               Command.commands := Command.commands c |})
  | (VK_FAILURE _, _) =>
      (VError "> Error creating the command pool in the command buffer object", c)
  end.

(** [Command::createBuffer]. *)
Definition createBuffer (vk_allocate_command_buffers : Handle -> VkResult * Handle)
    (c : Command.t) : VResult * Command.t :=
  if Command.m_pool c =? 0
  then (VError "> Error creating the buffer: no memory pool", c)
  else
    match vk_allocate_command_buffers (Command.m_pool c) with
    | (VK_SUCCESS, buffer) =>
        (VOk, {| Command.m_pool := Command.m_pool c;
                 Command.m_buffer := buffer;
                 Command.commands := Command.commands c |})
    | (VK_FAILURE _, _) =>
        (VError "> Error creating the buffer in the command buffer object", c)
    end.

End CommandInit.

(** ** app/pipeline.cpp: the creation of the pipeline *)

Module PipelineInit.

Inductive ShaderType :=
| COMPUTE_SHADER
| FRAGMENT_SHADER
| GEOMETRY_SHADER
| VERTEX_SHADER.

(** [Shader::Module], without the bytes of the code. *)
Record ShaderModule := {
  m_size : Z;
  m_tag : string;
  m_type : ShaderType
}.

(** What the file system answers for one shader file: its size
    ([std::filesystem::file_size], [None] when it throws) and whether the
    stream of [readFile] opens. *)
Record ShaderFile := {
  file_size : option Z;
  file_opens : bool
}.

(** [Pipeline::readFile], as far as [createGraphicsApplication] depends on
    it: its result is dropped, its [assert(file)] is not. *)
Definition readFile (assertions : bool) (file : ShaderFile) : Outcome unit :=
  if assertions && negb (file_opens file) then AssertionFailed else Returned tt.

(** [Pipeline::createGraphicsApplication]. *)
Definition createGraphicsApplication (assertions : bool)
    (vertex_shader_filepath fragment_shader_filepath : string)
    (vertex_shader_file fragment_shader_file : ShaderFile)
    : Outcome (Result (list ShaderModule)) :=
  let vs_file_size_opt := file_size vertex_shader_file in
  let fs_file_size_opt := file_size fragment_shader_file in
  if assertions && match vs_file_size_opt with None => true | Some _ => false end
  then AssertionFailed
  else if assertions && match fs_file_size_opt with None => true | Some _ => false end
  then AssertionFailed
  else
    match vs_file_size_opt, fs_file_size_opt with
    | Some vs_file_size, Some fs_file_size =>
        _ <- readFile assertions vertex_shader_file ;;
        _ <- readFile assertions fragment_shader_file ;;
        Returned (Ok [{| m_size := fs_file_size;
                         m_tag := fragment_shader_filepath;
                         m_type := FRAGMENT_SHADER |};
                      {| m_size := vs_file_size;
                         m_tag := vertex_shader_filepath;
                         m_type := VERTEX_SHADER |}])
    | _, _ => Returned (Error "vertex or fragment shader is NULL")
    end.

(** [VkPipelineShaderStageCreateInfo]: the stage bit and the module. *)
Record VkPipelineShaderStageCreateInfo := {
  stage : Z;
  module : Handle
}.

Definition VK_SHADER_STAGE_VERTEX_BIT : Z := 1.
Definition VK_SHADER_STAGE_GEOMETRY_BIT : Z := 8.
Definition VK_SHADER_STAGE_FRAGMENT_BIT : Z := 16.
Definition VK_SHADER_STAGE_COMPUTE_BIT : Z := 32.

Definition set_render_pass (p : Pipeline.t) (h : Handle) : Pipeline.t := {|
  Pipeline.m_shader_modules := Pipeline.m_shader_modules p;
  Pipeline.m_layout := Pipeline.m_layout p;
  Pipeline.m_render_pass := h;
  Pipeline.m_pipeline := Pipeline.m_pipeline p;
  Pipeline.m_vertex_buffer := Pipeline.m_vertex_buffer p;
  Pipeline.m_vertex_buffer_allocation := Pipeline.m_vertex_buffer_allocation p;
  Pipeline.m_index_buffer := Pipeline.m_index_buffer p;
  Pipeline.m_index_buffer_allocation := Pipeline.m_index_buffer_allocation p;
  Pipeline.m_sync_image_ready := Pipeline.m_sync_image_ready p;
  Pipeline.m_sync_present_done := Pipeline.m_sync_present_done p;
  Pipeline.m_sync_cpu_gpu := Pipeline.m_sync_cpu_gpu p
|}.

Definition set_layout (p : Pipeline.t) (h : Handle) : Pipeline.t := {|
  Pipeline.m_shader_modules := Pipeline.m_shader_modules p;
  Pipeline.m_layout := h;
  Pipeline.m_render_pass := Pipeline.m_render_pass p;
  Pipeline.m_pipeline := Pipeline.m_pipeline p;
  Pipeline.m_vertex_buffer := Pipeline.m_vertex_buffer p;
  Pipeline.m_vertex_buffer_allocation := Pipeline.m_vertex_buffer_allocation p;
  Pipeline.m_index_buffer := Pipeline.m_index_buffer p;
  Pipeline.m_index_buffer_allocation := Pipeline.m_index_buffer_allocation p;
  Pipeline.m_sync_image_ready := Pipeline.m_sync_image_ready p;
  Pipeline.m_sync_present_done := Pipeline.m_sync_present_done p;
  Pipeline.m_sync_cpu_gpu := Pipeline.m_sync_cpu_gpu p
|}.

Definition set_pipeline (p : Pipeline.t) (h : Handle) : Pipeline.t := {|
  Pipeline.m_shader_modules := Pipeline.m_shader_modules p;
  Pipeline.m_layout := Pipeline.m_layout p;
  Pipeline.m_render_pass := Pipeline.m_render_pass p;
  Pipeline.m_pipeline := h;
  Pipeline.m_vertex_buffer := Pipeline.m_vertex_buffer p;
  Pipeline.m_vertex_buffer_allocation := Pipeline.m_vertex_buffer_allocation p;
  Pipeline.m_index_buffer := Pipeline.m_index_buffer p;
  Pipeline.m_index_buffer_allocation := Pipeline.m_index_buffer_allocation p;
  Pipeline.m_sync_image_ready := Pipeline.m_sync_image_ready p;
  Pipeline.m_sync_present_done := Pipeline.m_sync_present_done p;
  Pipeline.m_sync_cpu_gpu := Pipeline.m_sync_cpu_gpu p
|}.

(** [Pipeline::setShaderModules]. *)
Definition setShaderModules (p : Pipeline.t) (shader_modules : list Handle)
    : Pipeline.t := {|
  Pipeline.m_shader_modules := shader_modules;
  Pipeline.m_layout := Pipeline.m_layout p;
  Pipeline.m_render_pass := Pipeline.m_render_pass p;
  Pipeline.m_pipeline := Pipeline.m_pipeline p;
  Pipeline.m_vertex_buffer := Pipeline.m_vertex_buffer p;
  Pipeline.m_vertex_buffer_allocation := Pipeline.m_vertex_buffer_allocation p;
  Pipeline.m_index_buffer := Pipeline.m_index_buffer p;
  Pipeline.m_index_buffer_allocation := Pipeline.m_index_buffer_allocation p;
  Pipeline.m_sync_image_ready := Pipeline.m_sync_image_ready p;
  Pipeline.m_sync_present_done := Pipeline.m_sync_present_done p;
  Pipeline.m_sync_cpu_gpu := Pipeline.m_sync_cpu_gpu p
|}.

Definition set_sync (p : Pipeline.t) (image_ready present_done cpu_gpu : option Handle)
    : Pipeline.t := {|
  Pipeline.m_shader_modules := Pipeline.m_shader_modules p;
  Pipeline.m_layout := Pipeline.m_layout p;
  Pipeline.m_render_pass := Pipeline.m_render_pass p;
  Pipeline.m_pipeline := Pipeline.m_pipeline p;
  Pipeline.m_vertex_buffer := Pipeline.m_vertex_buffer p;
  Pipeline.m_vertex_buffer_allocation := Pipeline.m_vertex_buffer_allocation p;
  Pipeline.m_index_buffer := Pipeline.m_index_buffer p;
  Pipeline.m_index_buffer_allocation := Pipeline.m_index_buffer_allocation p;
  Pipeline.m_sync_image_ready := image_ready;
  Pipeline.m_sync_present_done := present_done;
  Pipeline.m_sync_cpu_gpu := cpu_gpu
|}.

(** [Pipeline::setupRenderPass]; the driver is asked for a render pass
    with one colour attachment of the swapchain's image format. *)
Definition setupRenderPass (vk_create_render_pass : Z -> VkResult * Handle)
    (swapchain_format : Z) (p : Pipeline.t) : VResult * Pipeline.t :=
  match vk_create_render_pass swapchain_format with
  | (VK_SUCCESS, render_pass) => (VOk, set_render_pass p render_pass)
  | (VK_FAILURE _, _) => (VError "Failed to create the render pass", p)
  end.

(** The creation calls of [createSyncObjects], in the order they are
    made. *)
Inductive SyncCall :=
| vkCreateSemaphore
| vkCreateFence (flags : Z).

Definition VK_FENCE_CREATE_SIGNALED_BIT : Z := 1.

(** What the driver answers to the creation of the image-ready
    semaphore, of the present-done semaphore and of the fence. *)
Record SyncEnv := {
  vk_create_image_ready : VkResult * Handle;
  vk_create_present_done : VkResult * Handle;
  vk_create_cpu_gpu : VkResult * Handle
}.

(** [Pipeline::createSyncObjects].  Each object is created only when its
    pointer is null; the pointer is set to a new cell, which holds the null
    handle, before the driver is called, and stays set when the call
    fails. *)
Definition createSyncObjects (env : SyncEnv) (p : Pipeline.t)
    : list SyncCall * (VResult * Pipeline.t) :=
  let continue_present_done (calls : list SyncCall) (p : Pipeline.t) :=
    let continue_cpu_gpu (calls : list SyncCall) (p : Pipeline.t) :=
      match Pipeline.m_sync_cpu_gpu p with
      | Some _ => (calls, (VOk, p))
      | None =>
          let calls := calls ++ [vkCreateFence VK_FENCE_CREATE_SIGNALED_BIT] in
          match vk_create_cpu_gpu env with
          | (VK_SUCCESS, fence) =>
              (calls, (VOk, set_sync p (Pipeline.m_sync_image_ready p)
                              (Pipeline.m_sync_present_done p) (Some fence)))
          | (VK_FAILURE _, _) =>
              (calls, (VError "< Failed to create the fence",
                       set_sync p (Pipeline.m_sync_image_ready p)
                         (Pipeline.m_sync_present_done p) (Some VK_NULL_HANDLE)))
          end
      end in
    match Pipeline.m_sync_present_done p with
    | Some _ => continue_cpu_gpu calls p
    | None =>
        let calls := calls ++ [vkCreateSemaphore] in
        match vk_create_present_done env with
        | (VK_SUCCESS, semaphore) =>
            continue_cpu_gpu calls
              (set_sync p (Pipeline.m_sync_image_ready p) (Some semaphore)
                 (Pipeline.m_sync_cpu_gpu p))
        | (VK_FAILURE _, _) =>
            (calls, (VError "< Failed to create the semaphore to signal present is done",
                     set_sync p (Pipeline.m_sync_image_ready p) (Some VK_NULL_HANDLE)
                       (Pipeline.m_sync_cpu_gpu p)))
        end
    end in
  match Pipeline.m_sync_image_ready p with
  | Some _ => continue_present_done [] p
  | None =>
      match vk_create_image_ready env with
      | (VK_SUCCESS, semaphore) =>
          continue_present_done [vkCreateSemaphore]
            (set_sync p (Some semaphore) (Pipeline.m_sync_present_done p)
               (Pipeline.m_sync_cpu_gpu p))
      | (VK_FAILURE _, _) =>
          ([vkCreateSemaphore],
           (VError "< Failed to create the semaphore to signal image ready",
            set_sync p (Some VK_NULL_HANDLE) (Pipeline.m_sync_present_done p)
              (Pipeline.m_sync_cpu_gpu p)))
      end
  end.

(** [Pipeline::preconfigure]. *)
Definition preconfigure (vk_create_pipeline_layout : VkResult * Handle)
    (sync_env : SyncEnv) (p : Pipeline.t) : VResult * Pipeline.t :=
  match vk_create_pipeline_layout with
  | (VK_FAILURE _, _) => (VError "Failed to create the pipeline layout!", p)
  | (VK_SUCCESS, layout) => snd (createSyncObjects sync_env (set_layout p layout))
  end.

(** What [Pipeline::create] hands to [vkCreateGraphicsPipelines], as far
    as it comes from the state of the engine. *)
Record VkGraphicsPipelineCreateInfo := {
  pStages : list VkPipelineShaderStageCreateInfo;
  viewport_extent : SwapChain.VkExtent2D;
  layout : Handle;
  renderPass : Handle
}.

(** [Pipeline::create]; [m_shader_stages] is the member of that name. *)
Definition create (m_shader_stages : list VkPipelineShaderStageCreateInfo)
    (swapchain_extent : SwapChain.VkExtent2D)
    (vk_create_graphics_pipelines : VkGraphicsPipelineCreateInfo -> VkResult * Handle)
    (p : Pipeline.t) : VResult * Pipeline.t :=
  if Z.of_nat (List.length m_shader_stages) =? 0
  then (VError "No shader stages to finalize the graphics pipeline creation - ok?", p)
  else if Pipeline.m_layout p =? VK_NULL_HANDLE
  then (VError "Cannot create the graphics pipeline without pipeline layout information", p)
  else
    let pipeline_info := {|
      pStages := m_shader_stages;
      viewport_extent := swapchain_extent;
      layout := Pipeline.m_layout p;
      renderPass := Pipeline.m_render_pass p |} in
    match vk_create_graphics_pipelines pipeline_info with
    | (VK_SUCCESS, pipeline) => (VOk, set_pipeline p pipeline)
    | (VK_FAILURE _, _) => (VError "Failed to create the main graphics pipeline", p)
    end.

End PipelineInit.
(** ** app/render.cpp: the creation of the renderer's resources *)

Module RenderInit.

(** The renderer together with the shader stages of its pipeline (the
    member [m_shader_stages] of [Pipeline], which only [Pipeline::create]
    reads). *)
Record t := {
  render : Render.t;
  m_shader_stages : list PipelineInit.VkPipelineShaderStageCreateInfo
}.

(** [Render::Render()] and the member initialisers: a new pipeline and two
    new command objects, whose members are indeterminate. *)
Definition fresh (graphics_command transfert_command : Command.t) : t := {|
  render := {|
    Render.m_surface := VK_NULL_HANDLE;
    Render.m_image_views := [];
    Render.m_framebuffers := [];
    Render.m_graphics_pipeline := Pipeline.fresh;
    Render.m_graphics_command := Some graphics_command;
    Render.m_transfert_command := Some transfert_command;
    Render.m_frame_index := 0 |};
  m_shader_stages := []
|}.

Definition set_render (r : t) (render' : Render.t) : t :=
  {| render := render'; m_shader_stages := m_shader_stages r |}.

Definition set_surface (r : Render.t) (h : Handle) : Render.t := {|
  Render.m_surface := h;
  Render.m_image_views := Render.m_image_views r;
  Render.m_framebuffers := Render.m_framebuffers r;
  Render.m_graphics_pipeline := Render.m_graphics_pipeline r;
  Render.m_graphics_command := Render.m_graphics_command r;
  Render.m_transfert_command := Render.m_transfert_command r;
  Render.m_frame_index := Render.m_frame_index r
|}.

Definition set_image_views (r : Render.t) (l : list Handle) : Render.t := {|
  Render.m_surface := Render.m_surface r;
  Render.m_image_views := l;
  Render.m_framebuffers := Render.m_framebuffers r;
  Render.m_graphics_pipeline := Render.m_graphics_pipeline r;
  Render.m_graphics_command := Render.m_graphics_command r;
  Render.m_transfert_command := Render.m_transfert_command r;
  Render.m_frame_index := Render.m_frame_index r
|}.

Definition set_framebuffers (r : Render.t) (l : list Handle) : Render.t := {|
  Render.m_surface := Render.m_surface r;
  Render.m_image_views := Render.m_image_views r;
  Render.m_framebuffers := l;
  Render.m_graphics_pipeline := Render.m_graphics_pipeline r;
  Render.m_graphics_command := Render.m_graphics_command r;
  Render.m_transfert_command := Render.m_transfert_command r;
  Render.m_frame_index := Render.m_frame_index r
|}.

Definition set_graphics_pipeline (r : Render.t) (p : Pipeline.t) : Render.t := {|
  Render.m_surface := Render.m_surface r;
  Render.m_image_views := Render.m_image_views r;
  Render.m_framebuffers := Render.m_framebuffers r;
  Render.m_graphics_pipeline := p;
  Render.m_graphics_command := Render.m_graphics_command r;
  Render.m_transfert_command := Render.m_transfert_command r;
  Render.m_frame_index := Render.m_frame_index r
|}.

Definition set_transfert_command (r : Render.t) (c : option Command.t) : Render.t := {|
  Render.m_surface := Render.m_surface r;
  Render.m_image_views := Render.m_image_views r;
  Render.m_framebuffers := Render.m_framebuffers r;
  Render.m_graphics_pipeline := Render.m_graphics_pipeline r;
  Render.m_graphics_command := Render.m_graphics_command r;
  Render.m_transfert_command := c;
  Render.m_frame_index := Render.m_frame_index r
|}.

(** [Render::createSurface]. *)
Definition createSurface (glfw_create_window_surface : VkResult * Handle)
    (r : Render.t) : VResult * Render.t :=
  match glfw_create_window_surface with
  | (VK_SUCCESS, surface) => (VOk, set_surface r surface)
  | (VK_FAILURE _, _) => (VError "failed to create a window surface", r)
  end.

(** [std::vector::resize] on a vector of handles: the first [n] elements
    are kept and null handles are appended up to [n]. *)
Definition resize (n : nat) (l : list Handle) : list Handle :=
  firstn n l ++ repeat VK_NULL_HANDLE (n - List.length l).

Record VkImageViewCreateInfo := {
  image : Handle;
  view_format : Z
}.

Definition image_view_error_msg (code : Z) : string :=
  if code =? -1 then "out of host memory"
  else if code =? -2 then "out of device memory"
  else "undocumented error".

(** The loop of [createImageViews], at index [i] with the images from
    [i] on still to visit. *)
Fixpoint createImageViews_loop
    (vk_create_image_view : VkImageViewCreateInfo -> VkResult * Handle)
    (swapchain_format : Z) (swapchain_images : list Handle) (i : nat)
    (image_views : list Handle) : VResult * list Handle :=
  match swapchain_images with
  | [] => (VOk, image_views)
  | swapchain_image :: rest =>
      let image_view_create_info :=
        {| image := swapchain_image; view_format := swapchain_format |} in
      match vk_create_image_view image_view_create_info with
      | (VK_SUCCESS, image_view) =>
          createImageViews_loop vk_create_image_view swapchain_format rest (S i)
            (set_nth i image_view image_views)
      | (VK_FAILURE code, _) => (VError (image_view_error_msg code), image_views)
      end
  end.

(** [Render::createImageViews]. *)
Definition createImageViews
    (vk_create_image_view : VkImageViewCreateInfo -> VkResult * Handle)
    (swapchain : SwapChain.t) (r : Render.t) : VResult * Render.t :=
  let swapchain_images := SwapChain.m_images swapchain in
  let nb_swapchain_images := List.length swapchain_images in
  let image_views := resize nb_swapchain_images (Render.m_image_views r) in
  let '(result, image_views) :=
    createImageViews_loop vk_create_image_view
      (SwapChain.format (SwapChain.m_format swapchain)) swapchain_images 0 image_views in
  (result, set_image_views r image_views).

Record VkFramebufferCreateInfo := {
  fb_renderPass : Handle;
  pAttachments : list Handle;
  fb_height : Z;
  fb_width : Z;
  layers : Z
}.

(** The loop of [createFramebuffers], at index [i] with the image views
    from [i] on still to visit. *)
Fixpoint createFramebuffers_loop
    (vk_create_framebuffer : VkFramebufferCreateInfo -> VkResult * Handle)
    (render_pass : Handle) (extent : SwapChain.VkExtent2D)
    (image_views : list Handle) (i : nat) (framebuffers : list Handle)
    : VResult * list Handle :=
  match image_views with
  | [] => (VOk, framebuffers)
  | image_view :: rest =>
      let framebuffer_info := {|
        fb_renderPass := render_pass;
        pAttachments := [image_view];
        fb_height := SwapChain.height extent;
        fb_width := SwapChain.width extent;
        layers := 1 |} in
      match vk_create_framebuffer framebuffer_info with
      | (VK_SUCCESS, framebuffer) =>
          createFramebuffers_loop vk_create_framebuffer render_pass extent rest (S i)
            (set_nth i framebuffer framebuffers)
      | (VK_FAILURE _, _) => (VError "> failed to create the framebuffers", framebuffers)
      end
  end.

(** [Render::createFramebuffers]. *)
Definition createFramebuffers
    (vk_create_framebuffer : VkFramebufferCreateInfo -> VkResult * Handle)
    (swapchain : SwapChain.t) (r : Render.t) : VResult * Render.t :=
  let framebuffers :=
    resize (List.length (Render.m_image_views r)) (Render.m_framebuffers r) in
  let '(result, framebuffers) :=
    createFramebuffers_loop vk_create_framebuffer
      (Pipeline.m_render_pass (Render.m_graphics_pipeline r))
      (SwapChain.m_extent swapchain) (Render.m_image_views r) 0 framebuffers in
  (result, set_framebuffers r framebuffers).

Definition shader_module_error_msg (code : Z) : string :=
  if code =? -1 then "out of host memory"
  else if code =? -2 then "out of device memory"
  else if code =? -1000012000 then "invalid shader"
  else "undocumented error".

(** The stage bit [createShaderModule] sets for a shader type. *)
Definition stage_of_type (type : PipelineInit.ShaderType) : Z :=
  match type with
  | PipelineInit.COMPUTE_SHADER => PipelineInit.VK_SHADER_STAGE_COMPUTE_BIT
  | PipelineInit.FRAGMENT_SHADER => PipelineInit.VK_SHADER_STAGE_FRAGMENT_BIT
  | PipelineInit.GEOMETRY_SHADER => PipelineInit.VK_SHADER_STAGE_GEOMETRY_BIT
  | PipelineInit.VERTEX_SHADER => PipelineInit.VK_SHADER_STAGE_VERTEX_BIT
  end.

(** The loop of [createShaderModule] over the compiled shaders. *)
Fixpoint createShaderModule_loop
    (vk_create_shader_module : PipelineInit.ShaderModule -> VkResult * Handle)
    (shaders_compiled : list PipelineInit.ShaderModule) (shader_index : nat)
    (shader_stages : list PipelineInit.VkPipelineShaderStageCreateInfo)
    (shader_modules : list Handle)
    : VResult * (list PipelineInit.VkPipelineShaderStageCreateInfo * list Handle) :=
  match shaders_compiled with
  | [] => (VOk, (shader_stages, shader_modules))
  | c_shader :: rest =>
      match vk_create_shader_module c_shader with
      | (VK_FAILURE code, _) =>
          (VError (shader_module_error_msg code), (shader_stages, shader_modules))
      | (VK_SUCCESS, shader_module) =>
          let shader_stage_create_info := {|
            PipelineInit.stage := stage_of_type (PipelineInit.m_type c_shader);
            PipelineInit.module := shader_module |} in
          createShaderModule_loop vk_create_shader_module rest (S shader_index)
            (set_nth shader_index shader_stage_create_info shader_stages)
            (set_nth shader_index shader_module shader_modules)
      end
  end.

(** What the file system and the driver answer during
    [createGraphicsPipeline].  [assertions] is a build without [NDEBUG],
    [debug] a build with [DEBUG], where [WARN] is [assert(0)]. *)
Record PipelineEnv := {
  assertions : bool;
  debug : bool;
  vertex_shader_file : PipelineInit.ShaderFile;
  fragment_shader_file : PipelineInit.ShaderFile;
  vk_create_shader_module : PipelineInit.ShaderModule -> VkResult * Handle;
  vk_create_render_pass : Z -> VkResult * Handle;
  vk_create_pipeline_layout : VkResult * Handle;
  sync_env : PipelineInit.SyncEnv;
  vk_create_graphics_pipelines :
    PipelineInit.VkGraphicsPipelineCreateInfo -> VkResult * Handle;
  vk_create_command_pool : Z -> VkResult * Handle;
  vk_allocate_command_buffers : Handle -> VkResult * Handle
}.

(** [Render::createShaderModule].  The statement [utils::VResult::Ok();]
    of the empty case has no [return], so the function goes on. *)
Definition createShaderModule (env : PipelineEnv) (r : t) : Outcome (VResult * t) :=
  shaders_compile_result <-
    PipelineInit.createGraphicsApplication (assertions env)
      "shaders/basic_triangle.vert.spv" "shaders/basic_triangle.frag.spv"
      (vertex_shader_file env) (fragment_shader_file env) ;;
  match shaders_compile_result with
  | Error _ => Returned (VError "cannot compile the application shaders", r)
  | Ok shaders_compiled =>
      let size := List.length shaders_compiled in
      let '(result, (shader_stages, shader_modules)) :=
        createShaderModule_loop (vk_create_shader_module env) shaders_compiled 0
          (repeat {| PipelineInit.stage := 0; PipelineInit.module := VK_NULL_HANDLE |} size)
          (repeat VK_NULL_HANDLE size) in
      match result with
      | VError msg => Returned (VError msg, r)
      | VOk =>
          if Z.of_nat (List.length shader_stages) <=? 0
          then
            if debug env && assertions env then AssertionFailed
            else Returned (VError "cannot set NULL shader stages", r)
          else
            Returned (VOk, {|
              render :=
                set_graphics_pipeline (render r)
                  (PipelineInit.setShaderModules
                     (Render.m_graphics_pipeline (render r)) shader_modules);
              m_shader_stages := shader_stages |})
      end
  end.

(** One step of [createGraphicsPipeline] on the pipeline of the
    renderer. *)
Definition on_pipeline (r : t) (step : Pipeline.t -> VResult * Pipeline.t)
    : VResult * t :=
  let '(result, p) := step (Render.m_graphics_pipeline (render r)) in
  (result, set_render r (set_graphics_pipeline (render r) p)).

(** One step on the transfer command object, and on the graphics command
    object; the shared pointers are dereferenced without a test. *)
Definition on_transfert_command (r : t) (step : Command.t -> VResult * Command.t)
    : Outcome (VResult * t) :=
  match Render.m_transfert_command (render r) with
  | None => Undefined
  | Some c =>
      let '(result, c) := step c in
      Returned (result, set_render r (set_transfert_command (render r) (Some c)))
  end.

Definition on_graphics_command (r : t) (step : Command.t -> VResult * Command.t)
    : Outcome (VResult * t) :=
  match Render.m_graphics_command (render r) with
  | None => Undefined
  | Some c =>
      let '(result, c) := step c in
      Returned (result, set_render r (Render.set_graphics_command (render r) (Some c)))
  end.

(** [if (const auto result = step; result.IsError()) return result;]. *)
Definition and_then (o : Outcome (VResult * t)) (k : t -> Outcome (VResult * t))
    : Outcome (VResult * t) :=
  '(result, r) <- o ;;
  match result with
  | VError msg => Returned (VError msg, r)
  | VOk => k r
  end.

(** [Render::createGraphicsPipeline]; [swapchain], [device] and
    [allocator] are the members of the engine it reads. *)
Definition createGraphicsPipeline (env : PipelineEnv) (swapchain : SwapChain.t)
    (device : Device.t) (allocator : Handle) (r : t) : Outcome (VResult * t) :=
  and_then (createShaderModule env r) (fun r =>
  and_then (Returned (on_pipeline r
      (PipelineInit.setupRenderPass (vk_create_render_pass env)
         (SwapChain.format (SwapChain.m_format swapchain))))) (fun r =>
  and_then (Returned (on_pipeline r
      (PipelineInit.preconfigure (vk_create_pipeline_layout env) (sync_env env)))) (fun r =>
  and_then (Returned (on_pipeline r
      (PipelineInit.create (m_shader_stages r) (SwapChain.m_extent swapchain)
         (vk_create_graphics_pipelines env)))) (fun r =>
  and_then (on_transfert_command r
      (CommandInit.createPool (vk_create_command_pool env)
         (Device.m_transfert_queue_family_index device))) (fun r =>
  and_then (on_transfert_command r
      (CommandInit.createBuffer (vk_allocate_command_buffers env))) (fun r =>
  and_then (on_graphics_command r
      (CommandInit.createPool (vk_create_command_pool env)
         (Device.m_graphics_queue_family_index device))) (fun r =>
  and_then (Returned (on_pipeline r
      (fun p => snd (Pipeline.createVertexBuffer allocator p)))) (fun r =>
  and_then (Returned (on_pipeline r
      (fun p => snd (Pipeline.createIndexBuffer allocator p)))) (fun r =>
  on_graphics_command r
    (CommandInit.createBuffer (vk_allocate_command_buffers env))))))))))).

End RenderInit.
(** ** app/engine.cpp: the initialisation *)

Module EngineInit.

Inductive State := UNINITIALIZED | INITIALIZED | ERROR.

(** The engine object; the renderer and the swapchain are unique
    pointers, [None] when null. *)
Record t := {
  m_state : State;
  m_descriptor_pool : Handle;
  m_allocator : Handle;
  m_graphics_instance : Handle;
  m_graphics_device : Device.t;
  m_render : option RenderInit.t;
  m_swapchain : option SwapChain.t
}.

(** [Engine::Engine()] and the member initialisers. *)
Definition fresh : t := {|
  m_state := UNINITIALIZED;
  m_descriptor_pool := VK_NULL_HANDLE;
  m_allocator := VK_NULL_HANDLE;
  m_graphics_instance := VK_NULL_HANDLE;
  m_graphics_device := Device.fresh;
  m_render := None;
  m_swapchain := None
|}.

(** [SwapChain::SwapChain()] and the member initialisers: the handle is
    null and the vectors are empty; the other members keep the
    indeterminate values of [indeterminate]. *)
Definition SwapChain_fresh (indeterminate : SwapChain.t) : SwapChain.t := {|
  SwapChain.m_swapchain := VK_NULL_HANDLE;
  SwapChain.m_details := {|
    SwapChain.capabilities := SwapChain.capabilities (SwapChain.m_details indeterminate);
    SwapChain.formats := [];
    SwapChain.present_modes := [] |};
  SwapChain.m_images := [];
  SwapChain.m_format := SwapChain.m_format indeterminate;
  SwapChain.m_extent := SwapChain.m_extent indeterminate;
  SwapChain.m_present_mode := SwapChain.m_present_mode indeterminate
|}.

(** What the platform and the driver answer during one run of
    [Engine::initialize].  [apple] is the [__APPLE__] build, [fps_limit]
    the value of [Project::APPLICATION_FPS_LIMIT]; the three
    [indeterminate] fields are the values the members without initialiser
    of a new command object or swapchain object start with. *)
Record InitEnv := {
  apple : bool;
  fps_limit : option Z;
  window_width : Z;
  window_height : Z;
  indeterminate_graphics_command : Handle * Handle;
  indeterminate_transfert_command : Handle * Handle;
  indeterminate_swapchain : SwapChain.t;
  vk_create_instance : VkResult * Handle;
  glfw_create_window_surface : VkResult * Handle;
  physical_devices : list Device.VkPhysicalDevice;
  queue_families : list Device.VkQueueFamily;
  vk_create_device : list Device.VkDeviceQueueCreateInfo -> VkResult * Handle;
  vk_get_queue : Z -> Handle;
  vma_create_allocator : VkResult * Handle;
  vk_create_descriptor_pool : VkResult * Handle;
  surface : SwapChain.Surface;
  vk_create_swapchain : SwapChain.VkSwapchainCreateInfoKHR -> VkResult * Handle;
  vk_swapchain_images : Handle -> list Handle;
  vk_create_image_view : RenderInit.VkImageViewCreateInfo -> VkResult * Handle;
  pipeline_env : RenderInit.PipelineEnv;
  vk_create_framebuffer : RenderInit.VkFramebufferCreateInfo -> VkResult * Handle
}.

Definition set_state (e : t) (s : State) : t := {|
  m_state := s;
  m_descriptor_pool := m_descriptor_pool e;
  m_allocator := m_allocator e;
  m_graphics_instance := m_graphics_instance e;
  m_graphics_device := m_graphics_device e;
  m_render := m_render e;
  m_swapchain := m_swapchain e
|}.

Definition set_descriptor_pool (e : t) (h : Handle) : t := {|
  m_state := m_state e;
  m_descriptor_pool := h;
  m_allocator := m_allocator e;
  m_graphics_instance := m_graphics_instance e;
  m_graphics_device := m_graphics_device e;
  m_render := m_render e;
  m_swapchain := m_swapchain e
|}.

Definition set_allocator (e : t) (h : Handle) : t := {|
  m_state := m_state e;
  m_descriptor_pool := m_descriptor_pool e;
  m_allocator := h;
  m_graphics_instance := m_graphics_instance e;
  m_graphics_device := m_graphics_device e;
  m_render := m_render e;
  m_swapchain := m_swapchain e
|}.

Definition set_graphics_instance (e : t) (h : Handle) : t := {|
  m_state := m_state e;
  m_descriptor_pool := m_descriptor_pool e;
  m_allocator := m_allocator e;
  m_graphics_instance := h;
  m_graphics_device := m_graphics_device e;
  m_render := m_render e;
  m_swapchain := m_swapchain e
|}.

Definition set_graphics_device (e : t) (d : Device.t) : t := {|
  m_state := m_state e;
  m_descriptor_pool := m_descriptor_pool e;
  m_allocator := m_allocator e;
  m_graphics_instance := m_graphics_instance e;
  m_graphics_device := d;
  m_render := m_render e;
  m_swapchain := m_swapchain e
|}.

Definition set_render (e : t) (r : option RenderInit.t) : t := {|
  m_state := m_state e;
  m_descriptor_pool := m_descriptor_pool e;
  m_allocator := m_allocator e;
  m_graphics_instance := m_graphics_instance e;
  m_graphics_device := m_graphics_device e;
  m_render := r;
  m_swapchain := m_swapchain e
|}.

Definition set_swapchain (e : t) (sc : option SwapChain.t) : t := {|
  m_state := m_state e;
  m_descriptor_pool := m_descriptor_pool e;
  m_allocator := m_allocator e;
  m_graphics_instance := m_graphics_instance e;
  m_graphics_device := m_graphics_device e;
  m_render := m_render e;
  m_swapchain := sc
|}.

Definition instance_error_msg (code : Z) : string :=
  if code =? -1 then "out of host memory"
  else if code =? -2 then "out of device memory"
  else if code =? -3 then "initialization memory"
  else if code =? -6 then "layer is not present"
  else if code =? -7 then "extension not present"
  else if code =? -9 then "incompatible driver"
  else "undocumented error".

(** [Engine::createGraphicsInstance]. *)
Definition createGraphicsInstance (env : InitEnv) (e : t) : VResult * t :=
  match vk_create_instance env with
  | (VK_SUCCESS, instance) => (VOk, set_graphics_instance e instance)
  | (VK_FAILURE code, _) => (VError (instance_error_msg code), e)
  end.

(** [Engine::createRenderDevice]; [Render::getInstance()] makes the
    renderer when there is none. *)
Definition createRenderDevice (env : InitEnv) (e : t) : VResult * t :=
  let r :=
    match m_render e with
    | Some r => r
    | None =>
        RenderInit.fresh
          (CommandInit.Command (fst (indeterminate_graphics_command env))
             (snd (indeterminate_graphics_command env)))
          (CommandInit.Command (fst (indeterminate_transfert_command env))
             (snd (indeterminate_transfert_command env)))
    end in
  let '(result, render) :=
    RenderInit.createSurface (glfw_create_window_surface env) (RenderInit.render r) in
  (result, set_render e (Some (RenderInit.set_render r render))).

(** [Engine::pickPhysicalDevice]. *)
Definition pickPhysicalDevice (env : InitEnv) (e : t) : VResult * t :=
  let '(result, d) :=
    Device.listDevices (apple env) (physical_devices env) (m_graphics_device e) in
  (result, set_graphics_device e d).

(** [Engine::createAllocator]. *)
Definition createAllocator (env : InitEnv) (e : t) : VResult * t :=
  match vma_create_allocator env with
  | (VK_SUCCESS, allocator) => (VOk, set_allocator e allocator)
  | (VK_FAILURE _, _) => (VError "Failed to initialize the internal allocator", e)
  end.

(** [Engine::createDescriptorPool]. *)
Definition createDescriptorPool (env : InitEnv) (e : t) : VResult * t :=
  match vk_create_descriptor_pool env with
  | (VK_SUCCESS, pool) => (VOk, set_descriptor_pool e pool)
  | (VK_FAILURE _, _) => (VError "Cannot create the descriptor pool", e)
  end.

(** What [SwapChain::create] reads from the engine and the driver. *)
Definition create_env (env : InitEnv) (e : t) : SwapChain.CreateEnv := {|
  SwapChain.fps_limit := fps_limit env;
  SwapChain.window_width := window_width env;
  SwapChain.window_height := window_height env;
  SwapChain.family_indices :=
    (Device.m_graphics_queue_family_index (m_graphics_device e),
     Device.m_presents_queue_family_index (m_graphics_device e),
     Device.m_transfert_queue_family_index (m_graphics_device e));
  SwapChain.vk_create_swapchain := vk_create_swapchain env;
  SwapChain.vk_swapchain_images := vk_swapchain_images env
|}.

(** [Engine::createSwapChain]; [SwapChain::getInstance()] makes the
    swapchain object when there is none.  [queryDetails] and [create]
    reach the surface through the renderer. *)
Definition createSwapChain (env : InitEnv) (e : t) : Outcome (VResult * t) :=
  let sc :=
    match m_swapchain e with
    | Some sc => sc
    | None => SwapChain_fresh (indeterminate_swapchain env)
    end in
  match m_render e with
  | None => Undefined
  | Some _ =>
      let sc := SwapChain.queryDetails (surface env) sc in
      '(result, sc) <-
        SwapChain.create (RenderInit.assertions (pipeline_env env)) (create_env env e) sc ;;
      Returned (result, set_swapchain e (Some sc))
  end.

(** The calls [m_graphics_device.getQueueFamilies()] and
    [m_graphics_device.createLogicalDevice()] of [initialize], with the
    assertion each of the two functions starts with. *)
Definition getQueueFamilies (env : InitEnv) (e : t) : Outcome (VResult * t) :=
  if RenderInit.assertions (pipeline_env env)
     && negb (Device.isInitialized (m_graphics_device e))
  then AssertionFailed
  else
    let '(result, d) := Device.getQueueFamilies (queue_families env) (m_graphics_device e) in
    Returned (match result with Ok _ => VOk | Error msg => VError msg end,
              set_graphics_device e d).

Definition createLogicalDevice (env : InitEnv) (e : t) : Outcome (VResult * t) :=
  if RenderInit.assertions (pipeline_env env)
     && (Device.m_physical_device (m_graphics_device e) =? VK_NULL_HANDLE)
  then AssertionFailed
  else
    let '(result, d) :=
      Device.createLogicalDevice (vk_create_device env) (vk_get_queue env)
        (m_graphics_device e) in
    Returned (result, set_graphics_device e d).

(** The calls [m_render->createImageViews()],
    [m_render->createGraphicsPipeline()] and [m_render->createFramebuffers()]
    of [initialize]. *)
Definition createImageViews (env : InitEnv) (e : t) : Outcome (VResult * t) :=
  match m_render e, m_swapchain e with
  | Some r, Some sc =>
      let '(result, render) :=
        RenderInit.createImageViews (vk_create_image_view env) sc (RenderInit.render r) in
      Returned (result, set_render e (Some (RenderInit.set_render r render)))
  | _, _ => Undefined
  end.

Definition createGraphicsPipeline (env : InitEnv) (e : t) : Outcome (VResult * t) :=
  match m_render e, m_swapchain e with
  | Some r, Some sc =>
      '(result, r) <-
        RenderInit.createGraphicsPipeline (pipeline_env env) sc (m_graphics_device e)
          (m_allocator e) r ;;
      Returned (result, set_render e (Some r))
  | _, _ => Undefined
  end.

Definition createFramebuffers (env : InitEnv) (e : t) : Outcome (VResult * t) :=
  match m_render e, m_swapchain e with
  | Some r, Some sc =>
      let '(result, render) :=
        RenderInit.createFramebuffers (vk_create_framebuffer env) sc (RenderInit.render r) in
      Returned (result, set_render e (Some (RenderInit.set_render r render)))
  | _, _ => Undefined
  end.

(** [if (const auto result = step; result.IsError())
    { m_state = State::ERROR; return; }]. *)
Definition attempt (o : Outcome (VResult * t)) (k : t -> Outcome t) : Outcome t :=
  '(result, e) <- o ;;
  match result with
  | VError _ => Returned (set_state e ERROR)
  | VOk => k e
  end.

(** [Engine::initialize]. *)
Definition initialize (env : InitEnv) (e : t) : Outcome t :=
  match m_state e with
  | INITIALIZED => Returned e
  | _ =>
      attempt (Returned (createGraphicsInstance env e)) (fun e =>
      if RenderInit.assertions (pipeline_env env)
         && (m_graphics_instance e =? VK_NULL_HANDLE)
      then AssertionFailed
      else
      attempt (Returned (createRenderDevice env e)) (fun e =>
      attempt (Returned (pickPhysicalDevice env e)) (fun e =>
      attempt (getQueueFamilies env e) (fun e =>
      attempt (createLogicalDevice env e) (fun e =>
      attempt (Returned (createAllocator env e)) (fun e =>
      attempt (Returned (createDescriptorPool env e)) (fun e =>
      attempt (createSwapChain env e) (fun e =>
      attempt (createImageViews env e) (fun e =>
      attempt (createGraphicsPipeline env e) (fun e =>
      attempt (createFramebuffers env e) (fun e =>
      if RenderInit.assertions (pipeline_env env)
         && negb (Device.isInitialized (m_graphics_device e))
      then AssertionFailed
      else Returned (set_state e INITIALIZED))))))))))))
  end.

(** The engine as the per-frame operations see it, once the renderer and
    the swapchain exist. *)
Definition engine (e : t) : option Engine.t :=
  match m_render e, m_swapchain e with
  | Some r, Some sc =>
      Some {| Engine.m_graphics_device := m_graphics_device e;
              Engine.m_allocator := m_allocator e;
              Engine.m_render := RenderInit.render r;
              Engine.m_swapchain := sc |}
  | _, _ => None
  end.

End EngineInit.
(** ** app/render.cpp and app/engine.cpp: the shutdown *)

Module EngineShutdown.

(** The destroy calls of the shutdown: the ones of the device, the
    swapchain, the pipeline and the command objects, and the ones the
    renderer and the engine make themselves. *)
Inductive Call : Type :=
| Native (call : NativeCall)
| vkDestroySurfaceKHR (instance surface : Handle)
| vkDestroyImageView (device image_view : Handle)
| vkDestroyFramebuffer (device framebuffer : Handle)
| vkDestroyDescriptorPool (device pool : Handle)
| vmaDestroyAllocator (allocator : Handle)
| vkDestroyInstance (instance : Handle).

(** The destructor of a command object held by a shared pointer that is
    reset; a null pointer destroys nothing. *)
Definition reset_command (device : Handle) (c : option Command.t) : list Call :=
  match c with
  | Some c => map Native (fst (Command.destructor device c))
  | None => []
  end.

(** [Render::~Render], in the order of the source: the pipeline (the
    renderer is the only owner of its shared pointer), the surface, the
    image views, the framebuffers, the graphics and the transfer command
    objects.  [instance], [device] and [allocator] are the members of the
    engine the destructors read. *)
Definition Render_destructor (instance device allocator : Handle) (r : Render.t)
    : list Call :=
  let c_pipeline :=
    map Native (fst (Pipeline.destructor device allocator (Render.m_graphics_pipeline r))) in
  let c_surface :=
    if negb (Render.m_surface r =? VK_NULL_HANDLE)
    then [vkDestroySurfaceKHR instance (Render.m_surface r)] else [] in
  let c_image_views :=
    if 0 <? Z.of_nat (List.length (Render.m_image_views r))
    then map (vkDestroyImageView device) (Render.m_image_views r) else [] in
  let c_framebuffers :=
    if 0 <? Z.of_nat (List.length (Render.m_framebuffers r))
    then map (vkDestroyFramebuffer device) (Render.m_framebuffers r) else [] in
  c_pipeline ++ c_surface ++ c_image_views ++ c_framebuffers
    ++ reset_command device (Render.m_graphics_command r)
    ++ reset_command device (Render.m_transfert_command r).

(** [Engine::~Engine]: the body, and then the destructor of the device
    member (the two unique pointers are null by then). *)
Definition destructor (e : EngineInit.t) : list Call :=
  let device := Device.m_logical_device (EngineInit.m_graphics_device e) in
  let c_swapchain :=
    match EngineInit.m_swapchain e with
    | Some sc => map Native (fst (SwapChain.destructor device sc))
    | None => []
    end in
  let c_render :=
    match EngineInit.m_render e with
    | Some r =>
        Render_destructor (EngineInit.m_graphics_instance e) device
          (EngineInit.m_allocator e) (RenderInit.render r)
    | None => []
    end in
  let c_descriptor_pool :=
    if negb (EngineInit.m_descriptor_pool e =? VK_NULL_HANDLE)
    then [vkDestroyDescriptorPool device (EngineInit.m_descriptor_pool e)] else [] in
  let c_allocator :=
    if negb (EngineInit.m_allocator e =? VK_NULL_HANDLE)
    then [vmaDestroyAllocator (EngineInit.m_allocator e)] else [] in
  let '(c_device, d) := Device.Destroy (EngineInit.m_graphics_device e) in
  let c_instance :=
    if negb (EngineInit.m_graphics_instance e =? VK_NULL_HANDLE)
    then [vkDestroyInstance (EngineInit.m_graphics_instance e)] else [] in
  let c_member := fst (Device.destructor d) in
  c_swapchain ++ c_render ++ c_descriptor_pool ++ c_allocator
    ++ map Native c_device ++ c_instance ++ map Native c_member.

End EngineShutdown.

(** ** app/memory.hpp *)

Module Memory.

Record VkMemoryType := {
  propertyFlags : Z;
  heapIndex : Z
}.

(** The loop of [findMemoryType], at [index] with the memory types from
    [index] on still to visit.  [1 << index] is an [int] converted to
    [uint32_t] for the bitwise and; the array of the driver has 32 entries,
    and an index of 32 or more reads outside it. *)
Fixpoint findMemoryType_loop (type_filter memory_property_flags : Z)
    (memoryTypes : list VkMemoryType) (index : Z) : Outcome (Result Z) :=
  match memoryTypes with
  | [] =>
      Returned
        (Error "findMemoryType: did not found any memory type with favorite filter / properties")
  | memory_type :: rest =>
      if 32 <=? index then Undefined
      else if negb (Z.land type_filter (to_u32 (Z.shiftl 1 index)) =? 0)
              && (Z.land (propertyFlags memory_type) memory_property_flags
                  =? memory_property_flags)
      then Returned (Ok index)
      else findMemoryType_loop type_filter memory_property_flags rest (index + 1)
  end.

(** [Memory::findMemoryType]; [memoryTypes] are the first [memoryTypeCount]
    entries of what [vkGetPhysicalDeviceMemoryProperties] reports. *)
Definition findMemoryType (memoryTypes : list VkMemoryType)
    (type_filter memory_property_flags : Z) : Outcome (Result Z) :=
  findMemoryType_loop type_filter memory_property_flags memoryTypes 0.

End Memory.

(** ** utils/arg_parse.h

    A C string is the [string] of its characters before the terminating
    NUL. *)

Module ArgParse.

Definition SMALL_FLAG_PREFIX : string := "-".
Definition LONG_FLAG_PREFIX : string := "--".
Definition SMALL_FLAG_PREFIX_LEN : nat := String.length SMALL_FLAG_PREFIX.
Definition LONG_FLAG_PREFIX_LEN : nat := String.length LONG_FLAG_PREFIX.
Definition MAX_FLAG_LEN : nat := 32.

(** [strncpy(dst, src, n)]: the characters written to [dst], the first [n]
    characters of [src] (all of them when it is shorter; with [n] or more
    characters no terminator is written, and the content is these [n]
    characters). *)
Definition strncpy (src : string) (n : nat) : string := substring 0 n src.

(** [strncmp(a, b, n) == 0]. *)
Definition strncmp_eq (a b : string) (n : nat) : bool :=
  String.eqb (substring 0 n a) (substring 0 n b).

Definition COPY_FLAG_STRING (src : string) : string := strncpy src MAX_FLAG_LEN.

(** [foundFlag]. *)
Definition foundFlag (arg : string) : bool :=
  if (String.length arg <? LONG_FLAG_PREFIX_LEN)%nat then false
  else
    let first_chars := strncpy arg LONG_FLAG_PREFIX_LEN in
    strncmp_eq first_chars SMALL_FLAG_PREFIX SMALL_FLAG_PREFIX_LEN
    || strncmp_eq first_chars LONG_FLAG_PREFIX LONG_FLAG_PREFIX_LEN.

(** The loop of the constructor.  [arguments] holds the entries in the
    order of their insertion: each key is a new allocation, so every
    insertion adds an entry. *)
Fixpoint ArgParse_loop (argv : list string) (found_flag : bool)
    (flag_to_match : string) (arguments : list (string * string))
    : list (string * string) :=
  match argv with
  | [] => arguments
  | arg :: rest =>
      if foundFlag arg
      then ArgParse_loop rest true (COPY_FLAG_STRING arg) arguments
      else if found_flag
      then
        let flag_name := COPY_FLAG_STRING flag_to_match in
        ArgParse_loop rest false (COPY_FLAG_STRING EmptyString) (arguments ++ [(flag_name, arg)])
      else ArgParse_loop rest found_flag flag_to_match arguments
  end.

(** [ArgParse::ArgParse(argc, argv)], with [argc] the length of [argv]. *)
Definition ArgParse (argv : list string) : list (string * string) :=
  if Z.of_nat (List.length argv) =? 0 then []
  else ArgParse_loop argv false (COPY_FLAG_STRING EmptyString) [].

End ArgParse.
(** ** A sample run of the initialisation *)

(** A family that can only do transfers. *)
Definition transfer_only_family : Device.VkQueueFamily :=
  {| Device.queueFlags := 4; Device.present_supported := false |}.

(** A file system with both shader files and a driver that creates every
    object it is asked for, in a build with assertions. *)
Definition pipeline_env_ok : RenderInit.PipelineEnv := {|
  RenderInit.assertions := true;
  RenderInit.debug := true;
  RenderInit.vertex_shader_file :=
    {| PipelineInit.file_size := Some 1504; PipelineInit.file_opens := true |};
  RenderInit.fragment_shader_file :=
    {| PipelineInit.file_size := Some 572; PipelineInit.file_opens := true |};
  RenderInit.vk_create_shader_module :=
    fun shader => (VK_SUCCESS, 5000 + PipelineInit.m_size shader);
  RenderInit.vk_create_render_pass := fun _ => (VK_SUCCESS, 104);
  RenderInit.vk_create_pipeline_layout := (VK_SUCCESS, 103);
  RenderInit.sync_env :=
    {| PipelineInit.vk_create_image_ready := (VK_SUCCESS, 106);
       PipelineInit.vk_create_present_done := (VK_SUCCESS, 107);
       PipelineInit.vk_create_cpu_gpu := (VK_SUCCESS, 108) |};
  RenderInit.vk_create_graphics_pipelines := fun _ => (VK_SUCCESS, 105);
  RenderInit.vk_create_command_pool := fun family_index => (VK_SUCCESS, 300 + family_index);
  RenderInit.vk_allocate_command_buffers := fun pool => (VK_SUCCESS, 100 + pool)
|}.

(** A machine with an integrated and a discrete GPU, three queue families
    and a swapchain of three images. *)
Definition init_env_ok : EngineInit.InitEnv := {|
  EngineInit.apple := false;
  EngineInit.fps_limit := Some 60;
  EngineInit.window_width := 1280;
  EngineInit.window_height := 720;
  EngineInit.indeterminate_graphics_command := (0, 0);
  EngineInit.indeterminate_transfert_command := (0, 0);
  EngineInit.indeterminate_swapchain := swapchain_fresh;
  EngineInit.vk_create_instance := (VK_SUCCESS, 1);
  EngineInit.glfw_create_window_surface := (VK_SUCCESS, 3);
  EngineInit.physical_devices := [integrated_gpu; discrete_gpu 12];
  EngineInit.queue_families :=
    [universal_family; present_only_family; transfer_only_family];
  EngineInit.vk_create_device := fun _ => (VK_SUCCESS, 9);
  EngineInit.vk_get_queue := fun family_index => 400 + family_index;
  EngineInit.vma_create_allocator := (VK_SUCCESS, 2);
  EngineInit.vk_create_descriptor_pool := (VK_SUCCESS, 4);
  EngineInit.surface := surface_two_to_eight;
  EngineInit.vk_create_swapchain := fun _ => (VK_SUCCESS, 77);
  EngineInit.vk_swapchain_images := fun _ => [221; 222; 223];
  EngineInit.vk_create_image_view :=
    fun info => (VK_SUCCESS, 1000 + RenderInit.image info);
  EngineInit.pipeline_env := pipeline_env_ok;
  EngineInit.vk_create_framebuffer :=
    fun info => (VK_SUCCESS, 1000 + hd 0 (RenderInit.pAttachments info))
|}.

(** The engine after that run. *)
Definition engine_initialized : EngineInit.t :=
  Eval vm_compute in
    match EngineInit.initialize init_env_ok EngineInit.fresh with
    | Returned e => e
    | _ => EngineInit.fresh
    end.
(** The engine of [engine_initialized] as the per-frame operations see
    it, and the application that starts its loop on it without an FPS
    limit. *)
Definition engine_initialized_frames : Engine.t :=
  Eval vm_compute in
    match EngineInit.engine engine_initialized with
    | Some e => e
    | None => engine_three_framebuffers
    end.

Definition application_initialized : Application.t := {|
  Application.m_current_frame := 1;
  Application.m_FPS_limit := None;
  Application.m_engine := engine_initialized_frames;
  Application.recorded_frames := repeat 0 10;
  Application.recorded_frames_index := 0;
  Application.m_app_timer := {| Timer.m_begin := Some 0; Timer.m_is_running := false |}
|}.

(** * Properties *)

(** ** Machine integers *)

Lemma to_u32_small x : 0 <= x < 2 ^ 32 -> to_u32 x = x.
Proof. intros H. unfold to_u32. now apply Z.mod_small. Qed.

Lemma to_i32_small x : - 2 ^ 31 <= x < 2 ^ 31 -> to_i32 x = x.
Proof. intros H. unfold to_i32. rewrite Z.mod_small; lia. Qed.

Lemma to_u64_small x : 0 <= x < 2 ^ 64 -> to_u64 x = x.
Proof. intros H. unfold to_u64. now apply Z.mod_small. Qed.

(** ** Selection of the physical device *)

Section ListDevices.

Import Device.

Variable apple : bool.

Lemma listDevices_loop_skips pre rest d :
  Forall (unsuitable apple) pre ->
  listDevices_loop apple (pre ++ rest) d = listDevices_loop apple rest d.
Proof.
  induction 1 as [|x pre Hx _ IH]; simpl; [reflexivity|].
  unfold unsuitable in Hx. now rewrite Hx.
Qed.

Lemma listDevices_nonempty x l d :
  listDevices apple (x :: l) d = listDevices_loop apple (x :: l) d.
Proof.
  unfold listDevices.
  replace (Z.of_nat (List.length (x :: l)) =? 0) with false; [reflexivity|].
  symmetry. apply Z.eqb_neq. simpl List.length. lia.
Qed.

Lemma isDeviceSuitable_spec device :
  isDeviceSuitable apple device = true <->
  pd_handle device <> 0 /\
  (deviceType (pd_properties device) = VK_PHYSICAL_DEVICE_TYPE_DISCRETE_GPU \/
   (apple = true /\
    (deviceName (pd_properties device) = "Apple M1"%string \/
     deviceName (pd_properties device) = "Apple M2"%string))).
Proof.
  unfold isDeviceSuitable, APPLE_M1_NAME, APPLE_M2_NAME.
  destruct (Z.eqb_spec (pd_handle device) 0) as [E|E].
  - split; [discriminate | intros [H _]; contradiction].
  - destruct (String.eqb_spec (deviceName (pd_properties device)) "Apple M1") as [E1|E1];
    destruct (String.eqb_spec (deviceName (pd_properties device)) "Apple M2") as [E2|E2];
    destruct (deviceType (pd_properties device)); destruct apple; simpl;
    split; intros H; try discriminate; try reflexivity;
    try (split; [assumption|]; auto; fail);
    destruct H as [_ [H|[H [H'|H']]]]; try discriminate; try contradiction.
Qed.

End ListDevices.

(** C6.  Whatever the platform, [listDevices] selects the first candidate,
    in the order of the enumeration, that [isDeviceSuitable] accepts: it
    returns Ok and the physical device of the object is the handle of that
    candidate, which is not null, whatever follows the candidate in the
    list; nothing else of the object is changed.  A non-empty list without
    a suitable candidate gives the error "no suitable physical device" and
    leaves the device as it was; the empty list gives the different error
    "no supported physical device".  A candidate is suitable exactly when
    its handle is not null and it is a discrete GPU or, in the Apple build,
    is named "Apple M1" or "Apple M2". *)
Theorem listDevices_selects_first_suitable
    (apple : bool) (pre post : list Device.VkPhysicalDevice)
    (device : Device.VkPhysicalDevice) (d : Device.t) :
  Forall (unsuitable apple) pre ->
  Device.isDeviceSuitable apple device = true ->
  (fst (Device.listDevices apple (pre ++ device :: post) d) = VOk
   /\ Device.m_physical_device (snd (Device.listDevices apple (pre ++ device :: post) d))
      = Device.pd_handle device
   /\ Device.pd_handle device <> VK_NULL_HANDLE
   /\ Device.listDevices apple (pre ++ device :: post) d
      = (VOk, {| Device.m_physical_device := Device.pd_handle device;
                 Device.m_queue_support := Device.m_queue_support d;
                 Device.m_queue_states := Device.m_queue_states d;
                 Device.m_logical_device := Device.m_logical_device d;
                 Device.m_graphics_queue_family_index :=
                   Device.m_graphics_queue_family_index d;
                 Device.m_presents_queue_family_index :=
                   Device.m_presents_queue_family_index d;
                 Device.m_transfert_queue_family_index :=
                   Device.m_transfert_queue_family_index d;
                 Device.m_graphics_queue := Device.m_graphics_queue d;
                 Device.m_presents_queue := Device.m_presents_queue d;
                 Device.m_transfert_queue := Device.m_transfert_queue d |}))
  /\ (pre <> [] ->
      Device.listDevices apple pre d = (VError "no suitable physical device", d))
  /\ Device.listDevices apple [] d = (VError "no supported physical device", d)
  /\ "no suitable physical device"%string <> "no supported physical device"%string
  /\ (forall x,
        Device.isDeviceSuitable apple x = true <->
        Device.pd_handle x <> 0 /\
        (Device.deviceType (Device.pd_properties x)
           = Device.VK_PHYSICAL_DEVICE_TYPE_DISCRETE_GPU \/
         (apple = true /\
          (Device.deviceName (Device.pd_properties x) = "Apple M1"%string \/
           Device.deviceName (Device.pd_properties x) = "Apple M2"%string)))).
Proof.
  intros Hpre Hdev.
  assert (Hsel : Device.listDevices apple (pre ++ device :: post) d
                 = (VOk, Device.set_physical_device d (Device.pd_handle device))).
  { destruct pre as [|x pre]; simpl app; rewrite listDevices_nonempty.
    - simpl. now rewrite Hdev.
    - change (x :: pre ++ device :: post) with ((x :: pre) ++ device :: post).
      rewrite (listDevices_loop_skips apple _ _ _ Hpre). simpl. now rewrite Hdev. }
  split; [|split; [|split; [|split]]].
  - rewrite Hsel. cbn [fst snd].
    split; [reflexivity|]. split; [reflexivity|]. split; [|reflexivity].
    apply (isDeviceSuitable_spec apple) in Hdev. exact (proj1 Hdev).
  - intros Hne. destruct pre as [|x pre]; [contradiction|].
    rewrite listDevices_nonempty.
    rewrite <- (app_nil_r (x :: pre)).
    now rewrite (listDevices_loop_skips apple _ _ _ Hpre).
  - reflexivity.
  - discriminate.
  - intros x. apply isDeviceSuitable_spec.
Qed.

Lemma listDevices_selects_first_suitable_witness :
  Forall (unsuitable false) [integrated_gpu]
  /\ Device.isDeviceSuitable false (discrete_gpu 12) = true
  /\ fst (Device.listDevices false ([integrated_gpu] ++ discrete_gpu 12 :: [discrete_gpu 13])
            Device.fresh) = VOk
  /\ Device.m_physical_device
       (snd (Device.listDevices false
               ([integrated_gpu] ++ discrete_gpu 12 :: [discrete_gpu 13]) Device.fresh))
     = 12.
Proof.
  assert (H1 : Forall (unsuitable false) [integrated_gpu])
    by (constructor; [reflexivity | constructor]).
  assert (H2 : Device.isDeviceSuitable false (discrete_gpu 12) = true) by reflexivity.
  split; [exact H1 | split; [exact H2 |]].
  destruct (proj1 (listDevices_selects_first_suitable false [integrated_gpu]
                     [discrete_gpu 13] (discrete_gpu 12) Device.fresh H1 H2))
    as (Hok & Hpd & _).
  split; [exact Hok | exact Hpd].
Defined.

(** ** Validation of the swapchain details and choice of its parameters *)

Section SwapChainChoice.

Import SwapChain.

Lemma present_mode_eqb_spec a b : reflect (a = b) (present_mode_eqb a b).
Proof. destruct a, b; simpl; constructor; congruence. Qed.

Lemma choosePresentMode_found fps_limit present_modes :
  In (PREFERED_PRESENTATION_MODE fps_limit) present_modes ->
  choosePresentMode fps_limit present_modes
    = Ok (PREFERED_PRESENTATION_MODE fps_limit).
Proof.
  induction present_modes as [|mode rest IH]; intros Hin; [destruct Hin|].
  simpl. destruct (present_mode_eqb_spec mode (PREFERED_PRESENTATION_MODE fps_limit))
    as [E|E].
  - now rewrite E.
  - destruct Hin as [Hin|Hin]; [contradiction | now apply IH].
Qed.

Lemma choosePresentMode_absent fps_limit present_modes :
  ~ In (PREFERED_PRESENTATION_MODE fps_limit) present_modes ->
  choosePresentMode fps_limit present_modes
    = Error "Our prefered presentation mode is not found".
Proof.
  induction present_modes as [|mode rest IH]; intros Hin; [reflexivity|].
  simpl. destruct (present_mode_eqb_spec mode (PREFERED_PRESENTATION_MODE fps_limit))
    as [E|E].
  - exfalso. apply Hin. now left.
  - apply IH. intros H. apply Hin. now right.
Qed.

Lemma checkDetails_ok_iff sc :
  checkDetails sc = VOk <->
  0 < minImageCount (capabilities (m_details sc)) /\
  minImageCount (capabilities (m_details sc)) <= MAX_BUFFERS
    <= maxImageCount (capabilities (m_details sc)) /\
  formats (m_details sc) <> [] /\
  present_modes (m_details sc) <> [].
Proof.
  unfold checkDetails.
  match goal with |- (if ?c then _ else _) = _ <-> _ => destruct c eqn:E end.
  - split; [intros _ | reflexivity].
    apply andb_true_iff in E as [E Hpos].
    apply andb_true_iff in E as [Hrange Hlists].
    apply andb_true_iff in Hrange as [Hmin Hmax].
    apply andb_true_iff in Hlists as [Hf Hp].
    apply Z.ltb_lt in Hpos. apply Z.leb_le in Hmin. apply Z.leb_le in Hmax.
    repeat split; try assumption.
    + destruct (formats (m_details sc)); [discriminate Hf | discriminate].
    + destruct (present_modes (m_details sc)); [discriminate Hp | discriminate].
  - split; [discriminate|]. intros (Hpos & [Hmin Hmax] & Hf & Hp). exfalso.
    apply Z.ltb_lt in Hpos. apply Z.leb_le in Hmin. apply Z.leb_le in Hmax.
    rewrite Hpos, Hmin, Hmax in E.
    destruct (formats (m_details sc)); [now apply Hf|].
    destruct (present_modes (m_details sc)); [now apply Hp|].
    discriminate E.
Qed.

Lemma queryDetails_details surface sc :
  m_details (queryDetails surface sc)
  = {| capabilities := surface_capabilities surface;
       formats := surface_formats surface;
       present_modes := surface_present_modes surface |}.
Proof.
  unfold queryDetails. simpl.
  destruct (surface_formats surface), (surface_present_modes surface); reflexivity.
Qed.

End SwapChainChoice.

(** C5.  For every list of available present modes, [choosePresentMode]
    returns the one preferred mode when the list contains it and an error
    when it does not, whatever else the list offers; the preferred mode is
    FIFO when an FPS limit is configured and the immediate mode otherwise.
    [chooseFormat], in contrast, returns the first entry of a non-empty list
    that has no preferred entry. *)
Theorem choosePresentMode_exact_match_no_fallback
    (fps_limit : option Z) (present_modes : list SwapChain.VkPresentModeKHR) :
  (In (SwapChain.PREFERED_PRESENTATION_MODE fps_limit) present_modes ->
   SwapChain.choosePresentMode fps_limit present_modes
     = Ok (SwapChain.PREFERED_PRESENTATION_MODE fps_limit))
  /\ (~ In (SwapChain.PREFERED_PRESENTATION_MODE fps_limit) present_modes ->
      SwapChain.choosePresentMode fps_limit present_modes
        = Error "Our prefered presentation mode is not found")
  /\ SwapChain.PREFERED_PRESENTATION_MODE fps_limit
       = match fps_limit with
         | Some _ => SwapChain.VK_PRESENT_MODE_FIFO_KHR
         | None => SwapChain.VK_PRESENT_MODE_IMMEDIATE_KHR
         end
  /\ (forall first rest,
        SwapChain.chooseFormat_loop (first :: rest) = None ->
        SwapChain.chooseFormat (first :: rest) = Some (Ok first)).
Proof.
  split; [apply choosePresentMode_found|].
  split; [apply choosePresentMode_absent|].
  split; [reflexivity|].
  intros first rest H. unfold SwapChain.chooseFormat. now rewrite H.
Qed.

Lemma choosePresentMode_exact_match_no_fallback_witness :
  ~ In (SwapChain.PREFERED_PRESENTATION_MODE (Some 60))
       [SwapChain.VK_PRESENT_MODE_IMMEDIATE_KHR]
  /\ SwapChain.choosePresentMode (Some 60) [SwapChain.VK_PRESENT_MODE_IMMEDIATE_KHR]
     = Error "Our prefered presentation mode is not found"
  /\ In (SwapChain.PREFERED_PRESENTATION_MODE (Some 60))
       [SwapChain.VK_PRESENT_MODE_MAILBOX_KHR; SwapChain.VK_PRESENT_MODE_FIFO_KHR]
  /\ SwapChain.choosePresentMode (Some 60)
       [SwapChain.VK_PRESENT_MODE_MAILBOX_KHR; SwapChain.VK_PRESENT_MODE_FIFO_KHR]
     = Ok SwapChain.VK_PRESENT_MODE_FIFO_KHR.
Proof.
  assert (H1 : ~ In (SwapChain.PREFERED_PRESENTATION_MODE (Some 60))
                    [SwapChain.VK_PRESENT_MODE_IMMEDIATE_KHR])
    by (simpl; intros [H|[]]; discriminate).
  assert (H2 : In (SwapChain.PREFERED_PRESENTATION_MODE (Some 60))
                  [SwapChain.VK_PRESENT_MODE_MAILBOX_KHR;
                   SwapChain.VK_PRESENT_MODE_FIFO_KHR])
    by (simpl; right; left; reflexivity).
  split; [exact H1|].
  split; [exact (proj1 (proj2 (choosePresentMode_exact_match_no_fallback (Some 60)
                    [SwapChain.VK_PRESENT_MODE_IMMEDIATE_KHR])) H1)|].
  split; [exact H2|].
  exact (proj1 (choosePresentMode_exact_match_no_fallback (Some 60)
           [SwapChain.VK_PRESENT_MODE_MAILBOX_KHR; SwapChain.VK_PRESENT_MODE_FIFO_KHR]) H2).
Defined.

(** C3, as stated, fails: on a surface whose minimum image count is zero
    the buffer count 3 lies within [0, 3] and both lists are non-empty, yet
    [checkDetails] after [queryDetails] returns an error. *)
Lemma checkDetails_rejects_zero_minimum :
  let sc := SwapChain.queryDetails surface_min_zero swapchain_fresh in
  let details := SwapChain.m_details sc in
  (SwapChain.minImageCount (SwapChain.capabilities details) <= SwapChain.MAX_BUFFERS
     <= SwapChain.maxImageCount (SwapChain.capabilities details)
   /\ SwapChain.formats details <> []
   /\ SwapChain.present_modes details <> [])
  /\ SwapChain.checkDetails sc = VError "The supported images count is incorrect".
Proof.
  vm_compute. repeat split; discriminate.
Qed.

(** C3, amended.  [queryDetails] followed by [checkDetails] succeeds if and
    only if the captured minimum image count is positive, the buffer count 3
    lies within the captured [minImageCount, maxImageCount], and the
    captured format and present-mode lists are both non-empty; in every
    other case [checkDetails] returns its error.  What is captured is what
    the surface reports. *)
Theorem queryDetails_checkDetails_iff
    (surface : SwapChain.Surface) (sc : SwapChain.t) :
  (SwapChain.checkDetails (SwapChain.queryDetails surface sc) = VOk <->
   0 < SwapChain.minImageCount (SwapChain.surface_capabilities surface) /\
   SwapChain.minImageCount (SwapChain.surface_capabilities surface) <= 3
     <= SwapChain.maxImageCount (SwapChain.surface_capabilities surface) /\
   SwapChain.surface_formats surface <> [] /\
   SwapChain.surface_present_modes surface <> [])
  /\ (SwapChain.checkDetails (SwapChain.queryDetails surface sc) = VOk \/
      SwapChain.checkDetails (SwapChain.queryDetails surface sc)
        = VError "The supported images count is incorrect").
Proof.
  split.
  - rewrite checkDetails_ok_iff, queryDetails_details. simpl. reflexivity.
  - unfold SwapChain.checkDetails.
    destruct (_ && _ && _); [left | right]; reflexivity.
Qed.

Lemma queryDetails_checkDetails_iff_witness :
  SwapChain.checkDetails (SwapChain.queryDetails surface_two_to_eight swapchain_fresh)
  = VOk.
Proof.
  apply (proj2 (proj1 (queryDetails_checkDetails_iff surface_two_to_eight
                         swapchain_fresh))).
  simpl. repeat split; (lia || discriminate).
Defined.

(** ** Sharing mode of the swapchain images *)

Lemma is_exclusive_spec i0 i1 i2 :
  SwapChain.is_exclusive (i0, i1, i2) = true <->
  (i0 = i1 /\ i2 = 1) \/ (i0 <> i1 /\ i2 = 0).
Proof.
  unfold SwapChain.is_exclusive.
  destruct (Z.eqb_spec i0 i1) as [E|E]; rewrite Z.eqb_eq; split; intros H.
  - left. split; congruence.
  - destruct H as [[_ H]|[H _]]; [congruence | contradiction].
  - right. split; congruence.
  - destruct H as [[H _]|[_ H]]; [contradiction | congruence].
Qed.

(** The three indices are all equal and the test still says "not
    exclusive", unless they are all 1. *)
Lemma is_exclusive_all_equal i :
  SwapChain.is_exclusive (i, i, i) = (i =? 1).
Proof.
  unfold SwapChain.is_exclusive. rewrite Z.eqb_refl.
  destruct (Z.eqb_spec 1 i), (Z.eqb_spec i 1); congruence.
Qed.

(** C4 at a failing input.  With the graphics, presents and transfer
    families 1, 2 and 0 (pairwise distinct), the test
    [indices[0] == indices[1] == indices[2]] is true: a build with
    assertions stops at [assert(!is_exclusive)], and a build without them
    fills the create-info with the exclusive sharing mode and no family
    indices.  The same happens for 0, 0 and 1, where only the transfer
    family differs. *)
Theorem create_info_exclusive_for_distinct_families (sc : SwapChain.t) :
  SwapChain.is_exclusive (1, 2, 0) = true
  /\ SwapChain.create_info true sc (1, 2, 0) = AssertionFailed
  /\ (exists info,
        SwapChain.create_info false sc (1, 2, 0) = Returned info
        /\ SwapChain.ci_imageSharingMode info = SwapChain.VK_SHARING_MODE_EXCLUSIVE
        /\ SwapChain.ci_pQueueFamilyIndices info = None
        /\ SwapChain.ci_queueFamilyIndexCount info = 0)
  /\ SwapChain.is_exclusive (0, 0, 1) = true
  /\ SwapChain.create_info true sc (0, 0, 1) = AssertionFailed.
Proof.
  split; [reflexivity|]. split; [reflexivity|].
  split; [|split; reflexivity].
  eexists. split; [reflexivity|]. simpl. repeat split.
Qed.

(** ** Assignment of the queue families *)

Section QueueFamilies.

Import Device.

(** The inner loop yields the first fit when there is one, and otherwise
    the last position it visited (the initial value when it visited
    none). *)
Lemma find_first_index_first_fit took flag families :
  forall i first_index,
    0 <= i -> i + Z.of_nat (List.length families) <= 2 ^ 32 ->
    find_first_index took flag families i first_index =
      match first_fit took flag families i with
      | Some j => j
      | None =>
          match families with
          | [] => first_index
          | _ => i + Z.of_nat (List.length families) - 1
          end
      end.
Proof.
  induction families as [|s rest IH]; intros i first_index Hi Hlen; [reflexivity|].
  simpl List.length in *. rewrite Nat2Z.inj_succ in *.
  cbn [find_first_index first_fit].
  rewrite (to_u32_small i) by lia.
  destruct (is_taken took i); simpl.
  - rewrite IH by lia. destruct (first_fit took flag rest (i + 1)); [reflexivity|].
    destruct rest; simpl List.length; [simpl; lia|].
    rewrite Nat2Z.inj_succ. lia.
  - destruct (Z.land s (bits flag) =? 0); simpl; [|reflexivity].
    rewrite IH by lia. destruct (first_fit took flag rest (i + 1)); [reflexivity|].
    destruct rest; simpl List.length; [simpl; lia|].
    rewrite Nat2Z.inj_succ. lia.
Qed.

(** What a first fit is: in range, not taken, supporting the flag, and
    preceded only by positions that are taken or do not support it. *)
Lemma first_fit_sound took flag families :
  forall i j,
    first_fit took flag families i = Some j ->
    i <= j < i + Z.of_nat (List.length families)
    /\ is_taken took j = false
    /\ Z.land (nth (Z.to_nat (j - i)) families 0) (bits flag) <> 0
    /\ forall k, i <= k < j ->
         is_taken took k = true
         \/ Z.land (nth (Z.to_nat (k - i)) families 0) (bits flag) = 0.
Proof.
  induction families as [|s rest IH]; intros i j H; [discriminate|].
  simpl List.length. rewrite Nat2Z.inj_succ.
  cbn [first_fit] in H.
  destruct (is_taken took i) eqn:Et; simpl in H.
  - apply IH in H as (Hr & Ht & Hs & Hb).
    replace (Z.to_nat (j - i)) with (S (Z.to_nat (j - (i + 1)))) by lia.
    split; [lia|]. split; [assumption|]. split; [assumption|].
    intros k Hk. destruct (Z.eq_dec k i) as [->|Hne]; [now left|].
    replace (Z.to_nat (k - i)) with (S (Z.to_nat (k - (i + 1)))) by lia.
    apply Hb. lia.
  - destruct (Z.eqb_spec (Z.land s (bits flag)) 0) as [Es|Es]; simpl in H.
    + apply IH in H as (Hr & Ht & Hs & Hb).
      replace (Z.to_nat (j - i)) with (S (Z.to_nat (j - (i + 1)))) by lia.
      split; [lia|]. split; [assumption|]. split; [assumption|].
      intros k Hk. destruct (Z.eq_dec k i) as [->|Hne].
      * right. now rewrite Z.sub_diag.
      * replace (Z.to_nat (k - i)) with (S (Z.to_nat (k - (i + 1)))) by lia.
        apply Hb. lia.
    + injection H as <-. rewrite Z.sub_diag. simpl.
      split; [lia|]. split; [assumption|]. split; [assumption|]. intros k Hk. lia.
Qed.

End QueueFamilies.

(** C1 at a failing input.  A device with a single queue family that
    supports the three roles passes [getQueueFamilies]; for the PRESENTS and
    the TRANSFER role no family is left, and [createLogicalDevice] returns no
    error: the inner loop ends with [first_index] at the last position, the
    test [first_index >= m_queue_support.size()] is false, and the three
    roles and the three queue-create entries all get family 0.  With a
    second family that can only present, the TRANSFER role gets that
    family, which does not support transfers and is the one of the PRESENTS
    role. *)
Theorem createLogicalDevice_reuses_family_without_error
    (vk_get_queue : Z -> Handle) (logical_device : Handle) :
  let d0 := Device.set_physical_device Device.fresh 1 in
  let d1 := snd (Device.getQueueFamilies [universal_family] d0) in
  let d2 := snd (Device.getQueueFamilies [universal_family; present_only_family] d0) in
  let create := fun _ : list Device.VkDeviceQueueCreateInfo => (VK_SUCCESS, logical_device) in
  fst (Device.getQueueFamilies [universal_family] d0) = Ok 1
  /\ Device.m_queue_support d1 = [7]
  /\ fst (Device.createLogicalDevice create vk_get_queue d1) = VOk
  /\ Device.m_graphics_queue_family_index
       (snd (Device.createLogicalDevice create vk_get_queue d1)) = 0
  /\ Device.m_presents_queue_family_index
       (snd (Device.createLogicalDevice create vk_get_queue d1)) = 0
  /\ Device.m_transfert_queue_family_index
       (snd (Device.createLogicalDevice create vk_get_queue d1)) = 0
  /\ map Device.queueFamilyIndex
       (Device.queues (snd (Device.assign_roles Device.supported_flags
                              (Device.roles_init d1)))) = [0; 0; 0]
  /\ fst (Device.getQueueFamilies [universal_family; present_only_family] d0) = Ok 2
  /\ Device.m_queue_support d2 = [7; 2]
  /\ fst (Device.createLogicalDevice create vk_get_queue d2) = VOk
  /\ Device.m_presents_queue_family_index
       (snd (Device.createLogicalDevice create vk_get_queue d2)) = 1
  /\ Device.m_transfert_queue_family_index
       (snd (Device.createLogicalDevice create vk_get_queue d2)) = 1.
Proof.
  cbv zeta. repeat split; reflexivity.
Qed.

(** With at least one family the inner loop always ends inside the table,
    so the test [first_index >= m_queue_support.size()] that guards the
    error can only succeed on an empty table. *)
Lemma find_first_index_in_range took flag families first_index :
  families <> [] ->
  Z.of_nat (List.length families) <= 2 ^ 32 ->
  0 <= Device.find_first_index took flag families 0 first_index
    < Z.of_nat (List.length families).
Proof.
  intros Hne Hlen.
  rewrite find_first_index_first_fit by lia.
  destruct (first_fit took flag families 0) as [j|] eqn:E.
  - apply first_fit_sound in E. lia.
  - destruct families; [contradiction|]. simpl List.length. lia.
Qed.

Section AssignRoles.

Import Device.

(** One turn of the outer loop when the role has a first fit. *)
Lemma assign_roles_step flag rest st j :
  flag <> NOONE ->
  Z.of_nat (List.length (m_queue_support (dev st))) < 2 ^ 31 ->
  first_fit (took_indices st) flag (m_queue_support (dev st)) 0 = Some j ->
  assign_roles (flag :: rest) st =
  assign_roles rest {|
    took_indices := set_nth (queue_index st) j (took_indices st);
    queue_index := S (queue_index st);
    queues := set_nth (queue_index st)
                {| queueFamilyIndex := j; queueCount := 1 |} (queues st);
    dev := set_family_index (set_queue_state (dev st) j USED) flag j |}.
Proof.
  intros Hflag Hlen Hfit.
  pose proof (first_fit_sound _ _ _ _ _ Hfit) as (Hr & _).
  cbn [assign_roles].
  rewrite find_first_index_first_fit, Hfit by lia.
  rewrite to_i32_small by lia.
  replace (Z.of_nat (List.length (m_queue_support (dev st))) <=? j) with false
    by (symmetry; apply Z.leb_gt; lia).
  destruct flag; [contradiction | reflexivity | reflexivity | reflexivity].
Qed.

(** When each role, in the order GRAPHICS, PRESENTS, TRANSFERT, has a first
    fit among the families the earlier roles left, the loop assigns these
    first fits, and they are pairwise distinct. *)
Lemma assign_roles_first_fit d jg jp jt :
  Z.of_nat (List.length (m_queue_support d)) < 2 ^ 31 ->
  first_fit [-1; -1; -1] GRAPHICS (m_queue_support d) 0 = Some jg ->
  first_fit [jg; -1; -1] PRESENTS (m_queue_support d) 0 = Some jp ->
  first_fit [jg; jp; -1] TRANSFERT (m_queue_support d) 0 = Some jt ->
  exists st,
    assign_roles supported_flags (roles_init d) = (VOk, st)
    /\ m_graphics_queue_family_index (dev st) = jg
    /\ m_presents_queue_family_index (dev st) = jp
    /\ m_transfert_queue_family_index (dev st) = jt
    /\ map queueFamilyIndex (queues st) = [jg; jp; jt]
    /\ jg <> jp /\ jg <> jt /\ jp <> jt.
Proof.
  intros Hlen Hg Hp Ht.
  pose proof (first_fit_sound _ _ _ _ _ Hg) as (Hrg & _).
  pose proof (first_fit_sound _ _ _ _ _ Hp) as (Hrp & Htp & _).
  pose proof (first_fit_sound _ _ _ _ _ Ht) as (Hrt & Htt & _).
  unfold supported_flags.
  rewrite (assign_roles_step GRAPHICS _ _ jg); [|discriminate|exact Hlen|exact Hg].
  cbn [roles_init took_indices queue_index queues dev set_nth].
  rewrite (assign_roles_step PRESENTS _ _ jp); [|discriminate|exact Hlen|exact Hp].
  cbn [took_indices queue_index queues dev set_nth].
  rewrite (assign_roles_step TRANSFERT _ _ jt); [|discriminate|exact Hlen|exact Ht].
  cbn [took_indices queue_index queues dev set_nth assign_roles repeat].
  eexists. split; [reflexivity|].
  cbn. repeat split; try reflexivity.
  - unfold is_taken in Htp. cbn [existsb] in Htp.
    rewrite (to_u32_small jg) in Htp by lia.
    destruct (Z.eqb_spec jg jp); [discriminate | assumption].
  - unfold is_taken in Htt. cbn [existsb] in Htt.
    rewrite (to_u32_small jg) in Htt by lia.
    destruct (Z.eqb_spec jg jt); [discriminate | assumption].
  - unfold is_taken in Htt. cbn [existsb] in Htt.
    rewrite (to_u32_small jg), (to_u32_small jp) in Htt by lia.
    destruct (Z.eqb_spec jp jt); [|assumption].
    rewrite orb_true_r in Htt. discriminate.
Qed.

End AssignRoles.

(** ** Vertex and index buffers *)

(** C8 at every input.  [createVertexBuffer] and [createIndexBuffer]
    destroy the buffer of their role when there is one, make no other native
    call (no allocation, no mapping, no copy), return [Ok], and leave the
    handle of their role null: after a successful call the pipeline holds no
    buffer of that role.  Called again, they make no call at all. *)
Theorem createVertexBuffer_leaves_null_buffer
    (resource_allocator : Handle) (p : Pipeline.t) :
  let '(calls, (result, p')) := Pipeline.createVertexBuffer resource_allocator p in
  let '(calls_i, (result_i, p_i)) := Pipeline.createIndexBuffer resource_allocator p in
  result = VOk
  /\ Pipeline.m_vertex_buffer p' = VK_NULL_HANDLE
  /\ calls = (if Pipeline.m_vertex_buffer p =? VK_NULL_HANDLE then []
              else [vmaDestroyBuffer resource_allocator (Pipeline.m_vertex_buffer p)
                      (Pipeline.m_vertex_buffer_allocation p)])
  /\ Pipeline.createVertexBuffer resource_allocator p' = ([], (VOk, p'))
  /\ result_i = VOk
  /\ Pipeline.m_index_buffer p_i = VK_NULL_HANDLE
  /\ calls_i = (if Pipeline.m_index_buffer p =? VK_NULL_HANDLE then []
                else [vmaDestroyBuffer resource_allocator (Pipeline.m_index_buffer p)
                        (Pipeline.m_index_buffer_allocation p)])
  /\ Pipeline.createIndexBuffer resource_allocator p_i = ([], (VOk, p_i)).
Proof.
  unfold Pipeline.createVertexBuffer, Pipeline.createIndexBuffer.
  destruct (Z.eqb_spec (Pipeline.m_vertex_buffer p) VK_NULL_HANDLE) as [Ev|Ev];
  destruct (Z.eqb_spec (Pipeline.m_index_buffer p) VK_NULL_HANDLE) as [Ei|Ei];
  simpl; rewrite ?Ev, ?Ei; simpl; repeat split; reflexivity.
Qed.

(** ** Teardown *)

Section Teardown.

Variables graphics_device resource_allocator : Handle.





End Teardown.



(** ** Recording of a frame *)

(** C10, as stated, fails in a build with the debug overlay: a successful
    [record] hands the command buffer, inside the render pass, to the
    overlay backend, which records the draws of the overlay into it.  With
    one draw command of 6 indices in the overlay's draw data, the recorded
    frame holds two indexed draws, the second one of 6 indices. *)
Lemma record_with_overlay_draws_geometry :
  exists c',
    Command.record record_env_imgui command_empty = (VOk, c')
    /\ indexed_draws (Command.commands c') = [0; 6]
    /\ List.length (indexed_draws (Command.commands c')) <> 1%nat
    /\ In (Command.ImGui_ImplVulkan_RenderDrawData [6]) (Command.commands c').
Proof.
  eexists. split; [reflexivity|]. vm_compute.
  split; [reflexivity|]. split; [discriminate|]. tauto.
Qed.

(** C10, amended.  Whatever the state of the engine and of the command
    object, a call of [Command::record] that returns [Ok] has itself issued
    exactly one [vkCmdDrawIndexed], with index count 0 (one instance, all
    offsets 0).  In a build without the debug overlay that is the only
    indexed draw of the recorded frame, which so draws no geometry.  In a
    build with the overlay the command buffer is then handed to the overlay
    backend, right after that draw and before the render pass is ended, and
    the indexed draws of the frame are that draw followed by the ones of
    the overlay. *)
Theorem record_indexed_draws
    (env : Command.RecordEnv) (c c' : Command.t) :
  Command.record env c = (VOk, c') ->
  filter is_draw_indexed (Command.commands c') = [Command.vkCmdDrawIndexed 0 1 0 0 0]
  /\ (forall indexCount instanceCount firstIndex vertexOffset firstInstance,
        In (Command.vkCmdDrawIndexed indexCount instanceCount firstIndex
              vertexOffset firstInstance) (Command.commands c') ->
        indexCount = 0)
  /\ indexed_draws (Command.commands c')
     = 0 :: (if Command.imgui env then Command.imgui_draw_data env else [])
  /\ (Command.imgui env = false -> indexed_draws (Command.commands c') = [0])
  /\ (Command.imgui env = true ->
      exists before,
        Command.commands c'
        = before
          ++ [Command.vkCmdDrawIndexed 0 1 0 0 0;
              Command.ImGui_ImplVulkan_RenderDrawData (Command.imgui_draw_data env);
              Command.vkCmdEndRenderPass]).
Proof.
  unfold Command.record. intros H.
  destruct (Command.vk_begin_command_buffer env); [|discriminate].
  destruct (Z.of_nat (List.length (Command.framebuffers env)) <=? Command.frame_index env);
    [discriminate|].
  destruct (Command.vk_end_command_buffer env); [|discriminate].
  injection H as <-. cbn [Command.commands Command.set_commands].
  split; [|split; [|split; [|split]]].
  - destruct (Command.imgui env); reflexivity.
  - intros ic inst fi vo fin Hin.
    destruct (Command.imgui env); cbn in Hin;
      repeat (destruct Hin as [Hin|Hin]; [try discriminate; congruence|]);
      destruct Hin.
  - destruct (Command.imgui env); cbn; [now rewrite app_nil_r | reflexivity].
  - intros ->. reflexivity.
  - intros ->. eexists. cbn [app].
    change (?a :: ?b :: ?c :: ?d :: ?e :: ?f :: ?g :: ?h :: ?i :: [])
      with ([a; b; c; d; e; f] ++ [g; h; i]).
    reflexivity.
Qed.

Lemma record_indexed_draws_witness :
  Command.record record_env_ok command_empty
    = (VOk, snd (Command.record record_env_ok command_empty))
  /\ indexed_draws
       (Command.commands (snd (Command.record record_env_ok command_empty)))
     = [0].
Proof.
  assert (H : Command.record record_env_ok command_empty
              = (VOk, snd (Command.record record_env_ok command_empty)))
    by reflexivity.
  split; [exact H|].
  exact (proj1 (proj2 (proj2 (proj2 (record_indexed_draws record_env_ok command_empty
                                       _ H)))) eq_refl).
Defined.

(** ** The frame index *)

Lemma bind_Returned {A B} (o : Outcome A) (k : A -> Outcome B) b :
  bind o k = Returned b -> exists a, o = Returned a /\ k a = Returned b.
Proof. destruct o; simpl; intros H; try discriminate. eauto. Qed.

Section FrameCalls.

Import Engine.

(** What the driver's store of the acquired image changes: the frame
    index. *)
Lemma store_acquired_image_spec env e :
  let index := match acquired_image env with
               | Some image => to_u32 image
               | None => Render.m_frame_index (m_render e)
               end in
  Render.m_frame_index (m_render (store_acquired_image env e)) = index
  /\ Render.m_framebuffers (m_render (store_acquired_image env e))
     = Render.m_framebuffers (m_render e)
  /\ Render.m_graphics_command (m_render (store_acquired_image env e))
     = Render.m_graphics_command (m_render e)
  /\ Render.m_graphics_pipeline (m_render (store_acquired_image env e))
     = Render.m_graphics_pipeline (m_render e)
  /\ m_swapchain (store_acquired_image env e) = m_swapchain e.
Proof.
  unfold store_acquired_image. destruct (acquired_image env); cbn; repeat split.
Qed.

(** [acquireImage] is defined exactly when the pointers to the fence and
    to the image-ready semaphore are not null. *)
Lemma acquireImage_Returned env e e' :
  acquireImage env e = Returned e' <->
  Pipeline.m_sync_cpu_gpu (Render.m_graphics_pipeline (m_render e)) <> None
  /\ Pipeline.m_sync_image_ready (Render.m_graphics_pipeline (m_render e)) <> None
  /\ e' = store_acquired_image env e.
Proof.
  unfold acquireImage. cbv zeta.
  destruct (Pipeline.m_sync_cpu_gpu (Render.m_graphics_pipeline (m_render e)));
    [|split; [discriminate | intros [H _]; contradiction]].
  destruct (Pipeline.m_sync_image_ready (Render.m_graphics_pipeline (m_render e))).
  - split.
    + intros H. injection H as <-. repeat split; discriminate.
    + intros (_ & _ & ->). reflexivity.
  - split; [discriminate | intros (_ & H & _); contradiction].
Qed.

(** [present] is defined exactly when the present-done pointer is not
    null, and changes nothing. *)
Lemma present_Returned e e' :
  present e = Returned e' <->
  Pipeline.m_sync_present_done (Render.m_graphics_pipeline (m_render e)) <> None
  /\ e' = e.
Proof.
  unfold present.
  destruct (Pipeline.m_sync_present_done (Render.m_graphics_pipeline (m_render e))).
  - split.
    + intros H. injection H as <-. split; [discriminate | reflexivity].
    + intros [_ ->]. reflexivity.
  - split; [discriminate | intros [H _]; contradiction].
Qed.

(** [draw] with a command object and the three synchronisation objects:
    it hands [record] an emptied buffer, which [record] empties anyway, and
    returns what the submission gives. *)
Lemma draw_unfold env e c :
  Render.m_graphics_command (m_render e) = Some c ->
  sync_objects_exist (Render.m_graphics_pipeline (m_render e)) ->
  draw env e =
  Returned
    (match vk_queue_submit env with
     | VK_SUCCESS => Ok 0
     | VK_FAILURE _ => Error "Error submitting the queue in Draw call"
     end,
     set_render e
       (Render.set_graphics_command (m_render e)
          (Some (snd (Command.record (record_env env e) c))))).
Proof.
  intros Hc (Hir & Hpd & Hcg). unfold draw. rewrite Hc.
  assert (Hrec : Command.record (record_env env e) (Command.set_commands c [])
                 = Command.record (record_env env e) c).
  { unfold Command.record. reflexivity. }
  rewrite Hrec.
  destruct (Command.record (record_env env e) c) as [res c'].
  destruct (Pipeline.m_sync_image_ready (Render.m_graphics_pipeline (m_render e)));
    [|contradiction].
  destruct (Pipeline.m_sync_present_done (Render.m_graphics_pipeline (m_render e)));
    [|contradiction].
  destruct (Pipeline.m_sync_cpu_gpu (Render.m_graphics_pipeline (m_render e)));
    [|contradiction].
  destruct (vk_queue_submit env); reflexivity.
Qed.

(** With a command object, [draw] is undefined when one of the three
    pointers is null. *)
Lemma draw_Undefined env e c :
  Render.m_graphics_command (m_render e) = Some c ->
  ~ sync_objects_exist (Render.m_graphics_pipeline (m_render e)) ->
  draw env e = Undefined.
Proof.
  intros Hc Hn. unfold draw. rewrite Hc.
  destruct (Command.record (record_env env e) (Command.set_commands c [])) as [res c'].
  unfold sync_objects_exist in Hn.
  destruct (Pipeline.m_sync_image_ready (Render.m_graphics_pipeline (m_render e)));
    [|reflexivity].
  destruct (Pipeline.m_sync_present_done (Render.m_graphics_pipeline (m_render e)));
    [|reflexivity].
  destruct (Pipeline.m_sync_cpu_gpu (Render.m_graphics_pipeline (m_render e)));
    [|reflexivity].
  exfalso. apply Hn. repeat split; discriminate.
Qed.

(** What [draw] keeps when it returns: everything but the graphics
    command object. *)
Lemma draw_Returned env e result e' :
  draw env e = Returned (result, e') ->
  Render.m_framebuffers (m_render e') = Render.m_framebuffers (m_render e)
  /\ Render.m_graphics_pipeline (m_render e') = Render.m_graphics_pipeline (m_render e)
  /\ Render.m_frame_index (m_render e') = Render.m_frame_index (m_render e)
  /\ m_swapchain e' = m_swapchain e
  /\ m_graphics_device e' = m_graphics_device e.
Proof.
  unfold draw.
  destruct (Render.m_graphics_command (m_render e)) as [cb|].
  - destruct (Command.record (record_env env e) (Command.set_commands cb []))
      as [res c'].
    destruct (Pipeline.m_sync_image_ready (Render.m_graphics_pipeline (m_render e)));
      [|discriminate].
    destruct (Pipeline.m_sync_present_done (Render.m_graphics_pipeline (m_render e)));
      [|discriminate].
    destruct (Pipeline.m_sync_cpu_gpu (Render.m_graphics_pipeline (m_render e)));
      [|discriminate].
    destruct (vk_queue_submit env); intros H; injection H as _ <-;
      cbn; repeat split.
  - intros H. injection H as _ <-. repeat split.
Qed.

End FrameCalls.

Section FrameIndex.

Import Application.

(** What the three calls of a frame keep: the framebuffers and the
    pipeline.  They return only when the three pointers to the
    synchronisation objects are not null. *)
Lemma render_frame_Returned env e e' :
  render_frame env e = Returned e' ->
  Render.m_framebuffers (Engine.m_render e') = Render.m_framebuffers (Engine.m_render e)
  /\ Render.m_graphics_pipeline (Engine.m_render e')
     = Render.m_graphics_pipeline (Engine.m_render e)
  /\ sync_objects_exist (Render.m_graphics_pipeline (Engine.m_render e)).
Proof.
  unfold render_frame. intros H.
  apply bind_Returned in H as (e1 & Ha & H).
  apply bind_Returned in H as ([result e2] & Hd & Hp).
  apply acquireImage_Returned in Ha as (Hcg & Hir & ->).
  apply draw_Returned in Hd as (Hf & Hg & _).
  apply present_Returned in Hp as [Hpd ->].
  destruct (store_acquired_image_spec env e) as (_ & Hf0 & _ & Hg0 & _).
  rewrite Hg, Hg0 in Hpd.
  split; [congruence|]. split; [congruence|]. repeat split; assumption.
Qed.

(** With the three synchronisation objects the three calls return. *)
Lemma render_frame_returns env e :
  sync_objects_exist (Render.m_graphics_pipeline (Engine.m_render e)) ->
  exists e', render_frame env e = Returned e'.
Proof.
  intros Hs. pose proof Hs as (Hir & Hpd & Hcg).
  unfold render_frame.
  rewrite (proj2 (acquireImage_Returned env e _) (conj Hcg (conj Hir eq_refl))).
  cbn [bind].
  destruct (store_acquired_image_spec env e) as (_ & _ & Hc0 & Hg0 & _).
  destruct (Render.m_graphics_command (Engine.m_render e)) as [c|] eqn:Ec.
  - rewrite (draw_unfold env _ c Hc0) by (rewrite Hg0; exact Hs). cbn [bind].
    eexists. apply present_Returned. split; [|reflexivity].
    cbn [Engine.m_render Engine.set_render Render.set_graphics_command
           Render.m_graphics_pipeline].
    rewrite Hg0. exact Hpd.
  - unfold Engine.draw at 1. rewrite Hc0. cbn [bind].
    eexists. apply present_Returned. split; [|reflexivity]. rewrite Hg0. exact Hpd.
Qed.

(** Without one of the two semaphores the three calls are undefined,
    whatever the other pointers are. *)
Lemma render_frame_Undefined env e :
  Pipeline.m_sync_image_ready (Render.m_graphics_pipeline (Engine.m_render e)) = None
  \/ Pipeline.m_sync_present_done (Render.m_graphics_pipeline (Engine.m_render e)) = None ->
  render_frame env e = Undefined.
Proof.
  intros H. unfold render_frame, Engine.acquireImage. cbv zeta.
  destruct (Pipeline.m_sync_cpu_gpu
              (Render.m_graphics_pipeline (Engine.m_render e))) as [cg|] eqn:Ecg;
    [|reflexivity].
  destruct (Pipeline.m_sync_image_ready
              (Render.m_graphics_pipeline (Engine.m_render e))) as [ir|] eqn:Eir;
    [|reflexivity].
  destruct H as [H|Hpd]; [discriminate|].
  cbn [bind].
  destruct (store_acquired_image_spec env e) as (_ & _ & Hc0 & Hg0 & _).
  destruct (Render.m_graphics_command (Engine.m_render e)) as [c|] eqn:Ec.
  - rewrite (draw_Undefined env _ c Hc0); [reflexivity|].
    rewrite Hg0. intros (_ & Hn & _). contradiction.
  - unfold Engine.draw at 1. rewrite Hc0. cbn [bind].
    unfold Engine.present. rewrite Hg0, Hpd. reflexivity.
Qed.

(** What [advance_frame] does to the counter and to the index. *)
Lemma advance_frame_spec a a' :
  advance_frame a = Returned a' ->
  framebuffer_count a <> 0
  /\ framebuffer_count a' = framebuffer_count a
  /\ m_current_frame a' = to_u64 (m_current_frame a + 1)
  /\ frame_index a' = to_u32 (to_u32 (m_current_frame a) mod framebuffer_count a)
  /\ m_FPS_limit a' = m_FPS_limit a.
Proof.
  unfold advance_frame, Render.updateFrameIndex, framebuffer_count, frame_index.
  destruct (Z.eqb_spec
              (Z.of_nat (List.length (Render.m_framebuffers (Engine.m_render (m_engine a)))))
              0) as [E|E]; simpl; [discriminate|].
  intros H. injection H as <-. simpl. repeat split; auto.
Qed.

(** A frame that returns has advanced the counter by one and set the
    index from the counter it started with. *)
Lemma drawFrame_spec env clock a a' clock' :
  drawFrame env clock a = Returned (a', clock') ->
  framebuffer_count a <> 0
  /\ framebuffer_count a' = framebuffer_count a
  /\ m_current_frame a' = to_u64 (m_current_frame a + 1)
  /\ frame_index a' = to_u32 (to_u32 (m_current_frame a) mod framebuffer_count a)
  /\ m_FPS_limit a' = m_FPS_limit a.
Proof.
  unfold drawFrame. intros H.
  assert (Hfb : forall e1 rt tm,
            render_frame env (m_engine a) = Returned e1 ->
            framebuffer_count
              (set_app_timer (record_frame_time rt (set_engine a e1)) tm)
            = framebuffer_count a).
  { intros e1 rt tm Hrf. apply render_frame_Returned in Hrf as (Hf & _).
    unfold framebuffer_count. simpl. now rewrite Hf. }
  assert (Hfb' : forall e1 rt,
            render_frame env (m_engine a) = Returned e1 ->
            framebuffer_count (record_frame_time rt (set_engine a e1))
            = framebuffer_count a).
  { intros e1 rt Hrf. apply render_frame_Returned in Hrf as (Hf & _).
    unfold framebuffer_count. simpl. now rewrite Hf. }
  destruct (m_FPS_limit a) as [limit|] eqn:Elim.
  - apply bind_Returned in H as ([wu c1] & _ & H).
    apply bind_Returned in H as ([tm c2] & _ & H).
    apply bind_Returned in H as (e1 & Hrf & H).
    apply bind_Returned in H as ([rt c3] & _ & H).
    destruct (Fp.uint64_of_double wu); [|discriminate].
    apply bind_Returned in H as ([tm' c4] & _ & H).
    apply bind_Returned in H as (a1 & Hadv & H).
    injection H as -> _.
    apply advance_frame_spec in Hadv. rewrite (Hfb e1 rt tm' Hrf) in Hadv.
    simpl in Hadv. rewrite Elim in Hadv. exact Hadv.
  - apply bind_Returned in H as ([tm c2] & _ & H).
    apply bind_Returned in H as (e1 & Hrf & H).
    apply bind_Returned in H as ([rt c3] & _ & H).
    apply bind_Returned in H as (a1 & Hadv & H).
    injection H as -> _.
    apply advance_frame_spec in Hadv. rewrite (Hfb' e1 rt Hrf) in Hadv.
    simpl in Hadv. rewrite Elim in Hadv. exact Hadv.
Qed.

(** A frame that returns has found the three pointers to the
    synchronisation objects not null, and leaves the pipeline as it was. *)
Lemma drawFrame_pipeline env clock a a' clock' :
  drawFrame env clock a = Returned (a', clock') ->
  Render.m_graphics_pipeline (Engine.m_render (m_engine a'))
  = Render.m_graphics_pipeline (Engine.m_render (m_engine a))
  /\ sync_objects_exist (Render.m_graphics_pipeline (Engine.m_render (m_engine a))).
Proof.
  unfold drawFrame. intros H.
  assert (Hadv : forall b b',
            advance_frame b = Returned b' ->
            Render.m_graphics_pipeline (Engine.m_render (m_engine b'))
            = Render.m_graphics_pipeline (Engine.m_render (m_engine b))).
  { intros b b' Hb. unfold advance_frame, Render.updateFrameIndex in Hb.
    destruct (Z.of_nat (List.length (Render.m_framebuffers (Engine.m_render (m_engine b))))
              =? 0); [discriminate|].
    cbn [bind] in Hb. injection Hb as <-. reflexivity. }
  destruct (m_FPS_limit a) as [limit|] eqn:Elim.
  - apply bind_Returned in H as ([wu c1] & _ & H).
    apply bind_Returned in H as ([tm c2] & _ & H).
    apply bind_Returned in H as (e1 & Hrf & H).
    apply bind_Returned in H as ([rt c3] & _ & H).
    destruct (Fp.uint64_of_double wu); [|discriminate].
    apply bind_Returned in H as ([tm' c4] & _ & H).
    apply bind_Returned in H as (a1 & Ha1 & H).
    injection H as -> _.
    apply Hadv in Ha1. cbn in Ha1.
    apply render_frame_Returned in Hrf as (_ & Hg & Hsync).
    split; [congruence | exact Hsync].
  - apply bind_Returned in H as ([tm c2] & _ & H).
    apply bind_Returned in H as (e1 & Hrf & H).
    apply bind_Returned in H as ([rt c3] & _ & H).
    apply bind_Returned in H as (a1 & Ha1 & H).
    injection H as -> _.
    apply Hadv in Ha1. cbn in Ha1.
    apply render_frame_Returned in Hrf as (_ & Hg & Hsync).
    split; [congruence | exact Hsync].
Qed.

Variable world : N -> Engine.FrameEnv * list Z.

Lemma iter_frame_count n a :
  fst (N.iter n (frame world) (0%N, Returned a)) = n.
Proof.
  induction n as [|n IH] using N.peano_ind; [reflexivity|].
  rewrite N.iter_succ. destruct (N.iter n (frame world) (0%N, Returned a)) as [k o].
  simpl in *. now subst.
Qed.

Lemma drawFrames_succ n a :
  drawFrames world (N.succ n) a =
    (a_n <- drawFrames world n a ;;
     '(a', _) <- drawFrame (fst (world n)) (snd (world n)) a_n ;;
     Returned a').
Proof.
  unfold drawFrames. rewrite N.iter_succ.
  pose proof (iter_frame_count n a) as Hk.
  destruct (N.iter n (frame world) (0%N, Returned a)) as [k o].
  simpl in *. now subst.
Qed.

(** The state of the counter and of the index after [n] frames, from an
    application whose counter is 1 and whose index is 0. *)
Lemma drawFrames_spec n : forall a a_n,
  m_current_frame a = 1 -> frame_index a = 0 ->
  drawFrames world n a = Returned a_n ->
  framebuffer_count a_n = framebuffer_count a
  /\ m_current_frame a_n = to_u64 (1 + Z.of_N n)
  /\ frame_index a_n = (Z.of_N n mod 2 ^ 32) mod framebuffer_count a
  /\ m_FPS_limit a_n = m_FPS_limit a.
Proof.
  induction n as [|n IH] using N.peano_ind; intros a a_n Hc Hi H.
  - unfold drawFrames in H. simpl in H. injection H as <-.
    rewrite Hc, Hi. repeat split; reflexivity.
  - rewrite drawFrames_succ in H.
    apply bind_Returned in H as (a1 & H1 & H).
    apply bind_Returned in H as ([a2 c] & H2 & H). injection H as <-.
    destruct (IH a a1 Hc Hi H1) as (Hb1 & Hc1 & _ & Hl1).
    apply drawFrame_spec in H2 as (Hnz & Hb2 & Hc2 & Hi2 & Hl2).
    rewrite Hb1 in *.
    assert (Hpos : 0 < framebuffer_count a)
      by (unfold framebuffer_count in *; lia).
    split; [assumption|].
    split.
    { rewrite Hc2, Hc1. unfold to_u64. rewrite N2Z.inj_succ.
      rewrite Zplus_mod_idemp_l. f_equal. lia. }
    split; [|congruence].
    rewrite Hi2, Hc1. rewrite N2Z.inj_succ.
    assert (Hu : to_u32 (to_u64 (1 + Z.of_N n)) = Z.succ (Z.of_N n) mod 2 ^ 32).
    { unfold to_u32, to_u64.
      replace (2 ^ 64) with (2 ^ 32 * 2 ^ 32) by reflexivity.
      rewrite Z.rem_mul_r by lia.
      rewrite Z.mul_comm, Z_mod_plus_full, Z.mod_mod by lia.
      f_equal. lia. }
    rewrite Hu. apply to_u32_small.
    pose proof (Z.mod_pos_bound (Z.succ (Z.of_N n)) (2 ^ 32) ltac:(lia)).
    pose proof (Z.mod_pos_bound (Z.succ (Z.of_N n) mod 2 ^ 32) (framebuffer_count a) Hpos).
    pose proof (Z.mod_le (Z.succ (Z.of_N n) mod 2 ^ 32) (framebuffer_count a)
                  ltac:(lia) Hpos).
    lia.
Qed.

(** The frames leave the pipeline as it was, and after at least one frame
    that returned the three pointers to the synchronisation objects are
    not null. *)
Lemma drawFrames_pipeline n : forall a a_n,
  drawFrames world n a = Returned a_n ->
  Render.m_graphics_pipeline (Engine.m_render (m_engine a_n))
  = Render.m_graphics_pipeline (Engine.m_render (m_engine a))
  /\ ((0 < n)%N ->
      sync_objects_exist (Render.m_graphics_pipeline (Engine.m_render (m_engine a_n)))).
Proof.
  induction n as [|n IH] using N.peano_ind; intros a a_n H.
  - unfold drawFrames in H. simpl in H. injection H as <-.
    split; [reflexivity | intros Hn; exfalso; now apply (N.lt_irrefl 0)].
  - rewrite drawFrames_succ in H.
    apply bind_Returned in H as (a1 & H1 & H).
    apply bind_Returned in H as ([a2 c] & H2 & H). injection H as <-.
    destruct (IH a a1 H1) as (Hp1 & _).
    apply drawFrame_pipeline in H2 as (Hp2 & Hsync).
    split; [congruence|]. intros _. rewrite Hp2. exact Hsync.
Qed.

End FrameIndex.

Section UnlimitedFrames.

Import Application.

(** Without an FPS limit a frame reads the clock twice and returns. *)
Lemma drawFrame_unlimited_returns env t0 t1 rest a :
  m_FPS_limit a = None ->
  framebuffer_count a <> 0 ->
  sync_objects_exist (Render.m_graphics_pipeline (Engine.m_render (m_engine a))) ->
  exists a', drawFrame env (t0 :: t1 :: rest) a = Returned (a', rest).
Proof.
  intros Hlim Hfb Hsync. unfold drawFrame. rewrite Hlim.
  cbn [Timer.Timer Timer.NOW_MS bind].
  destruct (render_frame_returns env (m_engine a) Hsync) as [e1 He1].
  rewrite He1. cbn [bind Timer.diff Timer.NOW_MS Timer.m_begin].
  apply render_frame_Returned in He1 as (Hf & _).
  unfold advance_frame, Render.updateFrameIndex.
  cbn [m_engine record_frame_time set_engine].
  rewrite Hf.
  unfold framebuffer_count in Hfb.
  destruct (Z.eqb_spec
              (Z.of_nat (List.length (Render.m_framebuffers (Engine.m_render (m_engine a)))))
              0) as [E|E]; [contradiction|].
  cbn [bind]. eauto.
Qed.

Variable world : N -> Engine.FrameEnv * list Z.

Hypothesis two_readings :
  forall k, exists t0 t1 rest, snd (world k) = t0 :: t1 :: rest.

Lemma drawFrames_unlimited_returns n a :
  m_FPS_limit a = None ->
  framebuffer_count a <> 0 ->
  sync_objects_exist (Render.m_graphics_pipeline (Engine.m_render (m_engine a))) ->
  m_current_frame a = 1 -> frame_index a = 0 ->
  exists a_n, drawFrames world n a = Returned a_n.
Proof.
  intros Hlim Hfb Hsync Hc Hi.
  induction n as [|n IH] using N.peano_ind.
  - exists a. reflexivity.
  - destruct IH as [a_n Hn].
    destruct (drawFrames_spec world n a a_n Hc Hi Hn) as (Hb & _ & _ & Hl).
    destruct (drawFrames_pipeline world n a a_n Hn) as (Hp & _).
    destruct (two_readings n) as (t0 & t1 & rest & Hw).
    destruct (drawFrame_unlimited_returns (fst (world n)) t0 t1 rest a_n)
      as [a' Ha']; [congruence | congruence | rewrite Hp; exact Hsync |].
    exists a'. rewrite drawFrames_succ, Hn. simpl. rewrite Hw, Ha'. reflexivity.
Qed.

End UnlimitedFrames.

(** C2, as stated, fails: after 2^32 presented frames on three framebuffers
    the frame index is 0, and 2^32 mod 3 is 1.  (The application runs
    without an FPS limit here, so that every frame returns.) *)
Lemma frame_index_after_2_pow_32_frames :
  exists a_n,
    Application.drawFrames world_ok (2 ^ 32) (application_start None) = Returned a_n
    /\ Application.frame_index a_n = 0
    /\ Z.of_N (2 ^ 32) mod Application.framebuffer_count (application_start None) = 1
    /\ Application.frame_index a_n
         <> Z.of_N (2 ^ 32) mod Application.framebuffer_count (application_start None).
Proof.
  assert (Hw : forall k, exists t0 t1 rest, snd (world_ok k) = t0 :: t1 :: rest).
  { intros k. unfold world_ok, clock_of_frame. cbn [snd]. cbv zeta.
    do 3 eexists. reflexivity. }
  assert (Hfb : Application.framebuffer_count (application_start None) <> 0)
    by discriminate.
  assert (Hsync : sync_objects_exist
                    (Render.m_graphics_pipeline
                       (Engine.m_render
                          (Application.m_engine (application_start None)))))
    by (repeat split; discriminate).
  destruct (drawFrames_unlimited_returns world_ok Hw (2 ^ 32)
              (application_start None) eq_refl Hfb Hsync eq_refl eq_refl) as [a_n Hn].
  exists a_n. split; [exact Hn|].
  destruct (drawFrames_spec world_ok (2 ^ 32) (application_start None) a_n
              eq_refl eq_refl Hn) as (_ & _ & Hi & _).
  clear Hn. rewrite Hi.
  split; [reflexivity|]. split; [reflexivity|]. discriminate.
Qed.

(** C2, amended.  From the start of the loop (frame counter 1, frame index
    0), after [n] presented frames the frame index is [(n mod 2^32) mod B],
    where [B] is the number of framebuffers: the 64-bit counter is cut to 32
    bits before the remainder is taken.  So it is [n mod B] as long as fewer
    than 2^32 frames were presented.  With at least one framebuffer the
    index is below [B] after every frame, and also between the acquisition
    of the next image and the update, provided the driver hands out an index
    below [B]; after at least one frame that acquisition is defined (the
    frames that returned have found the fence and the image-ready
    semaphore). *)
Theorem frame_index_after_presented_frames
    (world : N -> Engine.FrameEnv * list Z) (n : N) (a a_n : Application.t) :
  Application.m_current_frame a = 1 ->
  Application.frame_index a = 0 ->
  Application.drawFrames world n a = Returned a_n ->
  let B := Application.framebuffer_count a in
  Application.frame_index a_n = (Z.of_N n mod 2 ^ 32) mod B
  /\ (Z.of_N n < 2 ^ 32 -> Application.frame_index a_n = Z.of_N n mod B)
  /\ (0 < B ->
      0 <= Application.frame_index a_n < B
      /\ forall env,
           (forall image, Engine.acquired_image env = Some image -> to_u32 image < B) ->
           0 <= Render.m_frame_index
                  (Engine.m_render
                     (Engine.store_acquired_image env (Application.m_engine a_n)))
             < B
           /\ (forall e',
                 Engine.acquireImage env (Application.m_engine a_n) = Returned e' ->
                 0 <= Render.m_frame_index (Engine.m_render e') < B)
           /\ ((0 < n)%N ->
               exists e',
                 Engine.acquireImage env (Application.m_engine a_n) = Returned e')).
Proof.
  intros Hc Hi Hn B.
  destruct (drawFrames_spec world n a a_n Hc Hi Hn) as (_ & _ & Hidx & _).
  fold B in Hidx.
  split; [assumption|]. split.
  - intros Hlt. rewrite Hidx. f_equal. apply Z.mod_small. lia.
  - intros HB.
    assert (Hr : 0 <= Application.frame_index a_n < B)
      by (rewrite Hidx; apply Z.mod_pos_bound; assumption).
    split; [assumption|].
    intros env Hdrv.
    assert (Hst : 0 <= Render.m_frame_index
                         (Engine.m_render
                            (Engine.store_acquired_image env (Application.m_engine a_n)))
                  < B).
    { unfold Engine.store_acquired_image.
      destruct (Engine.acquired_image env) as [image|] eqn:E; simpl.
      - specialize (Hdrv image eq_refl).
        pose proof (Z.mod_pos_bound image (2 ^ 32) ltac:(lia)). unfold to_u32 in *. lia.
      - exact Hr. }
    split; [exact Hst|]. split.
    + intros e' He'. apply acquireImage_Returned in He' as (_ & _ & ->). exact Hst.
    + intros Hpos. eexists. apply acquireImage_Returned.
      destruct (drawFrames_pipeline world n a a_n Hn) as (_ & Hs).
      destruct (Hs Hpos) as (Hir & _ & Hcg).
      split; [exact Hcg|]. split; [exact Hir | reflexivity].
Qed.

Lemma frame_index_after_presented_frames_witness :
  Application.m_current_frame (application_start (Some 60)) = 1
  /\ Application.frame_index (application_start (Some 60)) = 0
  /\ Application.drawFrames world_ok 7 (application_start (Some 60))
     = Returned application_after_7
  /\ Application.frame_index application_after_7 = 1.
Proof.
  assert (H : Application.drawFrames world_ok 7 (application_start (Some 60))
              = Returned application_after_7) by (vm_compute; reflexivity).
  split; [reflexivity|]. split; [reflexivity|]. split; [exact H|].
  exact (proj1 (frame_index_after_presented_frames world_ok 7
                  (application_start (Some 60)) application_after_7
                  eq_refl eq_refl H)).
Defined.

(** ** Frame pacing

    First what the floating-point computation of the deadline gives, then
    what [block_until] does with it. *)

Section FloatFacts.

(** The number of binary digits of a mantissa. *)
Lemma digits2_pos_size p : digits2_pos p = Pos.size p.
Proof. induction p; simpl; congruence. Qed.

Lemma digits2_pos_log2 p : Zpos (digits2_pos p) = Z.log2 (Zpos p) + 1.
Proof.
  rewrite digits2_pos_size. destruct p; simpl; try reflexivity;
  rewrite Pos2Z.inj_succ; lia.
Qed.

Lemma digits2_pos_unique p d :
  0 < d -> 2 ^ (d - 1) <= Zpos p < 2 ^ d -> Zpos (digits2_pos p) = d.
Proof.
  intros Hd H. rewrite digits2_pos_log2.
  rewrite (Z.log2_unique (Zpos p) (d - 1)); [lia | lia |].
  replace (Z.succ (d - 1)) with d by lia. exact H.
Qed.

(** Aligning a mantissa to a smaller exponent multiplies it by a power of
    two. *)
Lemma iter_xO p n : Zpos (Pos.iter xO p n) = Zpos p * 2 ^ Zpos n.
Proof.
  induction n as [|n IH] using Pos.peano_ind.
  - simpl. lia.
  - rewrite Pos.iter_succ, Pos2Z.inj_xO, IH, Pos2Z.inj_succ, Z.pow_succ_r by lia.
    lia.
Qed.

(** One step of the right shift: the mantissa is halved, the bit shifted
    out becomes the round bit, and the old round bit is kept in the sticky
    bit. *)
Lemma shr_1_nonneg m r s :
  0 <= m ->
  shr_1 {| shr_m := m; shr_r := r; shr_s := s |}
  = {| shr_m := m / 2; shr_r := Z.odd m; shr_s := r || s |}.
Proof.
  intros Hm. rewrite <- Z.div2_div.
  destruct m as [|[p|p|]|]; try reflexivity. lia.
Qed.

Lemma shr_1_high A c r s :
  0 <= A -> 0 <= c ->
  shr_1 {| shr_m := A * 2 + c; shr_r := r; shr_s := s |}
  = lift A (shr_1 {| shr_m := c; shr_r := r; shr_s := s |})
  /\ 0 <= shr_m (shr_1 {| shr_m := c; shr_r := r; shr_s := s |}).
Proof.
  intros HA Hc. rewrite !shr_1_nonneg by lia. unfold lift. simpl.
  split; [|apply Z.div_pos; lia].
  f_equal.
  - rewrite Z.add_comm, Z.div_add by lia. lia.
  - rewrite Z.add_comm, Z.mul_comm. apply Z.odd_add_mul_2.
Qed.

Lemma pow_xO n : 2 ^ Zpos n~0 = 2 ^ Zpos n * 2 ^ Zpos n.
Proof.
  replace (Zpos n~0) with (Zpos n + Zpos n) by lia.
  apply Z.pow_add_r; lia.
Qed.

Lemma pow_xI n : 2 ^ Zpos n~1 = 2 ^ Zpos n * 2 ^ Zpos n * 2.
Proof.
  replace (Zpos n~1) with (Zpos n + Zpos n + 1) by lia.
  rewrite !Z.pow_add_r by lia. lia.
Qed.

(** Shifting [A * 2^n + c] right by [n] bits: the high part [A] passes
    through, and the round and sticky bits depend on [c] alone. *)
Lemma iter_shr_1_high n : forall A c r s,
  0 <= A -> 0 <= c ->
  iter_pos shr_1 n {| shr_m := A * 2 ^ Zpos n + c; shr_r := r; shr_s := s |}
  = lift A (iter_pos shr_1 n {| shr_m := c; shr_r := r; shr_s := s |})
  /\ 0 <= shr_m (iter_pos shr_1 n {| shr_m := c; shr_r := r; shr_s := s |}).
Proof.
  induction n as [n IH|n IH|]; intros A c r s HA Hc.
  - cbn [iter_pos]. pose proof (Z.pow_pos_nonneg 2 (Zpos n) ltac:(lia) ltac:(lia)) as HP.
    replace (A * 2 ^ Zpos n~1 + c) with (A * 2 ^ Zpos n * 2 ^ Zpos n * 2 + c)
      by (rewrite pow_xI; lia).
    destruct (shr_1_high (A * 2 ^ Zpos n * 2 ^ Zpos n) c r s) as [E1 P1]; [nia | lia |].
    rewrite E1.
    destruct (shr_1 {| shr_m := c; shr_r := r; shr_s := s |}) as [c1 r1 s1].
    unfold lift at 1. cbn [shr_m shr_r shr_s] in *.
    destruct (IH (A * 2 ^ Zpos n) c1 r1 s1) as [E2 P2]; [nia | lia |].
    rewrite E2.
    destruct (iter_pos shr_1 n {| shr_m := c1; shr_r := r1; shr_s := s1 |}) as [c2 r2 s2].
    unfold lift at 1. cbn [shr_m shr_r shr_s] in *.
    apply IH; lia.
  - cbn [iter_pos]. pose proof (Z.pow_pos_nonneg 2 (Zpos n) ltac:(lia) ltac:(lia)) as HP.
    replace (A * 2 ^ Zpos n~0 + c) with (A * 2 ^ Zpos n * 2 ^ Zpos n + c)
      by (rewrite pow_xO; lia).
    destruct (IH (A * 2 ^ Zpos n) c r s) as [E2 P2]; [nia | lia |].
    rewrite E2.
    destruct (iter_pos shr_1 n {| shr_m := c; shr_r := r; shr_s := s |}) as [c2 r2 s2].
    unfold lift at 1. cbn [shr_m shr_r shr_s] in *.
    apply IH; lia.
  - cbn [iter_pos]. replace (A * 2 ^ 1 + c) with (A * 2 + c) by lia.
    apply shr_1_high; lia.
Qed.


(** The mantissa after a right shift by [n] bits. *)
Lemma iter_shr_1_m n : forall c r s,
  0 <= c ->
  shr_m (iter_pos shr_1 n {| shr_m := c; shr_r := r; shr_s := s |})
  = c / 2 ^ Zpos n.
Proof.
  induction n as [n IH|n IH|]; intros c r s Hc.
  - pose proof (Z.pow_pos_nonneg 2 (Zpos n) ltac:(lia) ltac:(lia)) as HP.
    cbn [iter_pos]. rewrite shr_1_nonneg by lia.
    assert (Hc2 : 0 <= c / 2) by (apply Z.div_pos; lia).
    pose proof (IH (c / 2) (Z.odd c) (r || s) Hc2) as E1.
    destruct (iter_pos shr_1 n {| shr_m := c / 2; shr_r := Z.odd c; shr_s := r || s |})
      as [c1 r1 s1]. cbn [shr_m] in E1. subst c1.
    rewrite IH by (apply Z.div_pos; lia).
    rewrite pow_xI, !Z.div_div by lia. f_equal. lia.
  - pose proof (Z.pow_pos_nonneg 2 (Zpos n) ltac:(lia) ltac:(lia)) as HP.
    cbn [iter_pos].
    pose proof (IH c r s Hc) as E1.
    destruct (iter_pos shr_1 n {| shr_m := c; shr_r := r; shr_s := s |})
      as [c1 r1 s1]. cbn [shr_m] in E1. subst c1.
    rewrite IH by (apply Z.div_pos; lia).
    rewrite pow_xO, !Z.div_div by lia. reflexivity.
  - cbn [iter_pos]. rewrite shr_1_nonneg by lia. reflexivity.
Qed.

Lemma fexp_53 d : -1021 <= d -> fexp 53 1024 d = d - 53.
Proof. intros H. unfold fexp, emin. lia. Qed.

(** A 53-bit mantissa with an exponent in range is already rounded. *)
Lemma binary_round_aux_exact m e :
  Zpos (digits2_pos m) = 53 -> -1074 <= e <= 971 ->
  binary_round_aux 53 1024 false (Zpos m) e loc_Exact = S754_finite false m e.
Proof.
  intros Hd He. unfold binary_round_aux, shr_fexp. cbn [Zdigits2].
  rewrite Hd, fexp_53 by lia.
  replace (53 + e - 53 - e) with 0 by lia.
  cbn [shr shr_record_of_loc loc_of_shr_record round_nearest_even shr_m Zdigits2].
  rewrite Hd, fexp_53 by lia.
  replace (53 + e - 53 - e) with 0 by lia.
  cbn [shr shr_record_of_loc shr_m].
  replace (e <=? 1024 - 53) with true by (symmetry; apply Z.leb_le; lia).
  reflexivity.
Qed.

(** A mantissa of [53 + k] bits is shifted right by [k] bits and rounded
    to nearest, ties to even. *)
Lemma binary_round_aux_shift s e k q :
  Zpos (digits2_pos s) = 53 + Zpos k ->
  -1074 <= e + Zpos k <= 971 ->
  (let rec := iter_pos shr_1 k
                {| shr_m := Zpos s; shr_r := false; shr_s := false |} in
   round_nearest_even (shr_m rec) (loc_of_shr_record rec) = Zpos q) ->
  Zpos (digits2_pos q) = 53 ->
  binary_round_aux 53 1024 false (Zpos s) e loc_Exact
  = S754_finite false q (e + Zpos k).
Proof.
  intros Hd He Hq Hdq. unfold binary_round_aux, shr_fexp. cbn [Zdigits2].
  rewrite Hd, fexp_53 by lia.
  replace (53 + Zpos k + e - 53 - e) with (Zpos k) by lia.
  cbn [shr shr_record_of_loc]. cbv zeta in Hq. rewrite Hq.
  cbn [Zdigits2]. rewrite Hdq, fexp_53 by lia.
  replace (53 + (e + Zpos k) - 53 - (e + Zpos k)) with 0 by lia.
  cbn [shr shr_record_of_loc shr_m].
  replace (e + Zpos k <=? 1024 - 53) with true by (symmetry; apply Z.leb_le; lia).
  reflexivity.
Qed.

(** A clock reading of 41 bits is exactly representable: its [double] has
    the reading times 2^12 as mantissa and the exponent -12. *)
Lemma double_of_int_41_bits now :
  2 ^ 40 <= now < 2 ^ 41 ->
  Fp.double_of_int now = S754_finite false (Pos.iter xO (Z.to_pos now) 12) (-12).
Proof.
  intros H. destruct now as [|p|p]; try lia.
  unfold Fp.double_of_int, binary_normalize, binary_round.
  assert (Hd : Zpos (digits2_pos p) = 41) by (apply digits2_pos_unique; lia).
  rewrite Hd. change (fexp 53 1024 (41 + 0)) with (-12).
  change (shl_align p 0 (-12)) with (Pos.iter xO p 12, -12).
  apply binary_round_aux_exact; [|lia].
  apply digits2_pos_unique; [lia|]. rewrite iter_xO.
  change (2 ^ Zpos 12) with 4096. change (2 ^ (53 - 1)) with (2 ^ 40 * 4096).
  change (2 ^ 53) with (2 ^ 41 * 4096). lia.
Qed.

Lemma round_nearest_even_high A h l :
  Z.even A = true ->
  round_nearest_even (A + h) l = A + round_nearest_even h l.
Proof.
  intros HA. unfold round_nearest_even.
  destruct l as [|[]]; try lia.
  rewrite Z.even_add, HA. destruct (Z.even h); simpl; lia.
Qed.

Lemma round_nearest_even_bounds h l :
  h <= round_nearest_even h l <= h + 1.
Proof.
  unfold round_nearest_even. destruct l as [|[]]; try lia.
  destruct (Z.even h); lia.
Qed.


(** The sum of a clock reading of 41 bits and a positive [double] below
    1024 whose exponent is [-12 - k], converted to [uint64_t]. *)
Lemma deadline_generic now mw k :
  2 ^ 40 <= now < 2 ^ 41 - 1024 ->
  Zpos mw < 2 ^ (22 + Zpos k) ->
  let rec := iter_pos shr_1 k
               {| shr_m := Zpos mw; shr_r := false; shr_s := false |} in
  Fp.uint64_of_double
    (Fp.double_add (Fp.double_of_int now) (S754_finite false mw (-12 - Zpos k)))
  = Some (now + round_nearest_even (shr_m rec) (loc_of_shr_record rec) / 2 ^ 12).
Proof.
  intros Hnow Hmw rec.
  rewrite double_of_int_41_bits by lia.
  set (M := Pos.iter xO (Z.to_pos now) 12).
  assert (HM : Zpos M = now * 4096).
  { unfold M. rewrite iter_xO, Z2Pos.id by lia. reflexivity. }
  pose proof (Z.pow_pos_nonneg 2 (Zpos k) ltac:(lia) ltac:(lia)) as HP.
  assert (Hmw' : Zpos mw < 4194304 * 2 ^ Zpos k).
  { rewrite Z.pow_add_r in Hmw by lia. exact Hmw. }
  unfold Fp.double_add, SFadd.
  replace (Z.min (-12) (-12 - Zpos k)) with (-12 - Zpos k) by lia.
  unfold shl_align.
  replace (-12 - Zpos k - -12) with (Zneg k) by lia.
  rewrite Z.sub_diag. cbn [fst cond_Zopp].
  change (Zpos (Pos.iter xO M k) + Zpos mw) with (Zpos (Pos.iter xO M k + mw)).
  cbn [binary_normalize]. unfold binary_round.
  set (S := (Pos.iter xO M k + mw)%positive).
  assert (HS : Zpos S = Zpos M * 2 ^ Zpos k + Zpos mw).
  { unfold S. rewrite Pos2Z.inj_add, iter_xO. reflexivity. }
  assert (HdS : Zpos (digits2_pos S) = 53 + Zpos k).
  { apply digits2_pos_unique; [lia|].
    replace (53 + Zpos k - 1) with (52 + Zpos k) by lia.
    rewrite !Z.pow_add_r by lia. rewrite HS, HM.
    change (2 ^ 52) with (2 ^ 40 * 4096). change (2 ^ 53) with (2 ^ 41 * 4096).
    nia. }
  rewrite HdS, fexp_53 by lia.
  unfold shl_align.
  replace (53 + Zpos k + (-12 - Zpos k) - 53 - (-12 - Zpos k)) with (Zpos k) by lia.
  destruct (iter_shr_1_high k (Zpos M) (Zpos mw) false false) as [Ehigh Hhi]; [lia|lia|].
  fold rec in Ehigh, Hhi.
  pose proof (round_nearest_even_bounds (shr_m rec) (loc_of_shr_record rec)) as Hr.
  set (r1 := round_nearest_even (shr_m rec) (loc_of_shr_record rec)) in *.
  assert (Hhi4 : shr_m rec < 4194304).
  { unfold rec. rewrite iter_shr_1_m by lia.
    apply Z.div_lt_upper_bound; lia. }
  assert (Hq : Zpos (Z.to_pos (Zpos M + r1)) = Zpos M + r1) by (apply Z2Pos.id; lia).
  rewrite (binary_round_aux_shift S (-12 - Zpos k) k (Z.to_pos (Zpos M + r1))).
  - replace (-12 - Zpos k + Zpos k) with (-12) by lia.
    unfold Fp.uint64_of_double. change (0 <=? -12) with false. cbv iota.
    rewrite Hq, Z.shiftr_div_pow2 by lia. change (- -12) with 12.
    rewrite HM. change (2 ^ 12) with 4096.
    rewrite Z.div_add_l by lia.
    replace (now + r1 / 4096 <? 2 ^ 64) with true; [reflexivity|].
    symmetry. apply Z.ltb_lt.
    assert (r1 / 4096 <= 1024) by (apply Z.div_le_upper_bound; lia).
    change (2 ^ 64) with 18446744073709551616. change (2 ^ 41) with 2199023255552 in *. lia.
  - exact HdS.
  - lia.
  - cbv zeta. rewrite HS, Ehigh, Hq. unfold lift.
    replace (loc_of_shr_record
               {| shr_m := Zpos M + shr_m rec; shr_r := shr_r rec; shr_s := shr_s rec |})
      with (loc_of_shr_record rec) by (destruct rec; reflexivity).
    cbn [shr_m]. unfold r1.
    apply round_nearest_even_high. rewrite HM.
    rewrite Z.even_mul. change (Z.even 4096) with true. apply orb_true_r.
  - apply digits2_pos_unique; [lia|]. rewrite Hq, HM.
    change (2 ^ (53 - 1)) with (2 ^ 40 * 4096). change (2 ^ 53) with (2 ^ 41 * 4096).
    lia.
Qed.

End FloatFacts.

Lemma wait_ms_check_all :
  forallb wait_ms_check (map Z.of_nat (seq 1 255)) = true.
Proof. vm_compute. reflexivity. Qed.

(** For every limit a [uint8_t] can hold and every clock reading of 41 bits
    (dates from 2004 to 2039), the deadline handed to [block_until] is the
    reading plus the whole milliseconds of 1000 / limit. *)
Lemma deadline_of_limit limit now :
  1 <= limit <= 255 ->
  2 ^ 40 <= now < 2 ^ 41 - 1024 ->
  Fp.uint64_of_double
    (Fp.double_add (Fp.double_of_int now) (Application.wait_ms limit))
  = Some (now + 1000 / limit).
Proof.
  intros Hl Hnow.
  assert (Hin : In limit (map Z.of_nat (seq 1 255))).
  { apply in_map_iff. exists (Z.to_nat limit). split; [lia|]. apply in_seq. lia. }
  pose proof (proj1 (forallb_forall _ _) wait_ms_check_all limit Hin) as Hc.
  unfold wait_ms_check in Hc.
  destruct (Application.wait_ms limit) as [| | |[] mw ew]; try discriminate.
  destruct (-12 - ew) as [|k|] eqn:Ek; try discriminate.
  apply andb_true_iff in Hc as [H1 H2].
  apply Z.ltb_lt in H1. apply Z.eqb_eq in H2.
  replace ew with (-12 - Zpos k) by lia.
  rewrite deadline_generic by assumption. cbv zeta. now rewrite H2.
Qed.

Section BlockUntil.

Import Application.

(** [block_until] returns on the first reading that has reached the
    limit, and on no earlier one. *)
Lemma block_until_loop_spec time_limit clock : forall clock',
  Timer.block_until_loop time_limit clock = Returned clock' ->
  exists skipped t_ret,
    clock = skipped ++ t_ret :: clock'
    /\ time_limit <= to_u64 t_ret
    /\ Forall (fun t => to_u64 t < time_limit) skipped.
Proof.
  induction clock as [|t rest IH]; intros clock' H; [discriminate|].
  cbn [Timer.block_until_loop] in H.
  destruct (Z.leb_spec time_limit (to_u64 t)) as [Hle|Hlt].
  - injection H as <-. exists [], t. repeat split; [assumption | constructor].
  - destruct (IH clock' H) as (skipped & t_ret & -> & Hret & Hsk).
    exists (t :: skipped), t_ret. repeat split; [assumption|].
    constructor; assumption.
Qed.

(** It does return once some reading has reached the limit. *)
Lemma block_until_loop_returns time_limit clock t :
  In t clock -> time_limit <= to_u64 t ->
  exists clock', Timer.block_until_loop time_limit clock = Returned clock'.
Proof.
  induction clock as [|t0 rest IH]; intros Hin Hle; [destruct Hin|].
  cbn [Timer.block_until_loop].
  destruct (Z.leb_spec time_limit (to_u64 t0)); [eauto|].
  destruct Hin as [->|Hin]; [lia | now apply IH].
Qed.

(** With a limit, a frame that returns has computed its deadline from the
    first reading of the clock, before anything is rendered, and has left
    [block_until] on the readings that follow the rendering. *)
Lemma drawFrame_limited env now t_begin t_end polls a limit a' clock' :
  m_FPS_limit a = Some limit ->
  drawFrame env (now :: t_begin :: t_end :: polls) a = Returned (a', clock') ->
  exists time_limit,
    Fp.uint64_of_double
      (Fp.double_add (Fp.double_of_int now) (wait_ms limit)) = Some time_limit
    /\ Timer.block_until_loop time_limit polls = Returned clock'.
Proof.
  intros Hlim H. unfold drawFrame in H. rewrite Hlim in H.
  cbn [Timer.get_time_limit Timer.NOW_MS Timer.Timer bind] in H.
  apply bind_Returned in H as (e1 & _ & H).
  cbn [Timer.diff Timer.NOW_MS bind Timer.m_begin] in H.
  destruct (Fp.uint64_of_double
              (Fp.double_add (Fp.double_of_int now) (wait_ms limit)))
    as [time_limit|]; [|discriminate].
  exists time_limit. split; [reflexivity|].
  unfold Timer.block_until in H.
  destruct (Timer.block_until_loop time_limit polls) as [| | |c]; try discriminate.
  cbn [bind] in H.
  apply bind_Returned in H as (a1 & _ & H). injection H as _ ->. reflexivity.
Qed.

End BlockUntil.

(** C7, as stated, fails: at 60 frames per second, with a frame rendered
    in 5 ms, [drawFrame] leaves [block_until] on the reading 16 ms after the
    one the deadline was computed from, and 16 ms is less than 1000/60 ms. *)
Lemma drawFrame_returns_after_16_ms :
  let now := 1700000000000 in
  exists a',
    Application.drawFrame (frame_env_ok 0)
      [now; now; now + 5; now + 5; now + 11; now + 16; now + 17]
      (application_start (Some 60))
    = Returned (a', [now + 17])
    /\ 60 * ((now + 16) - now) < 1000.
Proof.
  cbv zeta. eexists. split; [vm_compute; reflexivity | reflexivity].
Qed.

(** C7, amended.  When an FPS limit is configured, the deadline of a frame is
    computed from the first reading [now] of the clock, before the
    acquire/draw/present sequence: it is [now + 1000.0f / limit] as a
    [double], cut to whole milliseconds when it is handed to [block_until].
    [block_until] returns on the first later reading that is at least that
    deadline, however short the rendering was.  For every limit from 1 to
    255 and every reading of 41 bits, the deadline is [now] plus the whole
    milliseconds of 1000 / limit; with the limit 60 it is [now + 16], so
    [block_until] never returns before 16 ms have passed on the clock. *)
Theorem drawFrame_blocks_until_truncated_deadline
    (env : Engine.FrameEnv) (now t_begin t_end : Z) (polls clock' : list Z)
    (a a' : Application.t) (limit : Z) :
  Application.m_FPS_limit a = Some limit ->
  Application.drawFrame env (now :: t_begin :: t_end :: polls) a
    = Returned (a', clock') ->
  exists time_limit skipped t_ret,
    Fp.uint64_of_double
      (Fp.double_add (Fp.double_of_int now) (Application.wait_ms limit))
      = Some time_limit
    /\ polls = skipped ++ t_ret :: clock'
    /\ time_limit <= to_u64 t_ret
    /\ Forall (fun t => to_u64 t < time_limit) skipped
    /\ (1 <= limit <= 255 -> 2 ^ 40 <= now < 2 ^ 41 - 1024 ->
        time_limit = now + 1000 / limit)
    /\ (limit = 60 -> 2 ^ 40 <= now < 2 ^ 41 - 1024 -> now + 16 <= to_u64 t_ret).
Proof.
  intros Hlim H.
  destruct (drawFrame_limited env now t_begin t_end polls a limit a' clock' Hlim H)
    as (time_limit & Hdl & Hblock).
  destruct (block_until_loop_spec time_limit polls clock' Hblock)
    as (skipped & t_ret & Hpolls & Hret & Hsk).
  exists time_limit, skipped, t_ret.
  assert (Hgen : 1 <= limit <= 255 -> 2 ^ 40 <= now < 2 ^ 41 - 1024 ->
                 time_limit = now + 1000 / limit).
  { intros Hl Hn. rewrite (deadline_of_limit limit now Hl Hn) in Hdl. congruence. }
  repeat split; try assumption.
  intros -> Hn. specialize (Hgen ltac:(lia) Hn).
  change (1000 / 60) with 16 in Hgen. lia.
Qed.

Lemma drawFrame_blocks_until_truncated_deadline_witness :
  Application.m_FPS_limit (application_start (Some 60)) = Some 60
  /\ Application.drawFrame (frame_env_ok 0)
       (1700000000000 :: 1700000000000 :: 1700000000005
          :: [1700000000005; 1700000000011; 1700000000016; 1700000000017])
       (application_start (Some 60))
     = Returned (application_after_1, [1700000000017])
  /\ exists time_limit skipped t_ret,
       Fp.uint64_of_double
         (Fp.double_add (Fp.double_of_int 1700000000000) (Application.wait_ms 60))
         = Some time_limit
       /\ [1700000000005; 1700000000011; 1700000000016; 1700000000017]
          = skipped ++ t_ret :: [1700000000017]
       /\ time_limit <= to_u64 t_ret.
Proof.
  assert (H : Application.drawFrame (frame_env_ok 0)
                (1700000000000 :: 1700000000000 :: 1700000000005
                   :: [1700000000005; 1700000000011; 1700000000016; 1700000000017])
                (application_start (Some 60))
              = Returned (application_after_1, [1700000000017]))
    by (vm_compute; reflexivity).
  split; [reflexivity|]. split; [exact H|].
  destruct (drawFrame_blocks_until_truncated_deadline (frame_env_ok 0)
              1700000000000 1700000000000 1700000000005
              [1700000000005; 1700000000011; 1700000000016; 1700000000017]
              [1700000000017] (application_start (Some 60)) application_after_1 60
              eq_refl H)
    as (time_limit & skipped & t_ret & H1 & H2 & H3 & _).
  exists time_limit, skipped, t_ret. repeat split; assumption.
Defined.

(** * Further properties of the engine

    Properties of the functions around the ones above: what they do on
    empty, missing or failing input, what they keep, and how they
    compose. *)

(** ** Queue families *)

Section QueueFamilySupport.

Import Device.

(** The mask [getQueueFamilies] stores for a family has the bit of a role
    exactly when the driver reports that capability. *)
Lemma family_support_bits f :
  (Z.land (family_support f) (bits GRAPHICS) =? 0)
    = (Z.land (queueFlags f) VK_QUEUE_GRAPHICS_BIT =? 0)
  /\ (Z.land (family_support f) (bits PRESENTS) =? 0) = negb (present_supported f)
  /\ (Z.land (family_support f) (bits TRANSFERT) =? 0)
       = (Z.land (queueFlags f) VK_QUEUE_TRANSFER_BIT =? 0).
Proof.
  unfold family_support.
  destruct (Z.land (queueFlags f) VK_QUEUE_GRAPHICS_BIT =? 0),
    (present_supported f), (Z.land (queueFlags f) VK_QUEUE_TRANSFER_BIT =? 0);
    repeat split; reflexivity.
Qed.

(** The loop with its [break] ends with the three flags all set exactly
    when each role is supported by some mask (or was set before). *)
Lemma supports_loop_all support : forall g p t,
  (let '(g', p', t') := supports_loop support g p t in g' && p' && t')
  = (g || existsb (fun s => negb (Z.land s (bits GRAPHICS) =? 0)) support)
    && (p || existsb (fun s => negb (Z.land s (bits PRESENTS) =? 0)) support)
    && (t || existsb (fun s => negb (Z.land s (bits TRANSFERT) =? 0)) support).
Proof.
  induction support as [|s rest IH]; intros g p t.
  - simpl. now rewrite !orb_false_r.
  - cbn [supports_loop existsb].
    destruct (negb (Z.land s (bits GRAPHICS) =? 0)),
      (negb (Z.land s (bits PRESENTS) =? 0)),
      (negb (Z.land s (bits TRANSFERT) =? 0)), g, p, t;
      cbn [orb andb]; try reflexivity;
      rewrite IH; cbn [orb andb]; reflexivity.
Qed.

Lemma existsb_map_family (flag : SupportFeatures) (can : VkQueueFamily -> bool) families :
  (forall f, negb (Z.land (family_support f) (bits flag) =? 0) = can f) ->
  existsb (fun s => negb (Z.land s (bits flag) =? 0)) (map family_support families) = true
  <-> exists f, In f families /\ can f = true.
Proof.
  intros Hcan. rewrite existsb_exists. split.
  - intros (s & Hin & Hs). apply in_map_iff in Hin as (f & <- & Hin).
    exists f. split; [assumption|]. now rewrite <- Hcan.
  - intros (f & Hin & Hf). exists (family_support f).
    split; [now apply in_map|]. now rewrite Hcan.
Qed.

End QueueFamilySupport.

(** X1.  [Device::getQueueFamilies] on a device whose physical device is
    selected and that reports at least one queue family: it succeeds, with
    the number of families, exactly when some family has the graphics bit,
    some family can present to the surface and some family has the
    transfer bit (the same family may serve several roles); otherwise it
    returns its one error.  In both cases it has stored one support mask
    and one state per reported family, in the order of the report, a family
    with none of the three capabilities being UNSUPPORTED and any other
    READY.  With no family reported it returns [Ok 0] and leaves the device
    as it was.  Called on a device without selected physical device, as
    [Engine::initialize] calls it, it stops at its leading assertion in a
    build with assertions, and in a build without them returns another
    error and leaves the device as it was. *)
Theorem getQueueFamilies_ok_iff_every_role_supported
    (families : list Device.VkQueueFamily) (d : Device.t) :
  (Device.m_physical_device d <> VK_NULL_HANDLE -> families <> [] ->
   let r := Device.getQueueFamilies families d in
   (fst r = Ok (Z.of_nat (List.length families)) <->
    (exists f, In f families /\ Z.land (Device.queueFlags f) 1 <> 0)
    /\ (exists f, In f families /\ Device.present_supported f = true)
    /\ (exists f, In f families /\ Z.land (Device.queueFlags f) 4 <> 0))
   /\ (fst r = Ok (Z.of_nat (List.length families))
       \/ fst r = Error "did not found any queue that support our requirements")
   /\ Device.m_queue_support (snd r) = map Device.family_support families
   /\ Device.m_queue_states (snd r)
      = map (fun f => if Device.family_support f =? 0
                      then Device.UNSUPPORTED else Device.READY) families
   /\ Device.m_physical_device (snd r) = Device.m_physical_device d)
  /\ (Device.m_physical_device d <> VK_NULL_HANDLE ->
      Device.getQueueFamilies [] d = (Ok 0, d))
  /\ (Device.m_physical_device d = VK_NULL_HANDLE ->
      forall env e,
        EngineInit.m_graphics_device e = d ->
        EngineInit.queue_families env = families ->
        EngineInit.getQueueFamilies env e
        = if RenderInit.assertions (EngineInit.pipeline_env env)
          then AssertionFailed
          else Returned (VError "The physical device has not been setup", e)).
Proof.
  split; [|split].
  - intros Hpd Hne r.
    assert (Hr : r =
      let d' := Device.set_queue_tables d (map Device.family_support families)
                  (map Device.family_state (map Device.family_support families)) in
      let '(g, p, t) :=
        Device.supports_loop (map Device.family_support families) false false false in
      if negb g || negb p || negb t
      then (Error "did not found any queue that support our requirements", d')
      else (Ok (Z.of_nat (List.length families)), d')).
    { unfold r, Device.getQueueFamilies, Device.isInitialized.
      destruct (Z.eqb_spec (Device.m_physical_device d) VK_NULL_HANDLE);
        [contradiction|].
      cbn [negb]. destruct families; [contradiction|]. reflexivity. }
    pose proof (supports_loop_all (map Device.family_support families)
                  false false false) as Hall.
    cbn [orb] in Hall.
    assert (Hiff :
      (let '(g', p', t') :=
         Device.supports_loop (map Device.family_support families) false false false in
       g' && p' && t') = true <->
      (exists f, In f families /\ Z.land (Device.queueFlags f) 1 <> 0)
      /\ (exists f, In f families /\ Device.present_supported f = true)
      /\ (exists f, In f families /\ Z.land (Device.queueFlags f) 4 <> 0)).
    { rewrite Hall, !andb_true_iff.
      rewrite (existsb_map_family Device.GRAPHICS
                 (fun f => negb (Z.land (Device.queueFlags f) 1 =? 0))),
              (existsb_map_family Device.PRESENTS Device.present_supported),
              (existsb_map_family Device.TRANSFERT
                 (fun f => negb (Z.land (Device.queueFlags f) 4 =? 0))).
      - split.
        + intros [[(f & Hf & Hg) Hp] (f' & Hf' & Ht)].
          split; [|split; [exact Hp|]].
          * exists f. split; [assumption|].
            destruct (Z.eqb_spec (Z.land (Device.queueFlags f) 1) 0);
              [discriminate | assumption].
          * exists f'. split; [assumption|].
            destruct (Z.eqb_spec (Z.land (Device.queueFlags f') 4) 0);
              [discriminate | assumption].
        + intros [(f & Hf & Hg) [Hp (f' & Hf' & Ht)]].
          split; [split; [|exact Hp]|].
          * exists f. split; [assumption|].
            destruct (Z.eqb_spec (Z.land (Device.queueFlags f) 1) 0);
              [contradiction | reflexivity].
          * exists f'. split; [assumption|].
            destruct (Z.eqb_spec (Z.land (Device.queueFlags f') 4) 0);
              [contradiction | reflexivity].
      - intros f. now destruct (family_support_bits f) as (_ & _ & ->).
      - intros f. destruct (family_support_bits f) as (_ & -> & _).
        apply negb_involutive.
      - intros f. now destruct (family_support_bits f) as (-> & _ & _). }
    clearbody r. subst r. cbv zeta in *.
    destruct (Device.supports_loop (map Device.family_support families)
                false false false) as [[g p] t].
    split; [|split; [|split; [|split]]].
    + rewrite <- Hiff.
      destruct g, p, t; cbn; split; intros H; try reflexivity; discriminate H.
    + destruct g, p, t; cbn; auto.
    + destruct (negb g || negb p || negb t); reflexivity.
    + destruct (negb g || negb p || negb t); cbn; rewrite map_map; reflexivity.
    + destruct (negb g || negb p || negb t); reflexivity.
  - intros Hpd. unfold Device.getQueueFamilies, Device.isInitialized.
    destruct (Z.eqb_spec (Device.m_physical_device d) VK_NULL_HANDLE);
      [contradiction | reflexivity].
  - intros Hpd env e He Hf.
    unfold EngineInit.getQueueFamilies, Device.getQueueFamilies, Device.isInitialized.
    rewrite He, Hpd. cbn [Z.eqb VK_NULL_HANDLE negb andb].
    rewrite andb_true_r.
    destruct (RenderInit.assertions (EngineInit.pipeline_env env)); [reflexivity|].
    rewrite <- He. destruct e; reflexivity.
Qed.

Lemma getQueueFamilies_ok_iff_every_role_supported_witness :
  Device.m_physical_device (Device.set_physical_device Device.fresh 1) <> VK_NULL_HANDLE
  /\ [present_only_family; universal_family] <> []
  /\ fst (Device.getQueueFamilies [present_only_family; universal_family]
            (Device.set_physical_device Device.fresh 1)) = Ok 2
  /\ Device.m_queue_support
       (snd (Device.getQueueFamilies [present_only_family; universal_family]
               (Device.set_physical_device Device.fresh 1))) = [2; 7].
Proof.
  assert (H1 : Device.m_physical_device (Device.set_physical_device Device.fresh 1)
               <> VK_NULL_HANDLE) by discriminate.
  assert (H2 : [present_only_family; universal_family] <> []) by discriminate.
  destruct (getQueueFamilies_ok_iff_every_role_supported
              [present_only_family; universal_family]
              (Device.set_physical_device Device.fresh 1)) as (H & _).
  specialize (H H1 H2). cbv zeta in H. destruct H as (_ & _ & Hs & _).
  split; [exact H1|]. split; [exact H2|]. split; [reflexivity|]. exact Hs.
Defined.

Section RoleAssignment.

Import Device.

(** The state the outer loop of [createLogicalDevice] ends in when each
    role has a first fit. *)
Lemma assign_roles_first_fit_state d jg jp jt :
  Z.of_nat (List.length (m_queue_support d)) < 2 ^ 31 ->
  first_fit [-1; -1; -1] GRAPHICS (m_queue_support d) 0 = Some jg ->
  first_fit [jg; -1; -1] PRESENTS (m_queue_support d) 0 = Some jp ->
  first_fit [jg; jp; -1] TRANSFERT (m_queue_support d) 0 = Some jt ->
  assign_roles supported_flags (roles_init d) =
  (VOk, {|
     took_indices := [jg; jp; jt];
     queue_index := 3;
     queues := [{| queueFamilyIndex := jg; queueCount := 1 |};
                {| queueFamilyIndex := jp; queueCount := 1 |};
                {| queueFamilyIndex := jt; queueCount := 1 |}];
     dev :=
       set_family_index
         (set_queue_state
            (set_family_index
               (set_queue_state
                  (set_family_index (set_queue_state d jg USED) GRAPHICS jg)
                  jp USED) PRESENTS jp)
            jt USED) TRANSFERT jt |}).
Proof.
  intros Hlen Hg Hp Ht. unfold supported_flags.
  rewrite (assign_roles_step GRAPHICS _ _ jg); [|discriminate|exact Hlen|exact Hg].
  cbn [roles_init took_indices queue_index queues dev set_nth].
  rewrite (assign_roles_step PRESENTS _ _ jp); [|discriminate|exact Hlen|exact Hp].
  cbn [took_indices queue_index queues dev set_nth].
  rewrite (assign_roles_step TRANSFERT _ _ jt); [|discriminate|exact Hlen|exact Ht].
  reflexivity.
Qed.

(** A first fit is a position of the table that no earlier role took. *)
Lemma first_fit_fresh took flag families j taken :
  first_fit took flag families 0 = Some j ->
  In taken took -> 0 <= taken < 2 ^ 32 -> taken <> j.
Proof.
  intros Hfit Hin Hr.
  apply first_fit_sound in Hfit as (_ & Htaken & _).
  unfold is_taken in Htaken. intros ->.
  assert (existsb (fun taken => to_u32 taken =? j) took = true) as E.
  { apply existsb_exists. exists j. split; [assumption|].
    rewrite to_u32_small by lia. apply Z.eqb_refl. }
  congruence.
Qed.

End RoleAssignment.

(** X2.  [Device::createLogicalDevice] on a selected physical device, when
    each role, taken in the order GRAPHICS, PRESENTS, TRANSFER, has a queue
    family that supports it and that no earlier role took: the role gets
    the first such family of the table.  The three family indices are then
    pairwise distinct positions of the table whose masks support their
    role; the driver is asked for one queue from each of them, in that
    order; when it creates the device, the call returns Ok with the new
    device and the three queues fetched from these families, and when it
    fails the call returns its error and the logical device is left as it
    was. *)
Theorem createLogicalDevice_assigns_first_supporting_families
    (vk_create_device : list Device.VkDeviceQueueCreateInfo -> VkResult * Handle)
    (vk_get_queue : Z -> Handle) (d : Device.t) (jg jp jt : Z) :
  Device.m_physical_device d <> VK_NULL_HANDLE ->
  Z.of_nat (List.length (Device.m_queue_support d)) < 2 ^ 31 ->
  first_fit [-1; -1; -1] Device.GRAPHICS (Device.m_queue_support d) 0 = Some jg ->
  first_fit [jg; -1; -1] Device.PRESENTS (Device.m_queue_support d) 0 = Some jp ->
  first_fit [jg; jp; -1] Device.TRANSFERT (Device.m_queue_support d) 0 = Some jt ->
  let r := Device.createLogicalDevice vk_create_device vk_get_queue d in
  let entry j := {| Device.queueFamilyIndex := j; Device.queueCount := 1 |} in
  let supports j flag :=
    0 <= j < Z.of_nat (List.length (Device.m_queue_support d))
    /\ Z.land (nth (Z.to_nat j) (Device.m_queue_support d) 0) (Device.bits flag) <> 0 in
  (jg <> jp /\ jg <> jt /\ jp <> jt)
  /\ supports jg Device.GRAPHICS
  /\ supports jp Device.PRESENTS
  /\ supports jt Device.TRANSFERT
  /\ (forall k, 0 <= k < jg ->
        Z.land (nth (Z.to_nat k) (Device.m_queue_support d) 0)
          (Device.bits Device.GRAPHICS) = 0)
  /\ Device.m_graphics_queue_family_index (snd r) = jg
  /\ Device.m_presents_queue_family_index (snd r) = jp
  /\ Device.m_transfert_queue_family_index (snd r) = jt
  /\ Device.m_queue_support (snd r) = Device.m_queue_support d
  /\ match vk_create_device [entry jg; entry jp; entry jt] with
     | (VK_SUCCESS, logical_device) =>
         fst r = VOk
         /\ Device.m_logical_device (snd r) = logical_device
         /\ Device.m_graphics_queue (snd r) = vk_get_queue jg
         /\ Device.m_presents_queue (snd r) = vk_get_queue jp
         /\ Device.m_transfert_queue (snd r) = vk_get_queue jt
     | (VK_FAILURE _, _) =>
         fst r = VError "Cannot create the logical device"
         /\ Device.m_logical_device (snd r) = Device.m_logical_device d
     end.
Proof.
  intros Hpd Hlen Hg Hp Ht r entry supports.
  pose proof (first_fit_sound _ _ _ _ _ Hg) as (Hrg & _ & Hsg & Hbg).
  pose proof (first_fit_sound _ _ _ _ _ Hp) as (Hrp & _ & Hsp & _).
  pose proof (first_fit_sound _ _ _ _ _ Ht) as (Hrt & _ & Hst & _).
  rewrite Z.sub_0_r in Hsg, Hsp, Hst.
  split; [|split; [|split; [|split; [|split]]]].
  - split; [|split].
    + apply (first_fit_fresh _ _ _ _ jg Hp); [now left | lia].
    + apply (first_fit_fresh _ _ _ _ jg Ht); [now left | lia].
    + apply (first_fit_fresh _ _ _ _ jp Ht); [right; now left | lia].
  - split; [lia | exact Hsg].
  - split; [lia | exact Hsp].
  - split; [lia | exact Hst].
  - intros k Hk. destruct (Hbg k ltac:(lia)) as [Htk|Hz].
    + unfold Device.is_taken in Htk. cbn [existsb] in Htk.
      change (to_u32 (-1)) with 4294967295 in Htk.
      destruct (Z.eqb_spec 4294967295 k); [lia | discriminate].
    + now rewrite Z.sub_0_r in Hz.
  - assert (Hr : r =
      let d' := Device.dev (snd (Device.assign_roles Device.supported_flags
                                   (Device.roles_init d))) in
      match vk_create_device [entry jg; entry jp; entry jt] with
      | (VK_FAILURE _, _) => (VError "Cannot create the logical device", d')
      | (VK_SUCCESS, logical_device) =>
          (VOk, Device.set_queues (Device.set_logical_device d' logical_device)
                  (vk_get_queue jg) (vk_get_queue jp) (vk_get_queue jt))
      end).
    { unfold r, Device.createLogicalDevice.
      destruct (Z.eqb_spec (Device.m_physical_device d) VK_NULL_HANDLE);
        [contradiction|].
      rewrite (assign_roles_first_fit_state d jg jp jt Hlen Hg Hp Ht).
      cbn [Device.queues Device.dev snd]. cbv zeta.
      destruct (vk_create_device _) as [[|code] h]; reflexivity. }
    rewrite (assign_roles_first_fit_state d jg jp jt Hlen Hg Hp Ht) in Hr.
    clearbody r. subst r. cbv zeta. cbn [snd Device.dev].
    destruct (vk_create_device [entry jg; entry jp; entry jt]) as [[|code] h];
      repeat split; reflexivity.
Qed.

Lemma createLogicalDevice_assigns_first_supporting_families_witness :
  let d := device_with_support [4; 3; 2; 7] in
  let create := fun _ : list Device.VkDeviceQueueCreateInfo => (VK_SUCCESS, 9) in
  first_fit [-1; -1; -1] Device.GRAPHICS (Device.m_queue_support d) 0 = Some 1
  /\ first_fit [1; -1; -1] Device.PRESENTS (Device.m_queue_support d) 0 = Some 2
  /\ first_fit [1; 2; -1] Device.TRANSFERT (Device.m_queue_support d) 0 = Some 0
  /\ Device.m_graphics_queue_family_index
       (snd (Device.createLogicalDevice create (fun j => 100 + j) d)) = 1
  /\ Device.m_presents_queue_family_index
       (snd (Device.createLogicalDevice create (fun j => 100 + j) d)) = 2
  /\ Device.m_transfert_queue_family_index
       (snd (Device.createLogicalDevice create (fun j => 100 + j) d)) = 0.
Proof.
  intros d create.
  assert (Hpd : Device.m_physical_device d <> VK_NULL_HANDLE) by discriminate.
  assert (Hlen : Z.of_nat (List.length (Device.m_queue_support d)) < 2 ^ 31)
    by (vm_compute; reflexivity).
  assert (Hg : first_fit [-1; -1; -1] Device.GRAPHICS (Device.m_queue_support d) 0
               = Some 1) by reflexivity.
  assert (Hp : first_fit [1; -1; -1] Device.PRESENTS (Device.m_queue_support d) 0
               = Some 2) by reflexivity.
  assert (Ht : first_fit [1; 2; -1] Device.TRANSFERT (Device.m_queue_support d) 0
               = Some 0) by reflexivity.
  pose proof (createLogicalDevice_assigns_first_supporting_families
                create (fun j => 100 + j) d 1 2 0 Hpd Hlen Hg Hp Ht) as H.
  cbv zeta in H. destruct H as (_ & _ & _ & _ & _ & H1 & H2 & H3 & _).
  repeat split; assumption.
Defined.

(** ** Swapchain configuration *)

Section SwapChainConfiguration.

Import SwapChain.

Lemma chooseFormat_loop_In formats f :
  chooseFormat_loop formats = Some f ->
  In f formats /\ format f = 50 /\ colorSpace f = 0.
Proof.
  induction formats as [|g rest IH]; [discriminate|].
  cbn [chooseFormat_loop].
  destruct (Z.eqb_spec (format g) PREFERED_SURFACE_FORMAT) as [Ef|Ef];
    destruct (Z.eqb_spec (colorSpace g) PREFERED_COLOR_SPACE_FORMAT) as [Ec|Ec];
    cbn [andb]; intros H;
    try (apply IH in H as (Hin & Hf & Hc); split; [now right | now split]).
  injection H as <-. split; [now left | now split].
Qed.

Lemma chooseFormat_loop_skips pre rest :
  Forall (fun f => ~ (format f = 50 /\ colorSpace f = 0)) pre ->
  chooseFormat_loop (pre ++ rest) = chooseFormat_loop rest.
Proof.
  induction 1 as [|g pre Hg _ IH]; [reflexivity|].
  cbn [app chooseFormat_loop].
  destruct (Z.eqb_spec (format g) PREFERED_SURFACE_FORMAT) as [Ef|Ef];
    destruct (Z.eqb_spec (colorSpace g) PREFERED_COLOR_SPACE_FORMAT) as [Ec|Ec];
    cbn [andb]; try exact IH.
  exfalso. apply Hg. now split.
Qed.

Lemma chooseFormat_In formats f :
  chooseFormat formats = Some (Ok f) -> In f formats.
Proof.
  unfold chooseFormat.
  destruct (chooseFormat_loop formats) as [g|] eqn:E.
  - intros H. injection H as <-. now apply chooseFormat_loop_In in E.
  - destruct formats as [|first rest]; [discriminate|].
    intros H. injection H as <-. now left.
Qed.

(** [std::clamp] with bounds in order: the value when it is within them,
    the bound it crossed otherwise. *)
Lemma clamp_Returned v lo hi :
  lo <= hi ->
  exists c,
    clamp v lo hi = Returned c
    /\ lo <= c <= hi
    /\ (lo <= v <= hi -> c = v)
    /\ (v < lo -> c = lo)
    /\ (hi < v -> c = hi).
Proof.
  intros H. unfold clamp.
  destruct (Z.ltb_spec hi lo); [lia|].
  eexists. split; [reflexivity|].
  destruct (Z.ltb_spec v lo); [repeat split; lia|].
  destruct (Z.ltb_spec hi v); repeat split; lia.
Qed.

Lemma clamp_Undefined_iff v lo hi : clamp v lo hi = Undefined <-> hi < lo.
Proof.
  unfold clamp. destruct (Z.ltb_spec hi lo); split; intros H'; try reflexivity;
    try assumption; try discriminate; lia.
Qed.

(** [chooseSwapExtent] is undefined exactly when a maximum is below its
    minimum, and otherwise returns Ok. *)
Lemma chooseSwapExtent_outcome window_width window_height capabilities :
  let lo := minImageExtent capabilities in
  let hi := maxImageExtent capabilities in
  (chooseSwapExtent window_width window_height capabilities = Undefined
   /\ (width hi < width lo \/ height hi < height lo))
  \/ (exists e,
        chooseSwapExtent window_width window_height capabilities = Returned (Ok e)
        /\ width lo <= width hi /\ height lo <= height hi).
Proof.
  intros lo hi. unfold chooseSwapExtent. fold lo hi.
  cbn [width height].
  destruct (Z.lt_ge_cases (width hi) (width lo)) as [Hw|Hw].
  - left. rewrite (proj2 (clamp_Undefined_iff _ _ _) Hw). split; [reflexivity | now left].
  - destruct (clamp_Returned (to_u32 window_width) _ _ Hw) as (cw & -> & _).
    cbn [bind].
    destruct (Z.lt_ge_cases (height hi) (height lo)) as [Hh|Hh].
    + left. rewrite (proj2 (clamp_Undefined_iff _ _ _) Hh).
      split; [reflexivity | now right].
    + destruct (clamp_Returned (to_u32 window_height) _ _ Hh) as (ch & -> & _).
      cbn [bind]. right. eexists. split; [reflexivity|]. split; assumption.
Qed.

End SwapChainConfiguration.

(** X3.  [SwapChain::chooseFormat] on a non-empty list returns the first
    entry that has the B8G8R8A8_SRGB format with the sRGB non-linear colour
    space, wherever it is in the list; when no entry has both, it returns
    the first entry of the list.  It never returns an error, and what it
    returns is always one of the entries the surface reported. *)
Theorem chooseFormat_first_preferred_else_first_entry
    (formats : list SwapChain.VkSurfaceFormatKHR) :
  let preferred f := SwapChain.format f = 50 /\ SwapChain.colorSpace f = 0 in
  (forall pre g post,
     formats = pre ++ g :: post -> preferred g ->
     Forall (fun f => ~ preferred f) pre ->
     SwapChain.chooseFormat formats = Some (Ok g))
  /\ (forall first rest,
        formats = first :: rest -> Forall (fun f => ~ preferred f) formats ->
        SwapChain.chooseFormat formats = Some (Ok first))
  /\ (formats <> [] ->
      exists f, SwapChain.chooseFormat formats = Some (Ok f) /\ In f formats).
Proof.
  intros preferred. split; [|split].
  - intros pre g post -> [Hf Hc] Hpre. unfold SwapChain.chooseFormat.
    rewrite chooseFormat_loop_skips by exact Hpre.
    cbn [SwapChain.chooseFormat_loop]. rewrite Hf, Hc. reflexivity.
  - intros first rest -> Hall. unfold SwapChain.chooseFormat.
    rewrite <- (app_nil_r (first :: rest)).
    rewrite chooseFormat_loop_skips by exact Hall. reflexivity.
  - intros Hne. destruct formats as [|first rest]; [contradiction|].
    unfold SwapChain.chooseFormat.
    destruct (SwapChain.chooseFormat_loop (first :: rest)) as [g|] eqn:E.
    + exists g. split; [reflexivity|]. now apply chooseFormat_loop_In in E.
    + exists first. split; [reflexivity | now left].
Qed.

Lemma chooseFormat_first_preferred_else_first_entry_witness :
  SwapChain.chooseFormat (SwapChain.surface_formats surface_two_to_eight)
  = Some (Ok {| SwapChain.format := 50; SwapChain.colorSpace := 0 |}).
Proof.
  destruct (chooseFormat_first_preferred_else_first_entry
              (SwapChain.surface_formats surface_two_to_eight)) as (H & _).
  apply (H [{| SwapChain.format := 44; SwapChain.colorSpace := 0 |}]
           {| SwapChain.format := 50; SwapChain.colorSpace := 0 |} []).
  - reflexivity.
  - split; reflexivity.
  - constructor; [|constructor]. cbn. intros [H1 _]. discriminate H1.
Defined.

(** X4.  [SwapChain::chooseSwapExtent] never returns an error.  When the
    surface reports a minimum extent that does not exceed its maximum
    extent in either dimension, it returns Ok with an extent that lies
    between the two in both dimensions: in each dimension it is the size of
    the window's framebuffer (as the unsigned 32-bit value it is converted
    to) where that size is within the bounds, and the bound the size
    crossed otherwise.  When a maximum is below its minimum the call of
    [std::clamp] is undefined, and that is the only case where the function
    does not return. *)
Theorem chooseSwapExtent_within_surface_bounds
    (window_width window_height : Z)
    (capabilities : SwapChain.VkSurfaceCapabilitiesKHR) :
  let lo := SwapChain.minImageExtent capabilities in
  let hi := SwapChain.maxImageExtent capabilities in
  let r := SwapChain.chooseSwapExtent window_width window_height capabilities in
  (SwapChain.width lo <= SwapChain.width hi ->
   SwapChain.height lo <= SwapChain.height hi ->
   exists e,
     r = Returned (Ok e)
     /\ SwapChain.width lo <= SwapChain.width e <= SwapChain.width hi
     /\ SwapChain.height lo <= SwapChain.height e <= SwapChain.height hi
     /\ (SwapChain.width lo <= to_u32 window_width <= SwapChain.width hi ->
         SwapChain.width e = to_u32 window_width)
     /\ (SwapChain.height lo <= to_u32 window_height <= SwapChain.height hi ->
         SwapChain.height e = to_u32 window_height)
     /\ (to_u32 window_width < SwapChain.width lo ->
         SwapChain.width e = SwapChain.width lo)
     /\ (SwapChain.width hi < to_u32 window_width ->
         SwapChain.width e = SwapChain.width hi)
     /\ (to_u32 window_height < SwapChain.height lo ->
         SwapChain.height e = SwapChain.height lo)
     /\ (SwapChain.height hi < to_u32 window_height ->
         SwapChain.height e = SwapChain.height hi))
  /\ (r = Undefined <->
      SwapChain.width hi < SwapChain.width lo
      \/ SwapChain.height hi < SwapChain.height lo)
  /\ (forall msg, r <> Returned (Error msg))
  /\ r <> AssertionFailed
  /\ r <> Pending.
Proof.
  intros lo hi r.
  split.
  - intros Hw Hh. unfold r, SwapChain.chooseSwapExtent. fold lo hi.
    cbn [SwapChain.width SwapChain.height].
    destruct (clamp_Returned (to_u32 window_width) _ _ Hw)
      as (cw & -> & Hbw & Hiw & Hlw & Hhw).
    destruct (clamp_Returned (to_u32 window_height) _ _ Hh)
      as (ch & -> & Hbh & Hih & Hlh & Hhh).
    cbn [bind]. eexists. split; [reflexivity|].
    cbn [SwapChain.width SwapChain.height]. repeat split; try assumption; lia.
  - subst lo hi r.
    destruct (chooseSwapExtent_outcome window_width window_height capabilities)
      as [[Hu Hc]|(e & He & Hw & Hh)]; cbv zeta in *.
    + rewrite Hu. repeat split; try discriminate; auto.
    + rewrite He. repeat split; try discriminate.
      intros [H|H]; lia.
Qed.

Lemma chooseSwapExtent_within_surface_bounds_witness :
  exists e,
    SwapChain.chooseSwapExtent 8000 720
      (SwapChain.surface_capabilities surface_two_to_eight) = Returned (Ok e)
    /\ SwapChain.width e = 4096 /\ SwapChain.height e = 720.
Proof.
  destruct (chooseSwapExtent_within_surface_bounds 8000 720
              (SwapChain.surface_capabilities surface_two_to_eight)) as (H & _).
  destruct H as (e & He & _ & _ & _ & Hh & _ & Hw & _).
  - vm_compute. discriminate.
  - vm_compute. discriminate.
  - exists e. split; [exact He|]. split.
    + rewrite Hw; [reflexivity | vm_compute; reflexivity].
    + rewrite Hh; [reflexivity | vm_compute; split; discriminate].
Defined.

Section SwapChainCreate.

Import SwapChain.

Lemma choosePresentMode_Ok fps_limit present_modes mode :
  choosePresentMode fps_limit present_modes = Ok mode ->
  mode = PREFERED_PRESENTATION_MODE fps_limit /\ In mode present_modes.
Proof.
  induction present_modes as [|m rest IH]; [discriminate|].
  cbn [choosePresentMode].
  destruct (present_mode_eqb_spec m (PREFERED_PRESENTATION_MODE fps_limit)) as [E|E].
  - intros H. injection H as <-. split; [exact E | now left].
  - intros H. apply IH in H as [H1 H2]. split; [exact H1 | now right].
Qed.

Lemma checkDetails_chooseFormat sc :
  checkDetails sc = VOk ->
  exists f, chooseFormat (formats (m_details sc)) = Some (Ok f)
            /\ In f (formats (m_details sc)).
Proof.
  intros H. apply checkDetails_ok_iff in H as (_ & _ & Hf & _).
  unfold chooseFormat.
  destruct (chooseFormat_loop (formats (m_details sc))) as [g|] eqn:E.
  - exists g. split; [reflexivity|]. now apply chooseFormat_loop_In in E.
  - destruct (formats (m_details sc)) as [|first rest]; [contradiction|].
    exists first. split; [reflexivity | now left].
Qed.

(** The create-info [create] builds, when no assertion stops it. *)
Lemma create_info_Returned assertions sc indices info :
  create_info assertions sc indices = Returned info ->
  ci_minImageCount info = MAX_BUFFERS
  /\ ci_imageFormat info = format (m_format sc)
  /\ ci_imageColorSpace info = colorSpace (m_format sc)
  /\ ci_imageExtent info = m_extent sc
  /\ ci_preTransform info = currentTransform (capabilities (m_details sc))
  /\ ci_presentMode info = m_present_mode sc
  /\ (assertions = true -> is_exclusive indices = false).
Proof.
  destruct indices as [[i0 i1] i2]. unfold create_info.
  destruct assertions, (is_exclusive (i0, i1, i2)); cbn [andb negb sharing_mode_eqb];
    intros H; try discriminate H; injection H as <-; cbn;
    repeat split; try reflexivity; intros; discriminate.
Qed.

Lemma create_info_AssertionFailed_iff assertions sc indices :
  create_info assertions sc indices = AssertionFailed <->
  assertions = true /\ is_exclusive indices = true.
Proof.
  destruct indices as [[i0 i1] i2]. unfold create_info.
  destruct assertions, (is_exclusive (i0, i1, i2)); cbn [andb negb sharing_mode_eqb];
    split; try (intros [H1 H2]); try intros H; try discriminate; auto.
Qed.

Lemma create_info_defined assertions sc indices :
  create_info assertions sc indices <> Undefined
  /\ create_info assertions sc indices <> Pending.
Proof.
  destruct indices as [[i0 i1] i2]. unfold create_info.
  destruct assertions, (is_exclusive (i0, i1, i2)); cbn [andb negb sharing_mode_eqb];
    split; discriminate.
Qed.

End SwapChainCreate.

(** X5.  The outcomes of [SwapChain::create].  When it returns Ok, the
    captured details had passed [checkDetails]; the present mode is the
    preferred one, which the surface had reported; the format is one of the
    reported formats; the extent is what [chooseSwapExtent] gives for the
    window; the driver was asked for 3 images with exactly this format,
    colour space, extent, present mode and the surface's current
    transform; the new handle is stored and the image list is the one the
    driver reports for that handle.  When it returns an error, the
    swapchain handle, the image list and the captured details are what
    they were.  Details that pass the check but lack the preferred present
    mode give the present-mode error with the object untouched.  The call
    is undefined exactly when the details pass the check, hold the
    preferred present mode and report a maximum extent below the minimum
    extent in some dimension; an assertion stops it only in a build with
    assertions when the sharing test of the three family indices is
    true. *)
Theorem SwapChain_create_outcomes
    (assertions : bool) (env : SwapChain.CreateEnv) (sc : SwapChain.t) :
  (forall sc',
     SwapChain.create assertions env sc = Returned (VOk, sc') ->
     SwapChain.checkDetails sc = VOk
     /\ SwapChain.m_present_mode sc'
        = SwapChain.PREFERED_PRESENTATION_MODE (SwapChain.fps_limit env)
     /\ In (SwapChain.m_present_mode sc')
           (SwapChain.present_modes (SwapChain.m_details sc))
     /\ In (SwapChain.m_format sc') (SwapChain.formats (SwapChain.m_details sc))
     /\ SwapChain.chooseSwapExtent (SwapChain.window_width env)
          (SwapChain.window_height env)
          (SwapChain.capabilities (SwapChain.m_details sc))
        = Returned (Ok (SwapChain.m_extent sc'))
     /\ SwapChain.m_details sc' = SwapChain.m_details sc
     /\ SwapChain.m_images sc'
        = SwapChain.vk_swapchain_images env (SwapChain.m_swapchain sc')
     /\ exists info,
          SwapChain.vk_create_swapchain env info
          = (VK_SUCCESS, SwapChain.m_swapchain sc')
          /\ SwapChain.ci_minImageCount info = 3
          /\ SwapChain.ci_imageFormat info = SwapChain.format (SwapChain.m_format sc')
          /\ SwapChain.ci_imageColorSpace info
             = SwapChain.colorSpace (SwapChain.m_format sc')
          /\ SwapChain.ci_imageExtent info = SwapChain.m_extent sc'
          /\ SwapChain.ci_preTransform info
             = SwapChain.currentTransform
                 (SwapChain.capabilities (SwapChain.m_details sc))
          /\ SwapChain.ci_presentMode info = SwapChain.m_present_mode sc')
  /\ (forall msg sc',
        SwapChain.create assertions env sc = Returned (VError msg, sc') ->
        SwapChain.m_swapchain sc' = SwapChain.m_swapchain sc
        /\ SwapChain.m_images sc' = SwapChain.m_images sc
        /\ SwapChain.m_details sc' = SwapChain.m_details sc)
  /\ (SwapChain.checkDetails sc = VOk ->
      ~ In (SwapChain.PREFERED_PRESENTATION_MODE (SwapChain.fps_limit env))
           (SwapChain.present_modes (SwapChain.m_details sc)) ->
      SwapChain.create assertions env sc
      = Returned
          (VError "Did not found any good presentation mode for the swapchain", sc))
  /\ (SwapChain.create assertions env sc = Undefined <->
      SwapChain.checkDetails sc = VOk
      /\ In (SwapChain.PREFERED_PRESENTATION_MODE (SwapChain.fps_limit env))
            (SwapChain.present_modes (SwapChain.m_details sc))
      /\ (let capabilities := SwapChain.capabilities (SwapChain.m_details sc) in
          SwapChain.width (SwapChain.maxImageExtent capabilities)
            < SwapChain.width (SwapChain.minImageExtent capabilities)
          \/ SwapChain.height (SwapChain.maxImageExtent capabilities)
               < SwapChain.height (SwapChain.minImageExtent capabilities)))
  /\ SwapChain.create assertions env sc <> Pending
  /\ (SwapChain.create assertions env sc = AssertionFailed ->
      assertions = true
      /\ SwapChain.is_exclusive (SwapChain.family_indices env) = true).
Proof.
  unfold SwapChain.create.
  destruct (SwapChain.checkDetails sc) as [|cmsg] eqn:Ec.
  2: { repeat split; intros; try discriminate;
       try (match goal with H : Returned _ = Returned _ |- _ => injection H as _ <- end;
            reflexivity);
       match goal with H : _ /\ _ |- _ => destruct H as (H & _); discriminate H end. }
  destruct (checkDetails_chooseFormat sc Ec) as (f & Ef & Hf). rewrite Ef.
  destruct (SwapChain.choosePresentMode (SwapChain.fps_limit env)
              (SwapChain.present_modes (SwapChain.m_details sc)))
    as [mode|pmsg] eqn:Ep.
  2: { repeat split; intros; try discriminate;
       try (match goal with H : Returned _ = Returned _ |- _ => injection H as _ <- end;
            reflexivity); try reflexivity.
       match goal with H : _ /\ _ |- _ => destruct H as (_ & H & _) end.
       apply (choosePresentMode_found (SwapChain.fps_limit env)) in H. congruence. }
  apply choosePresentMode_Ok in Ep as [Em Hm].
  destruct (chooseSwapExtent_outcome (SwapChain.window_width env)
              (SwapChain.window_height env)
              (SwapChain.capabilities (SwapChain.m_details sc)))
    as [[Hu Hc]|(e & He & Hw & Hh)]; cbv zeta in *.
  - rewrite Hu. cbn [bind].
    repeat split; intros; try discriminate; try assumption; try reflexivity.
    + exfalso. subst mode. contradiction.
    + subst mode. assumption.
  - rewrite He. cbn [bind].
    set (sc1 := {| SwapChain.m_swapchain := SwapChain.m_swapchain sc;
                   SwapChain.m_details := SwapChain.m_details sc;
                   SwapChain.m_images := SwapChain.m_images sc;
                   SwapChain.m_format := f;
                   SwapChain.m_extent := e;
                   SwapChain.m_present_mode := mode |}).
    assert (Hnu : forall P : Prop,
              SwapChain.checkDetails sc = VOk
              /\ In (SwapChain.PREFERED_PRESENTATION_MODE (SwapChain.fps_limit env))
                    (SwapChain.present_modes (SwapChain.m_details sc))
              /\ (SwapChain.width
                    (SwapChain.maxImageExtent
                       (SwapChain.capabilities (SwapChain.m_details sc)))
                  < SwapChain.width
                      (SwapChain.minImageExtent
                         (SwapChain.capabilities (SwapChain.m_details sc)))
                  \/ SwapChain.height
                       (SwapChain.maxImageExtent
                          (SwapChain.capabilities (SwapChain.m_details sc)))
                     < SwapChain.height
                         (SwapChain.minImageExtent
                            (SwapChain.capabilities (SwapChain.m_details sc)))) -> P).
    { intros P (_ & _ & [H|H]); lia. }
    pose proof (create_info_defined assertions sc1 (SwapChain.family_indices env))
      as [Hud Hp].
    pose proof (create_info_AssertionFailed_iff assertions sc1
                  (SwapChain.family_indices env)) as Ha.
    destruct (SwapChain.create_info assertions sc1 (SwapChain.family_indices env))
      as [| | |info] eqn:Ei; try contradiction.
    + repeat split; intros; try discriminate; try (now apply Ha);
        try (now apply Hnu).
      exfalso. subst mode. contradiction.
    + apply create_info_Returned in Ei as (I1 & I2 & I3 & I4 & I5 & I6 & _).
      destruct (SwapChain.vk_create_swapchain env info) as [[|code] h] eqn:Ev.
      * split; [|repeat split; intros; try discriminate; try (now apply Hnu);
                 exfalso; subst mode; contradiction].
        intros sc' H. injection H as <-. cbn.
        repeat split; try assumption; try reflexivity.
        exists info. repeat split; assumption.
      * repeat split; intros; try discriminate; try (now apply Hnu);
          try (match goal with H : Returned _ = Returned _ |- _ => injection H as _ <- end;
               reflexivity).
        exfalso. subst mode. contradiction.
Qed.

Lemma SwapChain_create_outcomes_witness :
  exists sc',
    SwapChain.create true create_env_ok
      (SwapChain.queryDetails surface_two_to_eight swapchain_fresh)
    = Returned (VOk, sc')
    /\ SwapChain.m_present_mode sc' = SwapChain.VK_PRESENT_MODE_FIFO_KHR
    /\ SwapChain.m_images sc' = [221; 222; 223].
Proof.
  eexists. split; [reflexivity|].
  destruct (SwapChain_create_outcomes true create_env_ok
              (SwapChain.queryDetails surface_two_to_eight swapchain_fresh))
    as (H & _).
  destruct (H _ eq_refl) as (_ & Hm & _ & _ & _ & _ & Hi & _).
  split; [exact Hm | exact Hi].
Defined.

(** ** Teardown of the device, the swapchain and the command objects *)

(** X6.  The teardown of the device at the shutdown of the engine, and
    what a command object and a swapchain destroy.  [Device::Destroy]
    destroys a live logical device once and nulls its handle, so the
    destructor of the device object that follows it at shutdown, or a
    second [Destroy], makes no call; the destructor alone destroys a live
    logical device once as well, and leaves the logical and the physical
    device null.  [SwapChain::~SwapChain] makes exactly one destroy call
    for a swapchain handle that is not null and none for a null one.
    [Command::~Command] destroys its pool only when both the pool and the
    logical device of the engine are not null: a command object torn down
    when the logical device is already null nulls its pool without
    destroying it. *)
Theorem teardown_destroys_live_handle_once
    (device : Handle) (d : Device.t) (sc : SwapChain.t) (c : Command.t) :
  let d1 := snd (Device.Destroy d) in
  fst (Device.Destroy d)
    = (if Device.m_logical_device d =? VK_NULL_HANDLE then []
       else [vkDestroyDevice (Device.m_logical_device d)])
  /\ Device.m_logical_device d1 = VK_NULL_HANDLE
  /\ Device.Destroy d1 = ([], d1)
  /\ fst (Device.destructor d1) = []
  /\ fst (Device.destructor d) = fst (Device.Destroy d)
  /\ Device.m_logical_device (snd (Device.destructor d)) = VK_NULL_HANDLE
  /\ Device.m_physical_device (snd (Device.destructor d)) = VK_NULL_HANDLE
  /\ fst (SwapChain.destructor device sc)
     = (if SwapChain.m_swapchain sc =? VK_NULL_HANDLE then []
        else [vkDestroySwapchainKHR device (SwapChain.m_swapchain sc)])
  /\ fst (Command.destructor device c)
     = (if (Command.m_pool c =? 0) || (device =? 0) then []
        else [vkDestroyCommandPool device (Command.m_pool c)])
  /\ (device = 0 ->
      fst (Command.destructor device c) = []
      /\ Command.m_pool (snd (Command.destructor device c)) = 0).
Proof.
  cbv zeta.
  unfold Device.destructor, Device.Destroy, SwapChain.destructor, Command.destructor.
  destruct (Z.eqb_spec (Device.m_logical_device d) VK_NULL_HANDLE) as [Ed|Ed];
    destruct (Z.eqb_spec (SwapChain.m_swapchain sc) VK_NULL_HANDLE) as [Es|Es];
    destruct (Z.eqb_spec (Command.m_pool c) 0) as [Ec|Ec];
    destruct (Z.eqb_spec device 0) as [Ev|Ev];
    cbn; rewrite ?Ed, ?Es, ?Ec; cbn;
    repeat split; try reflexivity; try assumption; try contradiction.
Qed.

Lemma teardown_destroys_live_handle_once_witness :
  fst (Command.destructor 0 command_empty) = []
  /\ Command.m_pool (snd (Command.destructor 0 command_empty)) = 0.
Proof.
  destruct (teardown_destroys_live_handle_once 0 Device.fresh swapchain_fresh
              command_empty) as (_ & _ & _ & _ & _ & _ & _ & _ & _ & H).
  exact (H eq_refl).
Defined.

(** ** The timer *)

Section TimerBlock.

Lemma block_until_loop_prefix time_limit skipped t_ret clock' :
  Forall (fun t => to_u64 t < time_limit) skipped ->
  time_limit <= to_u64 t_ret ->
  Timer.block_until_loop time_limit (skipped ++ t_ret :: clock') = Returned clock'.
Proof.
  induction 1 as [|t skipped Ht _ IH]; intros Hret; cbn [app Timer.block_until_loop].
  - destruct (Z.leb_spec time_limit (to_u64 t_ret)); [reflexivity | lia].
  - destruct (Z.leb_spec time_limit (to_u64 t)); [lia | now apply IH].
Qed.

Lemma block_until_loop_Pending_iff time_limit clock :
  Timer.block_until_loop time_limit clock = Pending
  <-> Forall (fun t => to_u64 t < time_limit) clock.
Proof.
  induction clock as [|t rest IH]; cbn [Timer.block_until_loop].
  - split; [constructor | reflexivity].
  - destruct (Z.leb_spec time_limit (to_u64 t)).
    + split; [discriminate|]. intros H'. inversion H'; lia.
    + rewrite IH. split; [now constructor | intros H'; now inversion H'].
Qed.

Lemma block_until_loop_defined time_limit clock :
  Timer.block_until_loop time_limit clock <> Undefined
  /\ Timer.block_until_loop time_limit clock <> AssertionFailed.
Proof.
  induction clock as [|t rest IH]; cbn [Timer.block_until_loop].
  - split; discriminate.
  - destruct (time_limit <=? to_u64 t); [split; discriminate | exact IH].
Qed.

End TimerBlock.

(** X7.  [Timer::block_until] returns exactly at the first reading of the
    millisecond clock, taken as an unsigned 64-bit value, that is greater
    than or equal to the limit: it returns if and only if such a reading
    comes, it has then consumed every earlier (smaller) reading and that
    one and nothing after it, and it leaves the timer stopped with its
    start time untouched.  While every reading is below the limit it keeps
    polling.  A limit of 0 returns at the first reading. *)
Theorem block_until_returns_at_first_reading_reaching_limit
    (time_limit : Z) (clock : list Z) (tm : Timer.t) :
  (forall tm' clock',
     Timer.block_until time_limit clock tm = Returned (tm', clock') <->
     (exists skipped t_ret,
        clock = skipped ++ t_ret :: clock'
        /\ time_limit <= to_u64 t_ret
        /\ Forall (fun t => to_u64 t < time_limit) skipped)
     /\ tm' = {| Timer.m_begin := Timer.m_begin tm; Timer.m_is_running := false |})
  /\ (Timer.block_until time_limit clock tm = Pending <->
      Forall (fun t => to_u64 t < time_limit) clock)
  /\ Timer.block_until time_limit clock tm <> Undefined
  /\ Timer.block_until time_limit clock tm <> AssertionFailed
  /\ (forall t rest,
        Timer.block_until 0 (t :: rest) tm
        = Returned ({| Timer.m_begin := Timer.m_begin tm;
                       Timer.m_is_running := false |}, rest)).
Proof.
  unfold Timer.block_until.
  split; [|split; [|split; [|split]]].
  - intros tm' clock'. split.
    + intros H. apply bind_Returned in H as (c & Hc & H). injection H as <- <-.
      apply block_until_loop_spec in Hc. split; [exact Hc | reflexivity].
    + intros [(skipped & t_ret & -> & Hret & Hsk) ->].
      rewrite block_until_loop_prefix by assumption. reflexivity.
  - rewrite <- block_until_loop_Pending_iff.
    destruct (Timer.block_until_loop time_limit clock); cbn;
      split; intros H; try discriminate; reflexivity.
  - destruct (block_until_loop_defined time_limit clock) as [H _].
    destruct (Timer.block_until_loop time_limit clock); cbn;
      try discriminate; contradiction.
  - destruct (block_until_loop_defined time_limit clock) as [_ H].
    destruct (Timer.block_until_loop time_limit clock); cbn;
      try discriminate; contradiction.
  - intros t rest. cbn [Timer.block_until_loop].
    destruct (Z.leb_spec 0 (to_u64 t)) as [_|H]; [reflexivity|].
    unfold to_u64 in H. pose proof (Z.mod_pos_bound t (2 ^ 64) ltac:(lia)). lia.
Qed.

(** ** The frame-time records of the application *)

Section FrameTimes.

Import Application.

Lemma set_nth_length {A} n (x : A) l : List.length (set_nth n x l) = List.length l.
Proof.
  revert n. induction l as [|h t IH]; intros [|n]; cbn; try reflexivity.
  now rewrite IH.
Qed.

Lemma nth_set_nth_same {A} n (x d : A) l :
  (n < List.length l)%nat -> nth n (set_nth n x l) d = x.
Proof.
  revert n. induction l as [|h t IH]; intros [|n] H; cbn in *; try lia; try reflexivity.
  apply IH. lia.
Qed.

Lemma nth_set_nth_other {A} n j (x d : A) l :
  j <> n -> nth j (set_nth n x l) d = nth j l d.
Proof.
  revert n j. induction l as [|h t IH]; intros [|n] [|j] H; cbn; try reflexivity;
    try contradiction.
  apply IH. congruence.
Qed.

Lemma Timer_diff_range clock tm rt clock' :
  Timer.diff clock tm = Returned (rt, clock') -> 0 <= rt < 2 ^ 64.
Proof.
  unfold Timer.diff. intros H.
  apply bind_Returned in H as ([now c] & _ & H).
  destruct (Timer.m_begin tm); [|discriminate].
  injection H as <- _. unfold to_u64. apply Z.mod_pos_bound. lia.
Qed.

(** What one frame does to the records: it stores the rendering time of
    the frame, or 1 when that time is 0, at the current position and moves
    the position on, cyclically. *)
Lemma drawFrame_records env clock a a' clock' :
  drawFrame env clock a = Returned (a', clock') ->
  exists value,
    1 <= value < 2 ^ 64
    /\ recorded_frames a'
       = set_nth (Z.to_nat (recorded_frames_index a)) value (recorded_frames a)
    /\ recorded_frames_index a' = (recorded_frames_index a + 1) mod FPS_RECORDS.
Proof.
  unfold drawFrame. intros H.
  assert (Hv : forall rt, 0 <= rt < 2 ^ 64 ->
                 1 <= (if 0 <? rt then rt else 1) < 2 ^ 64).
  { intros rt Hrt. destruct (Z.ltb_spec 0 rt); lia. }
  destruct (m_FPS_limit a) as [limit|].
  - apply bind_Returned in H as ([wu c1] & _ & H).
    apply bind_Returned in H as ([tm c2] & _ & H).
    apply bind_Returned in H as (e1 & _ & H).
    apply bind_Returned in H as ([rt c3] & Hd & H).
    destruct (Fp.uint64_of_double wu); [|discriminate].
    apply bind_Returned in H as ([tm' c4] & _ & H).
    apply bind_Returned in H as (a1 & Hadv & H).
    injection H as -> _.
    unfold advance_frame in Hadv.
    apply bind_Returned in Hadv as (r & _ & Hadv). injection Hadv as <-.
    apply Timer_diff_range in Hd.
    exists (if 0 <? rt then rt else 1). split; [now apply Hv|].
    split; reflexivity.
  - apply bind_Returned in H as ([tm c2] & _ & H).
    apply bind_Returned in H as (e1 & _ & H).
    apply bind_Returned in H as ([rt c3] & Hd & H).
    apply bind_Returned in H as (a1 & Hadv & H).
    injection H as -> _.
    unfold advance_frame in Hadv.
    apply bind_Returned in Hadv as (r & _ & Hadv). injection Hadv as <-.
    apply Timer_diff_range in Hd.
    exists (if 0 <? rt then rt else 1). split; [now apply Hv|].
    split; reflexivity.
Qed.

End FrameTimes.

(** X8.  The frame-time records of [Application::drawFrame].  From an
    application whose record position is 0 and whose record array has its
    10 entries, after [n] frames that returned the position is [n mod 10],
    so it always stays inside the array, which keeps its 10 entries; every
    entry a frame has written holds a time of at least 1 (a rendering time
    of 0 ms is stored as 1), and the entries no frame has reached yet are
    what they were. *)
Theorem drawFrames_frame_time_records
    (world : N -> Engine.FrameEnv * list Z) (n : N) (a a_n : Application.t) :
  Application.recorded_frames_index a = 0 ->
  List.length (Application.recorded_frames a) = 10%nat ->
  Application.drawFrames world n a = Returned a_n ->
  Application.recorded_frames_index a_n = Z.of_N n mod 10
  /\ 0 <= Application.recorded_frames_index a_n < 10
  /\ List.length (Application.recorded_frames a_n) = 10%nat
  /\ (forall j, (j < 10)%nat -> (N.of_nat j < n)%N ->
        1 <= nth j (Application.recorded_frames a_n) 0 < 2 ^ 64)
  /\ (forall j, (N.to_nat n <= j)%nat ->
        nth j (Application.recorded_frames a_n) 0
        = nth j (Application.recorded_frames a) 0).
Proof.
  intros Hi Hl. revert a_n.
  induction n as [|n IH] using N.peano_ind; intros a_n H.
  - unfold Application.drawFrames in H. simpl in H. injection H as <-.
    rewrite Hi. repeat split; try reflexivity; try lia; try assumption.
  - rewrite drawFrames_succ in H.
    apply bind_Returned in H as (a1 & H1 & H).
    apply bind_Returned in H as ([a2 c] & H2 & H). injection H as <-.
    destruct (IH a1 H1) as (Hi1 & Hr1 & Hl1 & Hs1 & Hu1).
    apply drawFrame_records in H2 as (value & Hv & Hrec & Hidx).
    rewrite Hi1 in Hrec, Hidx. unfold Application.FPS_RECORDS in Hidx.
    pose proof (Z.mod_pos_bound (Z.of_N n) 10 ltac:(lia)) as Hm.
    assert (Hidx' : Application.recorded_frames_index a2 = Z.of_N (N.succ n) mod 10).
    { rewrite Hidx, N2Z.inj_succ, Zplus_mod_idemp_l. reflexivity. }
    split; [exact Hidx'|].
    split; [rewrite Hidx'; apply Z.mod_pos_bound; lia|].
    split; [rewrite Hrec, set_nth_length; exact Hl1|].
    split.
    + intros j Hj Hjn. rewrite Hrec.
      destruct (Nat.eq_dec j (Z.to_nat (Z.of_N n mod 10))) as [->|Hne].
      * rewrite nth_set_nth_same by lia. exact Hv.
      * rewrite nth_set_nth_other by exact Hne.
        apply Hs1; [exact Hj|].
        destruct (N.eq_dec (N.of_nat j) n) as [E|E]; [|lia].
        exfalso. apply Hne. rewrite Z.mod_small by lia. lia.
    + intros j Hj. rewrite Hrec.
      pose proof (Z.mod_le (Z.of_N n) 10 ltac:(lia) ltac:(lia)) as Hle.
      rewrite nth_set_nth_other by lia.
      apply Hu1. lia.
Qed.

Lemma drawFrames_frame_time_records_witness :
  Application.recorded_frames_index (application_start (Some 60)) = 0
  /\ List.length (Application.recorded_frames (application_start (Some 60))) = 10%nat
  /\ Application.drawFrames world_ok 7 (application_start (Some 60))
     = Returned application_after_7
  /\ Application.recorded_frames_index application_after_7 = 7
  /\ 1 <= nth 6 (Application.recorded_frames application_after_7) 0.
Proof.
  assert (H : Application.drawFrames world_ok 7 (application_start (Some 60))
              = Returned application_after_7) by (vm_compute; reflexivity).
  destruct (drawFrames_frame_time_records world_ok 7 (application_start (Some 60))
              application_after_7 eq_refl eq_refl H) as (Hi & _ & _ & Hs & _).
  split; [reflexivity|]. split; [reflexivity|]. split; [exact H|].
  split; [exact Hi|]. apply (Hs 6%nat); [lia | reflexivity].
Defined.

(** ** A frame under a forced FPS limit *)

Section LimitedFrame.

Import Application.

(** With a limit between 1 and 255 and the first clock reading in range,
    a frame on at least one framebuffer returns when [block_until] does,
    with the clock [block_until] left, and polls when it polls. *)
Lemma drawFrame_limited_outcome env now t_begin t_end polls a limit :
  m_FPS_limit a = Some limit ->
  1 <= limit <= 255 ->
  2 ^ 40 <= now < 2 ^ 41 - 1024 ->
  framebuffer_count a <> 0 ->
  sync_objects_exist (Render.m_graphics_pipeline (Engine.m_render (m_engine a))) ->
  match Timer.block_until_loop (now + 1000 / limit) polls with
  | Returned clock' =>
      exists a', drawFrame env (now :: t_begin :: t_end :: polls) a
                 = Returned (a', clock')
  | _ => drawFrame env (now :: t_begin :: t_end :: polls) a = Pending
  end.
Proof.
  intros Hlim Hl Hnow Hfb Hsync. unfold drawFrame. rewrite Hlim.
  cbn [Timer.get_time_limit Timer.NOW_MS Timer.Timer bind].
  destruct (render_frame_returns env (m_engine a) Hsync) as [e1 He1].
  rewrite He1. apply render_frame_Returned in He1 as (Hf & _).
  cbn [Timer.diff Timer.NOW_MS bind Timer.m_begin].
  rewrite (deadline_of_limit limit now Hl Hnow).
  unfold Timer.block_until.
  pose proof (block_until_loop_defined (now + 1000 / limit) polls) as [Hu Ha].
  destruct (Timer.block_until_loop (now + 1000 / limit) polls) as [| | |c];
    try contradiction; cbn [bind]; [reflexivity|].
  unfold advance_frame, Render.updateFrameIndex.
  cbn [m_engine set_app_timer record_frame_time set_engine].
  rewrite Hf.
  unfold framebuffer_count in Hfb.
  destruct (Z.eqb_spec
              (Z.of_nat (List.length (Render.m_framebuffers (Engine.m_render (m_engine a)))))
              0) as [E|E]; [contradiction|].
  cbn [bind]. eauto.
Qed.

End LimitedFrame.

(** X9.  A frame after [Application::forceRendererFPSLimit].  A new limit
    of 0 removes the cap and any other value of the 8-bit argument sets
    it.  On an engine with at least one framebuffer whose pipeline has its
    three synchronisation objects, a frame then never ends in undefined
    behaviour or in a failed assertion: without a cap it returns as soon as
    the clock has been read twice; with a cap it returns when, after the
    three readings of the frame itself, some reading of the clock is at
    least the first reading plus the whole milliseconds of 1000 / limit,
    and keeps polling as long as no reading is.  (First readings between
    2^40 and 2^41 - 1024 ms, which covers the years 2004 to 2039.)  When the
    pointer to the image-ready or to the present-done semaphore is null,
    the frame is undefined, with or without a cap. *)
Theorem drawFrame_after_forceRendererFPSLimit
    (env : Engine.FrameEnv) (a : Application.t) (new_limit : Z) :
  0 <= new_limit <= 255 ->
  Application.framebuffer_count a <> 0 ->
  let a1 := Application.forceRendererFPSLimit new_limit a in
  let p := Render.m_graphics_pipeline (Engine.m_render (Application.m_engine a)) in
  Application.m_FPS_limit a1 = (if new_limit =? 0 then None else Some new_limit)
  /\ (sync_objects_exist p ->
      (new_limit = 0 ->
       forall t_begin t_end rest,
         exists a', Application.drawFrame env (t_begin :: t_end :: rest) a1
                    = Returned (a', rest))
      /\ (0 < new_limit ->
          forall now t_begin t_end polls,
            2 ^ 40 <= now < 2 ^ 41 - 1024 ->
            ((exists t, In t polls /\ now + 1000 / new_limit <= to_u64 t) ->
             exists a' clock',
               Application.drawFrame env (now :: t_begin :: t_end :: polls) a1
               = Returned (a', clock'))
            /\ (Forall (fun t => to_u64 t < now + 1000 / new_limit) polls ->
                Application.drawFrame env (now :: t_begin :: t_end :: polls) a1 = Pending)
            /\ Application.drawFrame env (now :: t_begin :: t_end :: polls) a1 <> Undefined
            /\ Application.drawFrame env (now :: t_begin :: t_end :: polls) a1
               <> AssertionFailed))
  /\ (Pipeline.m_sync_image_ready p = None \/ Pipeline.m_sync_present_done p = None ->
      forall now t_begin rest,
        Application.drawFrame env (now :: t_begin :: rest) a1 = Undefined).
Proof.
  intros Hr Hfb a1 p.
  assert (Hlim : Application.m_FPS_limit a1
                 = (if new_limit =? 0 then None else Some new_limit)).
  { unfold a1, Application.forceRendererFPSLimit. cbn [Application.m_FPS_limit].
    destruct (Z.ltb_spec 0 new_limit); destruct (Z.eqb_spec new_limit 0);
      try reflexivity; lia. }
  assert (Hfb1 : Application.framebuffer_count a1 <> 0) by exact Hfb.
  split; [exact Hlim|]. split; [intros Hsync; split|].
  - intros -> t_begin t_end rest.
    apply drawFrame_unlimited_returns; [exact Hlim | exact Hfb1 | exact Hsync].
  - intros Hpos now t_begin t_end polls Hnow.
    destruct (Z.eqb_spec new_limit 0) as [E|_]; [lia|].
    pose proof (drawFrame_limited_outcome env now t_begin t_end polls a1 new_limit
                  Hlim ltac:(lia) Hnow Hfb1 Hsync) as Hout.
    split; [|split; [|split]].
    + intros (t & Hin & Ht).
      destruct (block_until_loop_returns _ _ _ Hin Ht) as [c Hc].
      rewrite Hc in Hout. destruct Hout as [a' Ha']. eauto.
    + intros Hall. apply block_until_loop_Pending_iff in Hall.
      rewrite Hall in Hout. exact Hout.
    + destruct (Timer.block_until_loop (now + 1000 / new_limit) polls);
        try (rewrite Hout; discriminate).
      destruct Hout as [a' ->]. discriminate.
    + destruct (Timer.block_until_loop (now + 1000 / new_limit) polls);
        try (rewrite Hout; discriminate).
      destruct Hout as [a' ->]. discriminate.
  - intros Hnull now t_begin rest.
    pose proof (render_frame_Undefined env (Application.m_engine a1) Hnull) as Hu.
    unfold Application.drawFrame.
    destruct (Application.m_FPS_limit a1);
      cbn [Timer.get_time_limit Timer.NOW_MS Timer.Timer bind];
      rewrite Hu; reflexivity.
Qed.

Lemma drawFrame_after_forceRendererFPSLimit_witness :
  exists a' clock',
    Application.drawFrame (frame_env_ok 0)
      (1700000000000 :: 1700000000000 :: 1700000000005
         :: [1700000000005; 1700000000033; 1700000000034])
      (Application.forceRendererFPSLimit 30 (application_start None))
    = Returned (a', clock').
Proof.
  destruct (drawFrame_after_forceRendererFPSLimit (frame_env_ok 0)
              (application_start None) 30) as (_ & H & _).
  - lia.
  - vm_compute. discriminate.
  - destruct H as (_ & H).
    + repeat split; discriminate.
    + destruct (H ltac:(lia) 1700000000000 1700000000000 1700000000005
                  [1700000000005; 1700000000033; 1700000000034])
        as (Hret & _).
      * lia.
      * apply Hret. exists 1700000000033. split.
        -- right. left. reflexivity.
        -- vm_compute. discriminate.
Defined.

(** ** Recording and submitting a frame *)

(** X10.  The outcomes of [Command::record].  It returns Ok exactly when
    the driver begins the command buffer, the frame index is below the
    number of framebuffers and the driver ends the command buffer.  What
    the buffer held before is always discarded: when the begin fails or
    the index is out of range nothing is recorded and the buffer is left
    empty; otherwise, even when ending the buffer fails, the buffer holds
    one render pass, begun first on the framebuffer at the frame index with
    the render pass and extent of the engine and ended last, with the
    pipeline bound, the vertex buffer bound at binding 0 with offset 0 and
    the index buffer bound at offset 0 in between.  The pool and the buffer
    handle are not changed. *)
Theorem record_outcomes (env : Command.RecordEnv) (c : Command.t) :
  let r := Command.record env c in
  let count := Z.of_nat (List.length (Command.framebuffers env)) in
  (fst r = VOk <->
   Command.vk_begin_command_buffer env = VK_SUCCESS
   /\ Command.frame_index env < count
   /\ Command.vk_end_command_buffer env = VK_SUCCESS)
  /\ Command.m_pool (snd r) = Command.m_pool c
  /\ Command.m_buffer (snd r) = Command.m_buffer c
  /\ (forall previous,
        Command.commands (snd (Command.record env (Command.set_commands c previous)))
        = Command.commands (snd r))
  /\ (Command.vk_begin_command_buffer env <> VK_SUCCESS
      \/ count <= Command.frame_index env ->
      Command.commands (snd r) = [] /\ fst r <> VOk)
  /\ (Command.vk_begin_command_buffer env = VK_SUCCESS ->
      Command.frame_index env < count ->
      exists middle,
        Command.commands (snd r)
        = Command.vkCmdBeginRenderPass (Command.render_pass env)
            (nth (Z.to_nat (Command.frame_index env)) (Command.framebuffers env) 0)
            (Command.extent env)
          :: middle ++ [Command.vkCmdEndRenderPass]
        /\ In (Command.vkCmdBindPipeline (Command.pipeline env)) middle
        /\ In (Command.vkCmdBindVertexBuffers 0 [Command.vertex_buffer env] [0]) middle
        /\ In (Command.vkCmdBindIndexBuffer (Command.index_buffer env) 0) middle
        /\ Forall (fun cmd =>
                     match cmd with
                     | Command.vkCmdBeginRenderPass _ _ _ => False
                     | Command.vkCmdEndRenderPass => False
                     | _ => True
                     end) middle).
Proof.
  cbv zeta. unfold Command.record.
  destruct (Command.vk_begin_command_buffer env) as [|bcode] eqn:Eb.
  2: { cbn. repeat split; intros; try discriminate; try reflexivity;
       try (destruct H as (H & _); discriminate H). }
  destruct (Z.leb_spec (Z.of_nat (List.length (Command.framebuffers env)))
              (Command.frame_index env)) as [Hi|Hi].
  { cbn. repeat split; intros; try discriminate; try reflexivity; lia. }
  destruct (Command.vk_end_command_buffer env) as [|ecode] eqn:Ee; cbn.
  - repeat split; intros; try reflexivity; try assumption;
      try (destruct H as [H|H]; [congruence | lia]).
    exists ([Command.vkCmdBindPipeline (Command.pipeline env);
             Command.vkCmdSetViewport (Command.extent env);
             Command.vkCmdSetScissor (Command.extent env);
             Command.vkCmdBindVertexBuffers 0 [Command.vertex_buffer env] [0];
             Command.vkCmdBindIndexBuffer (Command.index_buffer env) 0;
             Command.vkCmdDrawIndexed 0 1 0 0 0]
            ++ (if Command.imgui env
                then [Command.ImGui_ImplVulkan_RenderDrawData
                        (Command.imgui_draw_data env)]
                else [])).
    split; [now rewrite <- app_assoc|].
    split; [cbn; tauto|]. split; [cbn; tauto|]. split; [cbn; tauto|].
    destruct (Command.imgui env); repeat constructor.
  - repeat split; intros; try reflexivity; try discriminate;
      try (destruct H as (_ & _ & H); discriminate H);
      try (destruct H as [H|H]; [congruence | lia]).
    exists ([Command.vkCmdBindPipeline (Command.pipeline env);
             Command.vkCmdSetViewport (Command.extent env);
             Command.vkCmdSetScissor (Command.extent env);
             Command.vkCmdBindVertexBuffers 0 [Command.vertex_buffer env] [0];
             Command.vkCmdBindIndexBuffer (Command.index_buffer env) 0;
             Command.vkCmdDrawIndexed 0 1 0 0 0]
            ++ (if Command.imgui env
                then [Command.ImGui_ImplVulkan_RenderDrawData
                        (Command.imgui_draw_data env)]
                else [])).
    split; [now rewrite <- app_assoc|].
    split; [cbn; tauto|]. split; [cbn; tauto|]. split; [cbn; tauto|].
    destruct (Command.imgui env); repeat constructor.
Qed.

Lemma record_outcomes_witness :
  Command.vk_begin_command_buffer record_env_ok = VK_SUCCESS
  /\ Command.frame_index record_env_ok
     < Z.of_nat (List.length (Command.framebuffers record_env_ok))
  /\ exists middle,
       Command.commands (snd (Command.record record_env_ok command_empty))
       = Command.vkCmdBeginRenderPass 104 202
           {| SwapChain.width := 1280; SwapChain.height := 720 |}
         :: middle ++ [Command.vkCmdEndRenderPass].
Proof.
  assert (Hb : Command.vk_begin_command_buffer record_env_ok = VK_SUCCESS)
    by reflexivity.
  assert (Hi : Command.frame_index record_env_ok
               < Z.of_nat (List.length (Command.framebuffers record_env_ok)))
    by (vm_compute; reflexivity).
  split; [exact Hb|]. split; [exact Hi|].
  pose proof (record_outcomes record_env_ok command_empty) as H.
  cbv zeta in H. destruct H as (_ & _ & _ & _ & _ & H).
  destruct (H Hb Hi) as (middle & Hm & _).
  exists middle. exact Hm.
Defined.

Section DrawFrame.

Import Engine.

(** Nothing is recorded when the begin fails or the index is out of
    range. *)
Lemma record_nothing_recorded env c :
  Command.vk_begin_command_buffer env <> VK_SUCCESS
  \/ Z.of_nat (List.length (Command.framebuffers env)) <= Command.frame_index env ->
  fst (Command.record env c) <> VOk
  /\ Command.commands (snd (Command.record env c)) = [].
Proof.
  intros H. unfold Command.record.
  destruct (Command.vk_begin_command_buffer env) as [|bcode];
    [|split; [discriminate | reflexivity]].
  destruct (Z.leb_spec (Z.of_nat (List.length (Command.framebuffers env)))
              (Command.frame_index env)) as [Hi|Hi];
    [split; [discriminate | reflexivity]|].
  destruct H as [H|H]; [congruence | lia].
Qed.

End DrawFrame.

(** X11.  [Pipeline::draw] drops the result of [record].  Without a
    graphics command object it returns its first error and touches
    nothing.  With one, and with the three synchronisation objects of the
    pipeline, it returns Ok exactly when the queue submission succeeds,
    whatever [record] returned: when beginning the command buffer fails, or
    when the frame index is not below the number of framebuffers, the
    command buffer that is submitted is empty and [draw] still returns Ok.
    Apart from the content of that command buffer the engine is left as it
    was.  With a command object and one of the three pointers to the
    synchronisation objects null, [draw] is undefined. *)
Theorem draw_returns_submit_result_whatever_record_returns
    (env : Engine.FrameEnv) (e : Engine.t) :
  let p := Render.m_graphics_pipeline (Engine.m_render e) in
  (Render.m_graphics_command (Engine.m_render e) = None ->
   Engine.draw env e
   = Returned (Error "Cannot get the command buffer in the draw call", e))
  /\ (forall c,
        Render.m_graphics_command (Engine.m_render e) = Some c ->
        let recorded := Command.record (Engine.record_env env e) c in
        (sync_objects_exist p ->
         exists r,
           Engine.draw env e = Returned r
           /\ (fst r = Ok 0 <-> Engine.vk_queue_submit env = VK_SUCCESS)
           /\ (fst r = Ok 0 \/ fst r = Error "Error submitting the queue in Draw call")
           /\ Render.m_graphics_command (Engine.m_render (snd r)) = Some (snd recorded)
           /\ Render.m_framebuffers (Engine.m_render (snd r))
              = Render.m_framebuffers (Engine.m_render e)
           /\ Render.m_frame_index (Engine.m_render (snd r))
              = Render.m_frame_index (Engine.m_render e)
           /\ Render.m_graphics_pipeline (Engine.m_render (snd r)) = p
           /\ Engine.m_swapchain (snd r) = Engine.m_swapchain e
           /\ Engine.m_graphics_device (snd r) = Engine.m_graphics_device e
           /\ (Engine.vk_queue_submit env = VK_SUCCESS ->
               Engine.vk_begin_command_buffer env <> VK_SUCCESS
               \/ Z.of_nat (List.length (Render.m_framebuffers (Engine.m_render e)))
                  <= Render.m_frame_index (Engine.m_render e) ->
               fst r = Ok 0
               /\ fst recorded <> VOk
               /\ Command.commands (snd recorded) = []))
        /\ (~ sync_objects_exist p -> Engine.draw env e = Undefined)).
Proof.
  intros p. split.
  - intros Hc. unfold Engine.draw. rewrite Hc. reflexivity.
  - intros c Hc recorded. split.
    + intros Hsync. eexists. split; [exact (draw_unfold env e c Hc Hsync)|].
      fold recorded. cbn [fst snd].
      split; [|split; [|repeat split]].
      * destruct (Engine.vk_queue_submit env); split; intros H;
          try reflexivity; discriminate H.
      * destruct (Engine.vk_queue_submit env); auto.
      * now rewrite H.
      * now apply record_nothing_recorded.
      * now apply record_nothing_recorded.
    + intros Hn. exact (draw_Undefined env e c Hc Hn).
Qed.

Lemma draw_returns_submit_result_witness :
  let env := {| Engine.imgui := false;
                Engine.imgui_draw_data := [];
                Engine.acquired_image := None;
                Engine.vk_begin_command_buffer := VK_FAILURE (-1);
                Engine.vk_end_command_buffer := VK_SUCCESS;
                Engine.vk_queue_submit := VK_SUCCESS |} in
  Render.m_graphics_command (Engine.m_render engine_three_framebuffers)
    = Some command_empty
  /\ sync_objects_exist
       (Render.m_graphics_pipeline (Engine.m_render engine_three_framebuffers))
  /\ (exists r, Engine.draw env engine_three_framebuffers = Returned r /\ fst r = Ok 0)
  /\ fst (Command.record (Engine.record_env env engine_three_framebuffers)
            command_empty) <> VOk.
Proof.
  intros env.
  assert (Hs : sync_objects_exist
                 (Render.m_graphics_pipeline (Engine.m_render engine_three_framebuffers)))
    by (repeat split; discriminate).
  destruct (draw_returns_submit_result_whatever_record_returns env
              engine_three_framebuffers) as (_ & H).
  destruct (H command_empty eq_refl) as (H1 & _).
  destruct (H1 Hs) as (r & Hr & _ & _ & _ & _ & _ & _ & _ & _ & Hempty).
  destruct Hempty as (H2 & H3 & _); [reflexivity | left; discriminate |].
  split; [reflexivity|]. split; [exact Hs|].
  split; [exists r; split; assumption | exact H3].
Defined.

(** X12.  The framebuffer a frame is drawn into.  In the
    acquire/draw/present sequence of a frame on an engine with a graphics
    command object, when the driver begins the command buffer: with the
    three synchronisation objects of the pipeline the sequence returns; the
    frame index is then the image index the driver stored when it acquired
    an image, and the index of the previous frame when the acquisition
    failed; the render pass of the frame is begun on the framebuffer at
    that index, with the render pass of the pipeline and the extent of the
    swapchain, when the index is below the number of framebuffers, and
    nothing at all is recorded when it is not; the framebuffers themselves
    are not changed.  With one of the three pointers to the
    synchronisation objects null the sequence is undefined. *)
Theorem render_frame_targets_framebuffer_of_acquired_image
    (env : Engine.FrameEnv) (e : Engine.t) (c : Command.t) :
  Render.m_graphics_command (Engine.m_render e) = Some c ->
  Engine.vk_begin_command_buffer env = VK_SUCCESS ->
  let p := Render.m_graphics_pipeline (Engine.m_render e) in
  let index := match Engine.acquired_image env with
               | Some image => to_u32 image
               | None => Render.m_frame_index (Engine.m_render e)
               end in
  let framebuffers := Render.m_framebuffers (Engine.m_render e) in
  (sync_objects_exist p ->
   exists e',
     Application.render_frame env e = Returned e'
     /\ Render.m_frame_index (Engine.m_render e') = index
     /\ Render.m_framebuffers (Engine.m_render e') = framebuffers
     /\ (index < Z.of_nat (List.length framebuffers) ->
         exists c' rest,
           Render.m_graphics_command (Engine.m_render e') = Some c'
           /\ Command.commands c'
              = Command.vkCmdBeginRenderPass
                  (Pipeline.m_render_pass p)
                  (nth (Z.to_nat index) framebuffers 0)
                  (SwapChain.m_extent (Engine.m_swapchain e))
                :: rest)
     /\ (Z.of_nat (List.length framebuffers) <= index ->
         exists c',
           Render.m_graphics_command (Engine.m_render e') = Some c'
           /\ Command.commands c' = []))
  /\ (~ sync_objects_exist p -> Application.render_frame env e = Undefined).
Proof.
  intros Hc Hb p index framebuffers.
  destruct (store_acquired_image_spec env e) as (Hi & Hf & Hg & Hp & Hs).
  cbv zeta in Hi. fold index in Hi. fold framebuffers in Hf. fold p in Hp.
  rewrite Hc in Hg.
  split.
  - intros Hsync. pose proof Hsync as (Hir & Hpd & Hcg).
    unfold Application.render_frame.
    rewrite (proj2 (acquireImage_Returned env e _) (conj Hcg (conj Hir eq_refl))).
  cbn [bind].
    rewrite (draw_unfold env _ c Hg) by (rewrite Hp; exact Hsync). cbn [bind].
    eexists. split.
    { apply present_Returned. split; [|reflexivity].
      cbn [Engine.m_render Engine.set_render Render.set_graphics_command
             Render.m_graphics_pipeline].
      rewrite Hp. exact Hpd. }
    cbn [Engine.m_render Engine.set_render Render.set_graphics_command
           Render.m_frame_index Render.m_framebuffers Render.m_graphics_command].
    split; [exact Hi|]. split; [exact Hf|].
    unfold Command.record, Engine.record_env.
    cbn [Command.vk_begin_command_buffer Command.frame_index Command.framebuffers
           Command.render_pass Command.extent Command.vk_end_command_buffer].
    rewrite Hb, Hi, Hf, Hp, Hs.
    destruct (Z.leb_spec (Z.of_nat (List.length framebuffers)) index) as [Hle|Hlt].
    + split; [lia|]. intros _. eexists. split; reflexivity.
    + split; [|lia]. intros _.
      destruct (Engine.vk_end_command_buffer env);
        eexists; eexists; (split; [reflexivity|]); cbn; reflexivity.
  - intros Hn. unfold Application.render_frame, Engine.acquireImage. cbv zeta.
    destruct (Pipeline.m_sync_cpu_gpu
                (Render.m_graphics_pipeline (Engine.m_render e))) as [cg|] eqn:Ecg;
      [|reflexivity].
    destruct (Pipeline.m_sync_image_ready
                (Render.m_graphics_pipeline (Engine.m_render e))) as [ir|] eqn:Eir;
      [|reflexivity].
    cbn [bind].
    rewrite (draw_Undefined env _ c Hg); [reflexivity|].
    rewrite Hp. exact Hn.
Qed.

Lemma render_frame_targets_framebuffer_witness :
  Render.m_graphics_command (Engine.m_render engine_three_framebuffers)
    = Some command_empty
  /\ Engine.vk_begin_command_buffer (frame_env_ok 2) = VK_SUCCESS
  /\ sync_objects_exist
       (Render.m_graphics_pipeline (Engine.m_render engine_three_framebuffers))
  /\ exists e' c' rest,
       Application.render_frame (frame_env_ok 2) engine_three_framebuffers = Returned e'
       /\ Render.m_graphics_command (Engine.m_render e') = Some c'
       /\ Command.commands c'
          = Command.vkCmdBeginRenderPass 104 203
              {| SwapChain.width := 0; SwapChain.height := 0 |} :: rest.
Proof.
  assert (Hs : sync_objects_exist
                 (Render.m_graphics_pipeline (Engine.m_render engine_three_framebuffers)))
    by (repeat split; discriminate).
  split; [reflexivity|]. split; [reflexivity|]. split; [exact Hs|].
  pose proof (render_frame_targets_framebuffer_of_acquired_image (frame_env_ok 2)
                engine_three_framebuffers command_empty eq_refl eq_refl) as H.
  cbv zeta in H. destruct H as (H & _).
  destruct (H Hs) as (e' & He' & _ & _ & Hlt & _).
  destruct Hlt as (c' & rest & Hc' & Hcmd); [vm_compute; reflexivity|].
  exists e', c', rest. repeat split; assumption.
Defined.

Section PipelineCreation.

Import RenderInit.

Lemma and_then_VOk o k r' :
  and_then o k = Returned (VOk, r') ->
  exists r1, o = Returned (VOk, r1) /\ k r1 = Returned (VOk, r').
Proof.
  unfold and_then. intros H.
  apply bind_Returned in H as ([[|msg] r1] & Ho & H); [|discriminate].
  exists r1. split; assumption.
Qed.

Lemma createShaderModule_VOk env r r' :
  createShaderModule env r = Returned (VOk, r') ->
  exists vs_size fs_size fs_module vs_module,
    PipelineInit.file_size (vertex_shader_file env) = Some vs_size
    /\ PipelineInit.file_size (fragment_shader_file env) = Some fs_size
    /\ vk_create_shader_module env
         {| PipelineInit.m_size := fs_size;
            PipelineInit.m_tag := "shaders/basic_triangle.frag.spv";
            PipelineInit.m_type := PipelineInit.FRAGMENT_SHADER |}
       = (VK_SUCCESS, fs_module)
    /\ vk_create_shader_module env
         {| PipelineInit.m_size := vs_size;
            PipelineInit.m_tag := "shaders/basic_triangle.vert.spv";
            PipelineInit.m_type := PipelineInit.VERTEX_SHADER |}
       = (VK_SUCCESS, vs_module)
    /\ r' = {|
         render :=
           set_graphics_pipeline (render r)
             (PipelineInit.setShaderModules (Render.m_graphics_pipeline (render r))
                [fs_module; vs_module]);
         m_shader_stages :=
           [{| PipelineInit.stage := PipelineInit.VK_SHADER_STAGE_FRAGMENT_BIT;
               PipelineInit.module := fs_module |};
            {| PipelineInit.stage := PipelineInit.VK_SHADER_STAGE_VERTEX_BIT;
               PipelineInit.module := vs_module |}] |}.
Proof.
  unfold createShaderModule, PipelineInit.createGraphicsApplication,
    PipelineInit.readFile.
  destruct (PipelineInit.file_size (vertex_shader_file env)) as [vs_size|];
    destruct (PipelineInit.file_size (fragment_shader_file env)) as [fs_size|];
    destruct (assertions env);
    destruct (PipelineInit.file_opens (vertex_shader_file env));
    destruct (PipelineInit.file_opens (fragment_shader_file env));
    cbn [andb negb bind]; try discriminate;
    cbn [List.length repeat createShaderModule_loop set_nth PipelineInit.m_type
           stage_of_type];
    destruct (vk_create_shader_module env
                {| PipelineInit.m_size := fs_size;
                   PipelineInit.m_tag := "shaders/basic_triangle.frag.spv";
                   PipelineInit.m_type := PipelineInit.FRAGMENT_SHADER |})
      as [[|fcode] fs_module] eqn:Ef; try discriminate;
    destruct (vk_create_shader_module env
                {| PipelineInit.m_size := vs_size;
                   PipelineInit.m_tag := "shaders/basic_triangle.vert.spv";
                   PipelineInit.m_type := PipelineInit.VERTEX_SHADER |})
      as [[|vcode] vs_module] eqn:Ev; try discriminate;
    cbn; intros H; injection H as <-;
    exists vs_size, fs_size, fs_module, vs_module; repeat split; try assumption; reflexivity.
Qed.

End PipelineCreation.
Section PipelineCreation2.

Import RenderInit.

Lemma on_pipeline_VOk r step r' :
  Returned (on_pipeline r step) = Returned (VOk, r') ->
  exists p', step (Render.m_graphics_pipeline (render r)) = (VOk, p')
             /\ r' = set_render r (set_graphics_pipeline (render r) p').
Proof.
  unfold on_pipeline. intros H.
  destruct (step (Render.m_graphics_pipeline (render r))) as [res p'].
  injection H as -> <-. exists p'. split; reflexivity.
Qed.

Lemma on_transfert_command_VOk r step r' :
  on_transfert_command r step = Returned (VOk, r') ->
  exists c c', Render.m_transfert_command (render r) = Some c
               /\ step c = (VOk, c')
               /\ r' = set_render r (set_transfert_command (render r) (Some c')).
Proof.
  unfold on_transfert_command. intros H.
  destruct (Render.m_transfert_command (render r)) as [c|]; [|discriminate].
  destruct (step c) as [res c'] eqn:E.
  injection H as -> <-. exists c, c'. repeat split; try assumption; reflexivity.
Qed.

Lemma on_graphics_command_VOk r step r' :
  on_graphics_command r step = Returned (VOk, r') ->
  exists c c', Render.m_graphics_command (render r) = Some c
               /\ step c = (VOk, c')
               /\ r' = set_render r (Render.set_graphics_command (render r) (Some c')).
Proof.
  unfold on_graphics_command. intros H.
  destruct (Render.m_graphics_command (render r)) as [c|]; [|discriminate].
  destruct (step c) as [res c'] eqn:E.
  injection H as -> <-. exists c, c'. repeat split; try assumption; reflexivity.
Qed.

Lemma setupRenderPass_VOk vk fmt p p' :
  PipelineInit.setupRenderPass vk fmt p = (VOk, p') ->
  exists h, vk fmt = (VK_SUCCESS, h) /\ p' = PipelineInit.set_render_pass p h.
Proof.
  unfold PipelineInit.setupRenderPass.
  destruct (vk fmt) as [[|code] h]; intros H; [|discriminate].
  injection H as <-. eauto.
Qed.

Lemma createSyncObjects_VOk env p calls p' :
  PipelineInit.createSyncObjects env p = (calls, (VOk, p')) ->
  exists a b c,
    p' = PipelineInit.set_sync p (Some a) (Some b) (Some c)
    /\ match Pipeline.m_sync_image_ready p with
       | Some h => a = h
       | None => PipelineInit.vk_create_image_ready env = (VK_SUCCESS, a)
       end
    /\ match Pipeline.m_sync_present_done p with
       | Some h => b = h
       | None => PipelineInit.vk_create_present_done env = (VK_SUCCESS, b)
       end
    /\ match Pipeline.m_sync_cpu_gpu p with
       | Some h => c = h
       | None => PipelineInit.vk_create_cpu_gpu env = (VK_SUCCESS, c)
       end.
Proof.
  unfold PipelineInit.createSyncObjects.
  destruct p as [sm lay rp pl vb vba ib iba s1 s2 s3].
  cbn [Pipeline.m_sync_image_ready Pipeline.m_sync_present_done Pipeline.m_sync_cpu_gpu
       PipelineInit.set_sync].
  destruct s1 as [a1|], s2 as [a2|], s3 as [a3|];
    try destruct (PipelineInit.vk_create_image_ready env) as [[|c1] h1];
    try destruct (PipelineInit.vk_create_present_done env) as [[|c2] h2];
    try destruct (PipelineInit.vk_create_cpu_gpu env) as [[|c3] h3];
    cbn; intros H; try discriminate H; injection H as _ <-;
    do 3 eexists; repeat split; reflexivity.
Qed.

End PipelineCreation2.
Section PipelineCreation3.

Import RenderInit.

Lemma preconfigure_VOk vk env p p' :
  PipelineInit.preconfigure vk env p = (VOk, p') ->
  exists layout a b c,
    vk = (VK_SUCCESS, layout)
    /\ p' = PipelineInit.set_sync (PipelineInit.set_layout p layout)
              (Some a) (Some b) (Some c).
Proof.
  unfold PipelineInit.preconfigure.
  destruct vk as [[|code] layout]; [|discriminate].
  destruct (PipelineInit.createSyncObjects env (PipelineInit.set_layout p layout))
    as [calls [res p1]] eqn:E.
  cbn [snd]. intros H. injection H as -> ->.
  apply createSyncObjects_VOk in E as (a & b & c & -> & _).
  exists layout, a, b, c. split; reflexivity.
Qed.

Lemma create_VOk stages extent vk p p' :
  PipelineInit.create stages extent vk p = (VOk, p') ->
  stages <> [] /\ Pipeline.m_layout p <> VK_NULL_HANDLE
  /\ exists h,
       vk {| PipelineInit.pStages := stages;
             PipelineInit.viewport_extent := extent;
             PipelineInit.layout := Pipeline.m_layout p;
             PipelineInit.renderPass := Pipeline.m_render_pass p |} = (VK_SUCCESS, h)
       /\ p' = PipelineInit.set_pipeline p h.
Proof.
  unfold PipelineInit.create.
  destruct stages as [|s stages]; [discriminate|].
  cbn [List.length]. rewrite Nat2Z.inj_succ.
  destruct (Z.eqb_spec (Z.succ (Z.of_nat (List.length stages))) 0) as [E|_]; [lia|].
  destruct (Z.eqb_spec (Pipeline.m_layout p) VK_NULL_HANDLE) as [E|E]; [discriminate|].
  destruct (vk _) as [[|code] h] eqn:Ev; intros H; [|discriminate].
  injection H as <-. split; [discriminate|]. split; [exact E|]. eauto.
Qed.

Lemma createPool_VOk vk family_index c c' :
  CommandInit.createPool vk family_index c = (VOk, c') ->
  vk family_index = (VK_SUCCESS, Command.m_pool c')
  /\ Command.m_buffer c' = Command.m_buffer c
  /\ Command.commands c' = Command.commands c.
Proof.
  unfold CommandInit.createPool.
  destruct (vk family_index) as [[|code] h]; intros H; [|discriminate].
  injection H as <-. repeat split.
Qed.

Lemma createBuffer_VOk vk c c' :
  CommandInit.createBuffer vk c = (VOk, c') ->
  Command.m_pool c <> 0
  /\ vk (Command.m_pool c) = (VK_SUCCESS, Command.m_buffer c')
  /\ Command.m_pool c' = Command.m_pool c
  /\ Command.commands c' = Command.commands c.
Proof.
  unfold CommandInit.createBuffer.
  destruct (Z.eqb_spec (Command.m_pool c) 0) as [E|E]; [discriminate|].
  destruct (vk (Command.m_pool c)) as [[|code] h]; intros H; [|discriminate].
  injection H as <-. repeat split. exact E.
Qed.

(** A renderer whose pipeline has been created. *)
Lemma createGraphicsPipeline_VOk env sc d allocator r r' :
  createGraphicsPipeline env sc d allocator r = Returned (VOk, r') ->
  let p' := Render.m_graphics_pipeline (render r') in
  (Render.m_surface (render r') = Render.m_surface (render r)
   /\ Render.m_image_views (render r') = Render.m_image_views (render r)
   /\ Render.m_framebuffers (render r') = Render.m_framebuffers (render r)
   /\ Render.m_frame_index (render r') = Render.m_frame_index (render r))
  /\ (List.length (Pipeline.m_shader_modules p') = 2%nat
      /\ map PipelineInit.module (m_shader_stages r') = Pipeline.m_shader_modules p'
      /\ map PipelineInit.stage (m_shader_stages r') = [16; 1])
  /\ (vk_create_render_pass env (SwapChain.format (SwapChain.m_format sc))
        = (VK_SUCCESS, Pipeline.m_render_pass p')
      /\ vk_create_pipeline_layout env = (VK_SUCCESS, Pipeline.m_layout p')
      /\ Pipeline.m_layout p' <> VK_NULL_HANDLE
      /\ vk_create_graphics_pipelines env
           {| PipelineInit.pStages := m_shader_stages r';
              PipelineInit.viewport_extent := SwapChain.m_extent sc;
              PipelineInit.layout := Pipeline.m_layout p';
              PipelineInit.renderPass := Pipeline.m_render_pass p' |}
         = (VK_SUCCESS, Pipeline.m_pipeline p'))
  /\ (Pipeline.m_sync_image_ready p' <> None
      /\ Pipeline.m_sync_present_done p' <> None
      /\ Pipeline.m_sync_cpu_gpu p' <> None
      /\ Pipeline.m_vertex_buffer p' = VK_NULL_HANDLE
      /\ Pipeline.m_index_buffer p' = VK_NULL_HANDLE)
  /\ exists graphics_command transfert_command,
       Render.m_graphics_command (render r') = Some graphics_command
       /\ Render.m_transfert_command (render r') = Some transfert_command
       /\ vk_create_command_pool env (Device.m_graphics_queue_family_index d)
          = (VK_SUCCESS, Command.m_pool graphics_command)
       /\ Command.m_pool graphics_command <> 0
       /\ vk_allocate_command_buffers env (Command.m_pool graphics_command)
          = (VK_SUCCESS, Command.m_buffer graphics_command)
       /\ vk_create_command_pool env (Device.m_transfert_queue_family_index d)
          = (VK_SUCCESS, Command.m_pool transfert_command)
       /\ Command.m_pool transfert_command <> 0
       /\ vk_allocate_command_buffers env (Command.m_pool transfert_command)
          = (VK_SUCCESS, Command.m_buffer transfert_command).
Proof.
  unfold createGraphicsPipeline. intros H.
  apply and_then_VOk in H as (r1 & H1 & H).
  apply and_then_VOk in H as (r2 & H2 & H).
  apply and_then_VOk in H as (r3 & H3 & H).
  apply and_then_VOk in H as (r4 & H4 & H).
  apply and_then_VOk in H as (r5 & H5 & H).
  apply and_then_VOk in H as (r6 & H6 & H).
  apply and_then_VOk in H as (r7 & H7 & H).
  apply and_then_VOk in H as (r8 & H8 & H).
  apply and_then_VOk in H as (r9 & H9 & H).
  apply createShaderModule_VOk in H1
    as (vs_size & fs_size & fs_module & vs_module & _ & _ & _ & _ & ->).
  apply on_pipeline_VOk in H2 as (p2 & Hs2 & ->).
  apply setupRenderPass_VOk in Hs2 as (render_pass & Hrp & ->).
  apply on_pipeline_VOk in H3 as (p3 & Hs3 & ->).
  apply preconfigure_VOk in Hs3 as (layout & a & b & c & Hl & ->).
  apply on_pipeline_VOk in H4 as (p4 & Hs4 & ->).
  apply create_VOk in Hs4 as (_ & Hlay & pipeline & Hp & ->).
  apply on_transfert_command_VOk in H5 as (t0 & t1 & Ht0 & Hs5 & ->).
  apply createPool_VOk in Hs5 as (Htp & _ & _).
  apply on_transfert_command_VOk in H6 as (t1' & t2 & Ht1 & Hs6 & ->).
  cbn in Ht1. injection Ht1 as <-.
  apply createBuffer_VOk in Hs6 as (Htnz & Htb & Htp' & _).
  apply on_graphics_command_VOk in H7 as (g0 & g1 & Hg0 & Hs7 & ->).
  apply createPool_VOk in Hs7 as (Hgp & _ & _).
  apply on_pipeline_VOk in H8 as (p8 & Hs8 & ->).
  apply on_pipeline_VOk in H9 as (p9 & Hs9 & ->).
  apply on_graphics_command_VOk in H as (g1' & g2 & Hg1 & Hs10 & ->).
  cbn in Hg1. injection Hg1 as <-.
  apply createBuffer_VOk in Hs10 as (Hgnz & Hgb & Hgp' & _).
  unfold Pipeline.createVertexBuffer in Hs8. unfold Pipeline.createIndexBuffer in Hs9.
  cbn in Hs8, Hs9, Hlay, Hp.
  cbv zeta.
  split; [cbn; repeat split|].
  destruct (Pipeline.m_vertex_buffer (Render.m_graphics_pipeline (render r)) =? VK_NULL_HANDLE)
    eqn:Evb; cbn in Hs8; injection Hs8 as <-; cbn in Hs9;
    destruct (Pipeline.m_index_buffer (Render.m_graphics_pipeline (render r)) =? VK_NULL_HANDLE)
      eqn:Eib; cbn in Hs9; injection Hs9 as <-; cbn;
    apply Z.eqb_eq in Evb || clear Evb; apply Z.eqb_eq in Eib || clear Eib;
    (split; [repeat split|]);
    (split; [repeat split; assumption|]);
    (split; [repeat split; try discriminate; try assumption; reflexivity|]);
    exists g2, t2; rewrite Hgp', Htp'; repeat split; assumption.
Qed.

End PipelineCreation3.
Section FrameResources.

Import RenderInit.

Lemma resize_length n l : List.length (resize n l) = n.
Proof.
  unfold resize. rewrite length_app, length_firstn, repeat_length. lia.
Qed.

Lemma firstn_set_nth {A} i (x : A) l :
  firstn i (set_nth i x l) = firstn i l.
Proof.
  revert i. induction l as [|h t IH]; intros [|i]; cbn; try reflexivity.
  now rewrite IH.
Qed.

Lemma firstn_S_set_nth {A} i (x : A) l :
  (i < List.length l)%nat -> firstn (S i) (set_nth i x l) = firstn i l ++ [x].
Proof.
  revert i. induction l as [|h t IH]; intros [|i] H; cbn in *; try lia; try reflexivity.
  rewrite <- IH by lia. reflexivity.
Qed.

Lemma skipn_S_set_nth {A} i (x : A) l :
  skipn (S i) (set_nth i x l) = skipn (S i) l.
Proof.
  revert i. induction l as [|h t IH]; intros [|i]; cbn; try reflexivity.
  apply IH.
Qed.

(** The loop of [createImageViews] writes the views of the images it
    visits, in order, from position [i] on, and stops at the first image
    whose view the driver does not create. *)
Lemma createImageViews_loop_spec vk fmt images : forall i views,
  (i + List.length images <= List.length views)%nat ->
  let view image := vk {| image := image; view_format := fmt |} in
  match createImageViews_loop vk fmt images i views with
  | (VOk, views') =>
      Forall (fun image => fst (view image) = VK_SUCCESS) images
      /\ views' = firstn i views ++ map (fun image => snd (view image)) images
                  ++ skipn (i + List.length images) views
  | (VError msg, views') =>
      exists done image rest code,
        images = done ++ image :: rest
        /\ Forall (fun image => fst (view image) = VK_SUCCESS) done
        /\ fst (view image) = VK_FAILURE code
        /\ msg = image_view_error_msg code
        /\ views' = firstn i views ++ map (fun image => snd (view image)) done
                    ++ skipn (i + List.length done) views
  end.
Proof.
  induction images as [|image rest IH]; intros i views Hlen view.
  - cbn. split; [constructor|]. rewrite Nat.add_0_r. symmetry. apply firstn_skipn.
  - cbn [createImageViews_loop]. fold (view image).
    destruct (view image) as [[|code] h] eqn:Ev.
    + cbn [List.length] in Hlen.
      specialize (IH (S i) (set_nth i h views)).
      rewrite set_nth_length in IH. specialize (IH ltac:(lia)). cbv zeta in IH.
      fold view in IH.
      destruct (createImageViews_loop vk fmt rest (S i) (set_nth i h views))
        as [[|msg] views'].
      * destruct IH as [Hall ->]. split.
        { constructor; [now rewrite Ev | exact Hall]. }
        rewrite firstn_S_set_nth by lia. cbn [map List.length].
        rewrite Ev. cbn [snd]. rewrite <- app_assoc. cbn [app].
        replace (i + S (List.length rest))%nat with (S i + List.length rest)%nat by lia.
        f_equal. f_equal. f_equal.
        rewrite <- !(Nat.add_comm (List.length rest)), <- !skipn_skipn.
        now rewrite skipn_S_set_nth.
      * destruct IH as (done & image' & rest' & code & -> & Hall & Hf & -> & ->).
        exists (image :: done), image', rest', code.
        split; [reflexivity|].
        split; [constructor; [now rewrite Ev | exact Hall]|].
        split; [exact Hf|]. split; [reflexivity|].
        rewrite firstn_S_set_nth by lia. cbn [map List.length].
        rewrite Ev. cbn [snd]. rewrite <- app_assoc. cbn [app].
        replace (i + S (List.length done))%nat with (S i + List.length done)%nat by lia.
        f_equal. f_equal. f_equal.
        rewrite <- !(Nat.add_comm (List.length done)), <- !skipn_skipn.
        now rewrite skipn_S_set_nth.
    + exists [], image, rest, code. cbn [map app List.length].
      split; [reflexivity|]. split; [constructor|].
      split; [now rewrite Ev|]. split; [reflexivity|].
      rewrite Nat.add_0_r. symmetry. apply firstn_skipn.
Qed.

End FrameResources.
Section FrameResources2.

Import RenderInit.

(** The same for the loop of [createFramebuffers]. *)
Lemma createFramebuffers_loop_spec vk render_pass extent image_views :
  forall i framebuffers,
  (i + List.length image_views <= List.length framebuffers)%nat ->
  let framebuffer image_view :=
    vk {| fb_renderPass := render_pass;
          pAttachments := [image_view];
          fb_height := SwapChain.height extent;
          fb_width := SwapChain.width extent;
          layers := 1 |} in
  match createFramebuffers_loop vk render_pass extent image_views i framebuffers with
  | (VOk, framebuffers') =>
      Forall (fun image_view => fst (framebuffer image_view) = VK_SUCCESS) image_views
      /\ framebuffers'
         = firstn i framebuffers
           ++ map (fun image_view => snd (framebuffer image_view)) image_views
           ++ skipn (i + List.length image_views) framebuffers
  | (VError msg, framebuffers') =>
      exists done image_view rest code,
        image_views = done ++ image_view :: rest
        /\ Forall (fun image_view => fst (framebuffer image_view) = VK_SUCCESS) done
        /\ fst (framebuffer image_view) = VK_FAILURE code
        /\ msg = "> failed to create the framebuffers"%string
        /\ framebuffers'
           = firstn i framebuffers
             ++ map (fun image_view => snd (framebuffer image_view)) done
             ++ skipn (i + List.length done) framebuffers
  end.
Proof.
  induction image_views as [|image_view rest IH]; intros i views Hlen framebuffer.
  - cbn. split; [constructor|]. rewrite Nat.add_0_r. symmetry. apply firstn_skipn.
  - cbn [createFramebuffers_loop]. fold (framebuffer image_view).
    destruct (framebuffer image_view) as [[|code] h] eqn:Ev.
    + cbn [List.length] in Hlen.
      specialize (IH (S i) (set_nth i h views)).
      rewrite set_nth_length in IH. specialize (IH ltac:(lia)). cbv zeta in IH.
      fold framebuffer in IH.
      destruct (createFramebuffers_loop vk render_pass extent rest (S i)
                  (set_nth i h views)) as [[|msg] views'].
      * destruct IH as [Hall ->]. split.
        { constructor; [now rewrite Ev | exact Hall]. }
        rewrite firstn_S_set_nth by lia. cbn [map List.length].
        rewrite Ev. cbn [snd]. rewrite <- app_assoc. cbn [app].
        replace (i + S (List.length rest))%nat with (S i + List.length rest)%nat by lia.
        f_equal. f_equal. f_equal.
        rewrite <- !(Nat.add_comm (List.length rest)), <- !skipn_skipn.
        now rewrite skipn_S_set_nth.
      * destruct IH as (done & image' & rest' & code & -> & Hall & Hf & -> & ->).
        exists (image_view :: done), image', rest', code.
        split; [reflexivity|].
        split; [constructor; [now rewrite Ev | exact Hall]|].
        split; [exact Hf|]. split; [reflexivity|].
        rewrite firstn_S_set_nth by lia. cbn [map List.length].
        rewrite Ev. cbn [snd]. rewrite <- app_assoc. cbn [app].
        replace (i + S (List.length done))%nat with (S i + List.length done)%nat by lia.
        f_equal. f_equal. f_equal.
        rewrite <- !(Nat.add_comm (List.length done)), <- !skipn_skipn.
        now rewrite skipn_S_set_nth.
    + exists [], image_view, rest, code. cbn [map app List.length].
      split; [reflexivity|]. split; [constructor|].
      split; [now rewrite Ev|]. split; [reflexivity|].
      rewrite Nat.add_0_r. symmetry. apply firstn_skipn.
Qed.

Lemma skipn_resize n l : skipn n (resize n l) = [].
Proof. apply skipn_all2. rewrite resize_length. lia. Qed.

(** [createImageViews] when it succeeds. *)
Lemma createImageViews_VOk vk sc r r' :
  createImageViews vk sc r = (VOk, r') ->
  r' = set_image_views r
         (map (fun image =>
                 snd (vk {| image := image;
                            view_format := SwapChain.format (SwapChain.m_format sc) |}))
            (SwapChain.m_images sc)).
Proof.
  unfold createImageViews.
  pose proof (createImageViews_loop_spec vk (SwapChain.format (SwapChain.m_format sc))
                (SwapChain.m_images sc) 0
                (resize (List.length (SwapChain.m_images sc)) (Render.m_image_views r)))
    as Hloop.
  rewrite resize_length in Hloop. specialize (Hloop ltac:(lia)). cbv zeta in Hloop.
  destruct (createImageViews_loop _ _ _ _ _) as [[|msg] views']; intros H;
    [|discriminate].
  injection H as <-. destruct Hloop as [_ ->].
  cbn [firstn app Nat.add]. rewrite skipn_resize, app_nil_r. reflexivity.
Qed.

(** [createFramebuffers] when it succeeds. *)
Lemma createFramebuffers_VOk vk sc r r' :
  createFramebuffers vk sc r = (VOk, r') ->
  r' = set_framebuffers r
         (map (fun image_view =>
                 snd (vk {| fb_renderPass :=
                              Pipeline.m_render_pass (Render.m_graphics_pipeline r);
                            pAttachments := [image_view];
                            fb_height := SwapChain.height (SwapChain.m_extent sc);
                            fb_width := SwapChain.width (SwapChain.m_extent sc);
                            layers := 1 |}))
            (Render.m_image_views r)).
Proof.
  unfold createFramebuffers.
  pose proof (createFramebuffers_loop_spec vk
                (Pipeline.m_render_pass (Render.m_graphics_pipeline r))
                (SwapChain.m_extent sc) (Render.m_image_views r) 0
                (resize (List.length (Render.m_image_views r)) (Render.m_framebuffers r)))
    as Hloop.
  rewrite resize_length in Hloop. specialize (Hloop ltac:(lia)). cbv zeta in Hloop.
  destruct (createFramebuffers_loop _ _ _ _ _ _) as [[|msg] fbs']; intros H;
    [|discriminate].
  injection H as <-. destruct Hloop as [_ ->].
  cbn [firstn app Nat.add]. rewrite skipn_resize, app_nil_r. reflexivity.
Qed.

End FrameResources2.
Section FrameResources3.

Import RenderInit.

Lemma createImageViews_loop_length vk fmt images : forall i views,
  List.length (snd (createImageViews_loop vk fmt images i views)) = List.length views.
Proof.
  induction images as [|image rest IH]; intros i views; [reflexivity|].
  cbn [createImageViews_loop].
  destruct (vk _) as [[|code] h]; [|reflexivity].
  rewrite IH. apply set_nth_length.
Qed.

Lemma createFramebuffers_loop_length vk render_pass extent image_views :
  forall i framebuffers,
  List.length (snd (createFramebuffers_loop vk render_pass extent image_views i
                      framebuffers))
  = List.length framebuffers.
Proof.
  induction image_views as [|image_view rest IH]; intros i fbs; [reflexivity|].
  cbn [createFramebuffers_loop].
  destruct (vk _) as [[|code] h]; [|reflexivity].
  rewrite IH. apply set_nth_length.
Qed.

Lemma Forall_app_failure {A} (P : A -> Prop) done x rest :
  Forall P (done ++ x :: rest) -> P x.
Proof. intros H. apply Forall_app in H as [_ H]. now inversion H. Qed.

(** A list has one first element that the driver refuses. *)
Lemma first_failure_unique {A} (f : A -> VkResult)
    done x rest code done' x' rest' code' :
  done ++ x :: rest = done' ++ x' :: rest' ->
  Forall (fun a => f a = VK_SUCCESS) done -> f x = VK_FAILURE code ->
  Forall (fun a => f a = VK_SUCCESS) done' -> f x' = VK_FAILURE code' ->
  done' = done /\ x' = x.
Proof.
  intros E Hdone Hfail Hdone' Hfail'.
  revert done' E Hdone'.
  induction Hdone as [|y done Hy Hd IH]; intros done' E Hdone'.
  - destruct done' as [|y' done']; cbn in E.
    + injection E as -> _. now split.
    + injection E as -> _. inversion Hdone'; congruence.
  - destruct done' as [|y' done']; cbn in E.
    + injection E as -> _. congruence.
    + injection E as -> E. inversion Hdone'; subst.
      destruct (IH done' E ltac:(assumption)) as [-> ->]. now split.
Qed.

End FrameResources3.

(** X13.  [Render::createImageViews] and [Render::createFramebuffers].
    Whatever the driver answers, the renderer ends with exactly one image
    view slot per swapchain image and one framebuffer slot per image view.
    [createImageViews] returns Ok exactly when the driver creates a view
    for every swapchain image, and then the view at each position is the
    one created for the image at that position; [createFramebuffers]
    returns Ok exactly when the driver creates a framebuffer for every
    image view, and then the framebuffer at each position is the one
    created, with the render pass of the pipeline and the extent of the
    swapchain, for the view at that position.  Both stop at the first
    object the driver refuses, and the objects created before it are
    stored at their positions: [createImageViews] then reports the error
    of the refused call, and [createFramebuffers] its one error message.
    Neither touches the surface, the pipeline, the command objects or the
    frame index. *)
Theorem createImageViews_createFramebuffers_one_per_swapchain_image
    (vk_create_image_view : RenderInit.VkImageViewCreateInfo -> VkResult * Handle)
    (vk_create_framebuffer : RenderInit.VkFramebufferCreateInfo -> VkResult * Handle)
    (sc : SwapChain.t) (r : Render.t) :
  let view image :=
    vk_create_image_view
      {| RenderInit.image := image;
         RenderInit.view_format := SwapChain.format (SwapChain.m_format sc) |} in
  let views_result := RenderInit.createImageViews vk_create_image_view sc r in
  let r1 := snd views_result in
  let framebuffer image_view :=
    vk_create_framebuffer
      {| RenderInit.fb_renderPass :=
           Pipeline.m_render_pass (Render.m_graphics_pipeline r);
         RenderInit.pAttachments := [image_view];
         RenderInit.fb_height := SwapChain.height (SwapChain.m_extent sc);
         RenderInit.fb_width := SwapChain.width (SwapChain.m_extent sc);
         RenderInit.layers := 1 |} in
  let framebuffers_result := RenderInit.createFramebuffers vk_create_framebuffer sc r1 in
  let r2 := snd framebuffers_result in
  (List.length (Render.m_image_views r1) = List.length (SwapChain.m_images sc)
   /\ List.length (Render.m_framebuffers r2) = List.length (SwapChain.m_images sc)
   /\ Render.m_image_views r2 = Render.m_image_views r1)
  /\ (fst views_result = VOk <->
      Forall (fun image => fst (view image) = VK_SUCCESS) (SwapChain.m_images sc))
  /\ (fst views_result = VOk ->
      Render.m_image_views r1
      = map (fun image => snd (view image)) (SwapChain.m_images sc))
  /\ (fst framebuffers_result = VOk <->
      Forall (fun image_view => fst (framebuffer image_view) = VK_SUCCESS)
        (Render.m_image_views r1))
  /\ (fst framebuffers_result = VOk ->
      Render.m_framebuffers r2
      = map (fun image_view => snd (framebuffer image_view)) (Render.m_image_views r1))
  /\ (forall done image rest code,
        SwapChain.m_images sc = done ++ image :: rest ->
        Forall (fun image => fst (view image) = VK_SUCCESS) done ->
        fst (view image) = VK_FAILURE code ->
        fst views_result = VError (RenderInit.image_view_error_msg code)
        /\ firstn (List.length done) (Render.m_image_views r1)
           = map (fun image => snd (view image)) done)
  /\ (forall done image_view rest code,
        Render.m_image_views r1 = done ++ image_view :: rest ->
        Forall (fun image_view => fst (framebuffer image_view) = VK_SUCCESS) done ->
        fst (framebuffer image_view) = VK_FAILURE code ->
        fst framebuffers_result = VError "> failed to create the framebuffers"
        /\ firstn (List.length done) (Render.m_framebuffers r2)
           = map (fun image_view => snd (framebuffer image_view)) done)
  /\ (Render.m_surface r2 = Render.m_surface r
      /\ Render.m_graphics_pipeline r2 = Render.m_graphics_pipeline r
      /\ Render.m_graphics_command r2 = Render.m_graphics_command r
      /\ Render.m_transfert_command r2 = Render.m_transfert_command r
      /\ Render.m_frame_index r2 = Render.m_frame_index r).
Proof.
  intros view views_result r1 framebuffer framebuffers_result r2.
  pose proof (createImageViews_loop_spec vk_create_image_view
                (SwapChain.format (SwapChain.m_format sc)) (SwapChain.m_images sc) 0
                (RenderInit.resize (List.length (SwapChain.m_images sc))
                   (Render.m_image_views r))) as Hv.
  rewrite resize_length in Hv. specialize (Hv ltac:(lia)). cbv zeta in Hv.
  fold view in Hv.
  pose proof (createImageViews_loop_length vk_create_image_view
                (SwapChain.format (SwapChain.m_format sc)) (SwapChain.m_images sc) 0
                (RenderInit.resize (List.length (SwapChain.m_images sc))
                   (Render.m_image_views r))) as Hvl.
  rewrite resize_length in Hvl.
  assert (Hr1 : views_result =
    (fst (RenderInit.createImageViews_loop vk_create_image_view
            (SwapChain.format (SwapChain.m_format sc)) (SwapChain.m_images sc) 0
            (RenderInit.resize (List.length (SwapChain.m_images sc))
               (Render.m_image_views r))),
     RenderInit.set_image_views r
       (snd (RenderInit.createImageViews_loop vk_create_image_view
               (SwapChain.format (SwapChain.m_format sc)) (SwapChain.m_images sc) 0
               (RenderInit.resize (List.length (SwapChain.m_images sc))
                  (Render.m_image_views r)))))).
  { unfold views_result, RenderInit.createImageViews.
    destruct (RenderInit.createImageViews_loop _ _ _ _ _); reflexivity. }
  destruct (RenderInit.createImageViews_loop vk_create_image_view
              (SwapChain.format (SwapChain.m_format sc)) (SwapChain.m_images sc) 0
              (RenderInit.resize (List.length (SwapChain.m_images sc))
                 (Render.m_image_views r))) as [vres views'].
  cbn [fst snd] in Hr1, Hvl.
  pose proof (createFramebuffers_loop_spec vk_create_framebuffer
                (Pipeline.m_render_pass (Render.m_graphics_pipeline r1))
                (SwapChain.m_extent sc) (Render.m_image_views r1) 0
                (RenderInit.resize (List.length (Render.m_image_views r1))
                   (Render.m_framebuffers r1))) as Hf.
  rewrite resize_length in Hf. specialize (Hf ltac:(lia)). cbv zeta in Hf.
  pose proof (createFramebuffers_loop_length vk_create_framebuffer
                (Pipeline.m_render_pass (Render.m_graphics_pipeline r1))
                (SwapChain.m_extent sc) (Render.m_image_views r1) 0
                (RenderInit.resize (List.length (Render.m_image_views r1))
                   (Render.m_framebuffers r1))) as Hfl.
  rewrite resize_length in Hfl.
  assert (Hr2 : framebuffers_result =
    (fst (RenderInit.createFramebuffers_loop vk_create_framebuffer
            (Pipeline.m_render_pass (Render.m_graphics_pipeline r1))
            (SwapChain.m_extent sc) (Render.m_image_views r1) 0
            (RenderInit.resize (List.length (Render.m_image_views r1))
               (Render.m_framebuffers r1))),
     RenderInit.set_framebuffers r1
       (snd (RenderInit.createFramebuffers_loop vk_create_framebuffer
               (Pipeline.m_render_pass (Render.m_graphics_pipeline r1))
               (SwapChain.m_extent sc) (Render.m_image_views r1) 0
               (RenderInit.resize (List.length (Render.m_image_views r1))
                  (Render.m_framebuffers r1)))))).
  { unfold framebuffers_result, RenderInit.createFramebuffers.
    destruct (RenderInit.createFramebuffers_loop _ _ _ _ _ _); reflexivity. }
  destruct (RenderInit.createFramebuffers_loop vk_create_framebuffer
              (Pipeline.m_render_pass (Render.m_graphics_pipeline r1))
              (SwapChain.m_extent sc) (Render.m_image_views r1) 0
              (RenderInit.resize (List.length (Render.m_image_views r1))
                 (Render.m_framebuffers r1))) as [fres fbs'].
  cbn [fst snd] in Hr2, Hfl.
  assert (Hp1 : Pipeline.m_render_pass (Render.m_graphics_pipeline r1)
                = Pipeline.m_render_pass (Render.m_graphics_pipeline r))
    by (unfold r1; rewrite Hr1; reflexivity).
  rewrite Hp1 in Hf. fold framebuffer in Hf.
  assert (Hviews : Render.m_image_views r1 = views')
    by (unfold r1; rewrite Hr1; reflexivity).
  assert (Hfbs : Render.m_framebuffers r2 = fbs')
    by (unfold r2; rewrite Hr2; reflexivity).
  split; [|split; [|split; [|split; [|split; [|split; [|split]]]]]].
  - split; [congruence|]. split; [congruence|].
    unfold r2. rewrite Hr2. reflexivity.
  - rewrite Hr1. cbn [fst]. destruct vres as [|msg].
    + split; [intros _; apply Hv | reflexivity].
    + split; [discriminate|]. intros Hall.
      destruct Hv as (done & image & rest & code & E & _ & Hfail & _).
      rewrite E in Hall. apply Forall_app_failure in Hall. congruence.
  - rewrite Hr1. cbn [fst]. intros ->. rewrite Hviews.
    destruct Hv as [_ ->]. cbn [firstn app Nat.add].
    rewrite skipn_resize, app_nil_r. reflexivity.
  - rewrite Hr2. cbn [fst]. destruct fres as [|msg].
    + split; [intros _; apply Hf | reflexivity].
    + split; [discriminate|]. intros Hall.
      destruct Hf as (done & image_view & rest & code & E & _ & Hfail & _).
      rewrite E in Hall. apply Forall_app_failure in Hall.
      unfold framebuffer in Hall. cbv beta in Hall, Hfail. congruence.
  - rewrite Hr2. cbn [fst]. intros ->. rewrite Hfbs.
    destruct Hf as [_ ->]. cbn [firstn app Nat.add].
    rewrite skipn_resize, app_nil_r. reflexivity.
  - intros done image rest code E Hdone Hfail. rewrite Hr1. cbn [fst]. rewrite Hviews.
    destruct vres as [|msg].
    + destruct Hv as [Hall _]. rewrite E in Hall.
      apply Forall_app_failure in Hall. congruence.
    + destruct Hv as (done' & image' & rest' & code' & E' & Hdone' & Hfail' & -> & ->).
      rewrite E in E'.
      destruct (first_failure_unique (fun image => fst (view image))
                  _ _ _ _ _ _ _ _ E' Hdone Hfail Hdone' Hfail') as [-> ->].
      split; [congruence|].
      cbn [firstn app Nat.add].
      rewrite firstn_app, length_map, Nat.sub_diag. cbn [firstn].
      rewrite app_nil_r, firstn_all2 by (rewrite length_map; lia). reflexivity.
  - intros done image_view rest code E Hdone Hfail. rewrite Hr2. cbn [fst].
    rewrite Hfbs.
    destruct fres as [|msg].
    + destruct Hf as [Hall _]. rewrite E in Hall.
      apply Forall_app_failure in Hall. cbv beta in Hall.
      unfold framebuffer in Hall, Hfail. congruence.
    + destruct Hf as (done' & image' & rest' & code' & E' & Hdone' & Hfail' & -> & ->).
      rewrite E in E'.
      destruct (first_failure_unique (fun image_view => fst (framebuffer image_view))
                  _ _ _ _ _ _ _ _ E' Hdone Hfail Hdone' Hfail') as [-> ->].
      split; [reflexivity|].
      cbn [firstn app Nat.add].
      rewrite firstn_app, length_map, Nat.sub_diag. cbn [firstn].
      rewrite app_nil_r, firstn_all2 by (rewrite length_map; lia). reflexivity.
  - unfold r2. rewrite Hr2. cbn. unfold r1. rewrite Hr1. cbn. repeat split.
Qed.

Lemma createImageViews_createFramebuffers_witness :
  let vk_view := fun info : RenderInit.VkImageViewCreateInfo =>
                   (VK_SUCCESS, 1000 + RenderInit.image info) in
  let sc := SwapChain.queryDetails surface_two_to_eight swapchain_fresh in
  let sc := snd (match SwapChain.create true create_env_ok sc with
                 | Returned result => result
                 | _ => (VOk, sc)
                 end) in
  Forall (fun image =>
            fst (vk_view {| RenderInit.image := image;
                            RenderInit.view_format :=
                              SwapChain.format (SwapChain.m_format sc) |})
            = VK_SUCCESS) (SwapChain.m_images sc)
  /\ Render.m_image_views
       (snd (RenderInit.createImageViews vk_view sc
               (Engine.m_render engine_three_framebuffers)))
     = [1221; 1222; 1223].
Proof.
  intros vk_view sc0 sc.
  assert (Hall : Forall (fun image =>
            fst (vk_view {| RenderInit.image := image;
                            RenderInit.view_format :=
                              SwapChain.format (SwapChain.m_format sc) |})
            = VK_SUCCESS) (SwapChain.m_images sc)).
  { repeat constructor. }
  split; [exact Hall|].
  pose proof (createImageViews_createFramebuffers_one_per_swapchain_image vk_view
                (fun _ => (VK_SUCCESS, 0)) sc
                (Engine.m_render engine_three_framebuffers)) as H.
  cbv zeta in H. destruct H as (_ & Hiff & Hviews & _).
  rewrite Hviews by (apply Hiff; exact Hall). reflexivity.
Defined.
Section EngineInitialize.

Import EngineInit.

Lemma attempt_INITIALIZED o k e' :
  attempt o k = Returned e' -> m_state e' = INITIALIZED ->
  exists e1, o = Returned (VOk, e1) /\ k e1 = Returned e'.
Proof.
  unfold attempt. intros H Hst.
  apply bind_Returned in H as ([[|msg] e1] & Ho & H).
  - exists e1. split; assumption.
  - injection H as <-. discriminate Hst.
Qed.

Lemma attempt_state o k e' :
  (forall e1 e2, k e1 = Returned e2 -> m_state e2 = INITIALIZED \/ m_state e2 = ERROR) ->
  attempt o k = Returned e' -> m_state e' = INITIALIZED \/ m_state e' = ERROR.
Proof.
  unfold attempt. intros Hk H.
  apply bind_Returned in H as ([[|msg] e1] & Ho & H).
  - eapply Hk; eassumption.
  - injection H as <-. right. reflexivity.
Qed.

(** [listDevices] succeeds only by selecting the first suitable device of
    the enumeration. *)
Lemma listDevices_VOk apple devices d d' :
  Device.listDevices apple devices d = (VOk, d') ->
  exists pre device post,
    devices = pre ++ device :: post
    /\ Forall (unsuitable apple) pre
    /\ Device.isDeviceSuitable apple device = true
    /\ d' = Device.set_physical_device d (Device.pd_handle device).
Proof.
  unfold Device.listDevices.
  destruct (Z.eqb_spec (Z.of_nat (List.length devices)) 0); [discriminate|].
  clear n. induction devices as [|x rest IH]; cbn [Device.listDevices_loop];
    [discriminate|].
  destruct (Device.isDeviceSuitable apple x) eqn:Ex.
  - intros H. injection H as <-. exists [], x, rest. repeat split; auto.
  - intros H. destruct (IH H) as (pre & device & post & -> & Hpre & Hdev & ->).
    exists (x :: pre), device, post. repeat split; auto.
Qed.

Lemma isDeviceSuitable_handle apple device :
  Device.isDeviceSuitable apple device = true -> Device.pd_handle device <> 0.
Proof.
  unfold Device.isDeviceSuitable.
  destruct (Z.eqb_spec (Device.pd_handle device) 0); [discriminate | auto].
Qed.

Lemma getQueueFamilies_physical_device families d :
  Device.m_physical_device (snd (Device.getQueueFamilies families d))
  = Device.m_physical_device d
  /\ Device.m_logical_device (snd (Device.getQueueFamilies families d))
     = Device.m_logical_device d.
Proof.
  unfold Device.getQueueFamilies.
  destruct (negb (Device.isInitialized d)); [split; reflexivity|].
  destruct (Z.of_nat (List.length families) =? 0); [split; reflexivity|].
  destruct (Device.supports_loop _ _ _ _) as [[g p] t].
  destruct (negb g || negb p || negb t); split; reflexivity.
Qed.

Lemma set_queue_state_frame d j s :
  Device.m_physical_device (Device.set_queue_state d j s) = Device.m_physical_device d.
Proof. reflexivity. Qed.

Lemma assign_roles_physical_device flags : forall st,
  Device.m_physical_device (Device.dev (snd (Device.assign_roles flags st)))
  = Device.m_physical_device (Device.dev st)
  /\ Device.m_queue_support (Device.dev (snd (Device.assign_roles flags st)))
     = Device.m_queue_support (Device.dev st).
Proof.
  induction flags as [|flag rest IH]; intros st; [split; reflexivity|].
  cbn [Device.assign_roles].
  destruct (Z.of_nat (List.length (Device.m_queue_support (Device.dev st))) <=? _);
    [split; reflexivity|].
  destruct flag; try (split; reflexivity);
    match goal with
    | |- context [Device.assign_roles rest ?s] =>
        destruct (IH s) as [-> ->]; split; reflexivity
    end.
Qed.

Lemma createLogicalDevice_VOk create get d d' :
  Device.createLogicalDevice create get d = (VOk, d') ->
  Device.m_physical_device d <> VK_NULL_HANDLE
  /\ Device.m_physical_device d' = Device.m_physical_device d
  /\ Device.m_queue_support d' = Device.m_queue_support d
  /\ (exists queues, create queues = (VK_SUCCESS, Device.m_logical_device d'))
  /\ Device.m_graphics_queue d' = get (Device.m_graphics_queue_family_index d')
  /\ Device.m_presents_queue d' = get (Device.m_presents_queue_family_index d')
  /\ Device.m_transfert_queue d' = get (Device.m_transfert_queue_family_index d').
Proof.
  unfold Device.createLogicalDevice.
  destruct (Z.eqb_spec (Device.m_physical_device d) VK_NULL_HANDLE) as [E|E];
    [discriminate|].
  pose proof (assign_roles_physical_device Device.supported_flags (Device.roles_init d))
    as [Hpd Hqs].
  destruct (Device.assign_roles Device.supported_flags (Device.roles_init d))
    as [[|msg] st]; [|discriminate].
  cbn [snd Device.roles_init Device.dev] in Hpd, Hqs.
  destruct (create (Device.queues st)) as [[|code] h] eqn:Ec; [|discriminate].
  intros H. injection H as <-. cbn.
  split; [exact E|]. split; [exact Hpd|]. split; [exact Hqs|].
  split; [eauto|]. repeat split.
Qed.

End EngineInitialize.
Section EngineInitialize2.

Import EngineInit.

Lemma SwapChain_create_VOk assertions env sc sc' :
  SwapChain.create assertions env sc = Returned (VOk, sc') ->
  SwapChain.checkDetails sc = VOk
  /\ SwapChain.m_present_mode sc'
     = SwapChain.PREFERED_PRESENTATION_MODE (SwapChain.fps_limit env)
  /\ In (SwapChain.m_format sc') (SwapChain.formats (SwapChain.m_details sc))
  /\ SwapChain.chooseSwapExtent (SwapChain.window_width env)
       (SwapChain.window_height env)
       (SwapChain.capabilities (SwapChain.m_details sc))
     = Returned (Ok (SwapChain.m_extent sc'))
  /\ SwapChain.m_details sc' = SwapChain.m_details sc
  /\ SwapChain.m_images sc'
     = SwapChain.vk_swapchain_images env (SwapChain.m_swapchain sc')
  /\ exists info,
       SwapChain.vk_create_swapchain env info = (VK_SUCCESS, SwapChain.m_swapchain sc')
       /\ SwapChain.ci_minImageCount info = 3.
Proof.
  unfold SwapChain.create.
  destruct (SwapChain.checkDetails sc) as [|cmsg] eqn:Ec; [|discriminate].
  destruct (checkDetails_chooseFormat sc Ec) as (f & Ef & Hf). rewrite Ef.
  destruct (SwapChain.choosePresentMode (SwapChain.fps_limit env)
              (SwapChain.present_modes (SwapChain.m_details sc)))
    as [mode|pmsg] eqn:Ep; [|discriminate].
  apply choosePresentMode_Ok in Ep as [Em _].
  destruct (chooseSwapExtent_outcome (SwapChain.window_width env)
              (SwapChain.window_height env)
              (SwapChain.capabilities (SwapChain.m_details sc)))
    as [[Hu _]|(e & He & _)]; cbv zeta in *;
    [rewrite Hu; discriminate|].
  rewrite He. cbn [bind].
  destruct (SwapChain.create_info assertions _ (SwapChain.family_indices env))
    as [| | |info] eqn:Ei; try discriminate.
  apply create_info_Returned in Ei as (I1 & _).
  destruct (SwapChain.vk_create_swapchain env info) as [[|code] h] eqn:Ev;
    [|discriminate].
  intros H. injection H as <-. cbn.
  repeat split; try assumption; try reflexivity.
  exists info. split; assumption.
Qed.

(** The steps of a run of [initialize] that ends INITIALIZED all returned
    Ok, each on the engine the step before left. *)
Lemma initialize_chain env e e' :
  m_state e <> INITIALIZED ->
  initialize env e = Returned e' ->
  m_state e' = INITIALIZED ->
  exists e1 e2 e3 e4 e5 e6 e7 e8 e9 e10 e11,
    createGraphicsInstance env e = (VOk, e1)
    /\ createRenderDevice env e1 = (VOk, e2)
    /\ pickPhysicalDevice env e2 = (VOk, e3)
    /\ getQueueFamilies env e3 = Returned (VOk, e4)
    /\ createLogicalDevice env e4 = Returned (VOk, e5)
    /\ createAllocator env e5 = (VOk, e6)
    /\ createDescriptorPool env e6 = (VOk, e7)
    /\ createSwapChain env e7 = Returned (VOk, e8)
    /\ createImageViews env e8 = Returned (VOk, e9)
    /\ createGraphicsPipeline env e9 = Returned (VOk, e10)
    /\ createFramebuffers env e10 = Returned (VOk, e11)
    /\ e' = set_state e11 INITIALIZED.
Proof.
  intros Hs H Hst. unfold initialize in H.
  assert (H' :
    attempt (Returned (createGraphicsInstance env e)) (fun e =>
      if RenderInit.assertions (pipeline_env env)
         && (m_graphics_instance e =? VK_NULL_HANDLE)
      then AssertionFailed
      else
      attempt (Returned (createRenderDevice env e)) (fun e =>
      attempt (Returned (pickPhysicalDevice env e)) (fun e =>
      attempt (getQueueFamilies env e) (fun e =>
      attempt (createLogicalDevice env e) (fun e =>
      attempt (Returned (createAllocator env e)) (fun e =>
      attempt (Returned (createDescriptorPool env e)) (fun e =>
      attempt (createSwapChain env e) (fun e =>
      attempt (createImageViews env e) (fun e =>
      attempt (createGraphicsPipeline env e) (fun e =>
      attempt (createFramebuffers env e) (fun e =>
      if RenderInit.assertions (pipeline_env env)
         && negb (Device.isInitialized (m_graphics_device e))
      then AssertionFailed
      else Returned (set_state e INITIALIZED)))))))))))) = Returned e').
  { destruct (m_state e); [exact H | contradiction | exact H]. }
  clear H. rename H' into H.
  apply attempt_INITIALIZED in H as (e1 & H1 & H); [|exact Hst].
  destruct (RenderInit.assertions (pipeline_env env)
            && (m_graphics_instance e1 =? VK_NULL_HANDLE)); [discriminate|].
  apply attempt_INITIALIZED in H as (e2 & H2 & H); [|exact Hst].
  apply attempt_INITIALIZED in H as (e3 & H3 & H); [|exact Hst].
  apply attempt_INITIALIZED in H as (e4 & H4 & H); [|exact Hst].
  apply attempt_INITIALIZED in H as (e5 & H5 & H); [|exact Hst].
  apply attempt_INITIALIZED in H as (e6 & H6 & H); [|exact Hst].
  apply attempt_INITIALIZED in H as (e7 & H7 & H); [|exact Hst].
  apply attempt_INITIALIZED in H as (e8 & H8 & H); [|exact Hst].
  apply attempt_INITIALIZED in H as (e9 & H9 & H); [|exact Hst].
  apply attempt_INITIALIZED in H as (e10 & H10 & H); [|exact Hst].
  apply attempt_INITIALIZED in H as (e11 & H11 & H); [|exact Hst].
  destruct (RenderInit.assertions (pipeline_env env)
            && negb (Device.isInitialized (m_graphics_device e11))); [discriminate|].
  injection H as <-. injection H1 as H1. injection H2 as H2. injection H3 as H3.
  injection H6 as H6. injection H7 as H7.
  exists e1, e2, e3, e4, e5, e6, e7, e8, e9, e10, e11.
  repeat split; assumption.
Qed.

End EngineInitialize2.
Section EngineInitialize3.

Import EngineInit.

Lemma createGraphicsInstance_VOk env e e1 :
  createGraphicsInstance env e = (VOk, e1) ->
  exists h, vk_create_instance env = (VK_SUCCESS, h) /\ e1 = set_graphics_instance e h.
Proof.
  unfold createGraphicsInstance.
  destruct (vk_create_instance env) as [[|code] h]; intros H; [|discriminate].
  injection H as <-. eauto.
Qed.

Lemma createRenderDevice_VOk env e e2 :
  createRenderDevice env e = (VOk, e2) ->
  exists r0 s,
    glfw_create_window_surface env = (VK_SUCCESS, s)
    /\ Render.m_frame_index (RenderInit.render r0)
       = match m_render e with
         | Some r => Render.m_frame_index (RenderInit.render r)
         | None => 0
         end
    /\ e2 = set_render e
              (Some (RenderInit.set_render r0
                       (RenderInit.set_surface (RenderInit.render r0) s))).
Proof.
  unfold createRenderDevice, RenderInit.createSurface.
  destruct (glfw_create_window_surface env) as [[|code] s]; intros H; [|discriminate].
  injection H as <-. do 2 eexists. split; [reflexivity|]. split; [|reflexivity].
  destruct (m_render e); reflexivity.
Qed.

Lemma pickPhysicalDevice_VOk env e e3 :
  pickPhysicalDevice env e = (VOk, e3) ->
  exists d3,
    Device.listDevices (apple env) (physical_devices env) (m_graphics_device e)
    = (VOk, d3)
    /\ e3 = set_graphics_device e d3.
Proof.
  unfold pickPhysicalDevice.
  destruct (Device.listDevices _ _ _) as [res d3]. intros H.
  injection H as -> <-. eauto.
Qed.

Lemma getQueueFamilies_VOk env e e4 :
  getQueueFamilies env e = Returned (VOk, e4) ->
  exists n d4,
    Device.getQueueFamilies (queue_families env) (m_graphics_device e) = (Ok n, d4)
    /\ e4 = set_graphics_device e d4.
Proof.
  unfold getQueueFamilies.
  destruct (RenderInit.assertions (pipeline_env env)
            && negb (Device.isInitialized (m_graphics_device e))); [discriminate|].
  destruct (Device.getQueueFamilies _ _) as [[n|msg] d4]; intros H;
    [|discriminate].
  injection H as <-. exists n, d4. split; reflexivity.
Qed.

Lemma createLogicalDevice_step_VOk env e e5 :
  createLogicalDevice env e = Returned (VOk, e5) ->
  exists d5,
    Device.createLogicalDevice (vk_create_device env) (vk_get_queue env)
      (m_graphics_device e) = (VOk, d5)
    /\ e5 = set_graphics_device e d5.
Proof.
  unfold createLogicalDevice.
  destruct (RenderInit.assertions (pipeline_env env)
            && (Device.m_physical_device (m_graphics_device e) =? VK_NULL_HANDLE));
    [discriminate|].
  destruct (Device.createLogicalDevice _ _ _) as [res d5]. intros H.
  injection H as -> <-. exists d5. split; reflexivity.
Qed.

Lemma createAllocator_VOk env e e6 :
  createAllocator env e = (VOk, e6) ->
  exists h, vma_create_allocator env = (VK_SUCCESS, h) /\ e6 = set_allocator e h.
Proof.
  unfold createAllocator.
  destruct (vma_create_allocator env) as [[|code] h]; intros H; [|discriminate].
  injection H as <-. eauto.
Qed.

Lemma createDescriptorPool_VOk env e e7 :
  createDescriptorPool env e = (VOk, e7) ->
  exists h, vk_create_descriptor_pool env = (VK_SUCCESS, h)
            /\ e7 = set_descriptor_pool e h.
Proof.
  unfold createDescriptorPool.
  destruct (vk_create_descriptor_pool env) as [[|code] h]; intros H; [|discriminate].
  injection H as <-. eauto.
Qed.

Lemma createSwapChain_VOk env e e8 :
  createSwapChain env e = Returned (VOk, e8) ->
  exists sc0 sc8,
    m_render e <> None
    /\ SwapChain.create (RenderInit.assertions (pipeline_env env)) (create_env env e)
         (SwapChain.queryDetails (surface env) sc0) = Returned (VOk, sc8)
    /\ e8 = set_swapchain e (Some sc8).
Proof.
  unfold createSwapChain.
  destruct (m_render e) as [r|]; [|discriminate].
  intros H. apply bind_Returned in H as ([res sc8] & Hc & H).
  injection H as -> <-. do 2 eexists. split; [discriminate|]. split; [exact Hc|].
  reflexivity.
Qed.

Lemma createImageViews_step_VOk env e e9 :
  createImageViews env e = Returned (VOk, e9) ->
  exists r sc render9,
    m_render e = Some r /\ m_swapchain e = Some sc
    /\ RenderInit.createImageViews (vk_create_image_view env) sc (RenderInit.render r)
       = (VOk, render9)
    /\ e9 = set_render e (Some (RenderInit.set_render r render9)).
Proof.
  unfold createImageViews.
  destruct (m_render e) as [r|]; [|discriminate].
  destruct (m_swapchain e) as [sc|]; [|discriminate].
  destruct (RenderInit.createImageViews _ _ _) as [res render9] eqn:E. intros H.
  injection H as -> <-. exists r, sc, render9. repeat split; assumption.
Qed.

Lemma createGraphicsPipeline_step_VOk env e e10 :
  createGraphicsPipeline env e = Returned (VOk, e10) ->
  exists r sc r10,
    m_render e = Some r /\ m_swapchain e = Some sc
    /\ RenderInit.createGraphicsPipeline (pipeline_env env) sc (m_graphics_device e)
         (m_allocator e) r = Returned (VOk, r10)
    /\ e10 = set_render e (Some r10).
Proof.
  unfold createGraphicsPipeline.
  destruct (m_render e) as [r|]; [|discriminate].
  destruct (m_swapchain e) as [sc|]; [|discriminate].
  intros H. apply bind_Returned in H as ([res r10] & Hc & H).
  injection H as -> <-. exists r, sc, r10. repeat split; assumption.
Qed.

Lemma createFramebuffers_step_VOk env e e11 :
  createFramebuffers env e = Returned (VOk, e11) ->
  exists r sc render11,
    m_render e = Some r /\ m_swapchain e = Some sc
    /\ RenderInit.createFramebuffers (vk_create_framebuffer env) sc (RenderInit.render r)
       = (VOk, render11)
    /\ e11 = set_render e (Some (RenderInit.set_render r render11)).
Proof.
  unfold createFramebuffers.
  destruct (m_render e) as [r|]; [|discriminate].
  destruct (m_swapchain e) as [sc|]; [|discriminate].
  destruct (RenderInit.createFramebuffers _ _ _) as [res render11] eqn:E. intros H.
  injection H as -> <-. exists r, sc, render11. repeat split; assumption.
Qed.

End EngineInitialize3.
Section EngineInitialize4.

Import EngineInit.

(** What holds of an engine that [initialize] left INITIALIZED. *)
Lemma initialize_INITIALIZED_facts env e e' :
  m_state e <> INITIALIZED ->
  initialize env e = Returned e' ->
  m_state e' = INITIALIZED ->
  exists r sc,
    let d := m_graphics_device e' in
    let p := Render.m_graphics_pipeline (RenderInit.render r) in
    (m_render e' = Some r /\ m_swapchain e' = Some sc)
    /\ (vk_create_instance env = (VK_SUCCESS, m_graphics_instance e')
        /\ glfw_create_window_surface env
           = (VK_SUCCESS, Render.m_surface (RenderInit.render r))
        /\ vma_create_allocator env = (VK_SUCCESS, m_allocator e')
        /\ vk_create_descriptor_pool env = (VK_SUCCESS, m_descriptor_pool e'))
    /\ ((exists pre device post,
           physical_devices env = pre ++ device :: post
           /\ Forall (unsuitable (apple env)) pre
           /\ Device.isDeviceSuitable (apple env) device = true
           /\ Device.m_physical_device d = Device.pd_handle device)
        /\ Device.m_physical_device d <> VK_NULL_HANDLE
        /\ (exists queues,
              vk_create_device env queues = (VK_SUCCESS, Device.m_logical_device d))
        /\ Device.m_graphics_queue d
           = vk_get_queue env (Device.m_graphics_queue_family_index d)
        /\ Device.m_presents_queue d
           = vk_get_queue env (Device.m_presents_queue_family_index d)
        /\ Device.m_transfert_queue d
           = vk_get_queue env (Device.m_transfert_queue_family_index d))
    /\ (SwapChain.m_details sc
        = {| SwapChain.capabilities := SwapChain.surface_capabilities (surface env);
             SwapChain.formats := SwapChain.surface_formats (surface env);
             SwapChain.present_modes := SwapChain.surface_present_modes (surface env) |}
        /\ SwapChain.checkDetails sc = VOk
        /\ SwapChain.m_present_mode sc
           = SwapChain.PREFERED_PRESENTATION_MODE (fps_limit env)
        /\ In (SwapChain.m_format sc) (SwapChain.surface_formats (surface env))
        /\ SwapChain.m_images sc = vk_swapchain_images env (SwapChain.m_swapchain sc)
        /\ exists info,
             vk_create_swapchain env info = (VK_SUCCESS, SwapChain.m_swapchain sc)
             /\ SwapChain.ci_minImageCount info = 3)
    /\ (Render.m_image_views (RenderInit.render r)
        = map (fun image =>
                 snd (vk_create_image_view env
                        {| RenderInit.image := image;
                           RenderInit.view_format :=
                             SwapChain.format (SwapChain.m_format sc) |}))
            (SwapChain.m_images sc)
        /\ Render.m_framebuffers (RenderInit.render r)
           = map (fun image_view =>
                    snd (vk_create_framebuffer env
                           {| RenderInit.fb_renderPass := Pipeline.m_render_pass p;
                              RenderInit.pAttachments := [image_view];
                              RenderInit.fb_height :=
                                SwapChain.height (SwapChain.m_extent sc);
                              RenderInit.fb_width :=
                                SwapChain.width (SwapChain.m_extent sc);
                              RenderInit.layers := 1 |}))
               (Render.m_image_views (RenderInit.render r)))
    /\ (List.length (Pipeline.m_shader_modules p) = 2%nat
        /\ map PipelineInit.module (RenderInit.m_shader_stages r)
           = Pipeline.m_shader_modules p
        /\ map PipelineInit.stage (RenderInit.m_shader_stages r) = [16; 1])
    /\ (RenderInit.vk_create_render_pass (pipeline_env env)
          (SwapChain.format (SwapChain.m_format sc))
        = (VK_SUCCESS, Pipeline.m_render_pass p)
        /\ RenderInit.vk_create_pipeline_layout (pipeline_env env)
           = (VK_SUCCESS, Pipeline.m_layout p)
        /\ Pipeline.m_layout p <> VK_NULL_HANDLE
        /\ RenderInit.vk_create_graphics_pipelines (pipeline_env env)
             {| PipelineInit.pStages := RenderInit.m_shader_stages r;
                PipelineInit.viewport_extent := SwapChain.m_extent sc;
                PipelineInit.layout := Pipeline.m_layout p;
                PipelineInit.renderPass := Pipeline.m_render_pass p |}
           = (VK_SUCCESS, Pipeline.m_pipeline p))
    /\ (Pipeline.m_sync_image_ready p <> None
        /\ Pipeline.m_sync_present_done p <> None
        /\ Pipeline.m_sync_cpu_gpu p <> None
        /\ Pipeline.m_vertex_buffer p = VK_NULL_HANDLE
        /\ Pipeline.m_index_buffer p = VK_NULL_HANDLE)
    /\ Render.m_frame_index (RenderInit.render r)
       = match m_render e with
         | Some r_old => Render.m_frame_index (RenderInit.render r_old)
         | None => 0
         end
    /\ exists graphics_command transfert_command,
         Render.m_graphics_command (RenderInit.render r) = Some graphics_command
         /\ Render.m_transfert_command (RenderInit.render r) = Some transfert_command
         /\ RenderInit.vk_create_command_pool (pipeline_env env)
              (Device.m_graphics_queue_family_index d)
            = (VK_SUCCESS, Command.m_pool graphics_command)
         /\ Command.m_pool graphics_command <> 0
         /\ RenderInit.vk_allocate_command_buffers (pipeline_env env)
              (Command.m_pool graphics_command)
            = (VK_SUCCESS, Command.m_buffer graphics_command)
         /\ RenderInit.vk_create_command_pool (pipeline_env env)
              (Device.m_transfert_queue_family_index d)
            = (VK_SUCCESS, Command.m_pool transfert_command)
         /\ Command.m_pool transfert_command <> 0
         /\ RenderInit.vk_allocate_command_buffers (pipeline_env env)
              (Command.m_pool transfert_command)
            = (VK_SUCCESS, Command.m_buffer transfert_command).
Proof.
  intros Hs H Hst.
  destruct (initialize_chain env e e' Hs H Hst)
    as (e1 & e2 & e3 & e4 & e5 & e6 & e7 & e8 & e9 & e10 & e11
        & H1 & H2 & H3 & H4 & H5 & H6 & H7 & H8 & H9 & H10 & H11 & ->).
  apply createGraphicsInstance_VOk in H1 as (instance & Hinst & ->).
  apply createRenderDevice_VOk in H2 as (r0 & s & Hsurf & Hfi0 & ->).
  cbn [m_render set_graphics_instance] in Hfi0.
  apply pickPhysicalDevice_VOk in H3 as (d3 & Hd3 & ->).
  apply listDevices_VOk in Hd3 as (pre & device & post & Hdevs & Hpre & Hdev & ->).
  apply getQueueFamilies_VOk in H4 as (n & d4 & Hd4 & ->).
  apply createLogicalDevice_step_VOk in H5 as (d5 & Hd5 & ->).
  cbn [m_graphics_device set_graphics_device set_render set_graphics_instance]
    in Hd4, Hd5.
  apply createAllocator_VOk in H6 as (allocator & Halloc & ->).
  apply createDescriptorPool_VOk in H7 as (pool & Hpool & ->).
  apply createSwapChain_VOk in H8 as (sc0 & sc8 & _ & Hsc & ->).
  apply createImageViews_step_VOk in H9 as (r8 & sc & render9 & Hr8 & Hsc8 & Hviews & ->).
  apply createGraphicsPipeline_step_VOk in H10 as (r9 & sc' & r10 & Hr9 & Hsc9 & Hpipe & ->).
  apply createFramebuffers_step_VOk in H11
    as (r10' & sc'' & render11 & Hr10 & Hsc10 & Hfbs & ->).
  cbn in Hr8, Hsc8, Hsc9, Hsc10, Hr9, Hr10.
  injection Hr8 as <-.
  injection Hsc8 as <-. injection Hsc9 as <-. injection Hsc10 as <-.
  injection Hr9 as <-. injection Hr10 as <-.
  apply createImageViews_VOk in Hviews. apply createFramebuffers_VOk in Hfbs.
  apply createGraphicsPipeline_VOk in Hpipe. cbv zeta in Hpipe.
  cbn [m_graphics_device m_allocator set_render set_swapchain set_descriptor_pool
         set_allocator RenderInit.render RenderInit.set_render] in Hpipe.
  destruct Hpipe as ((Hsf & Hiv & _ & Hfi) & Hmods & Hcreated & Hsync & Hcmds).
  apply SwapChain_create_VOk in Hsc
    as (Hcheck & Hmode & Hfmt & _ & Hdet & Himgs & Hinfo).
  rewrite queryDetails_details in Hdet, Hfmt. cbn in Hfmt.
  assert (Hcheck8 : SwapChain.checkDetails sc8 = VOk).
  { unfold SwapChain.checkDetails in *. rewrite Hdet.
    rewrite queryDetails_details in Hcheck. exact Hcheck. }
  pose proof (getQueueFamilies_physical_device (queue_families env)
                (Device.set_physical_device (m_graphics_device e) (Device.pd_handle device)))
    as [Hpd4 _].
  rewrite Hd4 in Hpd4. cbn [snd] in Hpd4.
  apply createLogicalDevice_VOk in Hd5 as (_ & Hpd5 & _ & Hld & Hq1 & Hq2 & Hq3).
  clear H Hst.
  unfold create_env in Hmode, Himgs, Hinfo.
  cbn [SwapChain.fps_limit SwapChain.vk_swapchain_images SwapChain.vk_create_swapchain]
    in Hmode, Himgs, Hinfo.
  subst render9 render11.
  cbn [RenderInit.render RenderInit.set_render RenderInit.set_image_views
         RenderInit.set_surface Render.m_surface Render.m_image_views
         Render.m_graphics_pipeline Render.m_frame_index] in Hsf, Hiv, Hfi.
  exists (RenderInit.set_render r10
            (RenderInit.set_framebuffers (RenderInit.render r10)
               (map (fun image_view =>
                       snd (vk_create_framebuffer env
                              {| RenderInit.fb_renderPass :=
                                   Pipeline.m_render_pass
                                     (Render.m_graphics_pipeline (RenderInit.render r10));
                                 RenderInit.pAttachments := [image_view];
                                 RenderInit.fb_height :=
                                   SwapChain.height (SwapChain.m_extent sc8);
                                 RenderInit.fb_width :=
                                   SwapChain.width (SwapChain.m_extent sc8);
                                 RenderInit.layers := 1 |}))
                  (Render.m_image_views (RenderInit.render r10))))), sc8.
  cbv zeta.
  cbn [m_render m_swapchain m_graphics_device m_graphics_instance m_allocator
         m_descriptor_pool set_state set_render set_swapchain set_descriptor_pool
         set_allocator set_graphics_device set_graphics_instance
         RenderInit.render RenderInit.set_render RenderInit.m_shader_stages
         Render.m_surface Render.m_image_views Render.m_framebuffers
         Render.m_graphics_pipeline Render.m_graphics_command
         Render.m_transfert_command Render.m_frame_index
         RenderInit.set_framebuffers].
  split; [split; reflexivity|].
  split; [split; [exact Hinst|]; split; [rewrite Hsf; exact Hsurf|];
          split; assumption|].
  split.
  { split; [exists pre, device, post; repeat split; try assumption;
            rewrite Hpd5, Hpd4; reflexivity|].
    split; [rewrite Hpd5, Hpd4; cbn; now apply isDeviceSuitable_handle with (apple env)|].
    repeat split; assumption. }
  split; [repeat split; assumption|].
  split; [split; [rewrite Hiv; reflexivity | reflexivity]|].
  split; [exact Hmods|]. split; [exact Hcreated|]. split; [exact Hsync|].
  split; [rewrite Hfi; exact Hfi0|].
  exact Hcmds.
Qed.

End EngineInitialize4.
Section EngineInitialize5.

Import EngineInit.

(** [initialize] leaves the engine INITIALIZED or in ERROR. *)
Lemma initialize_state env e e' :
  initialize env e = Returned e' ->
  m_state e' = INITIALIZED \/ m_state e' = ERROR.
Proof.
  unfold initialize.
  assert (Hrun : forall e0,
    attempt (Returned (createGraphicsInstance env e0)) (fun e =>
      if RenderInit.assertions (pipeline_env env)
         && (m_graphics_instance e =? VK_NULL_HANDLE)
      then AssertionFailed
      else
      attempt (Returned (createRenderDevice env e)) (fun e =>
      attempt (Returned (pickPhysicalDevice env e)) (fun e =>
      attempt (getQueueFamilies env e) (fun e =>
      attempt (createLogicalDevice env e) (fun e =>
      attempt (Returned (createAllocator env e)) (fun e =>
      attempt (Returned (createDescriptorPool env e)) (fun e =>
      attempt (createSwapChain env e) (fun e =>
      attempt (createImageViews env e) (fun e =>
      attempt (createGraphicsPipeline env e) (fun e =>
      attempt (createFramebuffers env e) (fun e =>
      if RenderInit.assertions (pipeline_env env)
         && negb (Device.isInitialized (m_graphics_device e))
      then AssertionFailed
      else Returned (set_state e INITIALIZED)))))))))))) = Returned e' ->
    m_state e' = INITIALIZED \/ m_state e' = ERROR).
  { intros e0.
    apply attempt_state. intros e1 e2.
    destruct (RenderInit.assertions (pipeline_env env)
              && (m_graphics_instance e1 =? VK_NULL_HANDLE)); [discriminate|].
    do 10 (apply attempt_state; clear e1 e2; intros e1 e2).
    destruct (RenderInit.assertions (pipeline_env env)
              && negb (Device.isInitialized (m_graphics_device e1))); [discriminate|].
    intros H. injection H as <-. left. reflexivity. }
  destruct (m_state e) eqn:Es; [apply Hrun | | apply Hrun].
  intros H. injection H as <-. left. exact Es.
Qed.

Lemma initialize_instance_failure env e code h :
  m_state e <> INITIALIZED ->
  vk_create_instance env = (VK_FAILURE code, h) ->
  initialize env e = Returned (set_state e ERROR).
Proof.
  intros Hs Hv. unfold initialize, createGraphicsInstance. rewrite Hv.
  destruct (m_state e); [reflexivity | contradiction | reflexivity].
Qed.

End EngineInitialize5.

(** X14.  [Engine::initialize]: its states, and the device and the
    swapchain it leaves.  On an INITIALIZED engine it does nothing.
    Otherwise (UNINITIALIZED, or ERROR after an earlier attempt) it runs its
    steps, and when it returns the engine is INITIALIZED or in ERROR, never
    UNINITIALIZED; when the instance cannot be created nothing but the
    state is changed.  When it leaves the engine INITIALIZED: the renderer
    and the swapchain objects exist; the instance, the surface, the
    allocator, the descriptor pool, the logical device and the swapchain
    are the handles the driver returned with VK_SUCCESS; the physical
    device is the first suitable one of the enumeration and is not null;
    the three queues are the ones of the three assigned families; the
    swapchain holds the details the surface reported, which pass
    [checkDetails], the preferred present mode, one of the reported
    formats, and the images the driver lists for its handle (3 were asked
    for). *)
Theorem initialize_states_device_and_swapchain
    (env : EngineInit.InitEnv) (e : EngineInit.t) :
  (EngineInit.m_state e = EngineInit.INITIALIZED ->
   EngineInit.initialize env e = Returned e)
  /\ (forall e',
        EngineInit.initialize env e = Returned e' ->
        EngineInit.m_state e' = EngineInit.INITIALIZED
        \/ EngineInit.m_state e' = EngineInit.ERROR)
  /\ (EngineInit.m_state e <> EngineInit.INITIALIZED ->
      forall code h,
        EngineInit.vk_create_instance env = (VK_FAILURE code, h) ->
        EngineInit.initialize env e = Returned (EngineInit.set_state e EngineInit.ERROR))
  /\ (EngineInit.m_state e <> EngineInit.INITIALIZED ->
      forall e',
        EngineInit.initialize env e = Returned e' ->
        EngineInit.m_state e' = EngineInit.INITIALIZED ->
        exists r sc,
          let d := EngineInit.m_graphics_device e' in
          (EngineInit.m_render e' = Some r /\ EngineInit.m_swapchain e' = Some sc)
          /\ (EngineInit.vk_create_instance env
              = (VK_SUCCESS, EngineInit.m_graphics_instance e')
              /\ EngineInit.glfw_create_window_surface env
                 = (VK_SUCCESS, Render.m_surface (RenderInit.render r))
              /\ EngineInit.vma_create_allocator env
                 = (VK_SUCCESS, EngineInit.m_allocator e')
              /\ EngineInit.vk_create_descriptor_pool env
                 = (VK_SUCCESS, EngineInit.m_descriptor_pool e'))
          /\ ((exists pre device post,
                 EngineInit.physical_devices env = pre ++ device :: post
                 /\ Forall (unsuitable (EngineInit.apple env)) pre
                 /\ Device.isDeviceSuitable (EngineInit.apple env) device = true
                 /\ Device.m_physical_device d = Device.pd_handle device)
              /\ Device.m_physical_device d <> VK_NULL_HANDLE
              /\ (exists queues,
                    EngineInit.vk_create_device env queues
                    = (VK_SUCCESS, Device.m_logical_device d))
              /\ Device.m_graphics_queue d
                 = EngineInit.vk_get_queue env (Device.m_graphics_queue_family_index d)
              /\ Device.m_presents_queue d
                 = EngineInit.vk_get_queue env (Device.m_presents_queue_family_index d)
              /\ Device.m_transfert_queue d
                 = EngineInit.vk_get_queue env (Device.m_transfert_queue_family_index d))
          /\ (SwapChain.m_details sc
              = {| SwapChain.capabilities :=
                     SwapChain.surface_capabilities (EngineInit.surface env);
                   SwapChain.formats := SwapChain.surface_formats (EngineInit.surface env);
                   SwapChain.present_modes :=
                     SwapChain.surface_present_modes (EngineInit.surface env) |}
              /\ SwapChain.checkDetails sc = VOk
              /\ SwapChain.m_present_mode sc
                 = SwapChain.PREFERED_PRESENTATION_MODE (EngineInit.fps_limit env)
              /\ In (SwapChain.m_format sc)
                    (SwapChain.surface_formats (EngineInit.surface env))
              /\ SwapChain.m_images sc
                 = EngineInit.vk_swapchain_images env (SwapChain.m_swapchain sc)
              /\ exists info,
                   EngineInit.vk_create_swapchain env info
                   = (VK_SUCCESS, SwapChain.m_swapchain sc)
                   /\ SwapChain.ci_minImageCount info = 3)).
Proof.
  split; [|split; [|split]].
  - intros Hs. unfold EngineInit.initialize. rewrite Hs. reflexivity.
  - intros e'. apply initialize_state.
  - intros Hs code h. now apply initialize_instance_failure.
  - intros Hs e' H Hst.
    destruct (initialize_INITIALIZED_facts env e e' Hs H Hst)
      as (r & sc & H1 & H2 & H3 & H4 & _).
    exists r, sc. cbv zeta. repeat split; first [apply H1 | apply H2 | apply H3 | apply H4].
Qed.


Lemma initialize_states_device_and_swapchain_witness :
  EngineInit.m_state EngineInit.fresh <> EngineInit.INITIALIZED
  /\ EngineInit.initialize init_env_ok EngineInit.fresh = Returned engine_initialized
  /\ EngineInit.m_state engine_initialized = EngineInit.INITIALIZED
  /\ exists sc,
       EngineInit.m_swapchain engine_initialized = Some sc
       /\ SwapChain.checkDetails sc = VOk
       /\ SwapChain.m_present_mode sc = SwapChain.VK_PRESENT_MODE_FIFO_KHR.
Proof.
  assert (Hs : EngineInit.m_state EngineInit.fresh <> EngineInit.INITIALIZED)
    by discriminate.
  assert (H : EngineInit.initialize init_env_ok EngineInit.fresh
              = Returned engine_initialized) by (vm_compute; reflexivity).
  assert (Hst : EngineInit.m_state engine_initialized = EngineInit.INITIALIZED)
    by reflexivity.
  split; [exact Hs|]. split; [exact H|]. split; [exact Hst|].
  destruct (initialize_states_device_and_swapchain init_env_ok EngineInit.fresh)
    as (_ & _ & _ & Hinit).
  destruct (Hinit Hs engine_initialized H Hst) as (r & sc & H1 & _ & _ & H4).
  cbv zeta in H1, H4. exists sc.
  split; [apply H1|]. split; apply H4.
Defined.
(** X16.  Frames on a freshly initialised engine.  When
    [Engine::initialize] leaves a new engine INITIALIZED and the driver
    lists at least one image for the swapchain, the application that starts
    its loop on that engine (frame counter 1) without an FPS limit draws any
    number of frames without undefined behaviour, provided the clock can be
    read twice per frame: the number of framebuffers stays the number of
    swapchain images, so the remainder that [updateFrameIndex] takes is
    never a division by zero, and after every frame the frame index is
    below the number of swapchain images. *)
Theorem drawFrames_after_initialize
    (env : EngineInit.InitEnv) (e' : EngineInit.t)
    (world : N -> Engine.FrameEnv * list Z) (n : N) (a : Application.t) :
  EngineInit.initialize env EngineInit.fresh = Returned e' ->
  EngineInit.m_state e' = EngineInit.INITIALIZED ->
  (forall swapchain, EngineInit.vk_swapchain_images env swapchain <> []) ->
  (forall k, exists t0 t1 rest, snd (world k) = t0 :: t1 :: rest) ->
  EngineInit.engine e' = Some (Application.m_engine a) ->
  Application.m_current_frame a = 1 ->
  Application.m_FPS_limit a = None ->
  exists a_n sc,
    Application.drawFrames world n a = Returned a_n
    /\ EngineInit.m_swapchain e' = Some sc
    /\ Application.framebuffer_count a_n
       = Z.of_nat (List.length (EngineInit.vk_swapchain_images env
                                  (SwapChain.m_swapchain sc)))
    /\ 0 < Application.framebuffer_count a_n
    /\ 0 <= Application.frame_index a_n < Application.framebuffer_count a_n
    /\ Application.frame_index a_n
       = (Z.of_N n mod 2 ^ 32) mod Application.framebuffer_count a_n.
Proof.
  intros H Hst Himages Hclock Heng Hc Hlim.
  assert (Hs : EngineInit.m_state EngineInit.fresh <> EngineInit.INITIALIZED)
    by discriminate.
  destruct (initialize_INITIALIZED_facts env EngineInit.fresh e' Hs H Hst)
    as (r & sc & [Hr Hsc] & _ & _ & H4 & [Hviews Hfbs] & _ & _ & H8 & Hfi & _).
  cbv zeta in *. destruct H4 as (_ & _ & _ & _ & Himgs & _).
  destruct H8 as (Hir & Hpd & Hcg & _).
  cbn [EngineInit.m_render EngineInit.fresh] in Hfi.
  unfold EngineInit.engine in Heng. rewrite Hr, Hsc in Heng.
  injection Heng as Heng.
  assert (Hcount : Application.framebuffer_count a
                   = Z.of_nat (List.length (EngineInit.vk_swapchain_images env
                                              (SwapChain.m_swapchain sc)))).
  { unfold Application.framebuffer_count. rewrite <- Heng.
    cbn [Engine.m_render]. rewrite Hfbs, Hviews, !length_map, Himgs. reflexivity. }
  assert (Hpos : 0 < Application.framebuffer_count a).
  { rewrite Hcount. specialize (Himages (SwapChain.m_swapchain sc)).
    destruct (EngineInit.vk_swapchain_images env (SwapChain.m_swapchain sc));
      [contradiction | cbn [List.length]; lia]. }
  assert (Hidx : Application.frame_index a = 0).
  { unfold Application.frame_index. rewrite <- Heng. exact Hfi. }
  assert (Hsync : sync_objects_exist
                    (Render.m_graphics_pipeline
                       (Engine.m_render (Application.m_engine a)))).
  { rewrite <- Heng. cbn [Engine.m_render]. repeat split; assumption. }
  destruct (drawFrames_unlimited_returns world Hclock n a Hlim ltac:(lia) Hsync Hc Hidx)
    as [a_n Hn].
  destruct (drawFrames_spec world n a a_n Hc Hidx Hn) as (Hb & _ & Hi & _).
  exists a_n, sc. split; [exact Hn|]. split; [exact Hsc|].
  rewrite Hb. split; [exact Hcount|]. split; [exact Hpos|].
  rewrite Hi. split; [apply Z.mod_pos_bound; exact Hpos | reflexivity].
Qed.

Lemma drawFrames_after_initialize_witness :
  exists a_n,
    Application.drawFrames world_ok 5 application_initialized = Returned a_n
    /\ Application.frame_index a_n = 2.
Proof.
  assert (Hclock : forall k, exists t0 t1 rest, snd (world_ok k) = t0 :: t1 :: rest).
  { intros k. unfold world_ok, clock_of_frame. cbn [snd]. cbv zeta.
    do 3 eexists. reflexivity. }
  destruct (drawFrames_after_initialize init_env_ok engine_initialized world_ok 5
              application_initialized)
    as (a_n & sc & Hn & _ & Hcount & _ & _ & Hi).
  - vm_compute. reflexivity.
  - reflexivity.
  - intros swapchain. discriminate.
  - exact Hclock.
  - vm_compute. reflexivity.
  - reflexivity.
  - reflexivity.
  - exists a_n. split; [exact Hn|]. rewrite Hi, Hcount. reflexivity.
Defined.
Section EngineTeardown.

Import EngineShutdown.

Lemma Command_destructor_calls device c :
  device <> 0 -> Command.m_pool c <> 0 ->
  fst (Command.destructor device c) = [vkDestroyCommandPool device (Command.m_pool c)].
Proof.
  intros Hd Hp. unfold Command.destructor.
  destruct (Z.eqb_spec (Command.m_pool c) 0); [contradiction|].
  destruct (Z.eqb_spec device 0); [contradiction | reflexivity].
Qed.

Lemma Pipeline_destructor_calls device allocator p image_ready present_done cpu_gpu :
  Pipeline.m_render_pass p <> VK_NULL_HANDLE ->
  Pipeline.m_layout p <> VK_NULL_HANDLE ->
  Pipeline.m_pipeline p <> VK_NULL_HANDLE ->
  Pipeline.m_vertex_buffer p = VK_NULL_HANDLE ->
  Pipeline.m_index_buffer p = VK_NULL_HANDLE ->
  Pipeline.m_sync_image_ready p = Some image_ready ->
  Pipeline.m_sync_present_done p = Some present_done ->
  Pipeline.m_sync_cpu_gpu p = Some cpu_gpu ->
  fst (Pipeline.destructor device allocator p)
  = map (vkDestroyShaderModule device) (Pipeline.m_shader_modules p)
    ++ [vkDestroyRenderPass device (Pipeline.m_render_pass p);
        vkDestroyPipelineLayout device (Pipeline.m_layout p);
        vkDestroyPipeline device (Pipeline.m_pipeline p);
        vkDestroySemaphore device image_ready;
        vkDestroySemaphore device present_done;
        vkDestroyFence device cpu_gpu].
Proof.
  intros Hrp Hl Hp Hv Hi H1 H2 H3. unfold Pipeline.destructor. cbn [fst].
  rewrite Hv, Hi, H1, H2, H3.
  destruct (Z.eqb_spec (Pipeline.m_render_pass p) VK_NULL_HANDLE); [contradiction|].
  destruct (Z.eqb_spec (Pipeline.m_layout p) VK_NULL_HANDLE); [contradiction|].
  destruct (Z.eqb_spec (Pipeline.m_pipeline p) VK_NULL_HANDLE); [contradiction|].
  cbn [negb Z.eqb VK_NULL_HANDLE app].
  destruct (Pipeline.m_shader_modules p) as [|m ms]; reflexivity.
Qed.

Lemma map_if_nonempty {A B} (f : A -> B) (l : list A) :
  (if 0 <? Z.of_nat (List.length l) then map f l else []) = map f l.
Proof. destruct l; reflexivity. Qed.

End EngineTeardown.

(** X17.  The shutdown of an initialised engine.  On an engine that
    [Engine::initialize] left INITIALIZED and whose instance, surface,
    logical device, allocator, descriptor pool, swapchain, render pass and
    pipeline handles are not null, [Engine::~Engine] makes exactly these
    destroy calls, in this order: the swapchain; the shader modules, the
    render pass, the pipeline layout, the pipeline, the two semaphores and
    the fence; the surface; the image views; the framebuffers; the pool of
    the graphics command object and the pool of the transfer command
    object; the descriptor pool; the allocator; the logical device; the
    instance.  So every object the initialisation created is destroyed
    once, everything made from the logical device before the device and the
    device before the instance, and no buffer is destroyed because none was
    created. *)
Theorem destructor_after_initialize
    (env : EngineInit.InitEnv) (e e' : EngineInit.t)
    (r : RenderInit.t) (sc : SwapChain.t) :
  EngineInit.m_state e <> EngineInit.INITIALIZED ->
  EngineInit.initialize env e = Returned e' ->
  EngineInit.m_state e' = EngineInit.INITIALIZED ->
  EngineInit.m_render e' = Some r ->
  EngineInit.m_swapchain e' = Some sc ->
  let instance := EngineInit.m_graphics_instance e' in
  let device := Device.m_logical_device (EngineInit.m_graphics_device e') in
  let p := Render.m_graphics_pipeline (RenderInit.render r) in
  Forall (fun handle => handle <> VK_NULL_HANDLE)
    [instance; Render.m_surface (RenderInit.render r); device;
     EngineInit.m_allocator e'; EngineInit.m_descriptor_pool e';
     SwapChain.m_swapchain sc; Pipeline.m_render_pass p; Pipeline.m_pipeline p] ->
  exists image_ready present_done cpu_gpu graphics_command transfert_command,
    Pipeline.m_sync_image_ready p = Some image_ready
    /\ Pipeline.m_sync_present_done p = Some present_done
    /\ Pipeline.m_sync_cpu_gpu p = Some cpu_gpu
    /\ Render.m_graphics_command (RenderInit.render r) = Some graphics_command
    /\ Render.m_transfert_command (RenderInit.render r) = Some transfert_command
    /\ EngineShutdown.destructor e'
       = [EngineShutdown.Native (vkDestroySwapchainKHR device (SwapChain.m_swapchain sc))]
         ++ map (fun shader_module =>
                   EngineShutdown.Native (vkDestroyShaderModule device shader_module))
              (Pipeline.m_shader_modules p)
         ++ [EngineShutdown.Native (vkDestroyRenderPass device (Pipeline.m_render_pass p));
             EngineShutdown.Native (vkDestroyPipelineLayout device (Pipeline.m_layout p));
             EngineShutdown.Native (vkDestroyPipeline device (Pipeline.m_pipeline p));
             EngineShutdown.Native (vkDestroySemaphore device image_ready);
             EngineShutdown.Native (vkDestroySemaphore device present_done);
             EngineShutdown.Native (vkDestroyFence device cpu_gpu);
             EngineShutdown.vkDestroySurfaceKHR instance
               (Render.m_surface (RenderInit.render r))]
         ++ map (EngineShutdown.vkDestroyImageView device)
              (Render.m_image_views (RenderInit.render r))
         ++ map (EngineShutdown.vkDestroyFramebuffer device)
              (Render.m_framebuffers (RenderInit.render r))
         ++ [EngineShutdown.Native
               (vkDestroyCommandPool device (Command.m_pool graphics_command));
             EngineShutdown.Native
               (vkDestroyCommandPool device (Command.m_pool transfert_command));
             EngineShutdown.vkDestroyDescriptorPool device (EngineInit.m_descriptor_pool e');
             EngineShutdown.vmaDestroyAllocator (EngineInit.m_allocator e');
             EngineShutdown.Native (vkDestroyDevice device);
             EngineShutdown.vkDestroyInstance instance].
Proof.
  intros Hs H Hst Hr Hsc instance device p Hnn.
  destruct (initialize_INITIALIZED_facts env e e' Hs H Hst)
    as (r' & sc' & [Hr' Hsc'] & _ & _ & _ & _ & _ & Hcreated & Hsync & _
        & gc & tc & Hcmds).
  rewrite Hr in Hr'. injection Hr' as <-. rewrite Hsc in Hsc'. injection Hsc' as <-.
  cbv zeta in Hcreated, Hsync, Hcmds. fold p in Hcreated, Hsync.
  destruct Hcreated as (_ & _ & Hlayout & _).
  destruct Hsync as (H1 & H2 & H3 & Hv & Hi).
  destruct Hcmds as (Hgc & Htc & _ & Hgp & _ & _ & Htp & _).
  destruct (Pipeline.m_sync_image_ready p) as [image_ready|] eqn:E1; [|contradiction].
  destruct (Pipeline.m_sync_present_done p) as [present_done|] eqn:E2; [|contradiction].
  destruct (Pipeline.m_sync_cpu_gpu p) as [cpu_gpu|] eqn:E3; [|contradiction].
  exists image_ready, present_done, cpu_gpu, gc, tc.
  do 5 (split; [assumption || reflexivity|]).
  repeat match goal with
         | Hf : Forall _ (_ :: _) |- _ => inversion Hf; subst; clear Hf
         end.
  unfold EngineShutdown.destructor, EngineShutdown.Render_destructor,
    EngineShutdown.reset_command.
  rewrite Hr, Hsc, Hgc, Htc. fold device instance p.
  rewrite (Pipeline_destructor_calls device (EngineInit.m_allocator e') p
             image_ready present_done cpu_gpu) by assumption.
  rewrite !Command_destructor_calls by assumption.
  rewrite !map_if_nonempty.
  unfold SwapChain.destructor, Device.destructor, Device.Destroy. fold device.
  destruct (Z.eqb_spec (SwapChain.m_swapchain sc) VK_NULL_HANDLE); [contradiction|].
  destruct (Z.eqb_spec (Render.m_surface (RenderInit.render r)) VK_NULL_HANDLE);
    [contradiction|].
  destruct (Z.eqb_spec (EngineInit.m_descriptor_pool e') VK_NULL_HANDLE);
    [contradiction|].
  destruct (Z.eqb_spec (EngineInit.m_allocator e') VK_NULL_HANDLE); [contradiction|].
  destruct (Z.eqb_spec device VK_NULL_HANDLE); [contradiction|].
  destruct (Z.eqb_spec instance VK_NULL_HANDLE); [contradiction|].
  cbn [negb fst snd map Device.m_logical_device Device.set_logical_device
         Z.eqb VK_NULL_HANDLE app].
  rewrite !map_app, map_map. cbn [map].
  repeat (rewrite <- !app_assoc; cbn [app]).
  reflexivity.
Qed.

Lemma destructor_after_initialize_witness :
  exists r sc,
    EngineInit.m_render engine_initialized = Some r
    /\ EngineInit.m_swapchain engine_initialized = Some sc
    /\ List.length (EngineShutdown.destructor engine_initialized) = 22%nat
    /\ last (EngineShutdown.destructor engine_initialized)
         (EngineShutdown.vkDestroyInstance 0)
       = EngineShutdown.vkDestroyInstance 1.
Proof.
  eexists. eexists. split; [reflexivity|]. split; [reflexivity|].
  assert (Hs : EngineInit.m_state EngineInit.fresh <> EngineInit.INITIALIZED)
    by discriminate.
  assert (H : EngineInit.initialize init_env_ok EngineInit.fresh
              = Returned engine_initialized) by (vm_compute; reflexivity).
  pose proof (destructor_after_initialize init_env_ok EngineInit.fresh
                engine_initialized _ _ Hs H eq_refl eq_refl eq_refl) as Hd.
  cbv zeta in Hd.
  destruct Hd as (a & b & c & gc & tc & _ & _ & _ & _ & _ & Hd).
  - repeat constructor; discriminate.
  - rewrite Hd. split; reflexivity.
Defined.

Section MemoryTypes.

Import Memory.

Lemma land_pow2_eqb a i : 0 <= i -> (Z.land a (2 ^ i) =? 0) = negb (Z.testbit a i).
Proof.
  intros Hi. destruct (Z.testbit a i) eqn:E; cbn [negb].
  - apply Z.eqb_neq. intros H0.
    assert (Hb : Z.testbit (Z.land a (2 ^ i)) i = true).
    { rewrite Z.land_spec, E, Z.pow2_bits_true by lia. reflexivity. }
    rewrite H0, Z.bits_0 in Hb. discriminate.
  - apply Z.eqb_eq. apply Z.bits_inj'. intros k Hk.
    rewrite Z.land_spec, Z.bits_0, Z.pow2_bits_eqb by lia.
    destruct (Z.eqb_spec i k) as [->|_]; [now rewrite E | apply andb_false_r].
Qed.

Lemma bit_of_index i : 0 <= i < 32 -> to_u32 (Z.shiftl 1 i) = 2 ^ i.
Proof.
  intros Hi. rewrite Z.shiftl_1_l. apply to_u32_small.
  split; [apply Z.pow_nonneg; lia | apply Z.pow_lt_mono_r; lia].
Qed.

(** The loop returns the first index from [index] on whose bit is set in
    the filter and whose memory type has all the wanted properties. *)
Lemma findMemoryType_loop_spec type_filter flags memoryTypes : forall index,
  0 <= index -> index + Z.of_nat (List.length memoryTypes) <= 32 ->
  let fits k :=
    Z.testbit type_filter k = true
    /\ Z.land (propertyFlags
                 (nth (Z.to_nat (k - index)) memoryTypes
                    {| propertyFlags := 0; heapIndex := 0 |})) flags = flags in
  match findMemoryType_loop type_filter flags memoryTypes index with
  | Returned (Ok j) =>
      index <= j < index + Z.of_nat (List.length memoryTypes)
      /\ fits j /\ forall k, index <= k < j -> ~ fits k
  | Returned (Error msg) =>
      msg = "findMemoryType: did not found any memory type with favorite filter / properties"%string
      /\ forall k, index <= k < index + Z.of_nat (List.length memoryTypes) -> ~ fits k
  | _ => False
  end.
Proof.
  induction memoryTypes as [|memory_type rest IH]; intros index Hi Hlen fits.
  - cbn. split; [reflexivity|]. intros k Hk. lia.
  - cbn [List.length] in Hlen. rewrite Nat2Z.inj_succ in Hlen.
    cbn [findMemoryType_loop].
    destruct (Z.leb_spec 32 index) as [H32|H32]; [lia|].
    rewrite bit_of_index, land_pow2_eqb, negb_involutive by lia.
    specialize (IH (index + 1) ltac:(lia) ltac:(lia)). cbv zeta in IH.
    assert (Hshift : forall k, index + 1 <= k ->
              nth (Z.to_nat (k - index)) (memory_type :: rest)
                {| propertyFlags := 0; heapIndex := 0 |}
              = nth (Z.to_nat (k - (index + 1))) rest
                  {| propertyFlags := 0; heapIndex := 0 |}).
    { intros k Hk. replace (Z.to_nat (k - index)) with (S (Z.to_nat (k - (index + 1))))
        by lia. reflexivity. }
    destruct (Z.testbit type_filter index) eqn:Eb; cbn [andb].
    + destruct (Z.eqb_spec (Z.land (propertyFlags memory_type) flags) flags) as [Ef|Ef].
      * cbn [List.length]. rewrite Nat2Z.inj_succ.
        split; [lia|]. split.
        { unfold fits. rewrite Z.sub_diag. cbn. now split. }
        intros k Hk. lia.
      * destruct (findMemoryType_loop type_filter flags rest (index + 1))
          as [| | |[j|msg]]; try contradiction.
        { destruct IH as (Hr & [Hb Hf] & Hbefore). cbn [List.length].
          rewrite Nat2Z.inj_succ. split; [lia|]. split.
          - unfold fits. rewrite Hshift by lia. now split.
          - intros k Hk [Hkb Hkf]. destruct (Z.eq_dec k index) as [->|Hne].
            + rewrite Z.sub_diag in Hkf. cbn in Hkf. contradiction.
            + apply (Hbefore k ltac:(lia)). rewrite Hshift in Hkf by lia. now split. }
        { destruct IH as [-> Hnone]. split; [reflexivity|].
          cbn [List.length]. rewrite Nat2Z.inj_succ.
          intros k Hk [Hkb Hkf]. destruct (Z.eq_dec k index) as [->|Hne].
          - rewrite Z.sub_diag in Hkf. cbn in Hkf. contradiction.
          - apply (Hnone k ltac:(lia)). rewrite Hshift in Hkf by lia. now split. }
    + destruct (findMemoryType_loop type_filter flags rest (index + 1))
        as [| | |[j|msg]]; try contradiction.
      { destruct IH as (Hr & [Hb Hf] & Hbefore). cbn [List.length].
        rewrite Nat2Z.inj_succ. split; [lia|]. split.
        - unfold fits. rewrite Hshift by lia. now split.
        - intros k Hk [Hkb Hkf]. destruct (Z.eq_dec k index) as [->|Hne].
          + congruence.
          + apply (Hbefore k ltac:(lia)). rewrite Hshift in Hkf by lia. now split. }
      { destruct IH as [-> Hnone]. split; [reflexivity|].
        cbn [List.length]. rewrite Nat2Z.inj_succ.
        intros k Hk [Hkb Hkf]. destruct (Z.eq_dec k index) as [->|Hne].
        - congruence.
        - apply (Hnone k ltac:(lia)). rewrite Hshift in Hkf by lia. now split. }
Qed.

End MemoryTypes.

(** X19.  [Memory::findMemoryType], for the at most 32 memory types a
    device reports: it returns Ok with the lowest index whose bit is set in
    the type filter and whose memory type has every wanted property flag,
    and its error exactly when no index is such; it is never undefined. *)
Theorem findMemoryType_lowest_fitting_index
    (memoryTypes : list Memory.VkMemoryType) (type_filter flags : Z) :
  Z.of_nat (List.length memoryTypes) <= 32 ->
  let fits k :=
    Z.testbit type_filter k = true
    /\ Z.land (Memory.propertyFlags
                 (nth (Z.to_nat k) memoryTypes
                    {| Memory.propertyFlags := 0; Memory.heapIndex := 0 |})) flags
       = flags in
  (forall j,
     Memory.findMemoryType memoryTypes type_filter flags = Returned (Ok j) <->
     0 <= j < Z.of_nat (List.length memoryTypes)
     /\ fits j /\ forall k, 0 <= k < j -> ~ fits k)
  /\ (Memory.findMemoryType memoryTypes type_filter flags
      = Returned
          (Error "findMemoryType: did not found any memory type with favorite filter / properties")
      <-> forall k, 0 <= k < Z.of_nat (List.length memoryTypes) -> ~ fits k)
  /\ Memory.findMemoryType memoryTypes type_filter flags <> Undefined.
Proof.
  intros Hlen fits.
  pose proof (findMemoryType_loop_spec type_filter flags memoryTypes 0
                ltac:(lia) ltac:(lia)) as H.
  cbv zeta in H. unfold Memory.findMemoryType.
  assert (Hfits : forall k,
            (Z.testbit type_filter k = true
             /\ Z.land (Memory.propertyFlags
                          (nth (Z.to_nat (k - 0)) memoryTypes
                             {| Memory.propertyFlags := 0; Memory.heapIndex := 0 |}))
                  flags = flags) <-> fits k).
  { intros k. unfold fits. now rewrite Z.sub_0_r. }
  destruct (Memory.findMemoryType_loop type_filter flags memoryTypes 0)
    as [| | |[j0|msg]]; try contradiction.
  - destruct H as (Hr & Hf & Hbefore). apply Hfits in Hf.
    split; [|split; [|discriminate]].
    + intros j. split.
      * intros E. injection E as <-. split; [lia|]. split; [exact Hf|].
        intros k Hk Hk'. apply (Hbefore k ltac:(lia)). now apply Hfits.
      * intros (Hj & Hfj & Hbj).
        destruct (Z.lt_trichotomy j j0) as [Hlt|[->|Hgt]]; [|reflexivity|].
        -- exfalso. apply (Hbefore j ltac:(lia)). now apply Hfits.
        -- exfalso. apply (Hbj j0 ltac:(lia)). exact Hf.
    + split; [discriminate|]. intros Hnone. exfalso.
      apply (Hnone j0 ltac:(lia)). exact Hf.
  - destruct H as [-> Hnone].
    split; [|split; [|discriminate]].
    + intros j. split; [discriminate|]. intros (Hj & Hfj & _). exfalso.
      apply (Hnone j ltac:(lia)). now apply Hfits.
    + split; [|reflexivity]. intros _ k Hk Hk'.
      apply (Hnone k ltac:(lia)). now apply Hfits.
Qed.

Lemma findMemoryType_lowest_fitting_index_witness :
  Memory.findMemoryType
    [{| Memory.propertyFlags := 1; Memory.heapIndex := 0 |};
     {| Memory.propertyFlags := 6; Memory.heapIndex := 1 |};
     {| Memory.propertyFlags := 7; Memory.heapIndex := 1 |}] 6 6
  = Returned (Ok 1).
Proof.
  destruct (findMemoryType_lowest_fitting_index
              [{| Memory.propertyFlags := 1; Memory.heapIndex := 0 |};
               {| Memory.propertyFlags := 6; Memory.heapIndex := 1 |};
               {| Memory.propertyFlags := 7; Memory.heapIndex := 1 |}] 6 6)
    as (H & _).
  - vm_compute. discriminate.
  - apply H. split; [cbn [List.length]; lia|]. split; [split; reflexivity|].
    intros k Hk. assert (k = 0) as -> by lia. intros [Hb _]. discriminate Hb.
Defined.
Section Arguments.

Import ArgParse.

Lemma foundFlag_spec arg :
  foundFlag arg = true <-> exists c rest, arg = String "-"%char (String c rest).
Proof.
  destruct arg as [|a [|b rest]].
  - cbn. split; [discriminate | intros (c & r & H); discriminate H].
  - cbn. split; [discriminate | intros (c & r & H); discriminate H].
  - unfold foundFlag, strncmp_eq, strncpy, LONG_FLAG_PREFIX_LEN, SMALL_FLAG_PREFIX_LEN,
      LONG_FLAG_PREFIX, SMALL_FLAG_PREFIX.
    cbn [String.length Nat.ltb Nat.leb substring].
    rewrite !substring_0_0 || idtac.
    cbn [String.eqb].
    destruct (Ascii.eqb_spec a "-"%char) as [->|Hne].
    + cbn. split; [eauto | reflexivity].
    + cbn. split; [discriminate|]. intros (c & r & H). injection H as H _ _.
      contradiction.
Qed.

Lemma substring_0_idem n : forall s, substring 0 n (substring 0 n s) = substring 0 n s.
Proof.
  induction n as [|n IH]; intros s.
  - destruct s; reflexivity.
  - destruct s as [|c s]; [reflexivity|]. cbn. now rewrite IH.
Qed.

Lemma substring_0_length n : forall s, (String.length (substring 0 n s) <= n)%nat.
Proof.
  induction n as [|n IH]; intros s.
  - destruct s; cbn; lia.
  - destruct s as [|c s]; cbn; [lia|]. specialize (IH s). lia.
Qed.

(** The entries the loop adds are the pairs of a flag and the value that
    comes right after it. *)
Lemma ArgParse_loop_In k v argv : forall found_flag flag_to_match arguments,
  In (k, v) (ArgParse_loop argv found_flag flag_to_match arguments) <->
  In (k, v) arguments
  \/ (found_flag = true
      /\ exists post, argv = v :: post /\ foundFlag v = false
                      /\ k = COPY_FLAG_STRING flag_to_match)
  \/ (exists pre flag post,
        argv = pre ++ flag :: v :: post
        /\ foundFlag flag = true /\ foundFlag v = false
        /\ k = COPY_FLAG_STRING (COPY_FLAG_STRING flag)).
Proof.
  induction argv as [|arg rest IH]; intros found_flag flag_to_match arguments.
  - cbn. split; [auto|]. intros [H|[(_ & post & H & _)|(pre & f & post & H & _)]];
      [exact H | discriminate H | destruct pre; discriminate H].
  - cbn [ArgParse_loop]. destruct (foundFlag arg) eqn:Ef.
    + rewrite IH. split.
      * intros [H|[(_ & post & -> & Hv & ->)|(pre & f & post & -> & Hf & Hv & ->)]].
        -- now left.
        -- right. right. exists [], arg, post. repeat split; assumption.
        -- right. right. exists (arg :: pre), f, post. repeat split; assumption.
      * intros [H|[(_ & post & E & Hv & _)|(pre & f & post & E & Hf & Hv & ->)]].
        -- now left.
        -- injection E as <- _. congruence.
        -- destruct pre as [|x pre]; cbn in E; injection E as <- ->.
           ++ right. left. split; [reflexivity|]. eauto.
           ++ right. right. exists pre, f, post. repeat split; assumption.
    + destruct found_flag.
      * rewrite IH. split.
        -- intros [H|[(Hff & _)|(pre & f & post & -> & Hf & Hv & ->)]].
           ++ apply in_app_or in H as [H|[H|[]]]; [now left|].
              injection H as <- <-. right. left. split; [reflexivity|].
              exists rest. repeat split. exact Ef.
           ++ discriminate Hff.
           ++ right. right. exists (arg :: pre), f, post. repeat split; assumption.
        -- intros [H|[(_ & post & E & Hv & ->)|(pre & f & post & E & Hf & Hv & ->)]].
           ++ left. apply in_or_app. now left.
           ++ injection E as <- _. left. apply in_or_app. right. now left.
           ++ destruct pre as [|x pre]; cbn in E; injection E as <- ->; [congruence|].
              right. right. exists pre, f, post. repeat split; assumption.
      * rewrite IH. split.
        -- intros [H|[(Hff & _)|(pre & f & post & -> & Hf & Hv & ->)]].
           ++ now left.
           ++ discriminate Hff.
           ++ right. right. exists (arg :: pre), f, post. repeat split; assumption.
        -- intros [H|[(Hff & _)|(pre & f & post & E & Hf & Hv & ->)]].
           ++ now left.
           ++ discriminate Hff.
           ++ destruct pre as [|x pre]; cbn in E; injection E as <- ->; [congruence|].
              right. right. exists pre, f, post. repeat split; assumption.
Qed.

Lemma ArgParse_loop_length argv : forall found_flag flag_to_match arguments,
  (2 * List.length (ArgParse_loop argv found_flag flag_to_match arguments)
   <= 2 * List.length arguments + List.length argv
      + (if found_flag then 1 else 0))%nat.
Proof.
  induction argv as [|arg rest IH]; intros found_flag flag_to_match arguments.
  - cbn [ArgParse_loop List.length]. lia.
  - cbn [ArgParse_loop List.length]. destruct (foundFlag arg).
    + specialize (IH true (COPY_FLAG_STRING arg) arguments). cbn [List.length] in IH.
      destruct found_flag; lia.
    + destruct found_flag.
      * specialize (IH false (COPY_FLAG_STRING EmptyString)
                      (arguments ++ [(COPY_FLAG_STRING flag_to_match, arg)])).
        rewrite length_app in IH. cbn [List.length] in IH. lia.
      * specialize (IH false flag_to_match arguments). cbn [List.length] in IH. lia.
Qed.

End Arguments.

(** X20.  The command-line parser.  [foundFlag] takes an argument for a
    flag exactly when it has at least two characters and starts with a
    dash: a dash alone is not a flag, and a negative number is one.  The
    constructor of [ArgParse] stores an entry exactly for each argument
    that is not a flag and comes right after a flag, under the first 32
    characters of that flag (dashes included): the value of a flag is the
    next argument only; a flag followed by another flag or by nothing, and
    a value that does not follow a flag, leave no entry.  There are at most
    half as many entries as arguments, and no key is longer than 32
    characters. *)
Theorem ArgParse_stores_each_flag_followed_by_a_value (argv : list string) :
  (forall arg,
     ArgParse.foundFlag arg = true <->
     exists c rest, arg = String "-"%char (String c rest))
  /\ (forall k v,
        In (k, v) (ArgParse.ArgParse argv) <->
        exists pre flag post,
          argv = pre ++ flag :: v :: post
          /\ ArgParse.foundFlag flag = true
          /\ ArgParse.foundFlag v = false
          /\ k = substring 0 32 flag)
  /\ (2 * List.length (ArgParse.ArgParse argv) <= List.length argv)%nat
  /\ (forall k v, In (k, v) (ArgParse.ArgParse argv) -> (String.length k <= 32)%nat).
Proof.
  assert (Hin : forall k v,
            In (k, v) (ArgParse.ArgParse argv) <->
            exists pre flag post,
              argv = pre ++ flag :: v :: post
              /\ ArgParse.foundFlag flag = true
              /\ ArgParse.foundFlag v = false
              /\ k = substring 0 32 flag).
  { intros k v. unfold ArgParse.ArgParse.
    destruct argv as [|a rest].
    - cbn. split; [contradiction|]. intros (pre & f & post & H & _).
      destruct pre; discriminate H.
    - cbn [List.length]. rewrite Nat2Z.inj_succ.
      destruct (Z.eqb_spec (Z.succ (Z.of_nat (List.length rest))) 0); [lia|].
      rewrite ArgParse_loop_In. split.
      + intros [[]|[(Hff & _)|(pre & f & post & E & Hf & Hv & ->)]];
          [discriminate Hff|].
        exists pre, f, post. repeat split; try assumption.
        unfold ArgParse.COPY_FLAG_STRING, ArgParse.strncpy, ArgParse.MAX_FLAG_LEN.
        apply substring_0_idem.
      + intros (pre & f & post & E & Hf & Hv & ->). right. right.
        exists pre, f, post. repeat split; try assumption.
        unfold ArgParse.COPY_FLAG_STRING, ArgParse.strncpy, ArgParse.MAX_FLAG_LEN.
        symmetry. apply substring_0_idem. }
  split; [exact foundFlag_spec|]. split; [exact Hin|]. split.
  - unfold ArgParse.ArgParse. destruct argv as [|a rest]; [cbn; lia|].
    cbn [List.length]. rewrite Nat2Z.inj_succ.
    destruct (Z.eqb_spec (Z.succ (Z.of_nat (List.length rest))) 0); [lia|].
    pose proof (ArgParse_loop_length (a :: rest) false
                  (ArgParse.COPY_FLAG_STRING EmptyString) []) as H.
    cbn [List.length] in H. lia.
  - intros k v H. apply Hin in H as (pre & f & post & _ & _ & _ & ->).
    apply substring_0_length.
Qed.

Lemma ArgParse_stores_each_flag_followed_by_a_value_witness :
  In ("--width"%string, "1280"%string)
     (ArgParse.ArgParse
        ["app"; "--verbose"; "--width"; "1280"; "720"; "-"; "x"]%string).
Proof.
  destruct (ArgParse_stores_each_flag_followed_by_a_value
              ["app"; "--verbose"; "--width"; "1280"; "720"; "-"; "x"]%string)
    as (_ & H & _).
  apply H. exists ["app"; "--verbose"]%string, "--width"%string,
             ["720"; "-"; "x"]%string.
  repeat split; reflexivity.
Defined.
